(** * ChiefOS ecosystem manager: risk aggregation, alerting and the report cycle

    A shallow embedding of the TypeScript sources under [src/ecosystem]
    (types.ts, utils.ts, usdgb-agent.ts, usdca-agent.ts,
    marketplace-agent.ts, governor-agent.ts, index.ts, notifications.ts,
    scheduled.ts), of the ecosystem block of the cron entry in
    [src/index.ts], and the properties stated about them.

    Conventions of the embedding.
    - A JavaScript [number] that holds a ratio, a price or a deviation is a
      binary64 value: Rocq's primitive [float].  Literals such as [1.05] are
      read by Rocq exactly as the JavaScript parser reads them (nearest
      binary64 value), and [<=?], [<?] are the IEEE comparisons of the source
      ([>=], [<=], [<], [>]).  A statement such as "r >= 1.05" is therefore
      about the binary64 value of the literal, as it is in the source.
    - A [number] that holds an integer (a timestamp, a chain or endpoint id,
      a counter) and every [bigint] is a [Z].
    - Union types of string literals are inductive types.
    - A blob in the object store is the JSON document its text denotes.
    - Effects (clock, object store, network, console, exceptions) are
      threaded explicitly by a state-and-exception monad; [async] calls are
      run to completion in program order. *)

From Stdlib Require Import ZArith Floats Lia Bool List DecimalString DecimalZ DecimalPos.
From stdpp Require Import gmap strings.
Import ListNotations.

#[local] Set Warnings "-inexact-float,-register-all".
#[local] Open Scope Z_scope.

(* ===================================================================== *)
(** * Part I: the embedding                                               *)
(* ===================================================================== *)

(** ** types.ts *)

(** [type RiskLevel = "GREEN" | "YELLOW" | "ORANGE" | "RED"] *)
Inductive RiskLevel : Type := GREEN | YELLOW | ORANGE | RED.

#[global] Instance RiskLevel_eq_dec : EqDecision RiskLevel.
Proof. solve_decision. Defined.

(** The order the specification puts on risk levels,
    GREEN < YELLOW < ORANGE < RED, written out as a table.  It is stated
    independently of the array [order] that [getWorstRisk] searches. *)
Definition risk_leb (a b : RiskLevel) : bool :=
  match a, b with
  | GREEN, _ => true
  | YELLOW, GREEN => false
  | YELLOW, _ => true
  | ORANGE, (GREEN | YELLOW) => false
  | ORANGE, _ => true
  | RED, RED => true
  | RED, _ => false
  end.

Definition risk_le (a b : RiskLevel) : Prop := risk_leb a b = true.

(** The larger of two levels, and the maximum of a sequence of levels
    (GREEN, the least level, for the empty sequence). *)
Definition risk_max (a b : RiskLevel) : RiskLevel :=
  if risk_leb a b then b else a.

Definition risk_maximum (levels : list RiskLevel) : RiskLevel :=
  fold_right risk_max GREEN levels.

(** [RiskStatus.categories] *)
Record Categories : Type := mkCategories {
  collateral : RiskLevel;
  peg : RiskLevel;
  liquidity : RiskLevel;
  crossChain : RiskLevel
}.

(** [Object.values(categories)]: property values in insertion order. *)
Definition Object_values (c : Categories) : list RiskLevel :=
  [collateral c; peg c; liquidity c; crossChain c].

(** A four-tier threshold table, as the agents declare them. *)
Record Thresholds : Type := mkThresholds {
  green : float;
  yellow : float;
  orange : float;
  red : float
}.

(** ** JavaScript built-ins used by the sources *)

(** [Array.prototype.indexOf]: the first position of [x], or -1. *)
Fixpoint indexOf {A} `{EqDecision A} (l : list A) (x : A) : Z :=
  match l with
  | [] => -1
  | y :: l' =>
      if decide (y = x) then 0
      else let i := indexOf l' x in if i <? 0 then -1 else i + 1
  end.

(** [Math.max(a, b)]: NaN if either argument is NaN, otherwise the larger
    one, with +0 larger than -0. *)
Definition Math_max (a b : float) : float :=
  if (is_nan a || is_nan b)%bool then nan
  else if (a <? b)%float then b
  else if (b <? a)%float then a
  else if get_sign a then b else a.

(** [Math.abs] *)
Definition Math_abs (x : float) : float := abs x.

(** [BigInt.prototype.toString()] and the interpolation of an
    integer-valued number in a template literal: decimal digits. *)
Definition Z_toString (z : Z) : string := NilZero.string_of_int (Z.to_int z).

(** The inverse reading, [BigInt(text)] on a decimal numeral. *)
Definition Z_ofString (s : string) : option Z :=
  option_map Z.of_int (NilZero.int_of_string s).

(** ** JavaScript values and JSON documents *)

(** The values that flow through the modelled code.  [VNum] is a number
    holding an integer, [VFloat] a number holding a ratio. *)
Inductive JsValue : Type :=
| VUndefined
| VNull
| VBool (b : bool)
| VNum (n : Z)
| VFloat (f : float)
| VBigInt (z : Z)
| VStr (s : string)
| VArr (items : list JsValue)
| VObj (props : list (string * JsValue)).

(** A JSON document.  A blob in the object store is represented by the
    document its JSON text denotes; JSON has no big integers and no
    [undefined]. *)
Inductive Json : Type :=
| JNull
| JBool (b : bool)
| JNum (n : Z)
| JFloat (f : float)
| JStr (s : string)
| JArr (items : list Json)
| JObj (props : list (string * Json)).

(** [JSON.parse] on the text of a document. *)
Fixpoint JSON_parse (j : Json) : JsValue :=
  match j with
  | JNull => VNull
  | JBool b => VBool b
  | JNum n => VNum n
  | JFloat f => VFloat f
  | JStr s => VStr s
  | JArr items => VArr (map JSON_parse items)
  | JObj props => VObj (map (fun kv => (fst kv, JSON_parse (snd kv))) props)
  end.

(** A number that JSON can carry: finite, and -0 is written as 0. *)
Definition is_finite_float (f : float) : bool :=
  negb (is_nan f || is_infinity f).

Definition json_of_float (f : float) : Json :=
  if is_finite_float f then JFloat (if is_zero f then 0%float else f)
  else JNull.

(** [JSON.stringify(value, replacer)] with the replacer of utils.ts,
    [(_key, value) => typeof value === 'bigint' ? value.toString() : value].
    The replacer is the identity on every value that is not a bigint, so
    it is applied in place, in the [VBigInt] case.  [None] is the
    [undefined] that [JSON.stringify] returns for [undefined]; inside an
    array [undefined] is written [null], inside an object the property is
    left out. *)
Fixpoint stringifyWithBigInt (value : JsValue) : option Json :=
  match value with
  | VUndefined => None
  | VNull => Some JNull
  | VBool b => Some (JBool b)
  | VNum n => Some (JNum n)
  | VFloat f => Some (json_of_float f)
  | VBigInt z => Some (JStr (Z_toString z))
  | VStr s => Some (JStr s)
  | VArr items =>
      Some (JArr (map (fun v => default JNull (stringifyWithBigInt v)) items))
  | VObj props =>
      Some (JObj (flat_map
                    (fun kv =>
                       match stringifyWithBigInt (snd kv) with
                       | Some j => [(fst kv, j)]
                       | None => []
                       end) props))
  end.

(** ** utils.ts *)

(** [serializeWithBigInt(data)] *)
Definition serializeWithBigInt (data : JsValue) : option Json :=
  stringifyWithBigInt data.

(** Property read [v.k] on a value already known not to be [null] or
    [undefined]: the last property of that name, [undefined] otherwise. *)
Definition js_get (v : JsValue) (k : string) : JsValue :=
  match v with
  | VObj props =>
      fold_left (fun acc kv => if String.eqb (fst kv) k then snd kv else acc)
                props VUndefined
  | _ => VUndefined
  end.

(** ToBoolean *)
Definition js_truthy (v : JsValue) : bool :=
  match v with
  | VUndefined | VNull => false
  | VBool b => b
  | VNum n => negb (n =? 0)
  | VFloat f => negb (is_zero f || is_nan f)
  | VBigInt z => negb (z =? 0)
  | VStr s => negb (String.eqb s "")
  | VArr _ | VObj _ => true
  end.

(** ** Exceptions and the host *)

(** A thrown [Error]: its name and its message. *)
Record JsError : Type := mkError {
  err_name : string;
  err_message : string
}.

(** [String(error)] *)
Definition String_of_error (e : JsError) : string :=
  err_name e +:+ ": " +:+ err_message e.

Definition TypeError (msg : string) : JsError := mkError "TypeError" msg.
Definition SyntaxError (msg : string) : JsError := mkError "SyntaxError" msg.

(** How a call ends: it returns a value or it throws. *)
Inductive Outcome (A : Type) : Type :=
| Returned (a : A)
| Thrown (e : JsError).
Arguments Returned {A} a.
Arguments Thrown {A} e.

(** A request handed to [fetch] and the response it resolves to. *)
Record Request : Type := mkRequest {
  req_url : string;
  req_method : string;
  req_headers : list (string * string);
  req_body : Json
}.

Record Response : Type := mkResponse {
  resp_ok : bool;
  resp_status : Z;
  resp_text : JsError + string;  (* how [response.text()] ends: the body, or
                                    the error it rejects with *)
  resp_json : JsError + Json     (* how [response.json()] ends: the document,
                                    or the error it rejects with (the body
                                    cannot be read, or is not JSON text) *)
}.

(** Everything outside the program that it reads during one run.  The
    metric getters of the token agents are stubs in the source
    ("TODO: implement price oracle query") that return the constants
    1.05, 1.00, 1.00 and 1.10; their readings are taken from the host so
    that properties can range over what an implemented getter may return.
    [sourceReadings] below sets the readings to the constants of the
    source, and a statement about the program as it runs today is made at
    [sourceReadings h]. *)
Record Host : Type := mkHost {
  clock : nat -> Z;                       (* the n-th reading of Date.now() *)
  r2Fault : nat -> option JsError;        (* does the n-th R2 call reject? *)
  fetchReply : nat -> JsError + Response; (* how the n-th fetch ends *)
  goldReserveRatio : float;
  usdgbPegPrice : float;
  usdcaPegPrice : float;
  deltaCollateralization : float;
  toFixed : float -> nat -> string;       (* Number.prototype.toFixed *)
  numberToString : float -> string;       (* Number::toString *)
  toISOString : Z -> string               (* Date.prototype.toISOString *)
}.

Inductive LogLevel : Type := LOG | WARN | ERROR.

(** Everything the program changes outside its own objects. *)
Record World : Type := mkWorld {
  ticks : nat;                   (* readings of the clock so far *)
  r2Ops : nat;                   (* R2 calls so far *)
  bucket : gmap string Json;     (* ECOSYSTEM_BUCKET *)
  requests : list Request;       (* fetches issued, oldest first *)
  console : list (LogLevel * string)   (* lines written, oldest first *)
}.

(** ** The monad of effectful code

    [M S A] is a computation over a state [S] that reads the host and
    ends by returning an [A] or by throwing.  [S] is [World] for free
    functions and [Obj * World] for the methods of a class with fields. *)
Definition M (S A : Type) : Type := Host -> S -> Outcome A * S.

Definition ret {S A} (a : A) : M S A := fun _ s => (Returned a, s).

Definition bind {S A B} (m : M S A) (k : A -> M S B) : M S B :=
  fun h s =>
    match m h s with
    | (Returned a, s') => k a h s'
    | (Thrown e, s') => (Thrown e, s')
    end.

Definition throw {S A} (e : JsError) : M S A := fun _ s => (Thrown e, s).

(** [try { body } catch (error) { handler }] *)
Definition try_catch {S A} (body : M S A) (handler : JsError -> M S A) : M S A :=
  fun h s =>
    match body h s with
    | (Returned a, s') => (Returned a, s')
    | (Thrown e, s') => handler e h s'
    end.

#[global] Instance M_ret {S} : MRet (M S) := fun A => @ret S A.
#[global] Instance M_bind {S} : MBind (M S) := fun A B k m => @bind S A B m k.

Definition ask {S} : M S Host := fun h s => (Returned h, s).
Definition modify {S} (f : S -> S) : M S unit := fun _ s => (Returned tt, f s).

(** Run a [World] computation inside a method: the object is untouched. *)
Definition liftW {O A} (m : M World A) : M (O * World) A :=
  fun h s =>
    match m h (snd s) with
    | (o, w') => (o, (fst s, w'))
    end.

(** Run the methods of a freshly constructed object and drop the object
    when the enclosing function ends. *)
Definition withNew {O A} (obj : O) (m : M (O * World) A) : M World A :=
  fun h w =>
    match m h (obj, w) with
    | (o, s') => (o, snd s')
    end.

(** Read and update a field of [this]. *)
Definition this {O} : M (O * World) O :=
  fun _ s => (Returned (fst s), s).
Definition set_this {O} (f : O -> O) : M (O * World) unit :=
  fun _ s => (Returned tt, (f (fst s), snd s)).

(** ** Host operations *)

Definition tick (w : World) : World :=
  mkWorld (S (ticks w)) (r2Ops w) (bucket w) (requests w) (console w).
Definition count_r2 (w : World) : World :=
  mkWorld (ticks w) (S (r2Ops w)) (bucket w) (requests w) (console w).
Definition store (key : string) (body : Json) (w : World) : World :=
  mkWorld (ticks w) (r2Ops w) (<[key := body]> (bucket w)) (requests w) (console w).
Definition record_request (r : Request) (w : World) : World :=
  mkWorld (ticks w) (r2Ops w) (bucket w) (requests w ++ [r]) (console w).
Definition write_line (lvl : LogLevel) (text : string) (w : World) : World :=
  mkWorld (ticks w) (r2Ops w) (bucket w) (requests w) (console w ++ [(lvl, text)]).

(** [Date.now()] *)
Definition Date_now : M World Z :=
  fun h w => (Returned (clock h (ticks w)), tick w).

(** [env.ECOSYSTEM_BUCKET.put(key, body)].  A body of [undefined] is not
    a value R2 accepts. *)
Definition R2_put (key : string) (body : option Json) : M World unit :=
  fun h w =>
    match body with
    | None => (Thrown (TypeError "R2 put: body is undefined"), w)
    | Some doc =>
        match r2Fault h (r2Ops w) with
        | Some e => (Thrown e, count_r2 w)
        | None => (Returned tt, store key doc (count_r2 w))
        end
    end.

(** [env.ECOSYSTEM_BUCKET.get(key)] followed by [object.text()]: the
    stored document, or [None] for the [null] of a missing key. *)
Definition R2_get (key : string) : M World (option Json) :=
  fun h w =>
    match r2Fault h (r2Ops w) with
    | Some e => (Thrown e, count_r2 w)
    | None => (Returned (bucket w !! key), count_r2 w)
    end.

(** [fetch(url, init)] *)
Definition fetch (r : Request) : M World Response :=
  fun h w =>
    match fetchReply h (length (requests w)) with
    | inl e => (Thrown e, record_request r w)
    | inr resp => (Returned resp, record_request r w)
    end.

Definition console_log (text : string) : M World unit :=
  modify (write_line LOG text).
Definition console_warn (text : string) : M World unit :=
  modify (write_line WARN text).
Definition console_error (text : string) : M World unit :=
  modify (write_line ERROR text).

(** ** types.ts, continued: the records *)

Inductive EcosystemToken : Type := USDGB | USDca | MARKETPLACE.

Definition EcosystemToken_name (t : EcosystemToken) : string :=
  match t with
  | USDGB => "USDGB"
  | USDca => "USDca"
  | MARKETPLACE => "MARKETPLACE"
  end.

Record ChainSupply : Type := mkChainSupply {
  chainId : Z;
  supply : Z;              (* bigint *)
  change24h : Z;           (* bigint *)
  changePercent : float
}.

Record SupplySnapshot : Type := mkSupplySnapshot {
  snap_timestamp : Z;
  snap_token : EcosystemToken;
  snap_chains : list ChainSupply;
  totalSupply : Z;         (* bigint *)
  totalChange24h : Z       (* bigint *)
}.

Inductive Severity : Type := LOW | MEDIUM | HIGH | CRITICAL | WARNING.

#[global] Instance Severity_eq_dec : EqDecision Severity.
Proof. solve_decision. Defined.

Definition Severity_name (s : Severity) : string :=
  match s with
  | LOW => "LOW"
  | MEDIUM => "MEDIUM"
  | HIGH => "HIGH"
  | CRITICAL => "CRITICAL"
  | WARNING => "WARNING"
  end.

Record Alert : Type := mkAlert {
  alert_id : string;
  alert_type : string;
  alert_severity : Severity;
  alert_message : string;
  alert_data : JsValue;
  alert_timestamp : Z;
  alert_acknowledged : bool
}.

Inductive MessageStatus : Type := PENDING | DELIVERED | FAILED.

Definition MessageStatus_name (s : MessageStatus) : string :=
  match s with
  | PENDING => "PENDING"
  | DELIVERED => "DELIVERED"
  | FAILED => "FAILED"
  end.

Record LayerZeroMessage : Type := mkLayerZeroMessage {
  guid : string;
  nonce : Z;               (* bigint *)
  srcEid : Z;
  srcAddress : string;
  dstEid : Z;
  dstAddress : string;
  payload : string;
  status : MessageStatus
}.

Inductive LaunchStatus : Type := LAUNCH_ACTIVE | LAUNCH_COMPLETED | LAUNCH_FAILED.

Record BondcurveLaunch : Type := mkBondcurveLaunch {
  tokenAddress : string;
  launch_name : string;
  symbol : string;
  currentSupply : Z;
  maxSupply : Z;
  currentPrice : Z;
  raised : Z;
  progressPercent : float;
  launch_status : LaunchStatus;
  createdAt : Z
}.

Record RiskStatus : Type := mkRiskStatus {
  overall : RiskLevel;
  categories : Categories;
  alerts : list Alert;
  lastUpdated : Z
}.

Inductive EmergencyStatus : Type := STANDBY | ACTIVE | PAUSED.

Definition EmergencyStatus_name (s : EmergencyStatus) : string :=
  match s with
  | STANDBY => "STANDBY"
  | ACTIVE => "ACTIVE"
  | PAUSED => "PAUSED"
  end.

Record USDGBAgentReport : Type := mkUSDGBAgentReport {
  usdgb_supply : SupplySnapshot;
  usdgb_goldReserveRatio : float;
  usdgb_pegPrice : float;
  usdgb_pegDeviation : float;
  usdgb_stakedTVL : Z;     (* bigint *)
  usdgb_stakingAPR : float;
  usdgb_alertCount : Z
}.

Record USDcaAgentReport : Type := mkUSDcaAgentReport {
  usdca_supply : SupplySnapshot;
  usdca_pegPrice : float;
  usdca_pegDeviation : float;
  usdca_deltaCollateralization : float;
  usdca_fundingRateAPY : float;
  usdca_stakingRewardsAPY : float;
  usdca_alertCount : Z
}.

Record MarketplaceAgentReport : Type := mkMarketplaceAgentReport {
  activeLaunchCount : Z;
  completedLaunches24h : Z;
  totalRaised24h : Z;      (* bigint *)
  feeCollected24h : Z      (* bigint *)
}.

Record GovernorAgentReport : Type := mkGovernorAgentReport {
  gov_riskStatus : RiskStatus;
  gov_crossChainMessagesVerified : Z;
  gov_emergencyStatus : EmergencyStatus
}.

Record ObserverAgentReport : Type := mkObserverAgentReport {
  skillsReviewed : Z;
  skillsHarvested : Z;
  exploitsDetected : Z;
  securityAlerts : Z;
  marketIntelUpdated : Z;
  marketIntelligence : JsValue;
  pendingPRs : Z
}.

Inductive Period : Type := P4h | P24h.

Definition Period_name (p : Period) : string :=
  match p with P4h => "4h" | P24h => "24h" end.

Record AgentReports : Type := mkAgentReports {
  rep_usdgb : USDGBAgentReport;
  rep_usdca : USDcaAgentReport;
  rep_marketplace : MarketplaceAgentReport;
  rep_governor : GovernorAgentReport;
  rep_observer : ObserverAgentReport
}.

Record OperationalReport : Type := mkOperationalReport {
  report_timestamp : Z;
  report_period : Period;
  report_agents : AgentReports;
  report_summary : string
}.

(** [EcosystemEnv]: the bindings the modelled code reads.  A binding that
    is not set is [None]. *)
Record EcosystemEnv : Type := mkEnv {
  ECOSYSTEM_ENABLED : option string;
  TELEGRAM_BOT_TOKEN : option string;
  TELEGRAM_CHAT_ID : option string;
  DISCORD_BOT_TOKEN : option string;
  DISCORD_CHANNEL_DAILY : option string;
  DISCORD_CHANNEL_OPS : option string
}.

(** ToBoolean of an optional string: set and not empty. *)
Definition is_set (o : option string) : bool :=
  match o with
  | Some s => negb (String.eqb s "")
  | None => false
  end.

(** ** The records as JavaScript objects

    The object a record stands for, with its properties in the order the
    source writes them; this is what [serializeWithBigInt] receives. *)

Definition ChainSupply_toJs (c : ChainSupply) : JsValue :=
  VObj [("chainId", VNum (chainId c));
        ("supply", VBigInt (supply c));
        ("change24h", VBigInt (change24h c));
        ("changePercent", VFloat (changePercent c))].

Definition SupplySnapshot_toJs (s : SupplySnapshot) : JsValue :=
  VObj [("timestamp", VNum (snap_timestamp s));
        ("token", VStr (EcosystemToken_name (snap_token s)));
        ("chains", VArr (map ChainSupply_toJs (snap_chains s)));
        ("totalSupply", VBigInt (totalSupply s));
        ("totalChange24h", VBigInt (totalChange24h s))].

Definition Alert_toJs (a : Alert) : JsValue :=
  VObj [("id", VStr (alert_id a));
        ("type", VStr (alert_type a));
        ("severity", VStr (Severity_name (alert_severity a)));
        ("message", VStr (alert_message a));
        ("data", alert_data a);
        ("timestamp", VNum (alert_timestamp a));
        ("acknowledged", VBool (alert_acknowledged a))].

Definition RiskLevel_name (r : RiskLevel) : string :=
  match r with
  | GREEN => "GREEN"
  | YELLOW => "YELLOW"
  | ORANGE => "ORANGE"
  | RED => "RED"
  end.

Definition Categories_toJs (c : Categories) : JsValue :=
  VObj [("collateral", VStr (RiskLevel_name (collateral c)));
        ("peg", VStr (RiskLevel_name (peg c)));
        ("liquidity", VStr (RiskLevel_name (liquidity c)));
        ("crossChain", VStr (RiskLevel_name (crossChain c)))].

Definition RiskStatus_toJs (r : RiskStatus) : JsValue :=
  VObj [("overall", VStr (RiskLevel_name (overall r)));
        ("categories", Categories_toJs (categories r));
        ("alerts", VArr (map Alert_toJs (alerts r)));
        ("lastUpdated", VNum (lastUpdated r))].

Definition USDGBAgentReport_toJs (r : USDGBAgentReport) : JsValue :=
  VObj [("supply", SupplySnapshot_toJs (usdgb_supply r));
        ("goldReserveRatio", VFloat (usdgb_goldReserveRatio r));
        ("pegPrice", VFloat (usdgb_pegPrice r));
        ("pegDeviation", VFloat (usdgb_pegDeviation r));
        ("stakedTVL", VBigInt (usdgb_stakedTVL r));
        ("stakingAPR", VFloat (usdgb_stakingAPR r));
        ("alertCount", VNum (usdgb_alertCount r))].

Definition USDcaAgentReport_toJs (r : USDcaAgentReport) : JsValue :=
  VObj [("supply", SupplySnapshot_toJs (usdca_supply r));
        ("pegPrice", VFloat (usdca_pegPrice r));
        ("pegDeviation", VFloat (usdca_pegDeviation r));
        ("deltaCollateralization", VFloat (usdca_deltaCollateralization r));
        ("fundingRateAPY", VFloat (usdca_fundingRateAPY r));
        ("stakingRewardsAPY", VFloat (usdca_stakingRewardsAPY r));
        ("alertCount", VNum (usdca_alertCount r))].

Definition MarketplaceAgentReport_toJs (r : MarketplaceAgentReport) : JsValue :=
  VObj [("activeLaunches", VNum (activeLaunchCount r));
        ("completedLaunches24h", VNum (completedLaunches24h r));
        ("totalRaised24h", VBigInt (totalRaised24h r));
        ("feeCollected24h", VBigInt (feeCollected24h r))].

Definition GovernorAgentReport_toJs (r : GovernorAgentReport) : JsValue :=
  VObj [("riskStatus", RiskStatus_toJs (gov_riskStatus r));
        ("crossChainMessagesVerified", VNum (gov_crossChainMessagesVerified r));
        ("emergencyStatus", VStr (EmergencyStatus_name (gov_emergencyStatus r)))].

Definition ObserverAgentReport_toJs (r : ObserverAgentReport) : JsValue :=
  VObj [("skillsReviewed", VNum (skillsReviewed r));
        ("skillsHarvested", VNum (skillsHarvested r));
        ("exploitsDetected", VNum (exploitsDetected r));
        ("securityAlerts", VNum (securityAlerts r));
        ("marketIntelUpdated", VNum (marketIntelUpdated r));
        ("marketIntelligence", marketIntelligence r);
        ("pendingPRs", VNum (pendingPRs r))].

Definition OperationalReport_toJs (r : OperationalReport) : JsValue :=
  VObj [("timestamp", VNum (report_timestamp r));
        ("period", VStr (Period_name (report_period r)));
        ("agents",
         VObj [("usdgb", USDGBAgentReport_toJs (rep_usdgb (report_agents r)));
               ("usdca", USDcaAgentReport_toJs (rep_usdca (report_agents r)));
               ("marketplace",
                MarketplaceAgentReport_toJs (rep_marketplace (report_agents r)));
               ("governor",
                GovernorAgentReport_toJs (rep_governor (report_agents r)));
               ("observer",
                ObserverAgentReport_toJs (rep_observer (report_agents r)))]);
        ("summary", VStr (report_summary r))].

(** [{ ...msg, verifiedAt }] *)
Definition LayerZeroMessage_toJs (m : LayerZeroMessage) (verifiedAt : Z) : JsValue :=
  VObj [("guid", VStr (guid m));
        ("nonce", VBigInt (nonce m));
        ("srcEid", VNum (srcEid m));
        ("srcAddress", VStr (srcAddress m));
        ("dstEid", VNum (dstEid m));
        ("dstAddress", VStr (dstAddress m));
        ("payload", VStr (payload m));
        ("status", VStr (MessageStatus_name (status m)));
        ("verifiedAt", VNum verifiedAt)].

(** ** usdgb-agent.ts *)

Module USDGBAgent.

(** The fields of an instance. *)
Record t : Type := mk { lastSnapshot : option SupplySnapshot }.

(** [new USDGBAgent(env)] *)
Definition new : t := mk None.

(** Peg thresholds for the gold-backed stablecoin. *)
Definition PEG_THRESHOLDS : Thresholds :=
  {| green := 0.005; yellow := 0.01; orange := 0.02; red := 0.05 |}.

(** Gold reserve thresholds. *)
Definition RESERVE_THRESHOLDS : Thresholds :=
  {| green := 1.05; yellow := 1.02; orange := 1.00; red := 0.98 |}.

(** [getChainSupply(chainId)] *)
Definition getChainSupply (chainId : Z) : M World ChainSupply :=
  mret (mkChainSupply chainId 0 0 0%float).

(** [getHistoricalSnapshot(timestamp)]: what [JSON.parse] gives for the
    stored text, or [null]. *)
Definition getHistoricalSnapshot (timestamp : Z) : M World JsValue :=
  try_catch
    (let key := "supply-snapshots/USDGB/" +:+ Z_toString timestamp +:+ ".json" in
     object ← R2_get key;
     match object with
     | None => mret VNull
     | Some text => mret (JSON_parse text)
     end)
    (fun _ => mret VNull).

(** [calculate24hChange(currentSupply)].  [currentSupply] is a bigint;
    [-] between a bigint and a value that is not a bigint throws. *)
Definition calculate24hChange (currentSupply : Z) : M World Z :=
  now ← Date_now;
  let dayAgo := now - 24 * 60 * 60 * 1000 in
  historicalSnapshot ← getHistoricalSnapshot dayAgo;
  if negb (js_truthy historicalSnapshot) then mret 0
  else
    match js_get historicalSnapshot "totalSupply" with
    | VBigInt previous => mret (currentSupply - previous)
    | _ => throw (TypeError "Cannot mix BigInt and other types, use explicit conversions")
    end.

(** [storeSnapshot(snapshot)] *)
Definition storeSnapshot (snapshot : SupplySnapshot) : M World unit :=
  let key := "supply-snapshots/USDGB/" +:+ Z_toString (snap_timestamp snapshot)
             +:+ ".json" in
  R2_put key (serializeWithBigInt (SupplySnapshot_toJs snapshot)).

(** [getSupplySnapshot()] *)
Definition getSupplySnapshot : M (t * World) SupplySnapshot :=
  baseSupply ← liftW (getChainSupply 8453);
  let chains := [baseSupply] in
  let totalSupply := fold_left (fun sum c => sum + supply c) chains 0 in
  totalChange24h ← liftW (calculate24hChange totalSupply);
  timestamp ← liftW Date_now;
  let snapshot := mkSupplySnapshot timestamp USDGB chains totalSupply totalChange24h in
  liftW (storeSnapshot snapshot);;
  set_this (fun _ => mk (Some snapshot));;
  mret snapshot.

(** [getGoldReserveRatio()]: the reading of the host; the source returns
    the constant 1.05. *)
Definition getGoldReserveRatio : M World float :=
  h ← ask; mret (goldReserveRatio h).

(** [getPegPrice()]: the reading of the host; the source returns the
    constant 1.00. *)
Definition getPegPrice : M World float :=
  h ← ask; mret (usdgbPegPrice h).

(** [getPegDeviation()] *)
Definition getPegDeviation : M World float :=
  currentPrice ← getPegPrice;
  mret (Math_abs (currentPrice - 1.00)%float).

(** [getStakedTVL()] *)
Definition getStakedTVL : M World Z := mret 0.

(** [getStakingAPR()] *)
Definition getStakingAPR : M World float := mret 0%float.

(** [checkAlerts()] *)
Definition checkAlerts : M World (list Alert) :=
  let alerts := [] in
  reserveRatio ← getGoldReserveRatio;
  h ← ask;
  alerts ←
    (if (reserveRatio <? red RESERVE_THRESHOLDS)%float then
       now_id ← Date_now;
       now_ts ← Date_now;
       mret (alerts ++
         [mkAlert ("USDGB-RESERVE-" +:+ Z_toString now_id)
                  "CRITICAL_RESERVE_RATIO"
                  CRITICAL
                  ("USDGB gold reserve ratio at "
                     +:+ toFixed h (reserveRatio * 100)%float 1
                     +:+ "% - BELOW 100%")
                  (VObj [("reserveRatio", VFloat reserveRatio)])
                  now_ts
                  false])
     else if (reserveRatio <? orange RESERVE_THRESHOLDS)%float then
       now_id ← Date_now;
       now_ts ← Date_now;
       mret (alerts ++
         [mkAlert ("USDGB-RESERVE-" +:+ Z_toString now_id)
                  "LOW_RESERVE_RATIO"
                  HIGH
                  ("USDGB gold reserve ratio at "
                     +:+ toFixed h (reserveRatio * 100)%float 1 +:+ "%")
                  (VObj [("reserveRatio", VFloat reserveRatio)])
                  now_ts
                  false])
     else mret alerts);
  pegDeviation ← getPegDeviation;
  alerts ←
    (if (red PEG_THRESHOLDS <? pegDeviation)%float then
       now_id ← Date_now;
       now_ts ← Date_now;
       mret (alerts ++
         [mkAlert ("USDGB-PEG-" +:+ Z_toString now_id)
                  "CRITICAL_PEG_DEVIATION"
                  CRITICAL
                  ("USDGB peg deviation at "
                     +:+ toFixed h (pegDeviation * 100)%float 2
                     +:+ "% - CRITICAL")
                  (VObj [("pegDeviation", VFloat pegDeviation)])
                  now_ts
                  false])
     else if (orange PEG_THRESHOLDS <? pegDeviation)%float then
       now_id ← Date_now;
       now_ts ← Date_now;
       mret (alerts ++
         [mkAlert ("USDGB-PEG-" +:+ Z_toString now_id)
                  "HIGH_PEG_DEVIATION"
                  HIGH
                  ("USDGB peg deviation at "
                     +:+ toFixed h (pegDeviation * 100)%float 2 +:+ "%")
                  (VObj [("pegDeviation", VFloat pegDeviation)])
                  now_ts
                  false])
     else mret alerts);
  mret alerts.

(** [generateReport()] *)
Definition generateReport : M (t * World) USDGBAgentReport :=
  supply ← getSupplySnapshot;
  goldReserveRatio ← liftW getGoldReserveRatio;
  pegPrice ← liftW getPegPrice;
  pegDeviation ← liftW getPegDeviation;
  stakedTVL ← liftW getStakedTVL;
  stakingAPR ← liftW getStakingAPR;
  alerts ← liftW checkAlerts;
  mret (mkUSDGBAgentReport supply goldReserveRatio pegPrice pegDeviation
          stakedTVL stakingAPR (Z.of_nat (length alerts))).

End USDGBAgent.

(** ** usdca-agent.ts *)

Module USDcaAgent.

Record t : Type := mk { lastSnapshot : option SupplySnapshot }.

(** [new USDcaAgent(env)] *)
Definition new : t := mk None.

(** Peg thresholds. *)
Definition PEG_THRESHOLDS : Thresholds :=
  {| green := 0.005; yellow := 0.01; orange := 0.02; red := 0.05 |}.

(** Delta-neutral collateralization thresholds. *)
Definition COLLATERAL_THRESHOLDS : Thresholds :=
  {| green := 1.10; yellow := 1.05; orange := 1.02; red := 1.00 |}.

(** [getChainSupply(chainId)] *)
Definition getChainSupply (chainId : Z) : M World ChainSupply :=
  mret (mkChainSupply chainId 0 0 0%float).

(** [getHistoricalSnapshot(timestamp)] *)
Definition getHistoricalSnapshot (timestamp : Z) : M World JsValue :=
  try_catch
    (let key := "supply-snapshots/USDca/" +:+ Z_toString timestamp +:+ ".json" in
     object ← R2_get key;
     match object with
     | None => mret VNull
     | Some text => mret (JSON_parse text)
     end)
    (fun _ => mret VNull).

(** [calculate24hChange(currentSupply)] *)
Definition calculate24hChange (currentSupply : Z) : M World Z :=
  now ← Date_now;
  let dayAgo := now - 24 * 60 * 60 * 1000 in
  historicalSnapshot ← getHistoricalSnapshot dayAgo;
  if negb (js_truthy historicalSnapshot) then mret 0
  else
    match js_get historicalSnapshot "totalSupply" with
    | VBigInt previous => mret (currentSupply - previous)
    | _ => throw (TypeError "Cannot mix BigInt and other types, use explicit conversions")
    end.

(** [storeSnapshot(snapshot)] *)
Definition storeSnapshot (snapshot : SupplySnapshot) : M World unit :=
  let key := "supply-snapshots/USDca/" +:+ Z_toString (snap_timestamp snapshot)
             +:+ ".json" in
  R2_put key (serializeWithBigInt (SupplySnapshot_toJs snapshot)).

(** [getSupplySnapshot()] *)
Definition getSupplySnapshot : M (t * World) SupplySnapshot :=
  baseSupply ← liftW (getChainSupply 8453);
  let chains := [baseSupply] in
  let totalSupply := fold_left (fun sum c => sum + supply c) chains 0 in
  totalChange24h ← liftW (calculate24hChange totalSupply);
  timestamp ← liftW Date_now;
  let snapshot := mkSupplySnapshot timestamp USDca chains totalSupply totalChange24h in
  liftW (storeSnapshot snapshot);;
  set_this (fun _ => mk (Some snapshot));;
  mret snapshot.

(** [getPegPrice()]: the reading of the host; the source returns the
    constant 1.00. *)
Definition getPegPrice : M World float :=
  h ← ask; mret (usdcaPegPrice h).

(** [getPegDeviation()] *)
Definition getPegDeviation : M World float :=
  currentPrice ← getPegPrice;
  mret (Math_abs (currentPrice - 1.00)%float).

(** [getDeltaCollateralization()]: the reading of the host; the source
    returns the constant 1.10. *)
Definition getDeltaCollateralization : M World float :=
  h ← ask; mret (deltaCollateralization h).

(** [getFundingRateAPY()] *)
Definition getFundingRateAPY : M World float := mret 0%float.

(** [getStakingRewardsAPY()] *)
Definition getStakingRewardsAPY : M World float := mret 0%float.

(** [checkAlerts()] *)
Definition checkAlerts : M World (list Alert) :=
  let alerts := [] in
  deviation ← getPegDeviation;
  collateralization ← getDeltaCollateralization;
  h ← ask;
  alerts ←
    (if (red PEG_THRESHOLDS <? deviation)%float then
       now_id ← Date_now;
       now_ts ← Date_now;
       mret (alerts ++
         [mkAlert ("USDca-PEG-" +:+ Z_toString now_id)
                  "CRITICAL_PEG_DEVIATION"
                  CRITICAL
                  ("USDca peg deviation at "
                     +:+ toFixed h (deviation * 100)%float 2
                     +:+ "% - CRITICAL")
                  (VObj [("deviation", VFloat deviation)])
                  now_ts
                  false])
     else if (orange PEG_THRESHOLDS <? deviation)%float then
       now_id ← Date_now;
       now_ts ← Date_now;
       mret (alerts ++
         [mkAlert ("USDca-PEG-" +:+ Z_toString now_id)
                  "HIGH_PEG_DEVIATION"
                  HIGH
                  ("USDca peg deviation at "
                     +:+ toFixed h (deviation * 100)%float 2 +:+ "%")
                  (VObj [("deviation", VFloat deviation)])
                  now_ts
                  false])
     else mret alerts);
  alerts ←
    (if (collateralization <? red COLLATERAL_THRESHOLDS)%float then
       now_id ← Date_now;
       now_ts ← Date_now;
       mret (alerts ++
         [mkAlert ("USDca-COLLAT-" +:+ Z_toString now_id)
                  "CRITICAL_UNDERCOLLATERALIZATION"
                  CRITICAL
                  ("USDca delta-neutral collateralization at "
                     +:+ toFixed h (collateralization * 100)%float 1
                     +:+ "% - CRITICAL")
                  (VObj [("collateralization", VFloat collateralization)])
                  now_ts
                  false])
     else mret alerts);
  mret alerts.

(** [generateReport()] *)
Definition generateReport : M (t * World) USDcaAgentReport :=
  supply ← getSupplySnapshot;
  pegPrice ← liftW getPegPrice;
  pegDeviation ← liftW getPegDeviation;
  deltaCollateralization ← liftW getDeltaCollateralization;
  fundingRateAPY ← liftW getFundingRateAPY;
  stakingRewardsAPY ← liftW getStakingRewardsAPY;
  alerts ← liftW checkAlerts;
  mret (mkUSDcaAgentReport supply pegPrice pegDeviation deltaCollateralization
          fundingRateAPY stakingRewardsAPY (Z.of_nat (length alerts))).

End USDcaAgent.

(** ** marketplace-agent.ts: [checkAlerts] *)

Module MarketplaceAgent.

(** The field [activeLaunches], a [Map] in insertion order. *)
Record t : Type := mk { activeLaunches : list (string * BondcurveLaunch) }.

(** [new MarketplaceAgent(env)] *)
Definition new : t := mk [].

(** The test of the loop body:
    [launch.progressPercent >= 90 && launch.status === "ACTIVE"]. *)
Definition nearCompletion (launch : BondcurveLaunch) : bool :=
  ((90 <=? progressPercent launch)%float
   && match launch_status launch with LAUNCH_ACTIVE => true | _ => false end)%bool.

(** The alert the loop body pushes. *)
Definition launchAlert (h : Host) (now_ts : Z) (launch : BondcurveLaunch) : Alert :=
  mkAlert ("MARKETPLACE-LAUNCH-" +:+ tokenAddress launch)
          "LAUNCH_NEAR_COMPLETION"
          LOW
          ("Launch " +:+ symbol launch +:+ " at "
             +:+ numberToString h (progressPercent launch)
             +:+ "% - near completion")
          (VObj [("tokenAddress", VStr (tokenAddress launch));
                 ("symbol", VStr (symbol launch))])
          now_ts
          false.

(** [checkAlerts()] *)
Definition checkAlerts (agent : t) : M World (list Alert) :=
  h ← ask;
  foldl
    (fun (acc : M World (list Alert)) entry =>
       alerts ← acc;
       let launch := snd entry in
       if nearCompletion launch
       then now_ts ← Date_now; mret (alerts ++ [launchAlert h now_ts launch])
       else mret alerts)
    (mret []) (activeLaunches agent).

End MarketplaceAgent.

(** ** governor-agent.ts *)

(** The record [prepareEmergencyPause] builds. *)
Record PauseTransaction : Type := mkPauseTransaction {
  txData : string;
  to : string;
  reason : string;
  preparedAt : Z;
  preparedBy : string;
  pause_status : string
}.

Definition PauseTransaction_toJs (p : PauseTransaction) : JsValue :=
  VObj [("txData", VStr (txData p));
        ("to", VStr (to p));
        ("reason", VStr (reason p));
        ("preparedAt", VNum (preparedAt p));
        ("preparedBy", VStr (preparedBy p));
        ("status", VStr (pause_status p))].

Module GovernorAgent.

(** The fields of an instance that the methods write.  The references
    to the token agents are not fields of the model: the methods the
    governor calls on the two stablecoin agents read the host only, and
    the marketplace agent is handed to [getRiskStatus] by its caller. *)
Record t : Type := mk {
  emergencyStatus : EmergencyStatus;
  messagesVerified : Z
}.

(** [new GovernorAgent(env, usdgbAgent, usdcaAgent, marketplaceAgent)] *)
Definition new : t := mk STANDBY 0.

(** Gold reserve thresholds (USDGB). *)
Definition RESERVE_THRESHOLDS : Thresholds :=
  {| green := 1.05; yellow := 1.02; orange := 1.00; red := 0.98 |}.

(** Peg deviation thresholds (both stablecoins). *)
Definition PEG_THRESHOLDS : Thresholds :=
  {| green := 0.005; yellow := 0.01; orange := 0.02; red := 0.05 |}.

(** [assessReserveRisk(ratio)] *)
Definition assessReserveRisk (ratio : float) : RiskLevel :=
  if (green RESERVE_THRESHOLDS <=? ratio)%float then GREEN
  else if (yellow RESERVE_THRESHOLDS <=? ratio)%float then YELLOW
  else if (orange RESERVE_THRESHOLDS <=? ratio)%float then ORANGE
  else RED.

(** [assessPegRisk(deviation)] *)
Definition assessPegRisk (deviation : float) : RiskLevel :=
  if (deviation <=? green PEG_THRESHOLDS)%float then GREEN
  else if (deviation <=? yellow PEG_THRESHOLDS)%float then YELLOW
  else if (deviation <=? orange PEG_THRESHOLDS)%float then ORANGE
  else RED.

(** The array [order] of [getWorstRisk]. *)
Definition order : list RiskLevel := [GREEN; YELLOW; ORANGE; RED].

(** The loop of [getWorstRisk]: [worstIndex] after visiting [levels]. *)
Definition worstIndexOf (levels : list RiskLevel) : Z :=
  fold_left
    (fun worstIndex level =>
       let index := indexOf order level in
       if worstIndex <? index then index else worstIndex)
    levels 0.

(** [getWorstRisk(levels)] returns [order[worstIndex]].  The index never
    leaves the array (lemma [worstIndexOf_range]), so the default of
    [nth] is never returned. *)
Definition getWorstRisk (levels : list RiskLevel) : RiskLevel :=
  nth (Z.to_nat (worstIndexOf levels)) order GREEN.

(** [getRiskStatus()] *)
Definition getRiskStatus (marketplaceAgent : MarketplaceAgent.t) : M World RiskStatus :=
  goldReserveRatio ← USDGBAgent.getGoldReserveRatio;
  deltaCollateralization ← USDcaAgent.getDeltaCollateralization;
  usdgbPegDeviation ← USDGBAgent.getPegDeviation;
  usdcaPegDeviation ← USDcaAgent.getPegDeviation;
  let collateralRisk := assessReserveRisk goldReserveRatio in
  let pegRisk := assessPegRisk (Math_max usdgbPegDeviation usdcaPegDeviation) in
  let liquidityRisk := GREEN in
  let crossChainRisk := GREEN in
  usdgbAlerts ← USDGBAgent.checkAlerts;
  usdcaAlerts ← USDcaAgent.checkAlerts;
  marketplaceAlerts ← MarketplaceAgent.checkAlerts marketplaceAgent;
  let allAlerts := usdgbAlerts ++ usdcaAlerts ++ marketplaceAlerts in
  let categories := mkCategories collateralRisk pegRisk liquidityRisk crossChainRisk in
  let overall := getWorstRisk (Object_values categories) in
  now ← Date_now;
  mret (mkRiskStatus overall categories allAlerts now).

(** The key [logMessage] writes to. *)
Definition messageKey (msg : LayerZeroMessage) : string :=
  "crosschain/" +:+ Z_toString (srcEid msg) +:+ "-" +:+ Z_toString (dstEid msg)
    +:+ "/" +:+ guid msg +:+ ".json".

(** [logMessage(msg)] *)
Definition logMessage (msg : LayerZeroMessage) : M World unit :=
  let key := messageKey msg in
  verifiedAt ← Date_now;
  R2_put key (serializeWithBigInt (LayerZeroMessage_toJs msg verifiedAt)).

(** [verifyMessage(msg)] *)
Definition verifyMessage (msg : LayerZeroMessage) : M (t * World) bool :=
  if (negb (js_truthy (VStr (guid msg)))
      || negb (js_truthy (VNum (srcEid msg)))
      || negb (js_truthy (VNum (dstEid msg))))%bool
  then mret false
  else
    set_this (fun g => mk (emergencyStatus g) (messagesVerified g + 1));;
    liftW (logMessage msg);;
    mret true.

(** The key [prepareEmergencyPause] writes to. *)
Definition pauseKey (now : Z) : string :=
  "emergency/pending/" +:+ Z_toString now +:+ ".json".

(** [prepareEmergencyPause(contractAddress, reason)] *)
Definition prepareEmergencyPause (contractAddress reason : string)
  : M (t * World) PauseTransaction :=
  let pauseSelector := "0x8456cb59" in
  preparedAt ← liftW Date_now;
  let pauseTx :=
    mkPauseTransaction pauseSelector contractAddress reason preparedAt
      "governor-agent" "AWAITING_MULTISIG" in
  now ← liftW Date_now;
  liftW (R2_put (pauseKey now)
                (serializeWithBigInt (PauseTransaction_toJs pauseTx)));;
  set_this (fun g => mk ACTIVE (messagesVerified g));;
  mret pauseTx.

(** [generateReport()] *)
Definition generateReport (marketplaceAgent : MarketplaceAgent.t)
  : M (t * World) GovernorAgentReport :=
  riskStatus ← liftW (getRiskStatus marketplaceAgent);
  g ← this;
  mret (mkGovernorAgentReport riskStatus (messagesVerified g) (emergencyStatus g)).

End GovernorAgent.

(** The public methods of a [GovernorAgent], as calls on one instance,
    and the state a sequence of calls leaves behind (a call that throws
    leaves what it had written so far). *)
Inductive GovernorCall : Type :=
| CallGetRiskStatus (marketplaceAgent : MarketplaceAgent.t)
| CallVerifyMessage (msg : LayerZeroMessage)
| CallPrepareEmergencyPause (contractAddress reason : string)
| CallGenerateReport (marketplaceAgent : MarketplaceAgent.t).

Definition performCall (h : Host) (s : GovernorAgent.t * World) (c : GovernorCall)
  : GovernorAgent.t * World :=
  match c with
  | CallGetRiskStatus m => snd (liftW (GovernorAgent.getRiskStatus m) h s)
  | CallVerifyMessage msg => snd (GovernorAgent.verifyMessage msg h s)
  | CallPrepareEmergencyPause a r => snd (GovernorAgent.prepareEmergencyPause a r h s)
  | CallGenerateReport m => snd (GovernorAgent.generateReport m h s)
  end.

Definition performCalls (h : Host) (s : GovernorAgent.t * World)
    (calls : list GovernorCall) : GovernorAgent.t * World :=
  fold_left (performCall h) calls s.

(** ** index.ts *)

(** [Array.prototype.includes] *)
Definition Array_includes {A} `{EqDecision A} (l : list A) (x : A) : bool :=
  existsb (fun y => bool_decide (y = x)) l.

Module GovernorAgentWrapper.

Record t : Type := mk {
  emergencyStatus : EmergencyStatus;
  messagesVerified : Z
}.

(** [new GovernorAgentWrapper(env, usdgbAgent, usdcaAgent, marketplaceAgent)] *)
Definition new : t := mk STANDBY 0.

(** [generateReport()] *)
Definition generateReport (agent : t) (marketplaceAgent : MarketplaceAgent.t)
  : M World GovernorAgentReport :=
  usdgbAlerts ← USDGBAgent.checkAlerts;
  usdcaAlerts ← USDcaAgent.checkAlerts;
  marketplaceAlerts ← MarketplaceAgent.checkAlerts marketplaceAgent;
  let allAlerts := usdgbAlerts ++ usdcaAlerts ++ marketplaceAlerts in
  usdgbReserve ← USDGBAgent.getGoldReserveRatio;
  usdcaPeg ← USDcaAgent.getPegDeviation;
  let collateralRisk :=
    if (1.05 <=? usdgbReserve)%float then GREEN
    else if (1.02 <=? usdgbReserve)%float then YELLOW
    else if (1.0 <=? usdgbReserve)%float then ORANGE
    else RED in
  let pegRisk :=
    if (usdcaPeg <=? 0.005)%float then GREEN
    else if (usdcaPeg <=? 0.01)%float then YELLOW
    else if (usdcaPeg <=? 0.02)%float then ORANGE
    else RED in
  let riskLevels := [collateralRisk; pegRisk] in
  let overall :=
    if Array_includes riskLevels RED then RED
    else if Array_includes riskLevels ORANGE then ORANGE
    else if Array_includes riskLevels YELLOW then YELLOW
    else GREEN in
  now ← Date_now;
  mret (mkGovernorAgentReport
          (mkRiskStatus overall
             (mkCategories collateralRisk pegRisk GREEN GREEN)
             allAlerts now)
          (messagesVerified agent)
          (emergencyStatus agent)).

(** [checkAlerts()] *)
Definition checkAlerts : M World (list Alert) := mret [].

End GovernorAgentWrapper.

(** Structural validity of a cross-chain message as the specification
    words it: a non-empty id and valid (non-zero) source and destination
    endpoint identifiers. *)
Definition structurallyValid (msg : LayerZeroMessage) : Prop :=
  guid msg <> "" /\ srcEid msg <> 0 /\ dstEid msg <> 0.

(** The agents whose reports enter the cycle only as steps that return a
    report or throw: [MarketplaceAgent.generateReport] and
    [ObserverAgent.generateReport].  They are kept abstract, so every
    property of the cycle holds for every behaviour of theirs. *)
Record Collaborators : Type := mkCollaborators {
  marketplace_generateReport : MarketplaceAgent.t -> M World MarketplaceAgentReport;
  observer_generateReport : M World ObserverAgentReport
}.

(** Run a method of a field of [this]. *)
Definition zoom {O P A} (get : O -> P) (set : P -> O -> O) (m : M (P * World) A)
  : M (O * World) A :=
  fun h s =>
    match m h (get (fst s), snd s) with
    | (o, (p', w')) => (o, (set p' (fst s), w'))
    end.

Module EcosystemManager.

Record t : Type := mk {
  usdgbAgent : USDGBAgent.t;
  usdcaAgent : USDcaAgent.t;
  marketplaceAgent : MarketplaceAgent.t;
  governorAgent : GovernorAgentWrapper.t
}.

(** [new EcosystemManager(env)].  Constructing the observer agent reads
    the clock once (the field initialiser of its rate limiter). *)
Definition fresh : t :=
  mk USDGBAgent.new USDcaAgent.new MarketplaceAgent.new GovernorAgentWrapper.new.

Definition new : M World t :=
  Date_now;;
  mret fresh.

(** [generateSummary(usdgb, usdca, marketplace, governor)] *)
Definition generateSummary (h : Host) (usdgb : USDGBAgentReport)
    (usdca : USDcaAgentReport) (marketplace : MarketplaceAgentReport)
    (governor : GovernorAgentReport) : string :=
  let riskEmoji (r : RiskLevel) :=
    match r with
    | GREEN => "🟢" | YELLOW => "🟡" | ORANGE => "🟠" | RED => "🔴"
    end in
  let risk := overall (gov_riskStatus governor) in
  riskEmoji risk +:+ " Risk Status: " +:+ RiskLevel_name risk +:+ "

USDGB (Gold-backed): $" +:+ toFixed h (usdgb_pegPrice usdgb) 4
    +:+ " | Reserve " +:+ toFixed h (usdgb_goldReserveRatio usdgb * 100)%float 1 +:+ "%
USDca (Synthetic): $" +:+ toFixed h (usdca_pegPrice usdca) 4
    +:+ " | Delta " +:+ toFixed h (usdca_deltaCollateralization usdca * 100)%float 1 +:+ "%
Marketplace: " +:+ Z_toString (activeLaunchCount marketplace) +:+ " active launches

Alerts: " +:+ Z_toString (Z.of_nat (length (alerts (gov_riskStatus governor)))) +:+ "
Cross-chain msgs verified: " +:+ Z_toString (gov_crossChainMessagesVerified governor) +:+ "
Emergency status: " +:+ EmergencyStatus_name (gov_emergencyStatus governor).

(** [storeReport(report)] *)
Definition storeReport (report : OperationalReport) : M World unit :=
  let key := "reports/" +:+ Period_name (report_period report) +:+ "/"
             +:+ Z_toString (report_timestamp report) +:+ ".json" in
  R2_put key (serializeWithBigInt (OperationalReport_toJs report)).

(** [generate4HourReport()].  The five calls under [Promise.all] are
    run one after the other, in the order of the array. *)
Definition generate4HourReport (c : Collaborators) : M (t * World) OperationalReport :=
  usdgb ← zoom usdgbAgent
             (fun a m => mk a (usdcaAgent m) (marketplaceAgent m) (governorAgent m))
             USDGBAgent.generateReport;
  usdca ← zoom usdcaAgent
             (fun a m => mk (usdgbAgent m) a (marketplaceAgent m) (governorAgent m))
             USDcaAgent.generateReport;
  m ← this;
  marketplace ← liftW (marketplace_generateReport c (marketplaceAgent m));
  governor ← liftW (GovernorAgentWrapper.generateReport
                      (governorAgent m) (marketplaceAgent m));
  observer ← liftW (observer_generateReport c);
  h ← ask;
  timestamp ← liftW Date_now;
  let report :=
    mkOperationalReport timestamp P4h
      (mkAgentReports usdgb usdca marketplace governor observer)
      (generateSummary h usdgb usdca marketplace governor) in
  liftW (storeReport report);;
  mret report.

End EcosystemManager.

(** ** notifications.ts *)

(** [{ success, error? }] *)
Record SendResult : Type := mkSendResult {
  success : bool;
  error : JsValue        (* [VUndefined] when the property is absent *)
}.

(** Template interpolation of a value (ToString). *)
Fixpoint js_toString (h : Host) (v : JsValue) : string :=
  match v with
  | VUndefined => "undefined"
  | VNull => "null"
  | VBool b => if b then "true" else "false"
  | VNum n => Z_toString n
  | VFloat f => numberToString h f
  | VBigInt z => Z_toString z
  | VStr s => s
  | VArr items =>
      String.concat ","
        (map (fun item =>
                match item with
                | VUndefined | VNull => ""
                | _ => js_toString h item
                end) items)
  | VObj _ => "[object Object]"
  end.

(** Property read [v.k]; reading a property of [null] or [undefined]
    throws. *)
Definition js_member {S} (v : JsValue) (k : string) : M S JsValue :=
  match v with
  | VUndefined | VNull =>
      throw (TypeError ("Cannot read properties of " +:+
                        (match v with VNull => "null" | _ => "undefined" end)
                        +:+ " (reading '" +:+ k +:+ "')"))
  | _ => mret (js_get v k)
  end.

(** [response.json()] *)
Definition Response_json (r : Response) : M World JsValue :=
  match resp_json r with
  | inr doc => mret (JSON_parse doc)
  | inl e => throw e
  end.

(** [response.text()] *)
Definition Response_text (r : Response) : M World string :=
  match resp_text r with
  | inr body => mret body
  | inl e => throw e
  end.

(** The request [sendTelegramMessage] hands to [fetch]. *)
Definition telegramRequest (token chat_id text : string) : Request :=
  mkRequest ("https://api.telegram.org/bot" +:+ token +:+ "/sendMessage")
    "POST"
    [("Content-Type", "application/json")]
    (JObj [("chat_id", JStr chat_id);
           ("text", JStr text);
           ("parse_mode", JStr "Markdown")]).

(** The request [sendDiscordMessage] hands to [fetch]. *)
Definition discordRequest (token channelId text : string) : Request :=
  mkRequest ("https://discord.com/api/v10/channels/" +:+ channelId +:+ "/messages")
    "POST"
    [("Authorization", "Bot " +:+ token);
     ("Content-Type", "application/json")]
    (JObj [("content", JStr text)]).

(** [sendTelegramMessage(env, text, chatId?)] *)
Definition sendTelegramMessage (env : EcosystemEnv) (text : string)
    (chatId : option string) : M World SendResult :=
  if negb (is_set (TELEGRAM_BOT_TOKEN env)) then
    mret (mkSendResult false (VStr "TELEGRAM_BOT_TOKEN not set"))
  else
    let targetChatId := if is_set chatId then chatId else TELEGRAM_CHAT_ID env in
    if negb (is_set targetChatId) then
      console_warn "[Telegram] No chat ID provided and no default TELEGRAM_CHAT_ID set";;
      mret (mkSendResult false (VStr "No Chat ID available"))
    else
      try_catch
        (h ← ask;
         response ← fetch (telegramRequest (default "" (TELEGRAM_BOT_TOKEN env))
                                           (default "" targetChatId) text);
         data ← Response_json response;
         ok ← js_member data "ok";
         if negb (js_truthy ok) then
           description ← js_member data "description";
           console_error ("[Telegram] API Error: " +:+ js_toString h description);;
           mret (mkSendResult false description)
         else mret (mkSendResult true VUndefined))
        (fun error =>
           console_error ("[Telegram] Network Error: " +:+ String_of_error error);;
           mret (mkSendResult false (VStr (String_of_error error)))).

(** [sendDiscordMessage(env, text, channelId?)] *)
Definition sendDiscordMessage (env : EcosystemEnv) (text : string)
    (channelId : option string) : M World SendResult :=
  if negb (is_set (DISCORD_BOT_TOKEN env)) then
    mret (mkSendResult false (VStr "DISCORD_BOT_TOKEN not set"))
  else if negb (is_set channelId) then
    mret (mkSendResult false (VStr "No Channel ID provided"))
  else
    try_catch
      (response ← fetch (discordRequest (default "" (DISCORD_BOT_TOKEN env))
                                        (default "" channelId) text);
       if negb (resp_ok response) then
         errorText ← Response_text response;
         console_error ("[Discord] API Error (" +:+ Z_toString (resp_status response)
                        +:+ "): " +:+ errorText);;
         mret (mkSendResult false
                 (VStr ("HTTP " +:+ Z_toString (resp_status response) +:+ ": "
                        +:+ errorText)))
       else mret (mkSendResult true VUndefined))
      (fun error =>
         console_error ("[Discord] Network Error: " +:+ String_of_error error);;
         mret (mkSendResult false (VStr (String_of_error error)))).

(** ** scheduled.ts *)

(** [formatReportSummary(report)] *)
Definition formatReportSummary (h : Host) (report : OperationalReport) : string :=
  let riskEmoji (r : RiskLevel) :=
    match r with
    | GREEN => "🟢" | YELLOW => "🟡" | ORANGE => "🟠" | RED => "🔴"
    end in
  let risk := gov_riskStatus (rep_governor (report_agents report)) in
  let usdgb := rep_usdgb (report_agents report) in
  let usdca := rep_usdca (report_agents report) in
  let marketplace := rep_marketplace (report_agents report) in
  "━━━━━━━━━━━━━━━━━━━━━━━━━━━━━━━━━━
" +:+ riskEmoji (overall risk) +:+ " ECOSYSTEM STATUS: " +:+ RiskLevel_name (overall risk) +:+ "
━━━━━━━━━━━━━━━━━━━━━━━━━━━━━━━━━━

📊 Stablecoin Metrics
├─ USDGB (Gold-backed): $" +:+ toFixed h (usdgb_pegPrice usdgb) 4
    +:+ " | Reserve " +:+ toFixed h (usdgb_goldReserveRatio usdgb * 100)%float 1 +:+ "%
├─ USDca (Synthetic): $" +:+ toFixed h (usdca_pegPrice usdca) 4
    +:+ " | Delta " +:+ toFixed h (usdca_deltaCollateralization usdca * 100)%float 1 +:+ "%
└─ Marketplace: " +:+ Z_toString (activeLaunchCount marketplace) +:+ " active launches

🔐 Security
├─ Cross-chain msgs verified: "
    +:+ Z_toString (gov_crossChainMessagesVerified (rep_governor (report_agents report))) +:+ "
├─ Emergency status: "
    +:+ EmergencyStatus_name (gov_emergencyStatus (rep_governor (report_agents report))) +:+ "
└─ Alerts: " +:+ Z_toString (Z.of_nat (length (alerts risk))) +:+ "

🧠 Intelligence
├─ Skills harvested: " +:+ Z_toString (skillsHarvested (rep_observer (report_agents report))) +:+ "
└─ Security alerts: " +:+ Z_toString (securityAlerts (rep_observer (report_agents report))) +:+ "

📅 Generated: " +:+ toISOString h (report_timestamp report) +:+ "
━━━━━━━━━━━━━━━━━━━━━━━━━━━━━━━━━━".

(** [mobileFriendlySummary(report)] *)
Definition mobileFriendlySummary (report : OperationalReport) : string :=
  let risk := gov_riskStatus (rep_governor (report_agents report)) in
  RiskLevel_name (overall risk) +:+ " RISK | Alerts: "
    +:+ Z_toString (Z.of_nat (length (alerts risk))).

(** The filter of [handleScheduled]:
    [a.severity === "CRITICAL" || a.severity === "HIGH"]. *)
Definition isHighPriority (a : Alert) : bool :=
  (bool_decide (alert_severity a = CRITICAL)
   || bool_decide (alert_severity a = HIGH))%bool.

(** The key and the body of the error record the [catch] block writes;
    the body is what [JSON.stringify] gives for
    [{ timestamp, error: String(error), task: "scheduled-report" }]. *)
Definition errorKey (now : Z) : string :=
  "errors/" +:+ Z_toString now +:+ ".json".

Definition errorRecord (now : Z) (error : JsError) : Json :=
  JObj [("timestamp", JNum now);
        ("error", JStr (String_of_error error));
        ("task", JStr "scheduled-report")].

(** The body of the [try] block of [handleScheduled]. *)
Definition reportCycle (c : Collaborators) (env : EcosystemEnv)
    (manager : EcosystemManager.t) : M World unit :=
  report ← withNew manager (EcosystemManager.generate4HourReport c);
  let risk := gov_riskStatus (rep_governor (report_agents report)) in
  console_log ("Report generated: Risk=" +:+ RiskLevel_name (overall risk));;
  console_log ("Alerts: " +:+ Z_toString (Z.of_nat (length (alerts risk))));;
  let criticalAlerts := List.filter isHighPriority (alerts risk) in
  (if (0 <? Z.of_nat (length criticalAlerts)) then
     console_log ("CRITICAL: " +:+ Z_toString (Z.of_nat (length criticalAlerts))
                  +:+ " high-priority alerts")
   else mret tt);;
  R2_put "reports/latest.json" (serializeWithBigInt (OperationalReport_toJs report));;
  h ← ask;
  let summary := formatReportSummary h report in
  (if is_set (DISCORD_CHANNEL_OPS env) then
     sendDiscordMessage env summary (DISCORD_CHANNEL_OPS env);; mret tt
   else mret tt);;
  (if (0 <? Z.of_nat (length criticalAlerts)) then
     let alertMsg := "🚨 **CRITICAL ALERTS DETECTED**
" +:+ mobileFriendlySummary report in
     sendTelegramMessage env alertMsg None;; mret tt
   else mret tt).

(** The text the [catch] block sends to the operations channel. *)
Definition crashMessage (error : JsError) : string :=
  "🚨 **CRITICAL ERROR** in Scheduled Task:
```" +:+ String_of_error error +:+ "```".

(** The [catch] block of [handleScheduled]. *)
Definition reportFailure (env : EcosystemEnv) (error : JsError) : M World unit :=
  console_error ("Scheduled task failed: " +:+ String_of_error error);;
  (if is_set (DISCORD_CHANNEL_OPS env) then
     sendDiscordMessage env (crashMessage error) (DISCORD_CHANNEL_OPS env);; mret tt
   else mret tt);;
  key_now ← Date_now;
  body_now ← Date_now;
  R2_put (errorKey key_now) (Some (errorRecord body_now error)).

(** [handleScheduled(controller, env, ctx)] *)
Definition handleScheduled (c : Collaborators) (env : EcosystemEnv) : M World unit :=
  h ← ask;
  now ← Date_now;
  console_log ("[" +:+ toISOString h now +:+ "] Ecosystem scheduled task triggered");;
  if negb (bool_decide (ECOSYSTEM_ENABLED env = Some "true")) then
    console_log "Ecosystem manager disabled, skipping"
  else
    manager ← EcosystemManager.new;
    try_catch (reportCycle c env manager) (reportFailure env).

(** The requests one report cycle issues once its report is stored: the
    summary to the operations channel when Discord is configured, and the
    escalation to Telegram when there are high-priority alerts and
    Telegram is configured. *)
Definition cycleRequests (env : EcosystemEnv) (h : Host) (report : OperationalReport)
  : list Request :=
  (if (is_set (DISCORD_CHANNEL_OPS env) && is_set (DISCORD_BOT_TOKEN env))%bool
   then [discordRequest (default "" (DISCORD_BOT_TOKEN env))
                        (default "" (DISCORD_CHANNEL_OPS env))
                        (formatReportSummary h report)]
   else [])
  ++
  (if ((0 <? Z.of_nat (length (List.filter isHighPriority
                                 (alerts (gov_riskStatus
                                            (rep_governor (report_agents report)))))))
       && is_set (TELEGRAM_BOT_TOKEN env) && is_set (TELEGRAM_CHAT_ID env))%bool
   then [telegramRequest (default "" (TELEGRAM_BOT_TOKEN env))
                         (default "" (TELEGRAM_CHAT_ID env))
                         ("🚨 **CRITICAL ALERTS DETECTED**
" +:+ mobileFriendlySummary report)]
   else []).

(** The world in which the [try] block of [handleScheduled] starts: the
    first line is logged and the manager is constructed. *)
Definition cycleStart (h : Host) (w : World) : World :=
  tick (write_line LOG
          ("[" +:+ toISOString h (clock h (ticks w))
           +:+ "] Ecosystem scheduled task triggered")
          (tick w)).

(** ** src/index.ts: the ecosystem block of the cron entry [scheduled] *)

(** The first block of [scheduled(event, env, ctx)]: the call of
    [handleScheduled] is itself wrapped in [try]/[catch]. *)
Definition scheduled_ecosystem (c : Collaborators) (env : EcosystemEnv) : M World unit :=
  if bool_decide (ECOSYSTEM_ENABLED env = Some "true") then
    console_log "[cron] Running Ecosystem Manager 4-hour report...";;
    try_catch
      (handleScheduled c env;;
       console_log "[cron] Ecosystem report generated successfully")
      (fun err =>
         console_error ("[cron] Ecosystem report failed: " +:+ String_of_error err))
  else mret tt.

(** ** Hosts and worlds used in examples *)

(** The readings the metric stubs of the source return today, a clock
    that advances one millisecond per reading, a store and a network
    that never fail, and number formatting reduced to a placeholder. *)
Definition stubHost : Host :=
  {| clock := fun n => 1700000000000 + Z.of_nat n;
     r2Fault := fun _ => None;
     fetchReply := fun _ => inr (mkResponse true 200 (inr "")
                                   (inr (JObj [("ok", JBool true)])));
     goldReserveRatio := 1.05;
     usdgbPegPrice := 1.00;
     usdcaPegPrice := 1.00;
     deltaCollateralization := 1.10;
     toFixed := fun _ _ => "#";
     numberToString := fun _ => "#";
     toISOString := fun t => Z_toString t |}.

(** The same host with other metric readings. *)
Definition withMetrics (h : Host) (reserve usdgbPrice usdcaPrice delta : float) : Host :=
  {| clock := clock h; r2Fault := r2Fault h; fetchReply := fetchReply h;
     goldReserveRatio := reserve;
     usdgbPegPrice := usdgbPrice;
     usdcaPegPrice := usdcaPrice;
     deltaCollateralization := delta;
     toFixed := toFixed h; numberToString := numberToString h;
     toISOString := toISOString h |}.


(** The same host with an object store whose every call is rejected. *)
Definition withStoreDown (h : Host) : Host :=
  {| clock := clock h;
     r2Fault := fun _ => Some (mkError "Error" "R2 unavailable");
     fetchReply := fetchReply h;
     goldReserveRatio := goldReserveRatio h;
     usdgbPegPrice := usdgbPegPrice h;
     usdcaPegPrice := usdcaPegPrice h;
     deltaCollateralization := deltaCollateralization h;
     toFixed := toFixed h; numberToString := numberToString h;
     toISOString := toISOString h |}.

(** The same host with an object store that rejects its first [k] calls
    and accepts the later ones. *)
Definition withStoreDownFor (k : nat) (h : Host) : Host :=
  {| clock := clock h;
     r2Fault := fun n => if (n <? k)%nat
                         then Some (mkError "Error" "R2 unavailable")
                         else None;
     fetchReply := fetchReply h;
     goldReserveRatio := goldReserveRatio h;
     usdgbPegPrice := usdgbPegPrice h;
     usdcaPegPrice := usdcaPegPrice h;
     deltaCollateralization := deltaCollateralization h;
     toFixed := toFixed h; numberToString := numberToString h;
     toISOString := toISOString h |}.

(** The same host with a network whose every reply has the status 502 and
    a body that cannot be read: [text()] and [json()] reject. *)
Definition unreadableReplyHost : Host :=
  {| clock := clock stubHost;
     r2Fault := r2Fault stubHost;
     fetchReply := fun _ => inr (mkResponse false 502
                                   (inl (TypeError "Body is unusable"))
                                   (inl (TypeError "Body is unusable")));
     goldReserveRatio := goldReserveRatio stubHost;
     usdgbPegPrice := usdgbPegPrice stubHost;
     usdcaPegPrice := usdcaPegPrice stubHost;
     deltaCollateralization := deltaCollateralization stubHost;
     toFixed := toFixed stubHost; numberToString := numberToString stubHost;
     toISOString := toISOString stubHost |}.

(** An environment with monitoring enabled and the given notification
    bindings. *)
Definition enabledEnv (telegramToken telegramChat discordToken discordOps : option string)
  : EcosystemEnv :=
  mkEnv (Some "true") telegramToken telegramChat discordToken None discordOps.

(** A well-formed cross-chain message. *)
Definition sampleMessage : LayerZeroMessage :=
  mkLayerZeroMessage "0x5f3a" 7 30184 "0xa11ce" 30110 "0xb0b" "0x00" DELIVERED.

(** An empty world: nothing stored, nothing sent, nothing logged. *)
Definition emptyWorld : World := mkWorld 0 0 ∅ [] [].

(** Collaborators that return empty reports. *)
Definition quietCollaborators : Collaborators :=
  {| marketplace_generateReport := fun _ => mret (mkMarketplaceAgentReport 0 0 0 0);
     observer_generateReport := mret (mkObserverAgentReport 0 0 0 0 0 (VArr []) 0) |}.

(** ** Auxiliary notions used in statements and proofs *)

(** The composition of two comparison results along a chain. *)
Definition cmp_join (c1 c2 : comparison) : comparison :=
  match c1, c2 with
  | Eq, c => c
  | c, Eq => c
  | Lt, Lt => Lt
  | _, _ => Gt
  end.

(** A binary64 value is ordered when it is comparable with itself: every
    value but NaN. *)
Definition ordered (x : float) : Prop := (x <=? x)%float = true.

(** [returns m h s]: the call returns (it does not throw). *)
Definition returns {S A} (m : M S A) (h : Host) (s : S) : Prop :=
  exists a s', m h s = (Returned a, s').

(** [throws m h s]: the call throws. *)
Definition throws {S A} (m : M S A) (h : Host) (s : S) : Prop :=
  exists e s', m h s = (Thrown e, s').

(** [sent w w' reqs]: from [w] to [w'] the requests [reqs] were issued,
    in that order, neither the clock nor the object store was touched,
    and the console kept every line it had. *)
Definition sent (w w' : World) (reqs : list Request) : Prop :=
  ticks w' = ticks w /\ r2Ops w' = r2Ops w /\ bucket w' = bucket w
  /\ requests w' = requests w ++ reqs
  /\ exists lines, console w' = console w ++ lines.

(** [result m h s]: the value the call returns, if it returns. *)
Definition result {S A} (m : M S A) (h : Host) (s : S) : option A :=
  match fst (m h s) with
  | Returned a => Some a
  | Thrown _ => None
  end.

(** An alert of the given severity is among [alerts]. *)
Definition hasSeverity (sev : Severity) (alerts : list Alert) : Prop :=
  exists a, In a alerts /\ alert_severity a = sev.

(** ** Further notions used in statements *)

(** [clockOnly w w' n]: from [w] to [w'] the clock was read [n] times
    and nothing else was touched. *)
Definition clockOnly (w w' : World) (n : nat) : Prop :=
  ticks w' = (ticks w + n)%nat /\ r2Ops w' = r2Ops w /\ bucket w' = bucket w
  /\ requests w' = requests w /\ console w' = console w.

(** The alerts the loop of [MarketplaceAgent.checkAlerts] pushes for the
    launches [launches], when the clock has been read [n] times before. *)
Fixpoint launchAlertsFrom (h : Host) (n : nat) (launches : list BondcurveLaunch)
  : list Alert :=
  match launches with
  | [] => []
  | launch :: rest =>
      MarketplaceAgent.launchAlert h (clock h n) launch
        :: launchAlertsFrom h (S n) rest
  end.

(** The launches of the map that pass the test of the loop body, in
    insertion order. *)
Definition launchesNearCompletion (agent : MarketplaceAgent.t) : list BondcurveLaunch :=
  List.filter MarketplaceAgent.nearCompletion (map snd (MarketplaceAgent.activeLaunches agent)).

(** A host whose four metric readings are all NaN. *)
Definition nanHost : Host := withMetrics stubHost nan nan nan nan.

(** The key under which [calculate24hChange] looks for the snapshot of
    24 hours before the clock reading it takes in world [w]. *)
Definition dayAgoKey (token : EcosystemToken) (h : Host) (w : World) : string :=
  "supply-snapshots/" +:+ EcosystemToken_name token +:+ "/"
    +:+ Z_toString (clock h (ticks w) - 24 * 60 * 60 * 1000) +:+ ".json".

(** What [getHistoricalSnapshot] finds there: the parsed document, or
    [null] when the key is missing or the read is rejected. *)
Definition dayAgoSnapshot (token : EcosystemToken) (h : Host) (w : World) : JsValue :=
  match r2Fault h (r2Ops w) with
  | Some _ => VNull
  | None =>
      match bucket w !! dayAgoKey token h w with
      | Some doc => JSON_parse doc
      | None => VNull
      end
  end.

(** The key [storeSnapshot] writes a snapshot to. *)
Definition snapshotKey (s : SupplySnapshot) : string :=
  "supply-snapshots/" +:+ EcosystemToken_name (snap_token s) +:+ "/"
    +:+ Z_toString (snap_timestamp s) +:+ ".json".

(** The guard of [verifyMessage], as a test:
    [msg.guid && msg.srcEid && msg.dstEid] is truthy. *)
Definition passesGuard (msg : LayerZeroMessage) : bool :=
  (js_truthy (VStr (guid msg)) && js_truthy (VNum (srcEid msg))
   && js_truthy (VNum (dstEid msg)))%bool.

(** The messages among [calls] that [verifyMessage] lets through. *)
Definition verifiedIn (calls : list GovernorCall) : list LayerZeroMessage :=
  flat_map (fun c => match c with
                     | CallVerifyMessage msg => if passesGuard msg then [msg] else []
                     | _ => []
                     end) calls.

(** How the fetch issued in world [w] ends. *)
Definition nextReply (h : Host) (w : World) : JsError + Response :=
  fetchReply h (length (requests w)).

(** The chat [sendTelegramMessage] addresses: [chatId || env.TELEGRAM_CHAT_ID]. *)
Definition targetChatId (env : EcosystemEnv) (chatId : option string) : option string :=
  if is_set chatId then chatId else TELEGRAM_CHAT_ID env.

(** The key [storeReport] writes a report to. *)
Definition reportKey (report : OperationalReport) : string :=
  "reports/" +:+ Period_name (report_period report) +:+ "/"
    +:+ Z_toString (report_timestamp report) +:+ ".json".

(** ** governor-agent.ts, second part: the promoter agent *)

(** *** [sanitizeContent]

    The three patterns of [sanitizeContent] match ASCII characters only.
    A string is taken as the sequence of the bytes of its UTF-8 text: a
    byte below 128 occurs there only as the ASCII character it encodes,
    so scanning the bytes finds the matches the JavaScript engine finds
    on the UTF-16 code units, and every other byte is copied. *)

Section SanitizeContent.

Import Stdlib.Strings.Ascii.

Definition inRange (lo hi : nat) (c : ascii) : bool :=
  ((lo <=? nat_of_ascii c)%nat && (nat_of_ascii c <=? hi)%nat)%bool.

(** [0-9], [A-Z], [a-z] *)
Definition isDigit (c : ascii) : bool := inRange 48 57 c.
Definition isUpper (c : ascii) : bool := inRange 65 90 c.
Definition isLower (c : ascii) : bool := inRange 97 122 c.

(** [a-fA-F0-9] *)
Definition isHexDigit (c : ascii) : bool :=
  (inRange 97 102 c || inRange 65 70 c || isDigit c)%bool.

(** [a-zA-Z0-9] *)
Definition isAlnum (c : ascii) : bool :=
  (isLower c || isUpper c || isDigit c)%bool.

(** Does a match of [/0x[a-fA-F0-9]{n}/] start at the head of [s]? *)
Definition matchesHexLiteral (n : nat) (s : list ascii) : bool :=
  match s with
  | c0 :: c1 :: rest =>
      (Ascii.eqb c0 "0"%char && Ascii.eqb c1 "x"%char
       && (length (firstn n rest) =? n)%nat
       && forallb isHexDigit (firstn n rest))%bool
  | _ => false
  end.

(** [s.replace(/0x[a-fA-F0-9]{n}/g, replacement)].  The engine looks for
    a match at each position from left to right; where it finds one it
    writes the replacement and goes on behind the match, where it finds
    none it copies the character.  [skip] counts the characters of the
    current match that are still to be passed over. *)
Fixpoint replaceHexLiterals (n : nat) (replacement : list ascii) (skip : nat)
    (s : list ascii) : list ascii :=
  match s with
  | [] => []
  | c :: rest =>
      match skip with
      | S k => replaceHexLiterals n replacement k rest
      | O =>
          if matchesHexLiteral n s
          then replacement ++ replaceHexLiterals n replacement (S n) rest
          else c :: replaceHexLiterals n replacement 0 rest
      end
  end.

(** The longest prefix of [s] in [[a-zA-Z0-9]]: what the greedy
    quantifier of [/[a-zA-Z0-9]{32,}/] takes at the head of [s]. *)
Fixpoint alnumRun (s : list ascii) : list ascii :=
  match s with
  | c :: rest => if isAlnum c then c :: alnumRun rest else []
  | [] => []
  end.

(** The test of the replacer callback:
    [/[A-Z]/.test(match) && /[a-z]/.test(match) && /[0-9]/.test(match)]. *)
Definition looksLikeSecret (m : list ascii) : bool :=
  (existsb isUpper m && existsb isLower m && existsb isDigit m)%bool.

(** [s.replace(/[a-zA-Z0-9]{32,}/g, callback)] *)
Fixpoint redactSecrets (skip : nat) (s : list ascii) : list ascii :=
  match s with
  | [] => []
  | c :: rest =>
      match skip with
      | S k => redactSecrets k rest
      | O =>
          let m := alnumRun s in
          if (32 <=? length m)%nat
          then (if looksLikeSecret m
                then String.list_ascii_of_string "[REDACTED]"
                else m) ++ redactSecrets (length m - 1) rest
          else c :: redactSecrets 0 rest
      end
  end.

(** [sanitizeContent(content)] *)
Definition sanitizeContent (content : string) : string :=
  let sanitized :=
    replaceHexLiterals 40 (String.list_ascii_of_string "[ADDRESS]") 0
      (String.list_ascii_of_string content) in
  let sanitized :=
    replaceHexLiterals 64 (String.list_ascii_of_string "[REDACTED]") 0 sanitized in
  let sanitized := redactSecrets 0 sanitized in
  String.string_of_list_ascii sanitized.

(** A wallet address in the sense of the first pattern occurs in [s]. *)
Definition containsAddress (s : list ascii) : Prop :=
  exists i, matchesHexLiteral 40 (skipn i s) = true.

(** [s] holds no match of the pattern with [n] digits. *)
Definition literalFree (n : nat) (s : list ascii) : Prop :=
  forall i, matchesHexLiteral n (skipn i s) = false.

(** [t] is [s] rewritten with bracketed replacements: every prefix of
    [t] is the prefix of [s] or shows a bracket. *)
Definition rewrites (t s : list ascii) : Prop :=
  forall j, firstn j t = firstn j s \/ In "["%char (firstn j t).

End SanitizeContent.

(** *** JavaScript operations the promoter code uses on parsed values *)

(** Does the value hold a bigint anywhere [JSON.stringify] looks? *)
Fixpoint containsBigInt (v : JsValue) : bool :=
  match v with
  | VBigInt _ => true
  | VArr items => existsb containsBigInt items
  | VObj props => existsb (fun kv => containsBigInt (snd kv)) props
  | _ => false
  end.

(** [JSON.stringify(value)] without a replacer: a bigint makes it throw,
    every other value is written as [serializeWithBigInt] writes it. *)
Definition JSON_stringify {S} (value : JsValue) : M S (option Json) :=
  if containsBigInt value
  then throw (TypeError "Do not know how to serialize a BigInt")
  else mret (stringifyWithBigInt value).

(** Does the object have an own property [k]? *)
Definition hasOwn (props : list (string * JsValue)) (k : string) : bool :=
  existsb (fun kv => String.eqb (fst kv) k) props.

(** The properties after [object.k = x]: an own property keeps its
    place and takes the new value, a new one is added at the end. *)
Definition setProperty (props : list (string * JsValue)) (k : string) (x : JsValue)
  : list (string * JsValue) :=
  if hasOwn props k
  then map (fun kv => if String.eqb (fst kv) k then (k, x) else kv) props
  else props ++ [(k, x)].

(** The assignment [v.k = x] in strict mode (the sources are modules),
    returning the object assigned to.  On a primitive it throws.  An
    array takes [k] as a named property beside its elements; nothing in
    the modelled code reads such a property of an array back and
    [JSON.stringify] does not write it, so the array is returned as it
    was. *)
Definition js_set {S} (v : JsValue) (k : string) (x : JsValue) : M S JsValue :=
  match v with
  | VObj props => mret (VObj (setProperty props k x))
  | VArr items => mret (VArr items)
  | VUndefined | VNull =>
      throw (TypeError ("Cannot set properties of "
                        +:+ (match v with VNull => "null" | _ => "undefined" end)
                        +:+ " (setting '" +:+ k +:+ "')"))
  | _ => throw (TypeError ("Cannot create property '" +:+ k +:+ "' on a primitive"))
  end.

(** [v === text] for a string literal [text]. *)
Definition strictEqualsString (v : JsValue) (text : string) : bool :=
  match v with
  | VStr s => String.eqb s text
  | _ => false
  end.

(** ToString of a value that [JSON.parse] has returned, as a template
    literal applies it.  A plain object is written [[object Object]]; an
    object with an own property [toString] (which is not callable) has no
    primitive value, and the conversion throws.  An array is joined with
    commas, [null] elements written as the empty string. *)
Fixpoint js_ToString (h : Host) (v : JsValue) : JsError + string :=
  match v with
  | VUndefined => inr "undefined"
  | VNull => inr "null"
  | VBool b => inr (if b then "true" else "false")
  | VNum n => inr (Z_toString n)
  | VFloat f => inr (numberToString h f)
  | VBigInt z => inr (Z_toString z)
  | VStr s => inr s
  | VArr items =>
      (fix join (items : list JsValue) : JsError + string :=
         match items with
         | [] => inr ""
         | item :: rest =>
             match (match item with
                    | VUndefined | VNull => inr ""
                    | _ => js_ToString h item
                    end) with
             | inl e => inl e
             | inr text =>
                 match rest with
                 | [] => inr text
                 | _ => match join rest with
                        | inl e => inl e
                        | inr more => inr (text +:+ "," +:+ more)
                        end
                 end
             end
         end) items
  | VObj props =>
      if hasOwn props "toString"
      then inl (TypeError "Cannot convert object to primitive value")
      else inr "[object Object]"
  end.

(** The interpolation [`${v}`] as a step of a computation. *)
Definition interpolate {S} (v : JsValue) : M S string :=
  fun h s =>
    match js_ToString h v with
    | inl e => (Thrown e, s)
    | inr text => (Returned text, s)
    end.

(** *** R2: listing *)

(** Keys in the order R2 lists them: lexicographic on the bytes. *)
Fixpoint insertKey (k : string) (keys : list string) : list string :=
  match keys with
  | [] => [k]
  | x :: rest => if String.leb k x then k :: keys else x :: insertKey k rest
  end.

Definition sortKeys (keys : list string) : list string :=
  fold_right insertKey [] keys.

(** [bucket.list({ prefix })].objects, as their keys: the keys with that
    prefix in lexicographic order, 1000 at most (the default page size;
    the sources never ask for a further page). *)
Definition R2_list (prefix : string) : M World (list string) :=
  fun h w =>
    match r2Fault h (r2Ops w) with
    | Some e => (Thrown e, count_r2 w)
    | None =>
        (Returned
           (firstn 1000
              (sortKeys (List.filter (String.prefix prefix)
                           (map fst (map_to_list (bucket w)))))),
         count_r2 w)
    end.

(** *** The agent *)

(** [PromoterEnv].  [PROMOTER_BUCKET] is the bucket of the world the
    agent runs in: the promoter is a separate instance with a store of
    its own. *)
Record PromoterEnv : Type := mkPromoterEnv {
  ALLOWED_EXPORTS : option string;
  APPROVAL_WEBHOOK : option string
}.

(** [MarketingContent["type"]] *)
Inductive ContentType : Type := TWEET | THREAD | ANNOUNCEMENT | NEWSLETTER.

Definition ContentType_name (t : ContentType) : string :=
  match t with
  | TWEET => "tweet"
  | THREAD => "thread"
  | ANNOUNCEMENT => "announcement"
  | NEWSLETTER => "newsletter"
  end.

Section SplitComma.

Import Stdlib.Strings.Ascii.

(** [s.split(",")] *)
Fixpoint split_comma (s : string) : list string :=
  match s with
  | EmptyString => [""]
  | String c rest =>
      if Ascii.eqb c ","%char then "" :: split_comma rest
      else match split_comma rest with
           | piece :: pieces => String c piece :: pieces
           | [] => [String c ""]
           end
  end.

End SplitComma.

Module PromoterAgent.

Record t : Type := mk {
  env : PromoterEnv;
  allowedExports : list string
}.

(** [new PromoterAgent(env)]:
    [this.allowedExports = env.ALLOWED_EXPORTS?.split(",") || []] *)
Definition new (env : PromoterEnv) : t :=
  mk env (match ALLOWED_EXPORTS env with
          | Some s => split_comma s
          | None => []
          end).

(** [storeDraft(draft)] *)
Definition storeDraft (draft : JsValue) : M World unit :=
  id ← interpolate (js_get draft "id");
  body ← JSON_stringify draft;
  R2_put ("drafts/" +:+ id +:+ ".json") body.

(** [createDraft(type, content, images?)] *)
Definition createDraft (type : ContentType) (content : string)
    (images : option (list string)) : M World JsValue :=
  id_now ← Date_now;
  createdAt ← Date_now;
  let draft :=
    VObj [("id", VStr ("PROMO-" +:+ Z_toString id_now));
          ("type", VStr (ContentType_name type));
          ("content", VStr (sanitizeContent content));
          ("images", match images with
                     | Some urls => VArr (map VStr urls)
                     | None => VUndefined
                     end);
          ("status", VStr "DRAFT");
          ("createdAt", VNum createdAt)] in
  storeDraft draft;;
  mret draft.

(** [getDraft(draftId)]: the parsed draft, or [null]. *)
Definition getDraft (draftId : string) : M World JsValue :=
  try_catch
    (obj ← R2_get ("drafts/" +:+ draftId +:+ ".json");
     match obj with
     | None => mret VNull
     | Some text => mret (JSON_parse text)
     end)
    (fun _ => mret VNull).

(** The request [submitForApproval] sends to the approval webhook. *)
Definition approvalRequest (webhook : string) (draft : JsValue) : Request :=
  mkRequest webhook "POST" [("Content-Type", "application/json")]
    (default JNull
       (stringifyWithBigInt
          (VObj [("type", VStr "MARKETING_APPROVAL_REQUEST");
                 ("content", draft)]))).

(** [submitForApproval(draftId)] *)
Definition submitForApproval (agent : t) (draftId : string) : M World JsValue :=
  draft ← getDraft draftId;
  if negb (js_truthy draft) then mret VNull
  else
    draft ← js_set draft "status" (VStr "PENDING_APPROVAL");
    storeDraft draft;;
    (if is_set (APPROVAL_WEBHOOK (env agent)) then
       JSON_stringify (VObj [("type", VStr "MARKETING_APPROVAL_REQUEST");
                             ("content", draft)]);;
       fetch (approvalRequest (default "" (APPROVAL_WEBHOOK (env agent))) draft);;
       mret tt
     else mret tt);;
    mret draft.

(** The loop of [getPendingApprovals]. *)
Definition collectPending (keys : list string) : M World (list JsValue) :=
  foldl
    (fun (acc : M World (list JsValue)) key =>
       pending ← acc;
       data ← R2_get key;
       match data with
       | None => mret pending
       | Some text =>
           let draft := JSON_parse text in
           status ← js_member draft "status";
           if strictEqualsString status "PENDING_APPROVAL"
           then mret (pending ++ [draft])
           else mret pending
       end)
    (mret []) keys.

(** [getPendingApprovals()] *)
Definition getPendingApprovals : M World (list JsValue) :=
  try_catch
    (listed ← R2_list "drafts/";
     collectPending listed)
    (fun _ => mret []).

(** [approveContent(draftId, approvedBy)] *)
Definition approveContent (draftId approvedBy : string) : M World JsValue :=
  draft ← getDraft draftId;
  if (negb (js_truthy draft)
      || negb (strictEqualsString (js_get draft "status") "PENDING_APPROVAL"))%bool
  then mret VNull
  else
    draft ← js_set draft "status" (VStr "APPROVED");
    draft ← js_set draft "approvedBy" (VStr approvedBy);
    now ← Date_now;
    draft ← js_set draft "approvedAt" (VNum now);
    storeDraft draft;;
    mret draft.

(** [rejectContent(draftId)] *)
Definition rejectContent (draftId : string) : M World JsValue :=
  draft ← getDraft draftId;
  if (negb (js_truthy draft)
      || negb (strictEqualsString (js_get draft "status") "PENDING_APPROVAL"))%bool
  then mret VNull
  else
    draft ← js_set draft "status" (VStr "REJECTED");
    storeDraft draft;;
    mret draft.

(** [requestExport(draftId, destination)] *)
Definition requestExport (agent : t) (draftId destination : string) : M World JsValue :=
  if negb (Array_includes (allowedExports agent) destination) then
    console_error ("Export to " +:+ destination +:+ " not allowed");;
    mret VNull
  else
    draft ← getDraft draftId;
    if (negb (js_truthy draft)
        || negb (strictEqualsString (js_get draft "status") "APPROVED"))%bool
    then mret VNull
    else
      id_now ← Date_now;
      createdAt ← Date_now;
      let request :=
        VObj [("id", VStr ("EXPORT-" +:+ Z_toString id_now));
              ("destination", VStr destination);
              ("content", draft);
              ("status", VStr "PENDING");
              ("createdAt", VNum createdAt)] in
      body ← JSON_stringify request;
      R2_put ("exports/pending/" +:+ "EXPORT-" +:+ Z_toString id_now +:+ ".json") body;;
      mret request.

(** The loop of [getPendingExports]. *)
Definition collectExports (keys : list string) : M World (list JsValue) :=
  foldl
    (fun (acc : M World (list JsValue)) key =>
       pending ← acc;
       data ← R2_get key;
       match data with
       | None => mret pending
       | Some text => mret (pending ++ [JSON_parse text])
       end)
    (mret []) keys.

(** [getPendingExports()] *)
Definition getPendingExports : M World (list JsValue) :=
  try_catch
    (listed ← R2_list "exports/pending/";
     collectExports listed)
    (fun _ => mret []).

End PromoterAgent.

(** The key of a draft, and what [getDraft] finds under it in world [w]:
    the parsed document, or [null] when the key is missing or the read is
    rejected. *)
Definition draftKey (draftId : string) : string :=
  "drafts/" +:+ draftId +:+ ".json".

Definition storedDraft (draftId : string) (h : Host) (w : World) : JsValue :=
  match r2Fault h (r2Ops w) with
  | Some _ => VNull
  | None =>
      match bucket w !! draftKey draftId with
      | Some doc => JSON_parse doc
      | None => VNull
      end
  end.

(** [v] is an object whose [status] is the string [text]. *)
Definition hasStatus (v : JsValue) (text : string) : bool :=
  strictEqualsString (js_get v "status") text.

(** A promoter environment that allows exports to Discord and n8n and
    has no approval webhook, and a world whose store holds one draft
    with the given status. *)
Definition promoterEnv : PromoterEnv :=
  mkPromoterEnv (Some "discord,n8n") None.

Definition draftDocument (status : string) : Json :=
  JObj [("id", JStr "PROMO-1700000000000");
        ("type", JStr "tweet");
        ("content", JStr "gm");
        ("status", JStr status);
        ("createdAt", JNum 1700000000001)].

Definition worldWithDraft (status : string) : World :=
  mkWorld 0 0 {[ draftKey "PROMO-1700000000000" := draftDocument status ]} [] [].

(** The keys R2 lists for a prefix in world [w] when the call is let
    through. *)
Definition listedKeys (prefix : string) (w : World) : list string :=
  firstn 1000
    (sortKeys (List.filter (String.prefix prefix) (map fst (map_to_list (bucket w))))).

(** [d] is the parsed document of a key with the given prefix. *)
Definition storedUnder (prefix : string) (w : World) (d : JsValue) : Prop :=
  exists key doc,
    bucket w !! key = Some doc /\ String.prefix prefix key = true
    /\ d = JSON_parse doc.

(** What a loop over listed keys has reached: the store and the
    requests are as they were, and the values collected so far, if the
    loop has not thrown, are [n] at most and satisfy [Q]. *)
Definition collected (Q : JsValue -> Prop) (w : World) (n : nat)
    (r : Outcome (list JsValue) * World) : Prop :=
  bucket (snd r) = bucket w /\ requests (snd r) = requests w
  /\ match fst r with
     | Returned values => Forall Q values /\ (length values <= n)%nat
     | Thrown _ => True
     end.

(** The identifier a caller reads off a draft it was handed, and the
    calls a draft goes through from creation to its export request. *)
Definition draftIdOf (draft : JsValue) : string :=
  match js_get draft "id" with
  | VStr id => id
  | _ => ""
  end.

Definition createApproveExport (agent : PromoterAgent.t) (type : ContentType)
    (content : string) (images : option (list string))
    (approvedBy destination : string) : M World JsValue :=
  draft ← PromoterAgent.createDraft type content images;
  PromoterAgent.submitForApproval agent (draftIdOf draft);;
  PromoterAgent.approveContent (draftIdOf draft) approvedBy;;
  PromoterAgent.requestExport agent (draftIdOf draft) destination.

(** ** marketplace-agent.ts: the figures of the last 24 hours

    [getCompletedLaunches24h] reads a JSON document, so the launches it
    returns are parsed values, whatever their declared type: a [raised]
    that was a bigint when the document was written is a string or a
    number when it is read back. *)

Module MarketplaceFigures.

(** What [launches.reduce((sum, l) => sum + l.raised, 0n)] can hold: a
    bigint, or a string once [+] has concatenated. *)
Inductive Raised : Type :=
| RaisedBigInt (z : Z)
| RaisedText (s : string).

(** The report [generateReport] builds. *)
Record Report : Type := mkReport {
  report_activeLaunches : nat;
  report_completedLaunches24h : nat;
  report_totalRaised24h : Raised;
  report_feeCollected24h : Z
}.

Definition mixed_types : JsError :=
  TypeError "Cannot mix BigInt and other types, use explicit conversions".

(** [sum + raised]: when either operand is a string after ToPrimitive
    (an array or an object becomes one, or the conversion throws), the
    strings are concatenated; two bigints are added; a bigint and a
    number, boolean, [null] or [undefined] do not mix. *)
Definition addRaised (h : Host) (sum : Raised) (raised : JsValue)
  : JsError + Raised :=
  match sum with
  | RaisedBigInt z =>
      match raised with
      | VBigInt y => inr (RaisedBigInt (z + y))
      | VStr _ | VArr _ | VObj _ =>
          match js_ToString h raised with
          | inl e => inl e
          | inr text => inr (RaisedText (Z_toString z +:+ text))
          end
      | _ => inl mixed_types
      end
  | RaisedText s =>
      match js_ToString h raised with
      | inl e => inl e
      | inr text => inr (RaisedText (s +:+ text))
      end
  end.

(** The [reduce] of [getTotalRaised24h], from left to right. *)
Fixpoint reduceRaised (sum : Raised) (launches : list JsValue) : M World Raised :=
  match launches with
  | [] => mret sum
  | l :: rest =>
      raised ← js_member l "raised";
      h ← ask;
      match addRaised h sum raised with
      | inl e => throw e
      | inr sum' => reduceRaised sum' rest
      end
  end.

Section Figures.

(** [x > y] for a parsed value [x] that is not an integer and a number
    [y]: the conversion of [x] to a number is left to the engine, and it
    may throw (an object whose [valueOf] and [toString] are not
    callable). *)
Variable greaterThanNumber : JsValue -> Z -> JsError + bool.

(** [x > y] for a parsed value [x] and an integer [y]; [undefined] is
    converted to NaN, which is greater than nothing. *)
Definition js_gt (x : JsValue) (y : Z) : JsError + bool :=
  match x with
  | VNum n => inr (y <? n)
  | VUndefined => inr false
  | _ => greaterThanNumber x y
  end.

(** [launches.filter(l => l.createdAt > dayAgo)] on the elements of an
    array, from left to right. *)
Fixpoint filterRecent (dayAgo : Z) (launches : list JsValue) : M World (list JsValue) :=
  match launches with
  | [] => mret []
  | l :: rest =>
      createdAt ← js_member l "createdAt";
      match js_gt createdAt dayAgo with
      | inl e => throw e
      | inr keep =>
          more ← filterRecent dayAgo rest;
          mret (if keep then l :: more else more)
      end
  end.

(** [getCompletedLaunches24h()] *)
Definition getCompletedLaunches24h : M World (list JsValue) :=
  now ← Date_now;
  let dayAgo := now - 24 * 60 * 60 * 1000 in
  try_catch
    (object ← R2_get "marketplace/completed-launches.json";
     match object with
     | None => mret []
     | Some text =>
         match JSON_parse text with
         | VArr launches => filterRecent dayAgo launches
         | VNull | VUndefined =>
             throw (TypeError "Cannot read properties of null (reading 'filter')")
         | _ => throw (TypeError "launches.filter is not a function")
         end
     end)
    (fun _ => mret []).

(** [getTotalRaised24h()] *)
Definition getTotalRaised24h : M World Raised :=
  launches ← getCompletedLaunches24h;
  reduceRaised (RaisedBigInt 0) launches.

(** [getFeesCollected24h()]: [(raised * 250n) / 10000n].  A string
    operand is converted to a number, and a number and a bigint do not
    mix; the division of bigints truncates. *)
Definition getFeesCollected24h : M World Z :=
  raised ← getTotalRaised24h;
  match raised with
  | RaisedBigInt z => mret (Z.quot (z * 250) 10000)
  | RaisedText _ => throw mixed_types
  end.

(** [getActiveLaunches()] *)
Definition getActiveLaunches (agent : MarketplaceAgent.t)
  : M World (list BondcurveLaunch) :=
  mret (map snd (MarketplaceAgent.activeLaunches agent)).

(** [generateReport()] *)
Definition generateReport (agent : MarketplaceAgent.t) : M World Report :=
  activeLaunches ← getActiveLaunches agent;
  completedLaunches ← getCompletedLaunches24h;
  totalRaised24h ← getTotalRaised24h;
  feeCollected24h ← getFeesCollected24h;
  mret (mkReport (length activeLaunches) (length completedLaunches)
          totalRaised24h feeCollected24h).

(** The launches a call of [getCompletedLaunches24h] in world [w]
    returns. *)
Definition recentLaunches (h : Host) (w : World) : list JsValue :=
  match fst (getCompletedLaunches24h h w) with
  | Returned launches => launches
  | Thrown _ => []
  end.

End Figures.

(** A comparison for the examples: a value that is not an integer is
    not greater than a number. *)
Definition neverGreater (x : JsValue) (y : Z) : JsError + bool := inr false.

(** A world whose store holds one completed launch, created at the time
    of the first clock reading of [stubHost], its [raised] a string as
    [serializeWithBigInt] writes a bigint. *)
Definition worldWithLaunch : World :=
  mkWorld 0 0
    {[ "marketplace/completed-launches.json"
       := JArr [JObj [("symbol", JStr "CAMP");
                      ("raised", JStr "1000");
                      ("createdAt", JNum (clock stubHost 0))]] ]}
    [] [].

End MarketplaceFigures.

(** ** observer-agent.ts *)

(** [array.slice(-n)]: the last [n] elements. *)
Definition lastn {A} (n : nat) (l : list A) : list A :=
  skipn (length l - n) l.

Record MoltbookSkill : Type := mkMoltbookSkill {
  skill_id : string;
  skill_name : string;
  skill_category : string;
  skill_protocol : string;
  skill_successRate : float;
  skill_lastUpdated : Z;
  skill_content : string
}.

Record ExploitAlert : Type := mkExploitAlert {
  exploit_id : string;
  exploit_protocol : string;
  exploit_severity : Severity;
  exploit_description : string;
  exploit_affectedContracts : list string;
  exploit_mitigation : string;
  exploit_timestamp : Z
}.

Definition ExploitAlert_toJs (e : ExploitAlert) : JsValue :=
  VObj [("id", VStr (exploit_id e));
        ("protocol", VStr (exploit_protocol e));
        ("severity", VStr (Severity_name (exploit_severity e)));
        ("description", VStr (exploit_description e));
        ("affectedContracts", VArr (map VStr (exploit_affectedContracts e)));
        ("mitigation", VStr (exploit_mitigation e));
        ("timestamp", VNum (exploit_timestamp e))].

Module ObserverAgent.

(** The rate limiter of [throttledFetch]. *)
Record RateLimiter : Type := mkRateLimiter {
  limiter_requests : Z;
  resetAt : Z;
  limit : Z
}.

(** The fields of an instance that change. *)
Record t : Type := mk {
  skillsHarvested : Z;
  securityAlerts : list ExploitAlert;
  marketIntelligence : list string;
  rateLimiter : RateLimiter
}.

Definition relevantProtocols : list string :=
  ["layerzero"; "base"; "stablecoin"; "bonding-curve"].

(** [new ObserverAgent(env)]: the initialiser of [rateLimiter] reads the
    clock. *)
Definition new : M World t :=
  now ← Date_now;
  mret (mk 0 [] [] (mkRateLimiter 0 (now + 60000) 30)).

(** [fetchSkillsForProtocol(protocol)] *)
Definition fetchSkillsForProtocol (protocol : string)
  : M (t * World) (list MoltbookSkill) :=
  mret [].

(** The loop of [getPendingSkillPRs]. *)
Definition collectSkillPRs (keys : list string) : M World (list JsValue) :=
  foldl
    (fun (acc : M World (list JsValue)) key =>
       prs ← acc;
       data ← R2_get key;
       match data with
       | None => mret prs
       | Some text =>
           let pr := JSON_parse text in
           status ← js_member pr "status";
           if strictEqualsString status "PENDING_REVIEW"
           then mret (prs ++ [pr])
           else mret prs
       end)
    (mret []) keys.

(** [getPendingSkillPRs()] *)
Definition getPendingSkillPRs : M World (list JsValue) :=
  try_catch
    (listed ← R2_list "skill-prs/";
     collectSkillPRs listed)
    (fun _ => mret []).

(** [addIntelligence(item)] *)
Definition addIntelligence (item : string) : M (t * World) unit :=
  set_this (fun o => mk (skillsHarvested o) (securityAlerts o)
                        (marketIntelligence o ++ [item]) (rateLimiter o));;
  o ← this;
  if (100 <? length (marketIntelligence o))%nat
  then set_this (fun o => mk (skillsHarvested o) (securityAlerts o)
                             (tail (marketIntelligence o)) (rateLimiter o))
  else mret tt.

(** [checkSecurityExploits()] *)
Definition checkSecurityExploits : M (t * World) (list ExploitAlert) :=
  try_catch
    (let exploits : list ExploitAlert := [] in
     let relevant :=
       List.filter (fun e => Array_includes relevantProtocols (exploit_protocol e))
         exploits in
     set_this (fun o => mk (skillsHarvested o) relevant
                           (marketIntelligence o) (rateLimiter o));;
     mret relevant)
    (fun error =>
       liftW (console_error ("Failed to check security exploits: "
                             +:+ String_of_error error));;
       mret []).

(** The alert [checkAlerts] pushes for an exploit. *)
Definition exploitAlert (now_ts : Z) (exploit : ExploitAlert) : Alert :=
  mkAlert ("OBSERVER-EXPLOIT-" +:+ exploit_id exploit)
          "SECURITY_EXPLOIT"
          (exploit_severity exploit)
          (exploit_protocol exploit +:+ ": " +:+ exploit_description exploit)
          (ExploitAlert_toJs exploit)
          now_ts
          false.

(** [checkAlerts()] *)
Definition checkAlerts : M (t * World) (list Alert) :=
  o ← this;
  foldl
    (fun (acc : M (t * World) (list Alert)) exploit =>
       alerts ← acc;
       match exploit_severity exploit with
       | CRITICAL | HIGH =>
           now_ts ← liftW Date_now;
           mret (alerts ++ [exploitAlert now_ts exploit])
       | _ => mret alerts
       end)
    (mret []) (securityAlerts o).

Section Methods.

(** [createSkillPR(skill)], which formats the skill and stores a
    proposal; its result is not used by its one caller. *)
Variable createSkillPR : MoltbookSkill -> M (t * World) unit.

(** [harvestSkills()] *)
Definition harvestSkills : M (t * World) (list MoltbookSkill) :=
  skills ←
    foldl
      (fun (acc : M (t * World) (list MoltbookSkill)) protocol =>
         skills ← acc;
         try_catch
           (protocolSkills ← fetchSkillsForProtocol protocol;
            mret (skills ++ protocolSkills))
           (fun error =>
              liftW (console_error ("Failed to fetch skills for " +:+ protocol
                                    +:+ ": " +:+ String_of_error error));;
              mret skills))
      (mret []) relevantProtocols;
  set_this (fun o => mk (skillsHarvested o + Z.of_nat (length skills))
                        (securityAlerts o) (marketIntelligence o) (rateLimiter o));;
  foldl (fun (acc : M (t * World) unit) skill => acc;; createSkillPR skill)
    (mret tt) skills;;
  mret skills.

(** [generateReport()] *)
Definition generateReport : M (t * World) ObserverAgentReport :=
  harvestSkills;;
  checkSecurityExploits;;
  pendingPRs ← liftW getPendingSkillPRs;
  o ← this;
  mret (mkObserverAgentReport
          (skillsHarvested o)
          (skillsHarvested o)
          (Z.of_nat (length (securityAlerts o)))
          (Z.of_nat (length (securityAlerts o)))
          (Z.of_nat (length (marketIntelligence o)))
          (VArr (map VStr (lastn 10 (marketIntelligence o))))
          (Z.of_nat (length pendingPRs))).

(** The public methods, as calls on one instance, and the state a
    sequence of calls leaves behind. *)
Inductive Call : Type :=
| CallHarvestSkills
| CallCheckSecurityExploits
| CallGetPendingSkillPRs
| CallAddIntelligence (item : string)
| CallCheckAlerts
| CallGenerateReport.

Definition performCall (h : Host) (s : t * World) (c : Call) : t * World :=
  match c with
  | CallHarvestSkills => snd (harvestSkills h s)
  | CallCheckSecurityExploits => snd (checkSecurityExploits h s)
  | CallGetPendingSkillPRs => snd (liftW getPendingSkillPRs h s)
  | CallAddIntelligence item => snd (addIntelligence item h s)
  | CallCheckAlerts => snd (checkAlerts h s)
  | CallGenerateReport => snd (generateReport h s)
  end.

Definition performCalls (h : Host) (s : t * World) (calls : list Call) : t * World :=
  fold_left (performCall h) calls s.

End Methods.

(** The items a sequence of calls adds, in order. *)
Definition itemsAdded (calls : list Call) : list string :=
  flat_map (fun c => match c with
                     | CallAddIntelligence item => [item]
                     | _ => []
                     end) calls.

(** A [createSkillPR] for the examples, which stores nothing. *)
Definition noSkillPR (skill : MoltbookSkill) : M (t * World) unit := mret tt.

End ObserverAgent.

(* ===================================================================== *)
(** * Part II: properties                                                 *)
(* ===================================================================== *)

(** ** Order facts on binary64 comparisons

    The primitive comparisons are specified by [SFcompare] on the
    unpacked representation; the facts below are proved there and
    transported along [leb_spec] and [ltb_spec]. *)

Ltac cmp_cases :=
  repeat match goal with
  | H : context [(?a ?= ?b)%Z] |- _ => destruct (Z.compare_spec a b)
  | H : context [Pos.compare_cont Eq ?a ?b] |- _ =>
      change (Pos.compare_cont Eq a b) with (Pos.compare a b) in H;
      destruct (Pos.compare_spec a b)
  | |- context [(?a ?= ?b)%Z] => destruct (Z.compare_spec a b)
  | |- context [Pos.compare_cont Eq ?a ?b] =>
      change (Pos.compare_cont Eq a b) with (Pos.compare a b);
      destruct (Pos.compare_spec a b)
  end.

Section SpecFloatOrder.

Lemma SFcompare_antisym (x y : spec_float) :
  SFcompare y x = option_map CompOpp (SFcompare x y).
Proof.
  destruct x as [sx|sx| |sx mx ex], y as [sy|sy| |sy my ey]; simpl;
    try reflexivity; try (destruct sx; reflexivity);
    try (destruct sy; reflexivity);
    try (destruct sx, sy; reflexivity).
  destruct sx, sy; simpl; try reflexivity;
    rewrite (Z.compare_antisym ex ey);
    destruct (ex ?= ey)%Z; simpl; try reflexivity;
    change (Pos.compare_cont Eq my mx) with (Pos.compare my mx);
    change (Pos.compare_cont Eq mx my) with (Pos.compare mx my);
    rewrite (Pos.compare_antisym mx my);
    destruct (mx ?= my)%positive; reflexivity.
Qed.

(** Two steps that do not go down compose to one that does not go down,
    strictly up as soon as one of them is. *)
Lemma SFcompare_trans (x y z : spec_float) (c1 c2 : comparison) :
  SFcompare x y = Some c1 -> SFcompare y z = Some c2 ->
  c1 <> Gt -> c2 <> Gt ->
  SFcompare x z = Some (cmp_join c1 c2).
Proof.
  intros H1 H2 N1 N2.
  destruct x as [sx|sx| |sx mx ex], y as [sy|sy| |sy my ey],
    z as [sz|sz| |sz mz ez]; simpl in *; try discriminate;
    repeat match goal with b : bool |- _ => destruct b end; simpl in *;
    try (injection H1 as <-); try (injection H2 as <-); try congruence;
    try reflexivity.
  all: cmp_cases; subst; simpl in *; try congruence; try lia; try reflexivity.
Qed.

Lemma SFcompare_refl_ordered (x y : spec_float) (c : comparison) :
  SFcompare x y = Some c ->
  SFcompare x x = Some Eq /\ SFcompare y y = Some Eq.
Proof.
  destruct x as [sx|sx| |sx mx ex], y as [sy|sy| |sy my ey]; simpl;
    try discriminate; intros _;
    repeat match goal with b : bool |- _ => destruct b end; simpl;
    rewrite ?Z.compare_refl;
    change (Pos.compare_cont Eq ?a ?b) with (Pos.compare a b);
    rewrite ?Pos.compare_refl; auto.
Qed.

Lemma SFcompare_total (x y : spec_float) :
  SFcompare x x = Some Eq -> SFcompare y y = Some Eq ->
  exists c, SFcompare x y = Some c.
Proof.
  destruct x as [sx|sx| |sx mx ex], y as [sy|sy| |sy my ey]; simpl;
    try discriminate; intros _ _; eauto.
Qed.

End SpecFloatOrder.

Section FloatOrder.

Implicit Types x y z : float.

Lemma fleb_cases x y :
  (x <=? y)%float = true <->
  SFcompare (Prim2SF x) (Prim2SF y) = Some Lt
  \/ SFcompare (Prim2SF x) (Prim2SF y) = Some Eq.
Proof.
  rewrite leb_spec. unfold SFleb.
  destruct (SFcompare (Prim2SF x) (Prim2SF y)) as [[]|]; split; intros H;
    try reflexivity; try discriminate; auto; destruct H; discriminate.
Qed.

Lemma fltb_cases x y :
  (x <? y)%float = true <-> SFcompare (Prim2SF x) (Prim2SF y) = Some Lt.
Proof.
  rewrite ltb_spec. unfold SFltb.
  destruct (SFcompare (Prim2SF x) (Prim2SF y)) as [[]|]; split; intros H;
    try reflexivity; try discriminate.
Qed.

Lemma fltb_fleb x y : (x <? y)%float = true -> (x <=? y)%float = true.
Proof. rewrite fltb_cases, fleb_cases. auto. Qed.

Lemma fleb_trans x y z :
  (x <=? y)%float = true -> (y <=? z)%float = true -> (x <=? z)%float = true.
Proof.
  rewrite !fleb_cases.
  intros [H1|H1] [H2|H2];
    pose proof (SFcompare_trans _ _ _ _ _ H1 H2) as H;
    simpl in H; rewrite H by discriminate; auto.
Qed.

Lemma fleb_fltb_trans x y z :
  (x <=? y)%float = true -> (y <? z)%float = true -> (x <? z)%float = true.
Proof.
  rewrite fleb_cases, !fltb_cases.
  intros [H1|H1] H2;
    pose proof (SFcompare_trans _ _ _ _ _ H1 H2) as H;
    simpl in H; rewrite H by discriminate; auto.
Qed.

Lemma fltb_fleb_trans x y z :
  (x <? y)%float = true -> (y <=? z)%float = true -> (x <? z)%float = true.
Proof.
  rewrite fleb_cases, !fltb_cases.
  intros H1 [H2|H2];
    pose proof (SFcompare_trans _ _ _ _ _ H1 H2) as H;
    simpl in H; rewrite H by discriminate; auto.
Qed.

(** [x <= y] excludes [y < x]. *)
Lemma fleb_not_fltb x y : (x <=? y)%float = true -> (y <? x)%float = false.
Proof.
  rewrite fleb_cases. intros H.
  destruct (y <? x)%float eqn:E; [|reflexivity].
  apply fltb_cases in E. rewrite SFcompare_antisym in E.
  destruct H as [H|H]; rewrite H in E; discriminate.
Qed.

Lemma fltb_not_fleb x y : (x <? y)%float = true -> (y <=? x)%float = false.
Proof.
  intros H. destruct (y <=? x)%float eqn:E; [|reflexivity].
  apply fleb_not_fltb in E. congruence.
Qed.

Lemma fleb_ordered x y : (x <=? y)%float = true -> ordered x /\ ordered y.
Proof.
  unfold ordered. rewrite !fleb_cases.
  intros [H|H]; destruct (SFcompare_refl_ordered _ _ _ H); auto.
Qed.

Lemma fltb_ordered x y : (x <? y)%float = true -> ordered x /\ ordered y.
Proof. intros H. apply fleb_ordered, fltb_fleb, H. Qed.

(** Between ordered values, [x <= y] fails exactly when [y < x]. *)
Lemma fleb_false_fltb x y :
  ordered x -> ordered y -> (x <=? y)%float = false -> (y <? x)%float = true.
Proof.
  unfold ordered. rewrite !fleb_cases, fltb_cases.
  intros Hx Hy Hn.
  assert (Ex : SFcompare (Prim2SF x) (Prim2SF x) = Some Eq).
  { destruct Hx as [Hx|Hx]; [|exact Hx].
    destruct (SFcompare_refl_ordered _ _ _ Hx); assumption. }
  assert (Ey : SFcompare (Prim2SF y) (Prim2SF y) = Some Eq).
  { destruct Hy as [Hy|Hy]; [|exact Hy].
    destruct (SFcompare_refl_ordered _ _ _ Hy); assumption. }
  destruct (SFcompare_total _ _ Ex Ey) as [c Hc].
  rewrite SFcompare_antisym, Hc.
  destruct c; simpl; try reflexivity.
  - assert ((x <=? y)%float = true) by (apply fleb_cases; auto). congruence.
  - assert ((x <=? y)%float = true) by (apply fleb_cases; auto). congruence.
Qed.

Lemma fleb_false_iff x y :
  ordered x -> ordered y -> (x <=? y)%float = false <-> (y <? x)%float = true.
Proof.
  intros Hx Hy. split.
  - apply fleb_false_fltb; assumption.
  - apply fltb_not_fleb.
Qed.

End FloatOrder.

(** The binary64 values the threshold literals of the source stand for:
    1.05 and 1.02 lie just above the decimal numbers, 0.98 just below. *)
Example threshold_literals :
  Prim2SF 1.05 = S754_finite false 4728779608739021 (-52)
  /\ Prim2SF 1.02 = S754_finite false 4593671619917906 (-52)
  /\ Prim2SF 1.00 = S754_finite false 4503599627370496 (-52)
  /\ Prim2SF 0.98 = S754_finite false 8827055269646172 (-53)
  /\ Prim2SF 0.005 = S754_finite false 5764607523034235 (-60)
  /\ Prim2SF 0.05 = S754_finite false 7205759403792794 (-57).
Proof. repeat split. Qed.

(** ** The order on risk levels *)

Lemma risk_le_refl a : risk_le a a.
Proof. destruct a; reflexivity. Qed.

Lemma risk_le_trans a b c : risk_le a b -> risk_le b c -> risk_le a c.
Proof. unfold risk_le; destruct a, b, c; simpl; congruence. Qed.

Lemma risk_le_antisym a b : risk_le a b -> risk_le b a -> a = b.
Proof. unfold risk_le; destruct a, b; simpl; congruence. Qed.

Lemma risk_le_total a b : risk_le a b \/ risk_le b a.
Proof. unfold risk_le; destruct a, b; simpl; auto. Qed.

Lemma risk_max_assoc a b c : risk_max a (risk_max b c) = risk_max (risk_max a b) c.
Proof. destruct a, b, c; reflexivity. Qed.

Lemma risk_max_ub_l a b : risk_le a (risk_max a b).
Proof. destruct a, b; reflexivity. Qed.

Lemma risk_max_ub_r a b : risk_le b (risk_max a b).
Proof. destruct a, b; reflexivity. Qed.

(** [risk_maximum] is the maximum: an upper bound of the sequence that
    is one of its elements (or GREEN for the empty sequence). *)
Lemma risk_maximum_ub levels x : In x levels -> risk_le x (risk_maximum levels).
Proof.
  induction levels as [|y levels IH]; simpl; [tauto|].
  intros [->|Hin].
  - apply risk_max_ub_l.
  - eapply risk_le_trans; [apply IH, Hin|apply risk_max_ub_r].
Qed.

Lemma risk_maximum_attained levels :
  levels <> [] -> In (risk_maximum levels) levels.
Proof.
  induction levels as [|y [|z levels] IH]; [congruence| |].
  - intros _. simpl. left. destruct y; reflexivity.
  - intros _. specialize (IH ltac:(discriminate)).
    change (risk_maximum (y :: z :: levels))
      with (risk_max y (risk_maximum (z :: levels))).
    unfold risk_max at 1.
    destruct (risk_leb y (risk_maximum (z :: levels))); [right; exact IH|left; reflexivity].
Qed.

(** ** C1: the overall level is the maximum category *)

Section WorstRisk.

Import GovernorAgent.

Lemma indexOf_order_range level : 0 <= indexOf order level <= 3.
Proof. destruct level; vm_compute; split; discriminate. Qed.

Lemma order_at_indexOf level :
  nth (Z.to_nat (indexOf order level)) order GREEN = level.
Proof. destruct level; reflexivity. Qed.

(** One turn of the loop keeps the index inside the array and moves it
    to the larger of the two levels. *)
Lemma worst_step (worstIndex : Z) (level : RiskLevel) :
  0 <= worstIndex <= 3 ->
  let index := indexOf order level in
  let next := if worstIndex <? index then index else worstIndex in
  0 <= next <= 3 /\
  nth (Z.to_nat next) order GREEN
  = risk_max (nth (Z.to_nat worstIndex) order GREEN) level.
Proof.
  intros Hr.
  assert (worstIndex = 0 \/ worstIndex = 1 \/ worstIndex = 2 \/ worstIndex = 3)
    as [->|[->|[->| ->]]] by lia;
    destruct level; vm_compute; repeat split; discriminate.
Qed.

Lemma worst_loop (levels : list RiskLevel) (worstIndex : Z) :
  0 <= worstIndex <= 3 ->
  let final :=
    fold_left
      (fun worstIndex level =>
         let index := indexOf order level in
         if worstIndex <? index then index else worstIndex)
      levels worstIndex in
  0 <= final <= 3 /\
  nth (Z.to_nat final) order GREEN
  = fold_left risk_max levels (nth (Z.to_nat worstIndex) order GREEN).
Proof.
  revert worstIndex.
  induction levels as [|level levels IH]; intros worstIndex Hr;
    cbn [fold_left]; cbv zeta.
  - split; [exact Hr|reflexivity].
  - destruct (worst_step worstIndex level Hr) as [Hr' Hnth].
    cbv zeta in Hr', Hnth.
    destruct (IH _ Hr') as [Hf Hv]. cbv zeta in Hf, Hv.
    split; [exact Hf|]. rewrite Hv, Hnth. reflexivity.
Qed.

Lemma worstIndexOf_range levels : 0 <= worstIndexOf levels <= 3.
Proof. apply (worst_loop levels 0). lia. Qed.

Lemma fold_left_risk_max levels a :
  fold_left risk_max levels a = risk_max a (risk_maximum levels).
Proof.
  revert a. induction levels as [|b levels IH]; intros a; simpl.
  - destruct a; reflexivity.
  - rewrite IH. symmetry. apply risk_max_assoc.
Qed.

Lemma getWorstRisk_maximum levels : getWorstRisk levels = risk_maximum levels.
Proof.
  unfold getWorstRisk, worstIndexOf.
  destruct (worst_loop levels 0 ltac:(lia)) as [_ H]. cbv zeta in H.
  rewrite H, fold_left_risk_max. reflexivity.
Qed.

End WorstRisk.

(** ** Running effectful code *)

Ltac unfold_monad :=
  unfold console_log, console_warn, console_error in *;
  unfold mbind, mret, M_bind, M_ret, bind, ret, ask, throw, try_catch,
    liftW, withNew, this, set_this, zoom, modify, Date_now in *.

Lemma returns_bind {S A B} (m : M S A) (k : A -> M S B) h s :
  returns m h s ->
  (forall a s', m h s = (Returned a, s') -> returns (k a) h s') ->
  returns (m ≫= k) h s.
Proof.
  intros (a & s' & Hm) Hk. specialize (Hk a s' Hm).
  destruct Hk as (b & s'' & Hk).
  exists b, s''. unfold mbind, M_bind, bind. rewrite Hm. exact Hk.
Qed.

Lemma bind_returned {S A B} (m : M S A) (k : A -> M S B) h s a s' :
  m h s = (Returned a, s') -> (m ≫= k) h s = k a h s'.
Proof. intros Hm. unfold mbind, M_bind, bind. rewrite Hm. reflexivity. Qed.

Lemma bind_thrown {S A B} (m : M S A) (k : A -> M S B) h s e s' :
  m h s = (Thrown e, s') -> (m ≫= k) h s = (Thrown e, s').
Proof. intros Hm. unfold mbind, M_bind, bind. rewrite Hm. reflexivity. Qed.

(** ** The alert checks never throw *)

Lemma USDGB_checkAlerts_returns h w : returns USDGBAgent.checkAlerts h w.
Proof.
  unfold returns, USDGBAgent.checkAlerts, USDGBAgent.getGoldReserveRatio,
    USDGBAgent.getPegDeviation, USDGBAgent.getPegPrice.
  unfold_monad.
  destruct (goldReserveRatio h <? _)%float;
    [|destruct (goldReserveRatio h <? _)%float];
    (destruct (_ <? Math_abs _)%float;
     [|destruct (_ <? Math_abs _)%float]); eauto.
Qed.

Lemma USDca_checkAlerts_returns h w : returns USDcaAgent.checkAlerts h w.
Proof.
  unfold returns, USDcaAgent.checkAlerts, USDcaAgent.getDeltaCollateralization,
    USDcaAgent.getPegDeviation, USDcaAgent.getPegPrice.
  unfold_monad.
  destruct (_ <? Math_abs _)%float; [|destruct (_ <? Math_abs _)%float];
    destruct (deltaCollateralization h <? _)%float; eauto.
Qed.

Lemma Marketplace_loop_returns h launches :
  forall (acc : M World (list Alert)) w,
    returns acc h w ->
    returns
      (foldl
         (fun (acc : M World (list Alert)) (entry : string * BondcurveLaunch) =>
            alerts ← acc;
            let launch := snd entry in
            if MarketplaceAgent.nearCompletion launch
            then now_ts ← Date_now;
                 mret (alerts ++ [MarketplaceAgent.launchAlert h now_ts launch])
            else mret alerts)
         acc launches) h w.
Proof.
  induction launches as [|entry launches IH]; intros acc w Hacc; simpl.
  - exact Hacc.
  - apply IH. apply returns_bind; [exact Hacc|].
    intros alerts w' _. cbv zeta.
    destruct (MarketplaceAgent.nearCompletion (snd entry));
      unfold returns; unfold_monad; eauto.
Qed.

Lemma Marketplace_checkAlerts_returns agent h w :
  returns (MarketplaceAgent.checkAlerts agent) h w.
Proof.
  unfold MarketplaceAgent.checkAlerts.
  apply returns_bind; [unfold returns; unfold_monad; eauto|].
  intros h' w' Hask. unfold_monad. injection Hask as <- <-.
  apply Marketplace_loop_returns. unfold returns; unfold_monad; eauto.
Qed.

(** [getRiskStatus] returns, and what it returns is assembled from the
    two classifiers and [getWorstRisk]. *)
Lemma getRiskStatus_result marketplaceAgent h w :
  exists rs w',
    GovernorAgent.getRiskStatus marketplaceAgent h w = (Returned rs, w')
    /\ categories rs =
       mkCategories
         (GovernorAgent.assessReserveRisk (goldReserveRatio h))
         (GovernorAgent.assessPegRisk
            (Math_max (Math_abs (usdgbPegPrice h - 1.00)%float)
                      (Math_abs (usdcaPegPrice h - 1.00)%float)))
         GREEN GREEN
    /\ overall rs = GovernorAgent.getWorstRisk (Object_values (categories rs)).
Proof.
  unfold GovernorAgent.getRiskStatus.
  destruct (USDGB_checkAlerts_returns h w) as (a1 & w1 & H1).
  destruct (USDca_checkAlerts_returns h w1) as (a2 & w2 & H2).
  destruct (Marketplace_checkAlerts_returns marketplaceAgent h w2) as (a3 & w3 & H3).
  unfold USDGBAgent.getGoldReserveRatio, USDcaAgent.getDeltaCollateralization,
    USDGBAgent.getPegDeviation, USDcaAgent.getPegDeviation,
    USDGBAgent.getPegPrice, USDcaAgent.getPegPrice.
  unfold mbind, mret, M_bind, M_ret, bind, ret, ask, Date_now.
  rewrite H1, H2, H3.
  eexists _, _. split; [reflexivity|]. split; reflexivity.
Qed.

(** C1.  For every assignment of the four categories, the overall level
    that [getWorstRisk] computes from [Object.values(categories)] is the
    maximum of the four under GREEN < YELLOW < ORANGE < RED: it equals
    [risk_maximum], it is at least every category and it is one of them;
    all-GREEN gives GREEN, and a RED in any position gives RED.  The
    status [getRiskStatus] returns carries that level as [overall]. *)
Theorem overall_is_maximum_category :
  (forall c p l x : RiskLevel,
      GovernorAgent.getWorstRisk (Object_values (mkCategories c p l x))
      = risk_maximum [c; p; l; x]
      /\ risk_le c (GovernorAgent.getWorstRisk (Object_values (mkCategories c p l x)))
      /\ risk_le p (GovernorAgent.getWorstRisk (Object_values (mkCategories c p l x)))
      /\ risk_le l (GovernorAgent.getWorstRisk (Object_values (mkCategories c p l x)))
      /\ risk_le x (GovernorAgent.getWorstRisk (Object_values (mkCategories c p l x)))
      /\ In (GovernorAgent.getWorstRisk (Object_values (mkCategories c p l x)))
            [c; p; l; x])
  /\ GovernorAgent.getWorstRisk
       (Object_values (mkCategories GREEN GREEN GREEN GREEN)) = GREEN
  /\ (forall p l x,
        GovernorAgent.getWorstRisk (Object_values (mkCategories RED p l x)) = RED)
  /\ (forall c l x,
        GovernorAgent.getWorstRisk (Object_values (mkCategories c RED l x)) = RED)
  /\ (forall c p x,
        GovernorAgent.getWorstRisk (Object_values (mkCategories c p RED x)) = RED)
  /\ (forall c p l,
        GovernorAgent.getWorstRisk (Object_values (mkCategories c p l RED)) = RED)
  /\ (forall marketplaceAgent h w,
        exists rs w',
          GovernorAgent.getRiskStatus marketplaceAgent h w = (Returned rs, w')
          /\ overall rs = risk_maximum (Object_values (categories rs))).
Proof.
  split; [|split; [|split; [|split; [|split; [|split]]]]].
  - intros c p l x. rewrite getWorstRisk_maximum.
    change (Object_values (mkCategories c p l x)) with [c; p; l; x].
    split; [reflexivity|].
    repeat split; try (apply risk_maximum_ub; simpl; tauto).
    apply risk_maximum_attained. discriminate.
  - reflexivity.
  - intros p l x. rewrite getWorstRisk_maximum. destruct p, l, x; reflexivity.
  - intros c l x. rewrite getWorstRisk_maximum. destruct c, l, x; reflexivity.
  - intros c p x. rewrite getWorstRisk_maximum. destruct c, p, x; reflexivity.
  - intros c p l. rewrite getWorstRisk_maximum. destruct c, p, l; reflexivity.
  - intros marketplaceAgent h w.
    destruct (getRiskStatus_result marketplaceAgent h w) as (rs & w' & Hr & _ & Ho).
    exists rs, w'. split; [exact Hr|].
    rewrite Ho. apply getWorstRisk_maximum.
Qed.

(** ** C2: bands of the reserve ratio *)

Section ReserveBands.

Import GovernorAgent.

Lemma assessReserveRisk_GREEN r :
  assessReserveRisk r = GREEN <-> (1.05 <=? r)%float = true.
Proof.
  unfold assessReserveRisk; simpl.
  destruct (1.05 <=? r)%float; [tauto|].
  destruct (1.02 <=? r)%float; [split; discriminate|].
  destruct (1.00 <=? r)%float; split; discriminate.
Qed.



Lemma assessReserveRisk_RED r :
  ordered r ->
  assessReserveRisk r = RED <-> (r <? 1.00)%float = true.
Proof.
  intros Hr. unfold assessReserveRisk; simpl.
  destruct (1.05 <=? r)%float eqn:E1.
  - assert ((r <? 1.00)%float = false) as ->.
    { apply fleb_not_fltb. eapply fleb_trans; [|exact E1]. reflexivity. }
    split; discriminate.
  - destruct (1.02 <=? r)%float eqn:E2.
    + assert ((r <? 1.00)%float = false) as ->.
      { apply fleb_not_fltb. eapply fleb_trans; [|exact E2]. reflexivity. }
      split; discriminate.
    + destruct (1.00 <=? r)%float eqn:E3.
      * apply fleb_not_fltb in E3. rewrite E3. split; discriminate.
      * apply fleb_false_fltb in E3; [|reflexivity|exact Hr]. tauto.
Qed.


End ReserveBands.





(** ** C3: bands of the peg deviation *)

Section PegBands.

Import GovernorAgent.

Lemma assessPegRisk_GREEN d :
  assessPegRisk d = GREEN <-> (d <=? 0.005)%float = true.
Proof.
  unfold assessPegRisk; simpl.
  destruct (d <=? 0.005)%float; [tauto|].
  destruct (d <=? 0.01)%float; [split; discriminate|].
  destruct (d <=? 0.02)%float; split; discriminate.
Qed.

Lemma assessPegRisk_YELLOW d :
  ordered d ->
  assessPegRisk d = YELLOW
  <-> (0.005 <? d)%float = true /\ (d <=? 0.01)%float = true.
Proof.
  intros Hd. unfold assessPegRisk; simpl.
  destruct (d <=? 0.005)%float eqn:E1.
  - apply fleb_not_fltb in E1. rewrite E1. split; [discriminate|intros [? _]; discriminate].
  - apply fleb_false_fltb in E1; [|exact Hd|reflexivity]. rewrite E1.
    destruct (d <=? 0.01)%float; [tauto|].
    destruct (d <=? 0.02)%float; split; try discriminate; intros [_ ?]; discriminate.
Qed.

Lemma assessPegRisk_ORANGE d :
  ordered d ->
  assessPegRisk d = ORANGE
  <-> (0.01 <? d)%float = true /\ (d <=? 0.02)%float = true.
Proof.
  intros Hd. unfold assessPegRisk; simpl.
  destruct (d <=? 0.005)%float eqn:E1.
  - assert ((0.01 <? d)%float = false) as ->.
    { apply fleb_not_fltb. eapply fleb_trans; [exact E1|]. reflexivity. }
    split; [discriminate|intros [? _]; discriminate].
  - destruct (d <=? 0.01)%float eqn:E2.
    + apply fleb_not_fltb in E2. rewrite E2.
      split; [discriminate|intros [? _]; discriminate].
    + apply fleb_false_fltb in E2; [|exact Hd|reflexivity]. rewrite E2.
      destruct (d <=? 0.02)%float; [tauto|].
      split; try discriminate; intros [_ ?]; discriminate.
Qed.

Lemma assessPegRisk_RED d :
  ordered d ->
  assessPegRisk d = RED <-> (0.02 <? d)%float = true.
Proof.
  intros Hd. unfold assessPegRisk; simpl.
  destruct (d <=? 0.005)%float eqn:E1.
  - assert ((0.02 <? d)%float = false) as ->.
    { apply fleb_not_fltb. eapply fleb_trans; [exact E1|]. reflexivity. }
    split; discriminate.
  - destruct (d <=? 0.01)%float eqn:E2.
    + assert ((0.02 <? d)%float = false) as ->.
      { apply fleb_not_fltb. eapply fleb_trans; [exact E2|]. reflexivity. }
      split; discriminate.
    + destruct (d <=? 0.02)%float eqn:E3.
      * apply fleb_not_fltb in E3. rewrite E3. split; discriminate.
      * apply fleb_false_fltb in E3; [|exact Hd|reflexivity]. tauto.
Qed.

(** A larger deviation never classifies better. *)
Lemma assessPegRisk_monotone d1 d2 :
  (d1 <=? d2)%float = true ->
  risk_le (assessPegRisk d1) (assessPegRisk d2).
Proof.
  intros H. unfold assessPegRisk; simpl.
  destruct (d2 <=? 0.005)%float eqn:A1.
  { rewrite (fleb_trans _ _ _ H A1). reflexivity. }
  destruct (d2 <=? 0.01)%float eqn:A2.
  { rewrite (fleb_trans _ _ _ H A2). destruct (d1 <=? 0.005)%float; reflexivity. }
  destruct (d2 <=? 0.02)%float eqn:A3.
  { rewrite (fleb_trans _ _ _ H A3).
    destruct (d1 <=? 0.005)%float; [reflexivity|].
    destruct (d1 <=? 0.01)%float; reflexivity. }
  destruct (d1 <=? 0.005)%float; [reflexivity|].
  destruct (d1 <=? 0.01)%float; [reflexivity|].
  destruct (d1 <=? 0.02)%float; reflexivity.
Qed.

End PegBands.

(** C3.  For every peg deviation [d >= 0], [assessPegRisk] returns GREEN
    iff [d <= 0.005], YELLOW iff [0.005 < d <= 0.01], ORANGE iff
    [0.01 < d <= 0.02] and RED iff [d > 0.02]; a larger deviation never
    classifies better; [d = 0] is GREEN and [d = 0.06] is RED. *)
Theorem peg_deviation_bands :
  (forall d : float,
      (0 <=? d)%float = true ->
      (GovernorAgent.assessPegRisk d = GREEN <-> (d <=? 0.005)%float = true)
      /\ (GovernorAgent.assessPegRisk d = YELLOW
          <-> (0.005 <? d)%float = true /\ (d <=? 0.01)%float = true)
      /\ (GovernorAgent.assessPegRisk d = ORANGE
          <-> (0.01 <? d)%float = true /\ (d <=? 0.02)%float = true)
      /\ (GovernorAgent.assessPegRisk d = RED <-> (0.02 <? d)%float = true))
  /\ (forall d1 d2 : float,
        (0 <=? d1)%float = true ->
        (d1 <=? d2)%float = true ->
        risk_le (GovernorAgent.assessPegRisk d1) (GovernorAgent.assessPegRisk d2))
  /\ GovernorAgent.assessPegRisk 0 = GREEN
  /\ GovernorAgent.assessPegRisk 0.06 = RED.
Proof.
  split; [|split; [|split; reflexivity]].
  - intros d Hd.
    assert (ordered d) as Ho by (apply (fleb_ordered _ _ Hd)).
    split; [apply assessPegRisk_GREEN|].
    split; [apply assessPegRisk_YELLOW, Ho|].
    split; [apply assessPegRisk_ORANGE, Ho|apply assessPegRisk_RED, Ho].
  - intros d1 d2 _. apply assessPegRisk_monotone.
Qed.

(** The bands of C3 at the deviation 0.015, and two deviations in order. *)
Lemma peg_deviation_bands_witness :
  (0 <=? 0.015)%float = true
  /\ GovernorAgent.assessPegRisk 0.015 = ORANGE
  /\ (0.004 <=? 0.03)%float = true
  /\ risk_le (GovernorAgent.assessPegRisk 0.004) (GovernorAgent.assessPegRisk 0.03).
Proof.
  split; [reflexivity|]. split; [|split; [reflexivity|]].
  - apply (proj1 (proj2 (proj2 (proj1 peg_deviation_bands 0.015%float eq_refl)))).
    split; reflexivity.
  - apply (proj1 (proj2 peg_deviation_bands) 0.004%float 0.03%float); reflexivity.
Defined.

(** ** C4: what the token agents' alert checks emit *)

Section AlertChecks.

Lemma USDGB_readings h w reserve d :
  result USDGBAgent.getGoldReserveRatio h w = Some reserve ->
  result USDGBAgent.getPegDeviation h w = Some d ->
  reserve = goldReserveRatio h /\ d = Math_abs (usdgbPegPrice h - 1.00)%float.
Proof.
  unfold result, USDGBAgent.getGoldReserveRatio, USDGBAgent.getPegDeviation,
    USDGBAgent.getPegPrice.
  unfold_monad. simpl. intros [= <-] [= <-]. auto.
Qed.

Lemma USDca_readings h w col d :
  result USDcaAgent.getDeltaCollateralization h w = Some col ->
  result USDcaAgent.getPegDeviation h w = Some d ->
  col = deltaCollateralization h /\ d = Math_abs (usdcaPegPrice h - 1.00)%float.
Proof.
  unfold result, USDcaAgent.getDeltaCollateralization, USDcaAgent.getPegDeviation,
    USDcaAgent.getPegPrice.
  unfold_monad. simpl. intros [= <-] [= <-]. auto.
Qed.

Lemma USDGB_checkAlerts_quiet h w :
  (1.05 <=? goldReserveRatio h)%float = true ->
  (Math_abs (usdgbPegPrice h - 1.00) <=? 0.005)%float = true ->
  USDGBAgent.checkAlerts h w = (Returned [], w).
Proof.
  intros Hr Hd.
  assert ((goldReserveRatio h <? 0.98)%float = false) as R1.
  { apply fleb_not_fltb. eapply fleb_trans; [|exact Hr]. reflexivity. }
  assert ((goldReserveRatio h <? 1.00)%float = false) as R2.
  { apply fleb_not_fltb. eapply fleb_trans; [|exact Hr]. reflexivity. }
  assert ((0.05 <? Math_abs (usdgbPegPrice h - 1.00))%float = false) as D1.
  { apply fleb_not_fltb. eapply fleb_trans; [exact Hd|]. reflexivity. }
  assert ((0.02 <? Math_abs (usdgbPegPrice h - 1.00))%float = false) as D2.
  { apply fleb_not_fltb. eapply fleb_trans; [exact Hd|]. reflexivity. }
  unfold USDGBAgent.checkAlerts, USDGBAgent.getGoldReserveRatio,
    USDGBAgent.getPegDeviation, USDGBAgent.getPegPrice.
  unfold_monad. simpl. rewrite R1, R2, D1, D2. reflexivity.
Qed.

Lemma USDca_checkAlerts_quiet h w :
  (1.10 <=? deltaCollateralization h)%float = true ->
  (Math_abs (usdcaPegPrice h - 1.00) <=? 0.005)%float = true ->
  USDcaAgent.checkAlerts h w = (Returned [], w).
Proof.
  intros Hc Hd.
  assert ((deltaCollateralization h <? 1.00)%float = false) as C1.
  { apply fleb_not_fltb. eapply fleb_trans; [|exact Hc]. reflexivity. }
  assert ((0.05 <? Math_abs (usdcaPegPrice h - 1.00))%float = false) as D1.
  { apply fleb_not_fltb. eapply fleb_trans; [exact Hd|]. reflexivity. }
  assert ((0.02 <? Math_abs (usdcaPegPrice h - 1.00))%float = false) as D2.
  { apply fleb_not_fltb. eapply fleb_trans; [exact Hd|]. reflexivity. }
  unfold USDcaAgent.checkAlerts, USDcaAgent.getDeltaCollateralization,
    USDcaAgent.getPegDeviation, USDcaAgent.getPegPrice.
  unfold_monad. simpl. rewrite C1, D1, D2. reflexivity.
Qed.

Lemma hasSeverity_app_l sev l1 l2 : hasSeverity sev l1 -> hasSeverity sev (l1 ++ l2).
Proof. intros (a & Hin & Hs). exists a. split; [apply in_or_app; auto|exact Hs]. Qed.

Lemma hasSeverity_app_r sev l1 l2 : hasSeverity sev l2 -> hasSeverity sev (l1 ++ l2).
Proof. intros (a & Hin & Hs). exists a. split; [apply in_or_app; auto|exact Hs]. Qed.

Lemma hasSeverity_last sev l a : alert_severity a = sev -> hasSeverity sev (l ++ [a]).
Proof. intros Hs. apply hasSeverity_app_r. exists a. simpl. auto. Qed.

Lemma USDGB_checkAlerts_critical h w :
  (0.05 <? Math_abs (usdgbPegPrice h - 1.00))%float = true
  \/ (goldReserveRatio h <? 0.98)%float = true ->
  exists alerts w',
    USDGBAgent.checkAlerts h w = (Returned alerts, w')
    /\ hasSeverity CRITICAL alerts.
Proof.
  unfold USDGBAgent.checkAlerts, USDGBAgent.getGoldReserveRatio,
    USDGBAgent.getPegDeviation, USDGBAgent.getPegPrice.
  unfold_monad. simpl.
  intros [Hd|Hr].
  - rewrite Hd.
    destruct (goldReserveRatio h <? 0.98)%float;
      [|destruct (goldReserveRatio h <? 1.00)%float];
      (eexists _, _; split; [reflexivity|apply hasSeverity_last; reflexivity]).
  - rewrite Hr.
    destruct (0.05 <? Math_abs _)%float; [|destruct (0.02 <? Math_abs _)%float];
      (eexists _, _; split; [reflexivity|]);
      try (apply hasSeverity_app_l; apply (hasSeverity_last _ []); reflexivity).
    apply (hasSeverity_last _ []); reflexivity.
Qed.

Lemma USDca_checkAlerts_critical h w :
  (0.05 <? Math_abs (usdcaPegPrice h - 1.00))%float = true
  \/ (deltaCollateralization h <? 1.00)%float = true ->
  exists alerts w',
    USDcaAgent.checkAlerts h w = (Returned alerts, w')
    /\ hasSeverity CRITICAL alerts.
Proof.
  unfold USDcaAgent.checkAlerts, USDcaAgent.getDeltaCollateralization,
    USDcaAgent.getPegDeviation, USDcaAgent.getPegPrice.
  unfold_monad. simpl.
  intros [Hd|Hc].
  - rewrite Hd.
    destruct (deltaCollateralization h <? 1.00)%float;
      (eexists _, _; split; [reflexivity|]).
    + apply hasSeverity_app_l. apply (hasSeverity_last _ []); reflexivity.
    + apply (hasSeverity_last _ []); reflexivity.
  - rewrite Hc.
    destruct (0.05 <? Math_abs _)%float; [|destruct (0.02 <? Math_abs _)%float];
      (eexists _, _; split; [reflexivity|apply hasSeverity_last; reflexivity]).
Qed.

End AlertChecks.

(** C4.  Whatever the readings are: when the reserve ratio and the peg
    deviation of the gold-backed agent classify GREEN its [checkAlerts]
    returns the empty sequence, and so does the synthetic agent's when its
    peg deviation classifies GREEN and its collateralization is in the
    GREEN band of its table; and an agent's [checkAlerts] returns at least
    one CRITICAL alert when its peg deviation exceeds 0.05, or the reserve
    ratio is below 0.98 (gold-backed), or the collateralization is below
    1.00 (synthetic). *)
Theorem checkAlerts_quiet_and_critical :
  forall (h : Host) (w : World) (reserve gbDev col caDev : float),
    result USDGBAgent.getGoldReserveRatio h w = Some reserve ->
    result USDGBAgent.getPegDeviation h w = Some gbDev ->
    result USDcaAgent.getDeltaCollateralization h w = Some col ->
    result USDcaAgent.getPegDeviation h w = Some caDev ->
    (GovernorAgent.assessReserveRisk reserve = GREEN ->
     GovernorAgent.assessPegRisk gbDev = GREEN ->
     USDGBAgent.checkAlerts h w = (Returned [], w))
    /\ ((green USDcaAgent.COLLATERAL_THRESHOLDS <=? col)%float = true ->
        GovernorAgent.assessPegRisk caDev = GREEN ->
        USDcaAgent.checkAlerts h w = (Returned [], w))
    /\ ((0.05 <? gbDev)%float = true \/ (reserve <? 0.98)%float = true ->
        exists alerts w',
          USDGBAgent.checkAlerts h w = (Returned alerts, w')
          /\ hasSeverity CRITICAL alerts)
    /\ ((0.05 <? caDev)%float = true \/ (col <? 1.00)%float = true ->
        exists alerts w',
          USDcaAgent.checkAlerts h w = (Returned alerts, w')
          /\ hasSeverity CRITICAL alerts).
Proof.
  intros h w reserve gbDev col caDev H1 H2 H3 H4.
  destruct (USDGB_readings _ _ _ _ H1 H2) as [-> ->].
  destruct (USDca_readings _ _ _ _ H3 H4) as [-> ->].
  split; [|split; [|split]].
  - intros Hr Hd. apply USDGB_checkAlerts_quiet.
    + apply assessReserveRisk_GREEN, Hr.
    + apply assessPegRisk_GREEN, Hd.
  - intros Hc Hd. apply USDca_checkAlerts_quiet.
    + exact Hc.
    + apply assessPegRisk_GREEN, Hd.
  - apply USDGB_checkAlerts_critical.
  - apply USDca_checkAlerts_critical.
Qed.

(** ** C5: preparing an emergency pause *)

Section EmergencyPause.

Import GovernorAgent.

(** The record the call builds and the document it stores. *)
Lemma prepareEmergencyPause_accepted contractAddress reason g h w :
  r2Fault h (r2Ops w) = None ->
  prepareEmergencyPause contractAddress reason h (g, w)
  = (Returned
       (mkPauseTransaction "0x8456cb59" contractAddress reason
          (clock h (ticks w)) "governor-agent" "AWAITING_MULTISIG"),
     (mk ACTIVE (messagesVerified g),
      store (pauseKey (clock h (S (ticks w))))
        (JObj [("txData", JStr "0x8456cb59");
               ("to", JStr contractAddress);
               ("reason", JStr reason);
               ("preparedAt", JNum (clock h (ticks w)));
               ("preparedBy", JStr "governor-agent");
               ("status", JStr "AWAITING_MULTISIG")])
        (count_r2 (tick (tick w))))).
Proof.
  intros Hput. unfold prepareEmergencyPause, R2_put. unfold_monad.
  cbn -[pauseKey]. rewrite Hput. reflexivity.
Qed.

(** When the store rejects the write the call throws that rejection and
    the flag keeps its value. *)
Lemma prepareEmergencyPause_rejected contractAddress reason g h w e :
  r2Fault h (r2Ops w) = Some e ->
  prepareEmergencyPause contractAddress reason h (g, w)
  = (Thrown e, (g, count_r2 (tick (tick w)))).
Proof.
  intros Hput. unfold prepareEmergencyPause, R2_put. unfold_monad.
  cbn -[pauseKey]. rewrite Hput. reflexivity.
Qed.

Lemma prepareEmergencyPause_status contractAddress reason h s :
  emergencyStatus (fst (snd (prepareEmergencyPause contractAddress reason h s)))
  = ACTIVE
  \/ emergencyStatus (fst (snd (prepareEmergencyPause contractAddress reason h s)))
     = emergencyStatus (fst s).
Proof.
  destruct s as [g w].
  destruct (r2Fault h (r2Ops w)) as [e|] eqn:Hput.
  - rewrite (prepareEmergencyPause_rejected _ _ _ _ _ _ Hput). right. reflexivity.
  - rewrite (prepareEmergencyPause_accepted _ _ _ _ _ Hput). left. reflexivity.
Qed.

Lemma verifyMessage_status msg h s :
  emergencyStatus (fst (snd (verifyMessage msg h s))) = emergencyStatus (fst s).
Proof.
  destruct s as [g w]. unfold verifyMessage, logMessage, R2_put. unfold_monad.
  destruct (_ || _)%bool; [reflexivity|].
  cbn -[messageKey]. destruct (r2Fault h (r2Ops w)); reflexivity.
Qed.

Lemma liftW_object {O A} (m : M World A) h (s : O * World) :
  fst (snd (liftW m h s)) = fst s.
Proof. unfold liftW. destruct (m h (snd s)). reflexivity. Qed.

Lemma generateReport_object marketplaceAgent h s :
  fst (snd (generateReport marketplaceAgent h s)) = fst s.
Proof.
  destruct s as [g w]. unfold generateReport. unfold_monad. cbn [fst snd].
  destruct (getRiskStatus_result marketplaceAgent h w) as (rs & w' & Hr & _).
  rewrite Hr. reflexivity.
Qed.

(** One call either leaves the flag alone or sets it to ACTIVE, and only
    [prepareEmergencyPause] does the latter. *)
Lemma performCall_status h s c :
  emergencyStatus (fst (performCall h s c)) = emergencyStatus (fst s)
  \/ (emergencyStatus (fst (performCall h s c)) = ACTIVE
      /\ exists a r, c = CallPrepareEmergencyPause a r).
Proof.
  destruct c as [m|msg|a r|m]; simpl.
  - left. rewrite liftW_object. reflexivity.
  - left. apply verifyMessage_status.
  - destruct (prepareEmergencyPause_status a r h s) as [H|H]; [right|left; exact H].
    split; [exact H|eauto].
  - left. rewrite generateReport_object. reflexivity.
Qed.

Lemma performCalls_status h calls :
  forall s,
    emergencyStatus (fst s) <> PAUSED ->
    emergencyStatus (fst (performCalls h s calls)) <> PAUSED.
Proof.
  unfold performCalls.
  induction calls as [|c calls IH]; intros s Hs; simpl; [exact Hs|].
  apply IH.
  destruct (performCall_status h s c) as [H|[H _]]; rewrite H; [exact Hs|discriminate].
Qed.

End EmergencyPause.

(** C5, as stated, fails on the status text: the record prepared for the
    contract [0xA0b8] with the reason [depeg] carries the status
    [AWAITING_MULTISIG], not [AWAITING_APPROVAL], in what is returned and
    in what is stored. *)
Lemma pause_status_is_not_AWAITING_APPROVAL :
  exists tx s',
    GovernorAgent.prepareEmergencyPause "0xA0b8" "depeg" stubHost
      (GovernorAgent.new, emptyWorld) = (Returned tx, s')
    /\ pause_status tx = "AWAITING_MULTISIG"
    /\ pause_status tx <> "AWAITING_APPROVAL"
    /\ (exists doc,
          bucket (snd s') !! GovernorAgent.pauseKey 1700000000001 = Some doc
          /\ js_get (JSON_parse doc) "status" = VStr "AWAITING_MULTISIG").
Proof.
  rewrite (prepareEmergencyPause_accepted "0xA0b8" "depeg" GovernorAgent.new
             stubHost emptyWorld eq_refl).
  eexists _, _. split; [reflexivity|]. split; [reflexivity|].
  split; [discriminate|].
  eexists. split.
  - cbn -[GovernorAgent.pauseKey]. apply lookup_insert_eq.
  - reflexivity.
Qed.

(** C5, amended.  For every contract address and reason, whenever the
    object store accepts the write, [prepareEmergencyPause] returns the
    record it built, whose status is [AWAITING_MULTISIG] (never
    [APPROVED]); the document stored under [emergency/pending/<now>.json]
    is that record; the emergency flag is ACTIVE afterwards; the counter of
    verified messages is unchanged and no request has been sent, so the
    pause is not executed.  Over any sequence of calls on a new governor
    the flag is never PAUSED, and a call changes it only to ACTIVE and only
    when the call is [prepareEmergencyPause]. *)
Theorem prepareEmergencyPause_awaits_multisig :
  forall (contractAddress why : string) (g : GovernorAgent.t) (h : Host) (w : World),
    r2Fault h (r2Ops w) = None ->
    (exists tx g' w',
        GovernorAgent.prepareEmergencyPause contractAddress why h (g, w)
        = (Returned tx, (g', w'))
        /\ pause_status tx = "AWAITING_MULTISIG"
        /\ pause_status tx <> "APPROVED"
        /\ to tx = contractAddress
        /\ reason tx = why
        /\ txData tx = "0x8456cb59"
        /\ bucket w' !! GovernorAgent.pauseKey (clock h (S (ticks w)))
           = serializeWithBigInt (PauseTransaction_toJs tx)
        /\ GovernorAgent.emergencyStatus g' = ACTIVE
        /\ GovernorAgent.messagesVerified g' = GovernorAgent.messagesVerified g
        /\ requests w' = requests w)
    /\ (forall calls : list GovernorCall,
          GovernorAgent.emergencyStatus
            (fst (performCalls h (GovernorAgent.new, w) calls)) <> PAUSED)
    /\ (forall (s : GovernorAgent.t * World) (c : GovernorCall),
          GovernorAgent.emergencyStatus (fst (performCall h s c))
          = GovernorAgent.emergencyStatus (fst s)
          \/ (GovernorAgent.emergencyStatus (fst (performCall h s c)) = ACTIVE
              /\ exists a r, c = CallPrepareEmergencyPause a r)).
Proof.
  intros contractAddress why g h w Hput.
  split; [|split].
  - rewrite (prepareEmergencyPause_accepted _ _ _ _ _ Hput).
    eexists _, _, _. split; [reflexivity|].
    repeat split; try reflexivity; try discriminate.
    cbn -[GovernorAgent.pauseKey]. apply lookup_insert_eq.
  - intros calls. apply performCalls_status. discriminate.
  - intros s c. apply performCall_status.
Qed.

(** ** C6: verifying a cross-chain message *)

Section VerifyMessage.

Import GovernorAgent.

(** The guard of [verifyMessage] lets a message through exactly when it
    is structurally valid. *)
Lemma guard_structurallyValid msg :
  (negb (js_truthy (VStr (guid msg)))
   || negb (js_truthy (VNum (srcEid msg)))
   || negb (js_truthy (VNum (dstEid msg))))%bool = false
  <-> structurallyValid msg.
Proof.
  unfold structurallyValid. simpl. rewrite !negb_involutive, !orb_false_iff.
  rewrite String.eqb_neq, !Z.eqb_neq. tauto.
Qed.

Lemma structurallyValid_dec msg : structurallyValid msg \/ ~ structurallyValid msg.
Proof.
  rewrite <- guard_structurallyValid.
  destruct (_ || _)%bool; [right; discriminate|left; reflexivity].
Qed.

Lemma verifyMessage_invalid msg g h w :
  ~ structurallyValid msg ->
  verifyMessage msg h (g, w) = (Returned false, (g, w)).
Proof.
  intros Hn. unfold verifyMessage.
  destruct (_ || _)%bool eqn:E; [reflexivity|].
  apply guard_structurallyValid in E. contradiction.
Qed.

Lemma verifyMessage_valid msg g h w :
  structurallyValid msg ->
  r2Fault h (r2Ops w) = None ->
  verifyMessage msg h (g, w)
  = (Returned true,
     (mk (emergencyStatus g) (messagesVerified g + 1),
      store (messageKey msg)
        (JObj [("guid", JStr (guid msg));
               ("nonce", JStr (Z_toString (nonce msg)));
               ("srcEid", JNum (srcEid msg));
               ("srcAddress", JStr (srcAddress msg));
               ("dstEid", JNum (dstEid msg));
               ("dstAddress", JStr (dstAddress msg));
               ("payload", JStr (payload msg));
               ("status", JStr (MessageStatus_name (status msg)));
               ("verifiedAt", JNum (clock h (ticks w)))])
        (count_r2 (tick w)))).
Proof.
  intros Hv Hput. apply guard_structurallyValid in Hv.
  unfold verifyMessage. rewrite Hv.
  unfold logMessage, R2_put. unfold_monad.
  cbn -[messageKey Z_toString]. rewrite Hput. reflexivity.
Qed.

(** A valid message whose write the store rejects: the call throws, and
    the counter has already been incremented. *)
Lemma verifyMessage_rejected msg g h w e :
  structurallyValid msg ->
  r2Fault h (r2Ops w) = Some e ->
  verifyMessage msg h (g, w)
  = (Thrown e,
     (mk (emergencyStatus g) (messagesVerified g + 1), count_r2 (tick w))).
Proof.
  intros Hv Hput. apply guard_structurallyValid in Hv.
  unfold verifyMessage. rewrite Hv.
  unfold logMessage, R2_put. unfold_monad.
  cbn -[messageKey Z_toString]. rewrite Hput. reflexivity.
Qed.

End VerifyMessage.

(** C6.  For every message and every state.  A message that is not
    structurally valid (empty guid, or a zero source or destination
    endpoint id) makes [verifyMessage] return [false], and neither the
    counter nor anything else changes.  A valid message is counted first
    and then written: when the object store accepts the write the call
    returns [true], the counter has grown by exactly one, and the message,
    stamped with the verification time and with its nonce as a decimal
    string, is stored under the key made of the source endpoint id, the
    destination endpoint id and the guid, every other key keeping its
    content; when the store rejects the write the call throws the error
    of the store, the counter has grown by one all the same, and nothing
    is stored.  So the call returns [true] exactly for a valid message
    whose write is accepted, and [false] exactly for an invalid one. *)
Theorem verifyMessage_counts_and_logs_valid_messages :
  forall (msg : LayerZeroMessage) (g : GovernorAgent.t) (h : Host) (w : World),
    (~ structurallyValid msg ->
     GovernorAgent.verifyMessage msg h (g, w) = (Returned false, (g, w)))
    /\ (structurallyValid msg ->
        r2Fault h (r2Ops w) = None ->
        exists g' w',
          GovernorAgent.verifyMessage msg h (g, w) = (Returned true, (g', w'))
          /\ GovernorAgent.messagesVerified g' = GovernorAgent.messagesVerified g + 1
          /\ GovernorAgent.emergencyStatus g' = GovernorAgent.emergencyStatus g
          /\ GovernorAgent.messageKey msg
             = "crosschain/" +:+ Z_toString (srcEid msg) +:+ "-"
               +:+ Z_toString (dstEid msg) +:+ "/" +:+ guid msg +:+ ".json"
          /\ bucket w' !! GovernorAgent.messageKey msg
             = Some (JObj [("guid", JStr (guid msg));
                           ("nonce", JStr (Z_toString (nonce msg)));
                           ("srcEid", JNum (srcEid msg));
                           ("srcAddress", JStr (srcAddress msg));
                           ("dstEid", JNum (dstEid msg));
                           ("dstAddress", JStr (dstAddress msg));
                           ("payload", JStr (payload msg));
                           ("status", JStr (MessageStatus_name (status msg)));
                           ("verifiedAt", JNum (clock h (ticks w)))])
          /\ (forall k, k <> GovernorAgent.messageKey msg ->
                        bucket w' !! k = bucket w !! k)
          /\ requests w' = requests w)
    /\ (forall e,
          structurallyValid msg ->
          r2Fault h (r2Ops w) = Some e ->
          exists g' w',
            GovernorAgent.verifyMessage msg h (g, w) = (Thrown e, (g', w'))
            /\ GovernorAgent.messagesVerified g' = GovernorAgent.messagesVerified g + 1
            /\ GovernorAgent.emergencyStatus g' = GovernorAgent.emergencyStatus g
            /\ bucket w' = bucket w
            /\ requests w' = requests w)
    /\ (fst (GovernorAgent.verifyMessage msg h (g, w)) = Returned true
        <-> structurallyValid msg /\ r2Fault h (r2Ops w) = None)
    /\ (fst (GovernorAgent.verifyMessage msg h (g, w)) = Returned false
        <-> ~ structurallyValid msg).
Proof.
  intros msg g h w. split; [|split; [|split; [|split]]].
  - apply verifyMessage_invalid.
  - intros Hv Hput. rewrite (verifyMessage_valid _ _ _ _ Hv Hput).
    eexists _, _. split; [reflexivity|].
    repeat split.
    + cbn -[GovernorAgent.messageKey Z_toString]. apply lookup_insert_eq.
    + intros k Hk. cbn -[GovernorAgent.messageKey Z_toString].
      apply lookup_insert_ne. congruence.
  - intros e Hv Hput. rewrite (verifyMessage_rejected _ _ _ _ _ Hv Hput).
    eexists _, _. split; [reflexivity|]. repeat split.
  - split.
    + intros Ht. destruct (structurallyValid_dec msg) as [Hv|Hn].
      * split; [exact Hv|].
        destruct (r2Fault h (r2Ops w)) as [e|] eqn:Hput; [|reflexivity].
        rewrite (verifyMessage_rejected _ _ _ _ _ Hv Hput) in Ht. discriminate.
      * rewrite (verifyMessage_invalid _ _ _ _ Hn) in Ht. discriminate.
    + intros [Hv Hput]. rewrite (verifyMessage_valid _ _ _ _ Hv Hput). reflexivity.
  - split.
    + intros Hf Hv.
      destruct (r2Fault h (r2Ops w)) as [e|] eqn:Hput.
      * rewrite (verifyMessage_rejected _ _ _ _ _ Hv Hput) in Hf. discriminate.
      * rewrite (verifyMessage_valid _ _ _ _ Hv Hput) in Hf. discriminate.
    + intros Hn. rewrite (verifyMessage_invalid _ _ _ _ Hn). reflexivity.
Qed.

(** A well-formed message on a new governor whose store rejects the
    write: the call does not return [true], it throws; the counter stands
    at one and the store holds nothing. *)
Lemma valid_message_is_counted_but_not_stored :
  structurallyValid sampleMessage
  /\ GovernorAgent.verifyMessage sampleMessage (withStoreDown stubHost)
       (GovernorAgent.new, emptyWorld)
     = (Thrown (mkError "Error" "R2 unavailable"),
        (GovernorAgent.mk STANDBY 1, mkWorld 1 1 ∅ [] [])).
Proof.
  split; [repeat split; discriminate|reflexivity].
Qed.

(** ** C8: storing a snapshot and reading it back *)

Section SnapshotRoundTrip.

(** A bigint written by [toString] and read back by [BigInt] is the same
    integer. *)
Lemma Z_ofString_toString z : Z_ofString (Z_toString z) = Some z.
Proof.
  unfold Z_ofString, Z_toString.
  rewrite NilZero.isi.
  - simpl. f_equal. apply DecimalZ.of_to.
  - destruct z; simpl; try discriminate.
    intros [= H]. revert H. apply Unsigned.to_uint_nonnil.
  - destruct z; simpl; try discriminate.
    intros [= H]. revert H. apply Unsigned.to_uint_nonnil.
Qed.

(** What [JSON.parse] gives back for a stored chain entry and a stored
    snapshot: every bigint has become its decimal string. *)
Lemma reread_snapshot (s : SupplySnapshot) :
  exists chains,
    option_map JSON_parse (serializeWithBigInt (SupplySnapshot_toJs s))
    = Some (VObj [("timestamp", VNum (snap_timestamp s));
                  ("token", VStr (EcosystemToken_name (snap_token s)));
                  ("chains", VArr chains);
                  ("totalSupply", VStr (Z_toString (totalSupply s)));
                  ("totalChange24h", VStr (Z_toString (totalChange24h s)))]).
Proof.
  unfold serializeWithBigInt, SupplySnapshot_toJs.
  cbn -[Z_toString]. eexists. reflexivity.
Qed.

Lemma reread_chain (c : ChainSupply) :
  exists percent,
    option_map JSON_parse (serializeWithBigInt (ChainSupply_toJs c))
    = Some (VObj [("chainId", VNum (chainId c));
                  ("supply", VStr (Z_toString (supply c)));
                  ("change24h", VStr (Z_toString (change24h c)));
                  ("changePercent", percent)]).
Proof.
  unfold serializeWithBigInt, ChainSupply_toJs.
  cbn -[Z_toString json_of_float]. eexists. reflexivity.
Qed.

(** On a host whose store never rejects a call, the snapshot read at the
    timestamp of the one just stored is the stored document, parsed. *)
Lemma USDGB_store_then_read (s : SupplySnapshot) (h : Host) (w : World) :
  (forall n, r2Fault h n = None) ->
  fst (USDGBAgent.getHistoricalSnapshot (snap_timestamp s) h
         (snd (USDGBAgent.storeSnapshot s h w)))
  = Returned (default VNull
                (option_map JSON_parse (serializeWithBigInt (SupplySnapshot_toJs s)))).
Proof.
  intros Hok.
  unfold USDGBAgent.storeSnapshot, USDGBAgent.getHistoricalSnapshot, R2_put, R2_get.
  unfold_monad.
  destruct (serializeWithBigInt (SupplySnapshot_toJs s)) as [doc|] eqn:E.
  2:{ destruct (reread_snapshot s) as [? H]. rewrite E in H. discriminate. }
  rewrite !Hok. cbn [snd fst bucket store count_r2 r2Ops].
  rewrite lookup_insert_eq. reflexivity.
Qed.

(** Whenever a snapshot stored by the agent sits at the key of "now minus
    24 hours", the subtraction of [calculate24hChange] meets a string
    where it needs a bigint, and throws. *)
Lemma USDGB_calculate24hChange_throws (s : SupplySnapshot) (current : Z) h w :
  r2Fault h (r2Ops w) = None ->
  bucket w !! ("supply-snapshots/USDGB/"
               +:+ Z_toString (clock h (ticks w) - 24 * 60 * 60 * 1000) +:+ ".json")
  = serializeWithBigInt (SupplySnapshot_toJs s) ->
  fst (USDGBAgent.calculate24hChange current h w)
  = Thrown (TypeError "Cannot mix BigInt and other types, use explicit conversions").
Proof.
  intros Hok Hstored.
  destruct (reread_snapshot s) as [chains Hre].
  destruct (serializeWithBigInt (SupplySnapshot_toJs s)) as [doc|] eqn:E;
    [|discriminate].
  simpl in Hre. injection Hre as Hre.
  unfold USDGBAgent.calculate24hChange, USDGBAgent.getHistoricalSnapshot, R2_get.
  unfold_monad. cbn [ticks r2Ops bucket tick].
  rewrite Hok, Hstored, Hre. reflexivity.
Qed.

End SnapshotRoundTrip.

(** C8.  What the code does with a stored snapshot, for every snapshot:
    the value read back by [getHistoricalSnapshot] is the stored document
    parsed, in which [totalSupply] and [totalChange24h] are decimal
    strings, not bigints, so it differs from the snapshot that was stored;
    the strings do denote the same integers.  The claimed equality of the
    re-read structure with the original fails. *)
Theorem snapshot_reread_has_strings_for_bigints :
  forall (s : SupplySnapshot) (w : World),
    exists reread,
      fst (USDGBAgent.getHistoricalSnapshot (snap_timestamp s) stubHost
             (snd (USDGBAgent.storeSnapshot s stubHost w)))
      = Returned reread
      /\ js_get reread "totalSupply" = VStr (Z_toString (totalSupply s))
      /\ js_get reread "totalChange24h" = VStr (Z_toString (totalChange24h s))
      /\ js_get (SupplySnapshot_toJs s) "totalSupply" = VBigInt (totalSupply s)
      /\ reread <> SupplySnapshot_toJs s
      /\ Z_ofString (Z_toString (totalSupply s)) = Some (totalSupply s)
      /\ Z_ofString (Z_toString (totalChange24h s)) = Some (totalChange24h s).
Proof.
  intros s w.
  rewrite (USDGB_store_then_read s stubHost w (fun _ => eq_refl)).
  destruct (reread_snapshot s) as [chains Hre]. rewrite Hre.
  eexists. split; [reflexivity|].
  split; [reflexivity|]. split; [reflexivity|]. split; [reflexivity|].
  split; [|split; apply Z_ofString_toString].
  unfold SupplySnapshot_toJs. simpl. intros H. congruence.
Qed.

(** The same on one snapshot: a supply of one million tokens on Base. *)
Example snapshot_reread_example :
  let s := mkSupplySnapshot 1700000000000 USDGB
             [mkChainSupply 8453 1000000 0 0%float] 1000000 0 in
  fst (USDGBAgent.getHistoricalSnapshot 1700000000000 stubHost
         (snd (USDGBAgent.storeSnapshot s stubHost emptyWorld)))
  = Returned
      (VObj [("timestamp", VNum 1700000000000);
             ("token", VStr "USDGB");
             ("chains",
              VArr [VObj [("chainId", VNum 8453);
                          ("supply", VStr "1000000");
                          ("change24h", VStr "0");
                          ("changePercent", VFloat 0)]]);
             ("totalSupply", VStr "1000000");
             ("totalChange24h", VStr "0")]).
Proof. vm_compute. reflexivity. Qed.

(** ** C10: the governor and the wrapper the report cycle calls *)

Section GovernorVersusWrapper.

Lemma risk_maximum_two c p :
  (if Array_includes [c; p] RED then RED
   else if Array_includes [c; p] ORANGE then ORANGE
   else if Array_includes [c; p] YELLOW then YELLOW
   else GREEN)
  = risk_maximum [c; p; GREEN; GREEN].
Proof. destruct c, p; reflexivity. Qed.


End GovernorVersusWrapper.


(** ** The notification transports *)

Section Notifications.

Ltac split_all := repeat match goal with |- _ /\ _ => split end.

Lemma sent_refl w : sent w w [].
Proof.
  unfold sent. rewrite app_nil_r. split_all; try reflexivity.
  exists []. rewrite app_nil_r. reflexivity.
Qed.

Lemma sent_trans w1 w2 w3 r1 r2 :
  sent w1 w2 r1 -> sent w2 w3 r2 -> sent w1 w3 (r1 ++ r2).
Proof.
  unfold sent. intros (T1 & O1 & B1 & R1 & l1 & L1) (T2 & O2 & B2 & R2 & l2 & L2).
  rewrite T2, O2, B2, R2, R1, L2, L1, <- !app_assoc.
  split_all; try reflexivity; try assumption.
  exists (l1 ++ l2). reflexivity.
Qed.

Lemma sent_write_line lvl text w : sent w (write_line lvl text w) [].
Proof.
  unfold sent. simpl. rewrite app_nil_r. split_all; try reflexivity.
  eexists. reflexivity.
Qed.

Ltac solve_sent :=
  unfold sent;
  cbn [ticks r2Ops bucket requests console write_line record_request];
  rewrite ?app_nil_r; split_all; try reflexivity;
  first [ exists []; rewrite app_nil_r; reflexivity
        | rewrite <- ?app_assoc; eexists; reflexivity ].

(** [sendDiscordMessage] always returns.  Without a bot token or a
    channel it issues no request and reports failure with a description;
    with both it issues exactly the request to that channel. *)
Lemma sendDiscordMessage_spec env text channelId h w :
  exists r w',
    sendDiscordMessage env text channelId h w = (Returned r, w')
    /\ if (is_set (DISCORD_BOT_TOKEN env) && is_set channelId)%bool
       then sent w w' [discordRequest (default "" (DISCORD_BOT_TOKEN env))
                                      (default "" channelId) text]
       else w' = w /\ success r = false /\ exists msg, error r = VStr msg.
Proof.
  unfold sendDiscordMessage.
  destruct (is_set (DISCORD_BOT_TOKEN env)); cbn [negb andb];
    [|unfold_monad; eauto 8].
  destruct (is_set channelId); cbn [negb];
    [|unfold_monad; eauto 8].
  unfold fetch, Response_text. unfold_monad.
  destruct (fetchReply h (length (requests w))) as [e|resp].
  - eexists _, _. split; [reflexivity|]. solve_sent.
  - destruct (resp_ok resp); cbn [negb];
      [|destruct (resp_text resp) as [e|body]];
      (eexists _, _; split; [reflexivity|]; solve_sent).
Qed.

(** [sendTelegramMessage] always returns.  Without a bot token, or
    without a chat id (neither passed nor configured), it issues no
    request and reports failure with a description; otherwise it issues
    exactly the request to that chat. *)
Lemma sendTelegramMessage_spec env text chatId h w :
  exists r w',
    sendTelegramMessage env text chatId h w = (Returned r, w')
    /\ if (is_set (TELEGRAM_BOT_TOKEN env)
           && is_set (if is_set chatId then chatId else TELEGRAM_CHAT_ID env))%bool
       then sent w w' [telegramRequest
                         (default "" (TELEGRAM_BOT_TOKEN env))
                         (default "" (if is_set chatId then chatId
                                      else TELEGRAM_CHAT_ID env))
                         text]
       else sent w w' [] /\ success r = false /\ exists msg, error r = VStr msg.
Proof.
  unfold sendTelegramMessage.
  destruct (is_set (TELEGRAM_BOT_TOKEN env)); cbn [negb andb].
  2:{ unfold_monad. eexists _, _. split; [reflexivity|].
      split; [apply sent_refl|eauto]. }
  destruct (is_set (if is_set chatId then chatId else TELEGRAM_CHAT_ID env));
    cbn [negb].
  2:{ unfold_monad. eexists _, _. split; [reflexivity|].
      split; [solve_sent|eauto]. }
  unfold fetch, Response_json, js_member. unfold_monad.
  destruct (fetchReply h (length (requests w))) as [e|resp].
  - eexists _, _. split; [reflexivity|]. solve_sent.
  - destruct (resp_json resp) as [e|doc].
    { eexists _, _. split; [reflexivity|]. solve_sent. }
    destruct doc; cbn [JSON_parse];
      try (eexists _, _; split; [reflexivity|]; solve_sent).
    destruct (js_truthy (js_get (VObj _) "ok")); cbn [negb];
      (eexists _, _; split; [reflexivity|]; solve_sent).
Qed.

End Notifications.

(** ** The report cycle *)

Section ReportCycle.

Lemma serialize_report_some report :
  exists doc, serializeWithBigInt (OperationalReport_toJs report) = Some doc.
Proof. unfold serializeWithBigInt, OperationalReport_toJs. simpl. eauto. Qed.

(** The dispatch to the operations channel returns whatever the
    transport does. *)
Lemma discord_step env text h w :
  exists w',
    (if is_set (DISCORD_CHANNEL_OPS env)
     then sendDiscordMessage env text (DISCORD_CHANNEL_OPS env);; mret tt
     else mret tt) h w = (Returned tt, w')
    /\ sent w w'
         (if (is_set (DISCORD_CHANNEL_OPS env) && is_set (DISCORD_BOT_TOKEN env))%bool
          then [discordRequest (default "" (DISCORD_BOT_TOKEN env))
                               (default "" (DISCORD_CHANNEL_OPS env)) text]
          else []).
Proof.
  destruct (is_set (DISCORD_CHANNEL_OPS env)) eqn:Hc; cbn [andb].
  - destruct (sendDiscordMessage_spec env text (DISCORD_CHANNEL_OPS env) h w)
      as (r & w' & Hs & Hw).
    exists w'. split.
    + unfold mbind, M_bind, bind. rewrite Hs. reflexivity.
    + rewrite Hc, andb_true_r in Hw.
      destruct (is_set (DISCORD_BOT_TOKEN env)); [exact Hw|].
      destruct Hw as [-> _]. apply sent_refl.
  - exists w. split; [reflexivity|apply sent_refl].
Qed.

(** The escalation to Telegram returns whatever the transport does. *)
Lemma telegram_step env (escalate : bool) text h w :
  exists w',
    (if escalate
     then sendTelegramMessage env text None;; mret tt
     else mret tt) h w = (Returned tt, w')
    /\ sent w w'
         (if (escalate && is_set (TELEGRAM_BOT_TOKEN env)
              && is_set (TELEGRAM_CHAT_ID env))%bool
          then [telegramRequest (default "" (TELEGRAM_BOT_TOKEN env))
                                (default "" (TELEGRAM_CHAT_ID env)) text]
          else []).
Proof.
  destruct escalate; cbn [andb].
  - destruct (sendTelegramMessage_spec env text None h w) as (r & w' & Hs & Hw).
    exists w'. split.
    + unfold mbind, M_bind, bind. rewrite Hs. reflexivity.
    + cbn [is_set] in Hw.
      destruct (is_set (TELEGRAM_BOT_TOKEN env) && is_set (TELEGRAM_CHAT_ID env))%bool;
        [exact Hw|apply Hw].
  - exists w. split; [reflexivity|apply sent_refl].
Qed.

Lemma reportCycle_after_report c env manager h w report w1 :
  withNew manager (EcosystemManager.generate4HourReport c) h w = (Returned report, w1) ->
  r2Fault h (r2Ops w1) = None ->
  exists w2,
    reportCycle c env manager h w = (Returned tt, w2)
    /\ bucket w2 !! "reports/latest.json"
       = serializeWithBigInt (OperationalReport_toJs report)
    /\ requests w2 = requests w1 ++ cycleRequests env h report.
Proof.
  intros Hgen Hput.
  unfold reportCycle.
  rewrite (bind_returned _ _ _ _ _ _ Hgen).
  destruct (serialize_report_some report) as [doc Hdoc].
  erewrite (bind_returned (console_log _)) by reflexivity.
  erewrite (bind_returned (console_log _)) by reflexivity.
  set (escalate :=
         0 <? Z.of_nat
                (length (List.filter isHighPriority
                           (alerts (gov_riskStatus
                                      (rep_governor (report_agents report))))))).
  set (w1a := write_line LOG _ (write_line LOG _ w1)).
  assert (exists w1b,
             (if escalate
              then console_log
                     ("CRITICAL: "
                      +:+ Z_toString
                            (Z.of_nat
                               (length (List.filter isHighPriority
                                          (alerts (gov_riskStatus
                                                     (rep_governor
                                                        (report_agents report)))))))
                      +:+ " high-priority alerts")
              else mret tt) h w1a = (Returned tt, w1b)
             /\ sent w1 w1b []) as (w1b & Hlog & S1).
  { destruct escalate; eexists; (split; [reflexivity|]);
      unfold sent; subst w1a; simpl; rewrite app_nil_r;
      (split; [|split; [|split; [|split]]]); try reflexivity;
      rewrite <- ?app_assoc; eexists; reflexivity. }
  rewrite (bind_returned _ _ _ _ _ _ Hlog).
  assert (R2_put "reports/latest.json"
            (serializeWithBigInt (OperationalReport_toJs report)) h w1b
          = (Returned tt, store "reports/latest.json" doc (count_r2 w1b))) as Hstore.
  { unfold R2_put. rewrite Hdoc.
    destruct S1 as (_ & -> & _). rewrite Hput. reflexivity. }
  rewrite (bind_returned _ _ _ _ _ _ Hstore).
  erewrite (bind_returned ask) by reflexivity.
  destruct (discord_step env (formatReportSummary h report) h
              (store "reports/latest.json" doc (count_r2 w1b)))
    as (w1c & Hdiscord & S2).
  rewrite (bind_returned _ _ _ _ _ _ Hdiscord).
  destruct (telegram_step env escalate
              ("🚨 **CRITICAL ALERTS DETECTED**
" +:+ mobileFriendlySummary report) h w1c) as (w2 & Htelegram & S3).
  exists w2. split; [exact Htelegram|].
  destruct S1 as (_ & _ & _ & R1 & _).
  destruct S2 as (_ & _ & B2 & R2 & _).
  destruct S3 as (_ & _ & B3 & R3 & _).
  split.
  - rewrite B3, B2, Hdoc. simpl. apply lookup_insert_eq.
  - rewrite R3, R2. simpl. rewrite R1, app_nil_r, <- app_assoc.
    unfold cycleRequests. fold escalate. reflexivity.
Qed.

End ReportCycle.

(** ** The [catch] block and the whole handler *)

Section HandleScheduled.

Lemma R2_put_outcome key doc h w :
  R2_put key (Some doc) h w
  = match r2Fault h (r2Ops w) with
    | Some e => (Thrown e, count_r2 w)
    | None => (Returned tt, store key doc (count_r2 w))
    end.
Proof. reflexivity. Qed.

(** What the [catch] block does with the error it receives: it logs it,
    notifies the operations channel when Discord is configured, and
    writes the error record; the block throws exactly when that write is
    rejected. *)
Lemma reportFailure_spec env error h w1 :
  exists w1c,
    sent (write_line ERROR ("Scheduled task failed: " +:+ String_of_error error) w1)
         w1c
         (if (is_set (DISCORD_CHANNEL_OPS env) && is_set (DISCORD_BOT_TOKEN env))%bool
          then [discordRequest (default "" (DISCORD_BOT_TOKEN env))
                               (default "" (DISCORD_CHANNEL_OPS env))
                               (crashMessage error)]
          else [])
    /\ reportFailure env error h w1
       = match r2Fault h (r2Ops w1) with
         | Some e => (Thrown e, count_r2 (tick (tick w1c)))
         | None =>
             (Returned tt,
              store (errorKey (clock h (ticks w1)))
                    (errorRecord (clock h (S (ticks w1))) error)
                    (count_r2 (tick (tick w1c))))
         end.
Proof.
  unfold reportFailure.
  erewrite (bind_returned (console_error _)) by reflexivity.
  destruct (discord_step env (crashMessage error) h
              (write_line ERROR ("Scheduled task failed: " +:+ String_of_error error) w1))
    as (w1c & Hdiscord & S).
  exists w1c. split; [exact S|].
  rewrite (bind_returned _ _ _ _ _ _ Hdiscord).
  erewrite (bind_returned Date_now) by reflexivity.
  erewrite (bind_returned Date_now) by reflexivity.
  rewrite R2_put_outcome.
  destruct S as (T & O & _).
  cbn [ticks r2Ops tick write_line] in *. rewrite T, O. reflexivity.
Qed.

Lemma handleScheduled_disabled c env h w :
  ECOSYSTEM_ENABLED env <> Some "true" ->
  handleScheduled c env h w
  = (Returned tt,
     write_line LOG "Ecosystem manager disabled, skipping"
       (write_line LOG
          ("[" +:+ toISOString h (clock h (ticks w))
           +:+ "] Ecosystem scheduled task triggered")
          (tick w))).
Proof.
  intros Hoff. unfold handleScheduled.
  rewrite bool_decide_eq_false_2 by exact Hoff. reflexivity.
Qed.

Lemma handleScheduled_enabled c env h w :
  ECOSYSTEM_ENABLED env = Some "true" ->
  handleScheduled c env h w
  = try_catch (reportCycle c env EcosystemManager.fresh) (reportFailure env)
      h (cycleStart h w).
Proof.
  intros Hon. unfold handleScheduled.
  rewrite bool_decide_eq_true_2 by exact Hon. reflexivity.
Qed.

Lemma handleScheduled_throws_only_store_fault c env h w e w' :
  handleScheduled c env h w = (Thrown e, w') ->
  ECOSYSTEM_ENABLED env = Some "true"
  /\ exists e0 w1,
      reportCycle c env EcosystemManager.fresh h (cycleStart h w) = (Thrown e0, w1)
      /\ r2Fault h (r2Ops w1) = Some e.
Proof.
  intros Hthrow.
  destruct (decide (ECOSYSTEM_ENABLED env = Some "true")) as [Hon|Hoff].
  2:{ rewrite (handleScheduled_disabled _ _ _ _ Hoff) in Hthrow. discriminate. }
  split; [exact Hon|].
  rewrite (handleScheduled_enabled _ _ _ _ Hon) in Hthrow.
  unfold try_catch in Hthrow.
  destruct (reportCycle c env EcosystemManager.fresh h (cycleStart h w))
    as [[[]|e0] w1] eqn:Hcycle; [discriminate|].
  exists e0, w1. split; [reflexivity|].
  destruct (reportFailure_spec env e0 h w1) as (w1c & _ & Hfail).
  rewrite Hfail in Hthrow.
  destruct (r2Fault h (r2Ops w1)) as [e1|]; [|discriminate].
  congruence.
Qed.

Lemma handleScheduled_recovers c env h w e0 w1 :
  ECOSYSTEM_ENABLED env = Some "true" ->
  reportCycle c env EcosystemManager.fresh h (cycleStart h w) = (Thrown e0, w1) ->
  r2Fault h (r2Ops w1) = None ->
  exists w',
    handleScheduled c env h w = (Returned tt, w')
    /\ In (ERROR, "Scheduled task failed: " +:+ String_of_error e0) (console w')
    /\ bucket w' !! errorKey (clock h (ticks w1))
       = Some (errorRecord (clock h (S (ticks w1))) e0)
    /\ ((is_set (DISCORD_CHANNEL_OPS env) && is_set (DISCORD_BOT_TOKEN env))%bool = true ->
        In (discordRequest (default "" (DISCORD_BOT_TOKEN env))
                           (default "" (DISCORD_CHANNEL_OPS env))
                           (crashMessage e0))
           (requests w')).
Proof.
  intros Hon Hcycle Hput.
  rewrite (handleScheduled_enabled _ _ _ _ Hon).
  unfold try_catch. rewrite Hcycle.
  destruct (reportFailure_spec env e0 h w1) as (w1c & S & Hfail).
  rewrite Hfail, Hput.
  eexists. split; [reflexivity|].
  destruct S as (_ & _ & _ & R & lines & L).
  cbn [console bucket requests store count_r2 tick write_line] in *.
  split; [|split].
  - rewrite L. apply in_or_app. left. apply in_or_app. right. simpl. auto.
  - apply lookup_insert_eq.
  - intros Hcfg. rewrite R, Hcfg. apply in_or_app. right. simpl. auto.
Qed.

Lemma handleScheduled_returns_when_store_up c env h w :
  (forall n, r2Fault h n = None) ->
  returns (handleScheduled c env) h w.
Proof.
  intros Hup.
  unfold returns.
  destruct (handleScheduled c env h w) as [[[]|e] w'] eqn:H.
  - exists tt, w'. reflexivity.
  - destruct (handleScheduled_throws_only_store_fault _ _ _ _ _ _ H)
      as (_ & e0 & w1 & _ & Hf).
    rewrite Hup in Hf. discriminate.
Qed.

(** The cron entry catches whatever [handleScheduled] throws. *)
Lemma scheduled_ecosystem_returns c env h w :
  returns (scheduled_ecosystem c env) h w.
Proof.
  unfold scheduled_ecosystem, returns.
  destruct (bool_decide (ECOSYSTEM_ENABLED env = Some "true")); [|eauto].
  unfold_monad. cbv beta iota.
  match goal with
  | |- context [handleScheduled c env h ?w0] =>
      destruct (handleScheduled c env h w0) as [[[]|e] w']; eauto
  end.
Qed.

End HandleScheduled.

(** ** C7: what leaves [handleScheduled] *)

(** C7, as stated, fails: with monitoring enabled and an object store
    that rejects every call, the snapshot write fails inside the [try]
    block, the [catch] block runs, its own error-record write is rejected
    too, and that rejection leaves [handleScheduled]. *)
Lemma handleScheduled_throws_when_store_is_down :
  exists w',
    handleScheduled quietCollaborators
      (mkEnv (Some "true") None None None None None)
      (withStoreDown stubHost) emptyWorld
    = (Thrown (mkError "Error" "R2 unavailable"), w')
    /\ bucket w' = ∅
    /\ In (ERROR, "Scheduled task failed: Error: R2 unavailable") (console w').
Proof.
  eexists. split; [vm_compute; reflexivity|].
  split; [reflexivity|]. simpl. auto.
Qed.

(** C7, amended.  With monitoring disabled [handleScheduled] returns
    without touching the store or the network.  With monitoring enabled,
    when the report cycle throws and the store accepts the error-record
    write, it returns normally, having logged the error, stored the error
    record under [errors/<now>.json] and, when Discord is configured,
    notified the operations channel.  The only thing that can leave
    [handleScheduled] is the rejection of that error-record write; on a
    host whose store accepts every call it always returns; and the cron
    entry in src/index.ts, which calls it inside its own [try]/[catch],
    always returns. *)
Theorem handleScheduled_contains_failures :
  forall (c : Collaborators) (env : EcosystemEnv) (h : Host) (w : World),
    (ECOSYSTEM_ENABLED env <> Some "true" ->
     exists w',
       handleScheduled c env h w = (Returned tt, w')
       /\ bucket w' = bucket w /\ r2Ops w' = r2Ops w /\ requests w' = requests w)
    /\ (forall e0 w1,
          ECOSYSTEM_ENABLED env = Some "true" ->
          reportCycle c env EcosystemManager.fresh h (cycleStart h w) = (Thrown e0, w1) ->
          r2Fault h (r2Ops w1) = None ->
          exists w',
            handleScheduled c env h w = (Returned tt, w')
            /\ In (ERROR, "Scheduled task failed: " +:+ String_of_error e0) (console w')
            /\ bucket w' !! errorKey (clock h (ticks w1))
               = Some (errorRecord (clock h (S (ticks w1))) e0)
            /\ ((is_set (DISCORD_CHANNEL_OPS env)
                 && is_set (DISCORD_BOT_TOKEN env))%bool = true ->
                In (discordRequest (default "" (DISCORD_BOT_TOKEN env))
                                   (default "" (DISCORD_CHANNEL_OPS env))
                                   (crashMessage e0))
                   (requests w')))
    /\ (forall e w',
          handleScheduled c env h w = (Thrown e, w') ->
          ECOSYSTEM_ENABLED env = Some "true"
          /\ exists e0 w1,
              reportCycle c env EcosystemManager.fresh h (cycleStart h w)
              = (Thrown e0, w1)
              /\ r2Fault h (r2Ops w1) = Some e)
    /\ ((forall n, r2Fault h n = None) -> returns (handleScheduled c env) h w)
    /\ returns (scheduled_ecosystem c env) h w.
Proof.
  intros c env h w. split; [|split; [|split; [|split]]].
  - intros Hoff. rewrite (handleScheduled_disabled _ _ _ _ Hoff).
    eexists. split; [reflexivity|]. auto.
  - intros e0 w1. apply handleScheduled_recovers.
  - intros e w'. apply handleScheduled_throws_only_store_fault.
  - apply handleScheduled_returns_when_store_up.
  - apply scheduled_ecosystem_returns.
Qed.

(** ** C9: a transport without configuration *)

(** C9.  A transport whose configuration is absent returns
    [{success: false}] with a description and issues no request:
    [sendTelegramMessage] without a bot token, or without any chat id;
    [sendDiscordMessage] without a bot token, or without a channel id.
    Both transports return in every case, whatever the network does.  In
    the report cycle the two dispatches are independent: once the report
    is generated and stored, the cycle returns normally and the requests
    it has issued are exactly those of the channels that are configured:
    a POST of the summary to
    [https://discord.com/api/v10/channels/<ops channel>/messages] with
    the bot token as authorization when the channel and the token are set,
    then, when the report carries a HIGH or CRITICAL alert and the bot
    token and the chat id are set, a POST of the escalation to
    [https://api.telegram.org/bot<token>/sendMessage] for that chat.  So
    the escalation reaches Telegram whatever happens with Discord and the
    summary reaches Discord whatever happens with Telegram. *)
Theorem unconfigured_transport_fails_softly :
  forall (env : EcosystemEnv) (text : string) (chatId channelId : option string)
         (h : Host) (w : World),
    (is_set (TELEGRAM_BOT_TOKEN env) = false ->
     sendTelegramMessage env text chatId h w
     = (Returned (mkSendResult false (VStr "TELEGRAM_BOT_TOKEN not set")), w))
    /\ (is_set (TELEGRAM_BOT_TOKEN env) = true ->
        is_set chatId = false -> is_set (TELEGRAM_CHAT_ID env) = false ->
        exists w',
          sendTelegramMessage env text chatId h w
          = (Returned (mkSendResult false (VStr "No Chat ID available")), w')
          /\ requests w' = requests w)
    /\ (is_set (DISCORD_BOT_TOKEN env) = false ->
        sendDiscordMessage env text channelId h w
        = (Returned (mkSendResult false (VStr "DISCORD_BOT_TOKEN not set")), w))
    /\ (is_set (DISCORD_BOT_TOKEN env) = true -> is_set channelId = false ->
        sendDiscordMessage env text channelId h w
        = (Returned (mkSendResult false (VStr "No Channel ID provided")), w))
    /\ returns (sendTelegramMessage env text chatId) h w
    /\ returns (sendDiscordMessage env text channelId) h w
    /\ (forall (c : Collaborators) (manager : EcosystemManager.t)
               (report : OperationalReport) (w1 : World),
          withNew manager (EcosystemManager.generate4HourReport c) h w
          = (Returned report, w1) ->
          r2Fault h (r2Ops w1) = None ->
          let summary :=
            mkRequest
              ("https://discord.com/api/v10/channels/"
               +:+ default "" (DISCORD_CHANNEL_OPS env) +:+ "/messages")
              "POST"
              [("Authorization", "Bot " +:+ default "" (DISCORD_BOT_TOKEN env));
               ("Content-Type", "application/json")]
              (JObj [("content", JStr (formatReportSummary h report))]) in
          let escalation :=
            mkRequest
              ("https://api.telegram.org/bot"
               +:+ default "" (TELEGRAM_BOT_TOKEN env) +:+ "/sendMessage")
              "POST"
              [("Content-Type", "application/json")]
              (JObj [("chat_id", JStr (default "" (TELEGRAM_CHAT_ID env)));
                     ("text", JStr ("🚨 **CRITICAL ALERTS DETECTED**
" +:+ mobileFriendlySummary report));
                     ("parse_mode", JStr "Markdown")]) in
          let highPriority :=
            List.filter isHighPriority
              (alerts (gov_riskStatus (rep_governor (report_agents report)))) in
          exists w2,
            reportCycle c env manager h w = (Returned tt, w2)
            /\ requests w2
               = requests w1
                 ++ (if (is_set (DISCORD_CHANNEL_OPS env)
                         && is_set (DISCORD_BOT_TOKEN env))%bool
                     then [summary] else [])
                 ++ (if ((0 <? Z.of_nat (length highPriority))
                         && is_set (TELEGRAM_BOT_TOKEN env)
                         && is_set (TELEGRAM_CHAT_ID env))%bool
                     then [escalation] else [])
            /\ (highPriority <> [] ->
                is_set (TELEGRAM_BOT_TOKEN env) = true ->
                is_set (TELEGRAM_CHAT_ID env) = true ->
                In escalation (requests w2))
            /\ (is_set (DISCORD_CHANNEL_OPS env) = true ->
                is_set (DISCORD_BOT_TOKEN env) = true ->
                In summary (requests w2))).
Proof.
  intros env text chatId channelId h w.
  split; [|split; [|split; [|split; [|split; [|split]]]]].
  - intros Ht. unfold sendTelegramMessage. rewrite Ht. reflexivity.
  - intros Ht Hc Hd. unfold sendTelegramMessage. rewrite Ht, Hc, Hd.
    eexists. split; [reflexivity|reflexivity].
  - intros Ht. unfold sendDiscordMessage. rewrite Ht. reflexivity.
  - intros Ht Hc. unfold sendDiscordMessage. rewrite Ht, Hc. reflexivity.
  - destruct (sendTelegramMessage_spec env text chatId h w) as (r & w' & H & _).
    exists r, w'. exact H.
  - destruct (sendDiscordMessage_spec env text channelId h w) as (r & w' & H & _).
    exists r, w'. exact H.
  - intros c manager report w1 Hgen Hput summary escalation highPriority.
    destruct (reportCycle_after_report c env manager h w report w1 Hgen Hput)
      as (w2 & Hcycle & _ & Hreq).
    exists w2. split; [exact Hcycle|].
    assert (Hexact : requests w2
                     = requests w1
                       ++ (if (is_set (DISCORD_CHANNEL_OPS env)
                               && is_set (DISCORD_BOT_TOKEN env))%bool
                           then [summary] else [])
                       ++ (if ((0 <? Z.of_nat (length highPriority))
                               && is_set (TELEGRAM_BOT_TOKEN env)
                               && is_set (TELEGRAM_CHAT_ID env))%bool
                           then [escalation] else [])).
    { rewrite Hreq. reflexivity. }
    split; [exact Hexact|].
    rewrite Hexact. split.
    + intros Halerts Ht Hc. rewrite Ht, Hc.
      destruct highPriority as [|a l] eqn:E; [congruence|].
      apply in_or_app. right. apply in_or_app. right.
      cbn [length]. rewrite Nat2Z.inj_succ.
      replace (0 <? Z.succ (Z.of_nat (length l))) with true
        by (symmetry; apply Z.ltb_lt; lia).
      simpl. auto.
    + intros Hc Ht. rewrite Hc, Ht.
      apply in_or_app. right. apply in_or_app. left. simpl. auto.
Qed.

(** ** The claims at concrete inputs *)

(** C4 at the readings the source returns today (all GREEN, no alert)
    and at a reserve ratio of 0.97 (one CRITICAL alert). *)
Lemma checkAlerts_quiet_and_critical_witness :
  USDGBAgent.checkAlerts stubHost emptyWorld = (Returned [], emptyWorld)
  /\ (exists alerts w',
         USDGBAgent.checkAlerts (withMetrics stubHost 0.97 1.001 1.00 1.10) emptyWorld
         = (Returned alerts, w')
         /\ hasSeverity CRITICAL alerts).
Proof.
  split.
  - apply (proj1 (checkAlerts_quiet_and_critical stubHost emptyWorld
                    _ _ _ _ eq_refl eq_refl eq_refl eq_refl));
      reflexivity.
  - apply (proj1 (proj2 (proj2
             (checkAlerts_quiet_and_critical
                (withMetrics stubHost 0.97 1.001 1.00 1.10) emptyWorld
                _ _ _ _ eq_refl eq_refl eq_refl eq_refl)))).
    right. reflexivity.
Defined.

(** C5 at the contract [0xA0b8] with the reason [depeg], on a new
    governor and a store that accepts the write. *)
Lemma prepareEmergencyPause_awaits_multisig_witness :
  r2Fault stubHost (r2Ops emptyWorld) = None
  /\ exists tx g' w',
      GovernorAgent.prepareEmergencyPause "0xA0b8" "depeg" stubHost
        (GovernorAgent.new, emptyWorld) = (Returned tx, (g', w'))
      /\ pause_status tx = "AWAITING_MULTISIG"
      /\ GovernorAgent.emergencyStatus g' = ACTIVE.
Proof.
  split; [reflexivity|].
  destruct (proj1 (prepareEmergencyPause_awaits_multisig "0xA0b8" "depeg"
                     GovernorAgent.new stubHost emptyWorld eq_refl))
    as (tx & g' & w' & Hcall & Hstatus & _ & _ & _ & _ & _ & Hflag & _).
  exists tx, g', w'. auto.
Defined.

(** C6 at a well-formed message, on a new governor and a store that
    accepts the write. *)
Lemma verifyMessage_counts_and_logs_valid_messages_witness :
  structurallyValid sampleMessage
  /\ r2Fault stubHost (r2Ops emptyWorld) = None
  /\ exists g' w',
       GovernorAgent.verifyMessage sampleMessage stubHost
         (GovernorAgent.new, emptyWorld) = (Returned true, (g', w'))
       /\ GovernorAgent.messagesVerified g' = 1
       /\ bucket w' !! "crosschain/30184-30110/0x5f3a.json"
          = Some (JObj [("guid", JStr "0x5f3a");
                        ("nonce", JStr "7");
                        ("srcEid", JNum 30184);
                        ("srcAddress", JStr "0xa11ce");
                        ("dstEid", JNum 30110);
                        ("dstAddress", JStr "0xb0b");
                        ("payload", JStr "0x00");
                        ("status", JStr "DELIVERED");
                        ("verifiedAt", JNum 1700000000000)]).
Proof.
  assert (structurallyValid sampleMessage) as Hv
      by (repeat split; discriminate).
  split; [exact Hv|]. split; [reflexivity|].
  destruct (proj1 (proj2 (verifyMessage_counts_and_logs_valid_messages
                            sampleMessage GovernorAgent.new stubHost emptyWorld))
              Hv eq_refl)
    as (g' & w' & Hcall & Hcount & _ & _ & Hdoc & _).
  exists g', w'. split; [exact Hcall|]. split; [exact Hcount|]. exact Hdoc.
Defined.

(** C7 with monitoring disabled, and with a store that rejects the two
    calls of the first snapshot but accepts the error record. *)
Lemma handleScheduled_contains_failures_witness :
  (exists w',
      handleScheduled quietCollaborators (mkEnv None None None None None None)
        stubHost emptyWorld = (Returned tt, w')
      /\ bucket w' = ∅)
  /\ (exists w',
         handleScheduled quietCollaborators (enabledEnv None None None None)
           (withStoreDownFor 2 stubHost) emptyWorld = (Returned tt, w')
         /\ bucket w' !! errorKey 1700000000004
            = Some (errorRecord 1700000000005 (mkError "Error" "R2 unavailable"))).
Proof.
  split.
  - destruct (proj1 (handleScheduled_contains_failures quietCollaborators
                       (mkEnv None None None None None None) stubHost emptyWorld)
                ltac:(discriminate))
      as (w' & Hcall & Hbucket & _).
    exists w'. split; [exact Hcall|exact Hbucket].
  - destruct (proj1 (proj2 (handleScheduled_contains_failures quietCollaborators
                              (enabledEnv None None None None)
                              (withStoreDownFor 2 stubHost) emptyWorld))
                (mkError "Error" "R2 unavailable")
                (mkWorld 4 2 ∅ [] [(LOG, "[1700000000000] Ecosystem scheduled task triggered")])
                eq_refl ltac:(vm_compute; reflexivity) eq_refl)
      as (w' & Hcall & _ & Hrecord & _).
    exists w'. split; [exact Hcall|exact Hrecord].
Defined.

(** C9 at the readings the getters of the source return, with Telegram
    lacking its bot token and Discord configured: a send to Telegram
    fails softly, the cycle completes, and the summary goes out to the
    operations channel of Discord. *)
Lemma unconfigured_transport_fails_softly_witness :
  sendTelegramMessage (enabledEnv None (Some "42") (Some "T0K3N") (Some "ops"))
    "alert" None stubHost emptyWorld
  = (Returned (mkSendResult false (VStr "TELEGRAM_BOT_TOKEN not set")), emptyWorld)
  /\ (exists w2 text,
         reportCycle quietCollaborators
           (enabledEnv None (Some "42") (Some "T0K3N") (Some "ops"))
           EcosystemManager.fresh stubHost emptyWorld
         = (Returned tt, w2)
         /\ requests w2
            = [mkRequest "https://discord.com/api/v10/channels/ops/messages"
                 "POST"
                 [("Authorization", "Bot T0K3N");
                  ("Content-Type", "application/json")]
                 (JObj [("content", JStr text)])]).
Proof.
  pose proof (unconfigured_transport_fails_softly
                (enabledEnv None (Some "42") (Some "T0K3N") (Some "ops"))
                "alert" None (Some "ops") stubHost emptyWorld)
    as (Htelegram & _ & _ & _ & _ & _ & Hcycle).
  split.
  - apply Htelegram. reflexivity.
  - edestruct (Hcycle quietCollaborators EcosystemManager.fresh)
      as (w2 & Hrun & Hreq & _).
    + vm_compute. reflexivity.
    + reflexivity.
    + exists w2. eexists. split; [exact Hrun|]. rewrite Hreq. vm_compute.
      reflexivity.
Defined.

(** ** Three scenarios of the specification, run on the governor *)

(** Reserve ratio 0.97 and a peg deviation near 0.001: collateral RED,
    peg GREEN, overall RED, and exactly one alert, CRITICAL, about the
    reserves. *)
Example scenario_low_reserve :
  exists status w',
    GovernorAgent.getRiskStatus MarketplaceAgent.new
      (withMetrics stubHost 0.97 1.001 1.00 1.10) emptyWorld = (Returned status, w')
    /\ collateral (categories status) = RED
    /\ peg (categories status) = GREEN
    /\ overall status = RED
    /\ map (fun a => (alert_type a, alert_severity a)) (alerts status)
       = [("CRITICAL_RESERVE_RATIO", CRITICAL)].
Proof. eexists _, _. split; [vm_compute; reflexivity|]. repeat split. Qed.

(** Reserve ratio 1.06 and a peg deviation near 0.003: overall GREEN and
    no alert. *)
Example scenario_healthy :
  exists status w',
    GovernorAgent.getRiskStatus MarketplaceAgent.new
      (withMetrics stubHost 1.06 1.003 1.00 1.10) emptyWorld = (Returned status, w')
    /\ overall status = GREEN
    /\ alerts status = [].
Proof. eexists _, _. split; [vm_compute; reflexivity|]. repeat split. Qed.

(** Both stablecoins 3% off their peg and no launch under way: each token
    agent emits one HIGH alert, the marketplace agent none, and the
    governor's list has exactly these two entries, in call order. *)
Example scenario_two_high_alerts :
  exists status w',
    GovernorAgent.getRiskStatus MarketplaceAgent.new
      (withMetrics stubHost 1.05 1.03 1.03 1.10) emptyWorld = (Returned status, w')
    /\ map (fun a => (alert_id a, alert_severity a)) (alerts status)
       = [("USDGB-PEG-1700000000000", HIGH); ("USDca-PEG-1700000000002", HIGH)]
    /\ overall status = risk_maximum (Object_values (categories status)).
Proof. eexists _, _. split; [vm_compute; reflexivity|]. repeat split. Qed.

(* ===================================================================== *)
(** * Part III: further properties of the code                            *)
(* ===================================================================== *)

(** ** The worst level of an arbitrary sequence *)

Section WorstRiskOfSequences.

Import GovernorAgent.

Lemma risk_max_comm a b : risk_max a b = risk_max b a.
Proof. destruct a, b; reflexivity. Qed.

Lemma risk_max_GREEN_r a : risk_max a GREEN = a.
Proof. destruct a; reflexivity. Qed.

Lemma risk_maximum_app l1 l2 :
  risk_maximum (l1 ++ l2) = risk_max (risk_maximum l1) (risk_maximum l2).
Proof.
  induction l1 as [|x l1 IH]; simpl.
  - reflexivity.
  - rewrite IH. apply risk_max_assoc.
Qed.

Lemma risk_maximum_perm l1 l2 :
  Permutation l1 l2 -> risk_maximum l1 = risk_maximum l2.
Proof.
  induction 1 as [|x l1 l2 _ IH|x y l|l1 l2 l3 _ IH1 _ IH2]; simpl.
  - reflexivity.
  - rewrite IH. reflexivity.
  - rewrite !risk_max_assoc, (risk_max_comm y x). reflexivity.
  - congruence.
Qed.

Lemma risk_maximum_RED levels : risk_maximum levels = RED <-> In RED levels.
Proof.
  induction levels as [|x levels IH]; simpl.
  - split; [discriminate|tauto].
  - rewrite <- IH. destruct x, (risk_maximum levels); simpl;
      split; intros H; try discriminate; try reflexivity; auto;
      destruct H as [H|H]; try discriminate; auto.
Qed.

End WorstRiskOfSequences.

(** X1.  [getWorstRisk] on a sequence of any length: the empty sequence
    gives GREEN; the result is at least every element and, for a
    non-empty sequence, is one of its elements; the result of a
    concatenation is the larger of the results of the parts; the order of
    the elements does not matter; and the result is RED exactly when RED
    occurs in the sequence. *)
Theorem getWorstRisk_of_any_sequence :
  GovernorAgent.getWorstRisk [] = GREEN
  /\ (forall levels x,
        In x levels -> risk_le x (GovernorAgent.getWorstRisk levels))
  /\ (forall levels,
        levels <> [] -> In (GovernorAgent.getWorstRisk levels) levels)
  /\ (forall l1 l2,
        GovernorAgent.getWorstRisk (l1 ++ l2)
        = risk_max (GovernorAgent.getWorstRisk l1) (GovernorAgent.getWorstRisk l2))
  /\ (forall l1 l2,
        Permutation l1 l2 ->
        GovernorAgent.getWorstRisk l1 = GovernorAgent.getWorstRisk l2)
  /\ (forall levels,
        GovernorAgent.getWorstRisk levels = RED <-> In RED levels).
Proof.
  split; [reflexivity|].
  split; [intros levels x Hin; rewrite getWorstRisk_maximum;
          apply risk_maximum_ub; exact Hin|].
  split; [intros levels Hne; rewrite getWorstRisk_maximum;
          apply risk_maximum_attained; exact Hne|].
  split; [intros l1 l2; rewrite !getWorstRisk_maximum; apply risk_maximum_app|].
  split; [intros l1 l2 Hp; rewrite !getWorstRisk_maximum;
          apply risk_maximum_perm; exact Hp|].
  intros levels. rewrite getWorstRisk_maximum. apply risk_maximum_RED.
Qed.

Lemma getWorstRisk_of_any_sequence_witness :
  [YELLOW; RED; GREEN] <> []
  /\ In (GovernorAgent.getWorstRisk [YELLOW; RED; GREEN]) [YELLOW; RED; GREEN].
Proof.
  split; [discriminate|].
  apply (proj1 (proj2 (proj2 getWorstRisk_of_any_sequence))).
  intros H; discriminate H.
Defined.

(** ** Readings that are not numbers, and the larger of two deviations *)

Section NaNReadings.

Import GovernorAgent.

Lemma SFcompare_self_not_Lt (x : spec_float) : SFcompare x x <> Some Lt.
Proof.
  intros H. pose proof (SFcompare_antisym x x) as A. rewrite H in A. discriminate.
Qed.

Lemma is_nan_ordered (x : float) : is_nan x = false <-> ordered x.
Proof.
  unfold is_nan, ordered.
  pose proof (SFcompare_self_not_Lt (Prim2SF x)) as N.
  pose proof (fleb_cases x x) as L.
  rewrite FloatAxioms.eqb_spec. unfold SFeqb.
  destruct (SFcompare (Prim2SF x) (Prim2SF x)) as [[]|]; simpl; split; intros H;
    try reflexivity; try discriminate; try congruence;
    try (apply L; auto; fail);
    apply L in H; destruct H; congruence.
Qed.

Lemma unordered_fleb_l x y : ~ ordered x -> (x <=? y)%float = false.
Proof.
  intros N. destruct (x <=? y)%float eqn:E; [|reflexivity].
  destruct (fleb_ordered _ _ E). contradiction.
Qed.

Lemma unordered_fleb_r x y : ~ ordered y -> (x <=? y)%float = false.
Proof.
  intros N. destruct (x <=? y)%float eqn:E; [|reflexivity].
  destruct (fleb_ordered _ _ E). contradiction.
Qed.

Lemma unordered_fltb_l x y : ~ ordered x -> (x <? y)%float = false.
Proof.
  intros N. destruct (x <? y)%float eqn:E; [|reflexivity].
  destruct (fltb_ordered _ _ E). contradiction.
Qed.

Lemma unordered_fltb_r x y : ~ ordered y -> (x <? y)%float = false.
Proof.
  intros N. destruct (x <? y)%float eqn:E; [|reflexivity].
  destruct (fltb_ordered _ _ E). contradiction.
Qed.

Lemma assessPegRisk_unordered d : ~ ordered d -> assessPegRisk d = RED.
Proof.
  intros N. unfold assessPegRisk. rewrite !unordered_fleb_l by exact N. reflexivity.
Qed.

Lemma assessReserveRisk_unordered r : ~ ordered r -> assessReserveRisk r = RED.
Proof.
  intros N. unfold assessReserveRisk. rewrite !unordered_fleb_r by exact N. reflexivity.
Qed.

(** Between ordered values, one of [x <= y] and [y < x] holds. *)
Lemma fleb_or_fltb x y :
  ordered x -> ordered y -> (x <=? y)%float = true \/ (y <? x)%float = true.
Proof.
  intros Hx Hy. destruct (x <=? y)%float eqn:E; [auto|].
  right. apply fleb_false_fltb; assumption.
Qed.

Lemma assessPegRisk_equiv a b :
  (a <=? b)%float = true -> (b <=? a)%float = true ->
  assessPegRisk a = assessPegRisk b.
Proof.
  intros H1 H2. apply risk_le_antisym; apply assessPegRisk_monotone; assumption.
Qed.

Lemma risk_max_le a b : risk_le a b -> risk_max a b = b.
Proof. unfold risk_le, risk_max. intros ->. reflexivity. Qed.

Lemma risk_max_ge a b : risk_le b a -> risk_max a b = a.
Proof. destruct a, b; try reflexivity; discriminate. Qed.

Lemma assessPegRisk_Math_max a b :
  assessPegRisk (Math_max a b) = risk_max (assessPegRisk a) (assessPegRisk b).
Proof.
  unfold Math_max.
  destruct (is_nan a) eqn:Na; simpl.
  { assert (~ ordered a) as N by (rewrite <- is_nan_ordered; congruence).
    rewrite (assessPegRisk_unordered a N).
    destruct (assessPegRisk b); reflexivity. }
  destruct (is_nan b) eqn:Nb; simpl.
  { assert (~ ordered b) as N by (rewrite <- is_nan_ordered; congruence).
    rewrite (assessPegRisk_unordered b N).
    destruct (assessPegRisk a); reflexivity. }
  apply is_nan_ordered in Na, Nb.
  destruct (a <? b)%float eqn:Lab.
  { symmetry. apply risk_max_le, assessPegRisk_monotone, fltb_fleb, Lab. }
  destruct (b <? a)%float eqn:Lba.
  { symmetry. apply risk_max_ge, assessPegRisk_monotone, fltb_fleb, Lba. }
  assert ((a <=? b)%float = true) as Hab.
  { destruct (fleb_or_fltb a b Na Nb); [assumption|congruence]. }
  assert ((b <=? a)%float = true) as Hba.
  { destruct (fleb_or_fltb b a Nb Na); [assumption|congruence]. }
  rewrite <- (assessPegRisk_equiv a b Hab Hba).
  destruct (get_sign a); [rewrite <- (assessPegRisk_equiv a b Hab Hba)|];
    destruct (assessPegRisk a); reflexivity.
Qed.

End NaNReadings.

(** X2.  The peg category of [getRiskStatus] is the worse of the two
    classifications of the stablecoins' own peg deviations:
    [assessPegRisk(Math.max(a, b))] is the larger of [assessPegRisk(a)]
    and [assessPegRisk(b)] for every pair of binary64 values, NaN and the
    infinities included.  So the peg category is RED as soon as either
    deviation alone would be classified RED. *)
Theorem peg_category_is_worse_of_both_deviations :
  (forall a b : float,
      GovernorAgent.assessPegRisk (Math_max a b)
      = risk_max (GovernorAgent.assessPegRisk a) (GovernorAgent.assessPegRisk b))
  /\ (forall marketplaceAgent h w,
        exists rs w',
          GovernorAgent.getRiskStatus marketplaceAgent h w = (Returned rs, w')
          /\ peg (categories rs)
             = risk_max
                 (GovernorAgent.assessPegRisk (Math_abs (usdgbPegPrice h - 1.00)%float))
                 (GovernorAgent.assessPegRisk (Math_abs (usdcaPegPrice h - 1.00)%float))
          /\ risk_le (GovernorAgent.assessPegRisk
                        (Math_abs (usdgbPegPrice h - 1.00)%float)) (overall rs)
          /\ risk_le (GovernorAgent.assessPegRisk
                        (Math_abs (usdcaPegPrice h - 1.00)%float)) (overall rs)).
Proof.
  split; [exact assessPegRisk_Math_max|].
  intros marketplaceAgent h w.
  destruct (getRiskStatus_result marketplaceAgent h w) as (rs & w' & Hr & Hc & Ho).
  exists rs, w'. split; [exact Hr|].
  assert (peg (categories rs)
          = risk_max
              (GovernorAgent.assessPegRisk (Math_abs (usdgbPegPrice h - 1.00)%float))
              (GovernorAgent.assessPegRisk (Math_abs (usdcaPegPrice h - 1.00)%float)))
    as Hp.
  { rewrite Hc. simpl. apply assessPegRisk_Math_max. }
  split; [exact Hp|].
  assert (risk_le (peg (categories rs)) (overall rs)) as Hle.
  { rewrite Ho, getWorstRisk_maximum. apply risk_maximum_ub.
    unfold Object_values. simpl. auto. }
  split; (eapply risk_le_trans; [|exact Hle]); rewrite Hp.
  - apply risk_max_ub_l.
  - apply risk_max_ub_r.
Qed.

(** ** What the alert checks emit, in full *)

Section AlertShapes.

Lemma clockOnly_refl w : clockOnly w w 0.
Proof. unfold clockOnly. rewrite Nat.add_0_r. auto. Qed.

Lemma clockOnly_tick w w' n : clockOnly w w' n -> clockOnly w (tick w') (S n).
Proof.
  unfold clockOnly. intros (T & R & B & Q & C). simpl.
  rewrite T. repeat split; try assumption. lia.
Qed.

Lemma clockOnly_trans w1 w2 w3 n m :
  clockOnly w1 w2 n -> clockOnly w2 w3 m -> clockOnly w1 w3 (n + m).
Proof.
  unfold clockOnly. intros (T1 & R1 & B1 & Q1 & C1) (T2 & R2 & B2 & Q2 & C2).
  repeat split; try congruence. lia.
Qed.

Lemma hasSeverity_existsb sev alerts :
  hasSeverity sev alerts
  <-> existsb (fun a => bool_decide (alert_severity a = sev)) alerts = true.
Proof.
  unfold hasSeverity. rewrite existsb_exists. split.
  - intros (a & Hin & Hs). exists a. split; [exact Hin|].
    apply bool_decide_eq_true. exact Hs.
  - intros (a & Hin & Hs). exists a. split; [exact Hin|].
    apply bool_decide_eq_true in Hs. exact Hs.
Qed.

(** The alerts of a USDGB check, by the outcome of the four comparisons. *)
Lemma USDGB_checkAlerts_shape h w :
  exists alerts w',
    USDGBAgent.checkAlerts h w = (Returned alerts, w')
    /\ clockOnly w w' (2 * length alerts)
    /\ (length alerts <= 2)%nat
    /\ Forall (fun a => isHighPriority a = true /\ alert_acknowledged a = false) alerts
    /\ (match alerts with [] => true | _ => false end
        = negb (goldReserveRatio h <? 1.00)%float
          && negb (0.02 <? Math_abs (usdgbPegPrice h - 1.00))%float)
    /\ existsb (fun a => bool_decide (alert_severity a = CRITICAL)) alerts
       = ((goldReserveRatio h <? 0.98)%float
          || (0.05 <? Math_abs (usdgbPegPrice h - 1.00))%float).
Proof.
  assert (forall x, (x <? 0.98)%float = true -> (x <? 1.00)%float = true) as R.
  { intros x Hx. eapply fltb_fleb_trans; [exact Hx|reflexivity]. }
  assert (forall x, (0.05 <? x)%float = true -> (0.02 <? x)%float = true) as D.
  { intros x Hx. eapply fleb_fltb_trans; [|exact Hx]. reflexivity. }
  unfold USDGBAgent.checkAlerts, USDGBAgent.getGoldReserveRatio,
    USDGBAgent.getPegDeviation, USDGBAgent.getPegPrice.
  unfold_monad. simpl.
  destruct (goldReserveRatio h <? 0.98)%float eqn:R1;
    [rewrite (R _ R1)|destruct (goldReserveRatio h <? 1.00)%float eqn:R2];
    (destruct (0.05 <? Math_abs (usdgbPegPrice h - 1.00))%float eqn:D1;
     [rewrite (D _ D1)
     |destruct (0.02 <? Math_abs (usdgbPegPrice h - 1.00))%float eqn:D2]);
    (eexists _, _; split; [reflexivity|]);
    (split; [unfold clockOnly; simpl; repeat split; lia|]);
    (split; [simpl; lia|]);
    (split; [repeat constructor|]);
    split; reflexivity.
Qed.

(** The alerts of a USDca check, by the outcome of the three comparisons. *)
Lemma USDca_checkAlerts_shape h w :
  exists alerts w',
    USDcaAgent.checkAlerts h w = (Returned alerts, w')
    /\ clockOnly w w' (2 * length alerts)
    /\ (length alerts <= 2)%nat
    /\ Forall (fun a => isHighPriority a = true /\ alert_acknowledged a = false) alerts
    /\ (match alerts with [] => true | _ => false end
        = negb (deltaCollateralization h <? 1.00)%float
          && negb (0.02 <? Math_abs (usdcaPegPrice h - 1.00))%float)
    /\ existsb (fun a => bool_decide (alert_severity a = CRITICAL)) alerts
       = ((deltaCollateralization h <? 1.00)%float
          || (0.05 <? Math_abs (usdcaPegPrice h - 1.00))%float).
Proof.
  assert (forall x, (0.05 <? x)%float = true -> (0.02 <? x)%float = true) as D.
  { intros x Hx. eapply fleb_fltb_trans; [|exact Hx]. reflexivity. }
  unfold USDcaAgent.checkAlerts, USDcaAgent.getDeltaCollateralization,
    USDcaAgent.getPegDeviation, USDcaAgent.getPegPrice.
  unfold_monad. simpl.
  destruct (0.05 <? Math_abs (usdcaPegPrice h - 1.00))%float eqn:D1;
    [rewrite (D _ D1)
    |destruct (0.02 <? Math_abs (usdcaPegPrice h - 1.00))%float eqn:D2];
    destruct (deltaCollateralization h <? 1.00)%float eqn:C1;
    (eexists _, _; split; [reflexivity|]);
    (split; [unfold clockOnly; simpl; repeat split; lia|]);
    (split; [simpl; lia|]);
    (split; [repeat constructor|]);
    split; reflexivity.
Qed.

(** The loop of the marketplace check, from any accumulator. *)
Lemma Marketplace_loop_result h launches :
  forall (acc : M World (list Alert)) w alerts0 w0,
    acc h w = (Returned alerts0, w0) ->
    exists w',
      foldl
        (fun (acc : M World (list Alert)) (entry : string * BondcurveLaunch) =>
           alerts ← acc;
           let launch := snd entry in
           if MarketplaceAgent.nearCompletion launch
           then now_ts ← Date_now;
                mret (alerts ++ [MarketplaceAgent.launchAlert h now_ts launch])
           else mret alerts)
        acc launches h w
      = (Returned
           (alerts0 ++
            launchAlertsFrom h (ticks w0)
              (List.filter MarketplaceAgent.nearCompletion (map snd launches))),
         w')
      /\ clockOnly w0 w'
           (length (List.filter MarketplaceAgent.nearCompletion (map snd launches))).
Proof.
  induction launches as [|entry launches IH]; intros acc w alerts0 w0 Hacc.
  - exists w0. simpl. rewrite app_nil_r. split; [exact Hacc|apply clockOnly_refl].
  - cbn [foldl map List.filter].
    match goal with |- context [foldl _ ?acc' launches h w] =>
      destruct (IH acc' w
                  (alerts0 ++
                   (if MarketplaceAgent.nearCompletion (snd entry)
                    then [MarketplaceAgent.launchAlert h (clock h (ticks w0)) (snd entry)]
                    else []))
                  (if MarketplaceAgent.nearCompletion (snd entry) then tick w0 else w0))
        as (w' & Hw' & Hc)
    end.
    { cbv zeta. unfold_monad. rewrite Hacc.
      destruct (MarketplaceAgent.nearCompletion (snd entry));
        rewrite ?app_nil_r; reflexivity. }
    exists w'.
    destruct (MarketplaceAgent.nearCompletion (snd entry)).
    + split; [rewrite <- app_assoc in Hw'; exact Hw'|].
      unfold clockOnly in *. simpl in *.
      destruct Hc as (T & R & B & Q & C). repeat split; try assumption. lia.
    + rewrite app_nil_r in Hw'. split; [exact Hw'|exact Hc].
Qed.

Lemma Marketplace_checkAlerts_result agent h w :
  exists w',
    MarketplaceAgent.checkAlerts agent h w
    = (Returned (launchAlertsFrom h (ticks w) (launchesNearCompletion agent)), w')
    /\ clockOnly w w' (length (launchesNearCompletion agent)).
Proof.
  unfold MarketplaceAgent.checkAlerts, launchesNearCompletion.
  destruct (Marketplace_loop_result h (MarketplaceAgent.activeLaunches agent)
              (mret []) w [] w eq_refl) as (w' & Hw' & Hc).
  exists w'. split; [|exact Hc].
  unfold mbind, M_bind, bind, ask. exact Hw'.
Qed.

Lemma launchAlertsFrom_length h n launches :
  length (launchAlertsFrom h n launches) = length launches.
Proof.
  revert n. induction launches as [|l ls IH]; intros n; simpl; [reflexivity|].
  rewrite IH. reflexivity.
Qed.

Lemma launchAlertsFrom_low h n launches :
  Forall (fun a => alert_severity a = LOW /\ isHighPriority a = false
                   /\ alert_acknowledged a = false)
         (launchAlertsFrom h n launches).
Proof.
  revert n. induction launches as [|l ls IH]; intros n; simpl; constructor.
  - repeat split.
  - apply IH.
Qed.

Lemma launchAlertsFrom_ids h n launches :
  map alert_id (launchAlertsFrom h n launches)
  = map (fun l => "MARKETPLACE-LAUNCH-" +:+ tokenAddress l) launches.
Proof.
  revert n. induction launches as [|l ls IH]; intros n; simpl; [reflexivity|].
  rewrite IH. reflexivity.
Qed.

Lemma launchAlertsFrom_timestamps h n launches :
  map alert_timestamp (launchAlertsFrom h n launches)
  = map (clock h) (seq n (length launches)).
Proof.
  revert n. induction launches as [|l ls IH]; intros n; simpl; [reflexivity|].
  rewrite IH. reflexivity.
Qed.

Lemma filter_none {A} (f : A -> bool) l :
  Forall (fun a => f a = false) l -> List.filter f l = [].
Proof.
  induction 1 as [|a l Ha _ IH]; simpl; [reflexivity|]. rewrite Ha. exact IH.
Qed.

Lemma filter_all {A} (f : A -> bool) l :
  Forall (fun a => f a = true) l -> List.filter f l = l.
Proof.
  induction 1 as [|a l Ha _ IH]; simpl; [reflexivity|]. rewrite Ha, IH. reflexivity.
Qed.

End AlertShapes.

(** X3.  Whatever the readings are, the alert check of a stablecoin
    agent returns at most two alerts (one per metric), every one of them
    of severity HIGH or CRITICAL (so it passes the escalation filter of
    the report cycle) and not acknowledged; the check reads the clock
    twice per alert (once for the id, once for the timestamp) and touches
    neither the object store, nor the network, nor the console. *)
Theorem stablecoin_alerts_are_few_and_high_priority :
  forall h w,
    (exists alerts w',
        USDGBAgent.checkAlerts h w = (Returned alerts, w')
        /\ (length alerts <= 2)%nat
        /\ Forall (fun a => isHighPriority a = true /\ alert_acknowledged a = false)
                  alerts
        /\ List.filter isHighPriority alerts = alerts
        /\ clockOnly w w' (2 * length alerts))
    /\ (exists alerts w',
          USDcaAgent.checkAlerts h w = (Returned alerts, w')
          /\ (length alerts <= 2)%nat
          /\ Forall (fun a => isHighPriority a = true /\ alert_acknowledged a = false)
                    alerts
          /\ List.filter isHighPriority alerts = alerts
          /\ clockOnly w w' (2 * length alerts)).
Proof.
  intros h w. split.
  - destruct (USDGB_checkAlerts_shape h w) as (alerts & w' & H & Hc & Hl & Hf & _).
    exists alerts, w'. repeat split; try assumption; try apply Hc.
    apply filter_all. eapply List.Forall_impl; [|exact Hf]. intros a [Ha _]. exact Ha.
  - destruct (USDca_checkAlerts_shape h w) as (alerts & w' & H & Hc & Hl & Hf & _).
    exists alerts, w'. repeat split; try assumption; try apply Hc.
    apply filter_all. eapply List.Forall_impl; [|exact Hf]. intros a [Ha _]. exact Ha.
Qed.

(** X4.  The marketplace check returns exactly one alert per launch of
    the map that is ACTIVE with a progress of at least 90, in the order of
    the map, with the token address in its id and successive clock
    readings as timestamps.  Every such alert has severity LOW, so a
    marketplace alert never passes the escalation filter of the report
    cycle; only the clock is read. *)
Theorem marketplace_alerts_are_LOW_one_per_launch :
  forall agent h w,
    exists alerts w',
      MarketplaceAgent.checkAlerts agent h w = (Returned alerts, w')
      /\ length alerts = length (launchesNearCompletion agent)
      /\ map alert_id alerts
         = map (fun l => "MARKETPLACE-LAUNCH-" +:+ tokenAddress l)
               (launchesNearCompletion agent)
      /\ map alert_timestamp alerts
         = map (clock h) (seq (ticks w) (length (launchesNearCompletion agent)))
      /\ Forall (fun a => alert_severity a = LOW /\ alert_acknowledged a = false) alerts
      /\ List.filter isHighPriority alerts = []
      /\ clockOnly w w' (length alerts).
Proof.
  intros agent h w.
  destruct (Marketplace_checkAlerts_result agent h w) as (w' & H & Hc).
  eexists _, w'. split; [exact H|].
  split; [apply launchAlertsFrom_length|].
  split; [apply launchAlertsFrom_ids|].
  split; [apply launchAlertsFrom_timestamps|].
  split.
  { eapply List.Forall_impl; [|apply launchAlertsFrom_low]. simpl. tauto. }
  split.
  { apply filter_none. eapply List.Forall_impl; [|apply launchAlertsFrom_low].
    simpl. tauto. }
  rewrite launchAlertsFrom_length. exact Hc.
Qed.

(** ** The risk status, in full *)

Section RiskStatusInFull.

Import GovernorAgent.

(** [getRiskStatus] runs the three alert checks one after the other and
    reads the clock once more for [lastUpdated]. *)
Lemma getRiskStatus_steps marketplaceAgent h w :
  exists a1 w1 a2 w2 a3 w3,
    USDGBAgent.checkAlerts h w = (Returned a1, w1)
    /\ USDcaAgent.checkAlerts h w1 = (Returned a2, w2)
    /\ MarketplaceAgent.checkAlerts marketplaceAgent h w2 = (Returned a3, w3)
    /\ getRiskStatus marketplaceAgent h w
       = (Returned
            (mkRiskStatus
               (getWorstRisk
                  [assessReserveRisk (goldReserveRatio h);
                   assessPegRisk
                     (Math_max (Math_abs (usdgbPegPrice h - 1.00)%float)
                               (Math_abs (usdcaPegPrice h - 1.00)%float));
                   GREEN; GREEN])
               (mkCategories
                  (assessReserveRisk (goldReserveRatio h))
                  (assessPegRisk
                     (Math_max (Math_abs (usdgbPegPrice h - 1.00)%float)
                               (Math_abs (usdcaPegPrice h - 1.00)%float)))
                  GREEN GREEN)
               (a1 ++ a2 ++ a3)
               (clock h (ticks w3))),
          tick w3).
Proof.
  destruct (USDGB_checkAlerts_returns h w) as (a1 & w1 & H1).
  destruct (USDca_checkAlerts_returns h w1) as (a2 & w2 & H2).
  destruct (Marketplace_checkAlerts_returns marketplaceAgent h w2) as (a3 & w3 & H3).
  exists a1, w1, a2, w2, a3, w3.
  split; [exact H1|]. split; [exact H2|]. split; [exact H3|].
  unfold getRiskStatus.
  unfold USDGBAgent.getGoldReserveRatio, USDcaAgent.getDeltaCollateralization,
    USDGBAgent.getPegDeviation, USDcaAgent.getPegDeviation,
    USDGBAgent.getPegPrice, USDcaAgent.getPegPrice.
  unfold mbind, mret, M_bind, M_ret, bind, ret, ask, Date_now.
  rewrite H1, H2, H3. reflexivity.
Qed.

(** The same for the wrapper of index.ts. *)
Lemma wrapper_generateReport_steps agent marketplaceAgent h w :
  exists a1 w1 a2 w2 a3 w3,
    USDGBAgent.checkAlerts h w = (Returned a1, w1)
    /\ USDcaAgent.checkAlerts h w1 = (Returned a2, w2)
    /\ MarketplaceAgent.checkAlerts marketplaceAgent h w2 = (Returned a3, w3)
    /\ GovernorAgentWrapper.generateReport agent marketplaceAgent h w
       = (Returned
            (mkGovernorAgentReport
               (mkRiskStatus
                  (risk_maximum
                     [assessReserveRisk (goldReserveRatio h);
                      assessPegRisk (Math_abs (usdcaPegPrice h - 1.00)%float);
                      GREEN; GREEN])
                  (mkCategories
                     (assessReserveRisk (goldReserveRatio h))
                     (assessPegRisk (Math_abs (usdcaPegPrice h - 1.00)%float))
                     GREEN GREEN)
                  (a1 ++ a2 ++ a3)
                  (clock h (ticks w3)))
               (GovernorAgentWrapper.messagesVerified agent)
               (GovernorAgentWrapper.emergencyStatus agent)),
          tick w3).
Proof.
  destruct (USDGB_checkAlerts_returns h w) as (a1 & w1 & H1).
  destruct (USDca_checkAlerts_returns h w1) as (a2 & w2 & H2).
  destruct (Marketplace_checkAlerts_returns marketplaceAgent h w2) as (a3 & w3 & H3).
  exists a1, w1, a2, w2, a3, w3.
  split; [exact H1|]. split; [exact H2|]. split; [exact H3|].
  unfold GovernorAgentWrapper.generateReport.
  unfold USDGBAgent.getGoldReserveRatio, USDcaAgent.getPegDeviation,
    USDcaAgent.getPegPrice.
  unfold mbind, mret, M_bind, M_ret, bind, ret, ask, Date_now.
  rewrite H1, H2, H3.
  rewrite <- (risk_maximum_two (assessReserveRisk (goldReserveRatio h))
                (assessPegRisk (Math_abs (usdcaPegPrice h - 1.00)%float))).
  reflexivity.
Qed.

Lemma filter_nonempty_app {A} (f : A -> bool) l1 l2 :
  List.filter f l1 <> [] \/ List.filter f l2 <> [] -> List.filter f (l1 ++ l2) <> [].
Proof.
  rewrite List.filter_app. intros [H|H] E; apply app_eq_nil in E; tauto.
Qed.

Lemma nonempty_by_match {A} (l : list A) :
  match l with [] => true | _ => false end = false -> l <> [].
Proof. destruct l; [discriminate|]. intros _; discriminate. Qed.

Lemma empty_by_match {A} (l : list A) :
  match l with [] => true | _ => false end = true -> l = [].
Proof. destruct l; [reflexivity|discriminate]. Qed.

End RiskStatusInFull.

(** X5.  [getRiskStatus] only reads: it runs the USDGB, the USDca and
    the marketplace alert check in that order and returns their alerts
    concatenated in that order, stamps [lastUpdated] with one more clock
    reading taken after the checks, and touches neither the object
    store, nor the network, nor the console.  It returns at most four
    stablecoin alerts followed by the marketplace alerts. *)
Theorem getRiskStatus_concatenates_alerts_and_only_reads :
  forall marketplaceAgent h w,
    exists a1 w1 a2 w2 a3 w3 rs w',
      USDGBAgent.checkAlerts h w = (Returned a1, w1)
      /\ USDcaAgent.checkAlerts h w1 = (Returned a2, w2)
      /\ MarketplaceAgent.checkAlerts marketplaceAgent h w2 = (Returned a3, w3)
      /\ GovernorAgent.getRiskStatus marketplaceAgent h w = (Returned rs, w')
      /\ alerts rs = a1 ++ a2 ++ a3
      /\ lastUpdated rs = clock h (ticks w3)
      /\ (length (alerts rs) <= 4 + length (launchesNearCompletion marketplaceAgent))%nat
      /\ List.filter isHighPriority (alerts rs) = a1 ++ a2
      /\ clockOnly w w' (2 * length a1 + 2 * length a2 + length a3 + 1).
Proof.
  intros marketplaceAgent h w.
  destruct (getRiskStatus_steps marketplaceAgent h w)
    as (a1 & w1 & a2 & w2 & a3 & w3 & H1 & H2 & H3 & H).
  destruct (USDGB_checkAlerts_shape h w) as (b1 & v1 & G1 & Gc1 & Gl1 & Gf1 & _).
  rewrite H1 in G1. injection G1 as <- <-.
  destruct (USDca_checkAlerts_shape h w1) as (b2 & v2 & G2 & Gc2 & Gl2 & Gf2 & _).
  rewrite H2 in G2. injection G2 as <- <-.
  destruct (Marketplace_checkAlerts_result marketplaceAgent h w2) as (v3 & G3 & Gc3).
  rewrite H3 in G3. injection G3 as -> <-.
  eexists a1, w1, a2, w2, _, w3, _, _.
  split; [exact H1|]. split; [exact H2|]. split; [exact H3|]. split; [exact H|].
  cbn [alerts lastUpdated].
  split; [reflexivity|]. split; [reflexivity|].
  split.
  { rewrite !length_app, launchAlertsFrom_length. lia. }
  split.
  { rewrite !List.filter_app.
    rewrite (filter_all isHighPriority a1), (filter_all isHighPriority a2).
    - rewrite (filter_none isHighPriority (launchAlertsFrom _ _ _)).
      + rewrite app_nil_r. reflexivity.
      + eapply List.Forall_impl; [|apply launchAlertsFrom_low]. simpl. tauto.
    - eapply List.Forall_impl; [|exact Gf2]. simpl. tauto.
    - eapply List.Forall_impl; [|exact Gf1]. simpl. tauto. }
  rewrite launchAlertsFrom_length, Nat.add_1_r.
  apply clockOnly_tick.
  eapply clockOnly_trans; [eapply clockOnly_trans; [exact Gc1|exact Gc2]|exact Gc3].
Qed.

(** X6.  For readings that are numbers, a RED status is never silent:
    whenever the overall status that [GovernorAgent.getRiskStatus]
    returns is RED, its alert list holds an alert of severity HIGH or
    CRITICAL, and the same holds for the report of the wrapper the
    report cycle calls (so the cycle takes its escalation branch). *)
Theorem RED_status_carries_a_high_priority_alert :
  forall marketplaceAgent h w,
    ordered (goldReserveRatio h) ->
    ordered (Math_abs (usdgbPegPrice h - 1.00)%float) ->
    ordered (Math_abs (usdcaPegPrice h - 1.00)%float) ->
    (exists rs w',
        GovernorAgent.getRiskStatus marketplaceAgent h w = (Returned rs, w')
        /\ (overall rs = RED -> List.filter isHighPriority (alerts rs) <> []))
    /\ (forall agent,
          exists report w',
            GovernorAgentWrapper.generateReport agent marketplaceAgent h w
            = (Returned report, w')
            /\ (overall (gov_riskStatus report) = RED ->
                List.filter isHighPriority (alerts (gov_riskStatus report)) <> [])).
Proof.
  intros marketplaceAgent h w Hr Hgb Hca.
  destruct (getRiskStatus_steps marketplaceAgent h w)
    as (a1 & w1 & a2 & w2 & a3 & w3 & H1 & H2 & H3 & H).
  destruct (USDGB_checkAlerts_shape h w) as (b1 & v1 & G1 & _ & _ & Gf1 & Ge1 & _).
  rewrite H1 in G1. injection G1 as <- <-.
  destruct (USDca_checkAlerts_shape h w1) as (b2 & v2 & G2 & _ & _ & Gf2 & Ge2 & _).
  rewrite H2 in G2. injection G2 as <- <-.
  assert (List.filter isHighPriority a1 = a1) as F1.
  { apply filter_all. eapply List.Forall_impl; [|exact Gf1]. simpl. tauto. }
  assert (List.filter isHighPriority a2 = a2) as F2.
  { apply filter_all. eapply List.Forall_impl; [|exact Gf2]. simpl. tauto. }
  assert (GovernorAgent.assessReserveRisk (goldReserveRatio h) = RED -> a1 <> []) as C1.
  { intros E. apply assessReserveRisk_RED in E; [|exact Hr].
    apply nonempty_by_match. rewrite Ge1, E. reflexivity. }
  assert (GovernorAgent.assessPegRisk (Math_abs (usdgbPegPrice h - 1.00)%float) = RED
          -> a1 <> []) as P1.
  { intros E. apply assessPegRisk_RED in E; [|exact Hgb].
    apply nonempty_by_match. rewrite Ge1, E. apply andb_false_r. }
  assert (GovernorAgent.assessPegRisk (Math_abs (usdcaPegPrice h - 1.00)%float) = RED
          -> a2 <> []) as P2.
  { intros E. apply assessPegRisk_RED in E; [|exact Hca].
    apply nonempty_by_match. rewrite Ge2, E. apply andb_false_r. }
  split.
  - eexists _, _. split; [exact H|]. cbn [overall alerts].
    rewrite getWorstRisk_maximum, assessPegRisk_Math_max.
    intros E.
    rewrite List.filter_app, F1, List.filter_app, F2.
    destruct (GovernorAgent.assessReserveRisk (goldReserveRatio h)) eqn:EC;
      try (specialize (C1 eq_refl); destruct a1; [congruence|discriminate]);
      destruct (GovernorAgent.assessPegRisk (Math_abs (usdgbPegPrice h - 1.00)%float))
        eqn:EG;
      try (specialize (P1 eq_refl); destruct a1; [congruence|discriminate]);
      destruct (GovernorAgent.assessPegRisk (Math_abs (usdcaPegPrice h - 1.00)%float))
        eqn:EA;
      try discriminate E;
      specialize (P2 eq_refl); destruct a1, a2; try congruence; discriminate.
  - intros agent.
    destruct (wrapper_generateReport_steps agent marketplaceAgent h w)
      as (c1 & u1 & c2 & u2 & c3 & u3 & K1 & K2 & K3 & K).
    rewrite H1 in K1. injection K1 as <- <-.
    rewrite H2 in K2. injection K2 as <- <-.
    eexists _, _. split; [exact K|]. cbn [overall alerts gov_riskStatus].
    intros E.
    rewrite List.filter_app, F1, List.filter_app, F2.
    destruct (GovernorAgent.assessReserveRisk (goldReserveRatio h)) eqn:EC;
      try (specialize (C1 eq_refl); destruct a1; [congruence|discriminate]);
      destruct (GovernorAgent.assessPegRisk (Math_abs (usdcaPegPrice h - 1.00)%float))
        eqn:EA;
      try discriminate E;
      specialize (P2 eq_refl); destruct a1, a2; try congruence; discriminate.
Qed.

Lemma RED_status_carries_a_high_priority_alert_witness :
  exists rs w',
    GovernorAgent.getRiskStatus MarketplaceAgent.new
      (withMetrics stubHost 0.97 1.00 1.00 1.10) emptyWorld = (Returned rs, w')
    /\ (overall rs = RED -> List.filter isHighPriority (alerts rs) <> []).
Proof.
  apply (RED_status_carries_a_high_priority_alert MarketplaceAgent.new
           (withMetrics stubHost 0.97 1.00 1.00 1.10) emptyWorld);
    reflexivity.
Defined.

(** ** Readings that are not numbers *)

Section SilentNaN.

Import GovernorAgent.

Lemma SFcompare_refl_not_nan (x : spec_float) :
  x <> S754_nan -> SFcompare x x = Some Eq.
Proof.
  destruct x as [sx|sx| |sx mx ex]; simpl; intros N; try congruence;
    try (destruct sx; reflexivity).
  destruct sx; rewrite Z.compare_refl;
    change (Pos.compare_cont Eq mx mx) with (Pos.compare mx mx);
    rewrite Pos.compare_refl; reflexivity.
Qed.

Lemma is_nan_Prim2SF (x : float) : is_nan x = true -> Prim2SF x = S754_nan.
Proof.
  intros H.
  destruct (Prim2SF x) as [sx|sx| |sx mx ex] eqn:E; try reflexivity; exfalso;
    assert (ordered x) as O
      by (apply fleb_cases; right; rewrite E; apply SFcompare_refl_not_nan; discriminate);
    apply is_nan_ordered in O; congruence.
Qed.

Lemma Prim2SF_nan_unordered (x : float) : Prim2SF x = S754_nan -> ~ ordered x.
Proof.
  intros E O. apply fleb_cases in O. rewrite E in O. simpl in O.
  destruct O; discriminate.
Qed.

(** The deviation of a price that is NaN is NaN. *)
Lemma deviation_of_nan (p : float) :
  is_nan p = true -> ~ ordered (Math_abs (p - 1.00)%float).
Proof.
  intros H. apply Prim2SF_nan_unordered.
  unfold Math_abs. rewrite abs_spec, sub_spec, (is_nan_Prim2SF p H). reflexivity.
Qed.

Lemma reserve_test_quiet (r : float) :
  is_nan r = true \/ (1.00 <=? r)%float = true ->
  (r <? 0.98)%float = false /\ (r <? 1.00)%float = false.
Proof.
  intros [N|H].
  - assert (~ ordered r) as U by (rewrite <- is_nan_ordered; congruence).
    split; apply unordered_fltb_l; exact U.
  - split; apply fleb_not_fltb; [|exact H].
    eapply fleb_trans; [|exact H]. reflexivity.
Qed.

Lemma deviation_test_quiet (p : float) :
  is_nan p = true \/ (Math_abs (p - 1.00) <=? 0.02)%float = true ->
  (0.05 <? Math_abs (p - 1.00))%float = false
  /\ (0.02 <? Math_abs (p - 1.00))%float = false.
Proof.
  intros [N|H].
  - pose proof (deviation_of_nan p N) as U.
    split; apply unordered_fltb_r; exact U.
  - split; apply fleb_not_fltb; [|exact H].
    eapply fleb_trans; [exact H|]. reflexivity.
Qed.

Lemma USDGB_checkAlerts_none h w :
  is_nan (goldReserveRatio h) = true \/ (1.00 <=? goldReserveRatio h)%float = true ->
  is_nan (usdgbPegPrice h) = true
  \/ (Math_abs (usdgbPegPrice h - 1.00) <=? 0.02)%float = true ->
  USDGBAgent.checkAlerts h w = (Returned [], w).
Proof.
  intros Hr Hd.
  destruct (reserve_test_quiet _ Hr) as [R1 R2].
  destruct (deviation_test_quiet _ Hd) as [D1 D2].
  unfold USDGBAgent.checkAlerts, USDGBAgent.getGoldReserveRatio,
    USDGBAgent.getPegDeviation, USDGBAgent.getPegPrice.
  unfold_monad. simpl. rewrite R1, R2, D1, D2. reflexivity.
Qed.

Lemma USDca_checkAlerts_none h w :
  is_nan (deltaCollateralization h) = true
  \/ (1.00 <=? deltaCollateralization h)%float = true ->
  is_nan (usdcaPegPrice h) = true
  \/ (Math_abs (usdcaPegPrice h - 1.00) <=? 0.02)%float = true ->
  USDcaAgent.checkAlerts h w = (Returned [], w).
Proof.
  intros Hc Hd.
  destruct (reserve_test_quiet _ Hc) as [_ C1].
  destruct (deviation_test_quiet _ Hd) as [D1 D2].
  unfold USDcaAgent.checkAlerts, USDcaAgent.getDeltaCollateralization,
    USDcaAgent.getPegDeviation, USDcaAgent.getPegPrice.
  unfold_monad. simpl. rewrite C1, D1, D2. reflexivity.
Qed.

End SilentNaN.

(** X7.  A reading that is NaN fails closed in the classification and
    silently in the alerts.  [assessReserveRisk] of NaN and
    [assessPegRisk] of the deviation of a NaN price are RED, but every
    alert test of the token agents is a comparison that NaN fails: an
    agent whose readings are NaN or within the alert thresholds returns
    no alert.  So with a NaN reserve ratio [getRiskStatus] reports an
    overall RED whose alert list holds no HIGH or CRITICAL alert. *)
Theorem NaN_reading_is_RED_without_alert :
  (forall r, is_nan r = true -> GovernorAgent.assessReserveRisk r = RED)
  /\ (forall p,
        is_nan p = true ->
        GovernorAgent.assessPegRisk (Math_abs (p - 1.00)%float) = RED)
  /\ (forall h w,
        is_nan (goldReserveRatio h) = true
        \/ (1.00 <=? goldReserveRatio h)%float = true ->
        is_nan (usdgbPegPrice h) = true
        \/ (Math_abs (usdgbPegPrice h - 1.00) <=? 0.02)%float = true ->
        USDGBAgent.checkAlerts h w = (Returned [], w))
  /\ (forall h w,
        is_nan (deltaCollateralization h) = true
        \/ (1.00 <=? deltaCollateralization h)%float = true ->
        is_nan (usdcaPegPrice h) = true
        \/ (Math_abs (usdcaPegPrice h - 1.00) <=? 0.02)%float = true ->
        USDcaAgent.checkAlerts h w = (Returned [], w))
  /\ (forall marketplaceAgent h w,
        is_nan (goldReserveRatio h) = true ->
        is_nan (usdgbPegPrice h) = true
        \/ (Math_abs (usdgbPegPrice h - 1.00) <=? 0.02)%float = true ->
        is_nan (deltaCollateralization h) = true
        \/ (1.00 <=? deltaCollateralization h)%float = true ->
        is_nan (usdcaPegPrice h) = true
        \/ (Math_abs (usdcaPegPrice h - 1.00) <=? 0.02)%float = true ->
        exists rs w',
          GovernorAgent.getRiskStatus marketplaceAgent h w = (Returned rs, w')
          /\ overall rs = RED
          /\ List.filter isHighPriority (alerts rs) = []).
Proof.
  split.
  { intros r N. apply assessReserveRisk_unordered.
    rewrite <- is_nan_ordered. congruence. }
  split.
  { intros p N. apply assessPegRisk_unordered, deviation_of_nan, N. }
  split; [intros h w; apply USDGB_checkAlerts_none|].
  split; [intros h w; apply USDca_checkAlerts_none|].
  intros marketplaceAgent h w Nr Hgb Hc Hca.
  destruct (getRiskStatus_steps marketplaceAgent h w)
    as (a1 & w1 & a2 & w2 & a3 & w3 & H1 & H2 & H3 & H).
  rewrite (USDGB_checkAlerts_none h w (or_introl Nr) Hgb) in H1.
  injection H1 as <- <-.
  rewrite (USDca_checkAlerts_none h w Hc Hca) in H2.
  injection H2 as <- <-.
  destruct (Marketplace_checkAlerts_result marketplaceAgent h w) as (v3 & G3 & _).
  rewrite H3 in G3. injection G3 as -> <-.
  eexists _, _. split; [exact H|]. cbn [overall alerts]. split.
  - rewrite getWorstRisk_maximum.
    rewrite (assessReserveRisk_unordered (goldReserveRatio h))
      by (rewrite <- is_nan_ordered; congruence).
    apply risk_maximum_RED. simpl. auto.
  - simpl. apply filter_none.
    eapply List.Forall_impl; [|apply launchAlertsFrom_low]. simpl. tauto.
Qed.

Lemma NaN_reading_is_RED_without_alert_witness :
  exists rs w',
    GovernorAgent.getRiskStatus MarketplaceAgent.new nanHost emptyWorld
    = (Returned rs, w')
    /\ overall rs = RED
    /\ List.filter isHighPriority (alerts rs) = [].
Proof.
  apply (proj2 (proj2 (proj2 (proj2 NaN_reading_is_RED_without_alert))));
    try (left; reflexivity); reflexivity.
Defined.

(** X8.  The collateralization of USDca enters no category.  When the
    gold reserve and both peg deviations are in their GREEN bands and the
    delta-neutral collateralization of USDca is below 100%, the status of
    [getRiskStatus] (and of the wrapper's report) is GREEN in every
    category and overall, while its alert list carries the CRITICAL
    undercollateralization alert of the USDca agent. *)
Theorem undercollateralized_USDca_leaves_status_GREEN :
  forall marketplaceAgent h w,
    (1.05 <=? goldReserveRatio h)%float = true ->
    (Math_abs (usdgbPegPrice h - 1.00) <=? 0.005)%float = true ->
    (Math_abs (usdcaPegPrice h - 1.00) <=? 0.005)%float = true ->
    (deltaCollateralization h <? 1.00)%float = true ->
    (exists rs w',
        GovernorAgent.getRiskStatus marketplaceAgent h w = (Returned rs, w')
        /\ categories rs = mkCategories GREEN GREEN GREEN GREEN
        /\ overall rs = GREEN
        /\ hasSeverity CRITICAL (alerts rs)
        /\ List.filter isHighPriority (alerts rs) <> [])
    /\ (forall agent,
          exists report w',
            GovernorAgentWrapper.generateReport agent marketplaceAgent h w
            = (Returned report, w')
            /\ categories (gov_riskStatus report) = mkCategories GREEN GREEN GREEN GREEN
            /\ overall (gov_riskStatus report) = GREEN
            /\ hasSeverity CRITICAL (alerts (gov_riskStatus report))
            /\ List.filter isHighPriority (alerts (gov_riskStatus report)) <> []).
Proof.
  intros marketplaceAgent h w Hr Hgb Hca Hc.
  destruct (getRiskStatus_steps marketplaceAgent h w)
    as (a1 & w1 & a2 & w2 & a3 & w3 & H1 & H2 & H3 & H).
  rewrite (USDGB_checkAlerts_quiet h w Hr Hgb) in H1. injection H1 as <- <-.
  destruct (USDca_checkAlerts_shape h w) as (b2 & v2 & G2 & _ & _ & Gf2 & Ge2 & Gx2).
  rewrite H2 in G2. injection G2 as <- <-.
  rewrite Hc in Gx2. simpl in Gx2.
  assert (hasSeverity CRITICAL a2) as Hcrit by (apply hasSeverity_existsb; exact Gx2).
  assert (List.filter isHighPriority a2 = a2) as F2.
  { apply filter_all. eapply List.Forall_impl; [|exact Gf2]. simpl. tauto. }
  assert (a2 <> []) as Hne.
  { destruct Hcrit as (a & Hin & _). destruct a2; [destruct Hin|discriminate]. }
  assert (GovernorAgent.assessReserveRisk (goldReserveRatio h) = GREEN) as EC
    by (apply assessReserveRisk_GREEN; exact Hr).
  assert (GovernorAgent.assessPegRisk (Math_abs (usdgbPegPrice h - 1.00)%float) = GREEN)
    as EG by (apply assessPegRisk_GREEN; exact Hgb).
  assert (GovernorAgent.assessPegRisk (Math_abs (usdcaPegPrice h - 1.00)%float) = GREEN)
    as EA by (apply assessPegRisk_GREEN; exact Hca).
  split.
  - eexists _, _. split; [exact H|]. cbn [overall alerts categories].
    rewrite assessPegRisk_Math_max, EC, EG, EA.
    split; [reflexivity|]. split; [reflexivity|]. split.
    + simpl. apply hasSeverity_app_l. exact Hcrit.
    + simpl. rewrite List.filter_app, F2. destruct a2; [congruence|discriminate].
  - intros agent.
    destruct (wrapper_generateReport_steps agent marketplaceAgent h w)
      as (c1 & u1 & c2 & u2 & c3 & u3 & K1 & K2 & K3 & K).
    rewrite (USDGB_checkAlerts_quiet h w Hr Hgb) in K1. injection K1 as <- <-.
    rewrite H2 in K2. injection K2 as <- <-.
    eexists _, _. split; [exact K|]. cbn [overall alerts categories gov_riskStatus].
    rewrite EC, EA.
    split; [reflexivity|]. split; [reflexivity|]. split.
    + simpl. apply hasSeverity_app_l. exact Hcrit.
    + simpl. rewrite List.filter_app, F2. destruct a2; [congruence|discriminate].
Qed.

Lemma undercollateralized_USDca_leaves_status_GREEN_witness :
  exists rs w',
    GovernorAgent.getRiskStatus MarketplaceAgent.new
      (withMetrics stubHost 1.05 1.00 1.00 0.95) emptyWorld = (Returned rs, w')
    /\ categories rs = mkCategories GREEN GREEN GREEN GREEN
    /\ overall rs = GREEN
    /\ hasSeverity CRITICAL (alerts rs)
    /\ List.filter isHighPriority (alerts rs) <> [].
Proof.
  apply (undercollateralized_USDca_leaves_status_GREEN MarketplaceAgent.new
           (withMetrics stubHost 1.05 1.00 1.00 0.95) emptyWorld);
    reflexivity.
Defined.

(** ** The 24-hour change and the stored snapshot *)

Section SupplyChange.

Lemma fold_get_not_bigint (props : list (string * Json)) (k : string) :
  forall acc,
    (forall z, acc <> VBigInt z) ->
    forall z,
      fold_left (fun acc kv => if String.eqb (fst kv) k then snd kv else acc)
        (map (fun kv => (fst kv, JSON_parse (snd kv))) props) acc
      <> VBigInt z.
Proof.
  induction props as [|[k' j] props IH]; intros acc Hacc z; simpl.
  - apply Hacc.
  - apply IH. intros z'. destruct (String.eqb k' k); [|apply Hacc].
    destruct j; discriminate.
Qed.

(** A property read on a parsed JSON document is never a bigint. *)
Lemma js_get_JSON_parse_not_bigint (doc : Json) (k : string) (z : Z) :
  js_get (JSON_parse doc) k <> VBigInt z.
Proof.
  destruct doc; simpl; try discriminate.
  apply fold_get_not_bigint. discriminate.
Qed.

Lemma js_get_not_bigint_dayAgo token h w k z :
  js_get (dayAgoSnapshot token h w) k <> VBigInt z.
Proof.
  unfold dayAgoSnapshot.
  destruct (r2Fault h (r2Ops w)); [discriminate|].
  destruct (bucket w !! dayAgoKey token h w);
    [apply js_get_JSON_parse_not_bigint|discriminate].
Qed.

Lemma USDGB_getHistoricalSnapshot_dayAgo h w :
  USDGBAgent.getHistoricalSnapshot (clock h (ticks w) - 24 * 60 * 60 * 1000) h (tick w)
  = (Returned (dayAgoSnapshot USDGB h w), count_r2 (tick w)).
Proof.
  unfold USDGBAgent.getHistoricalSnapshot, dayAgoSnapshot, dayAgoKey, R2_get.
  unfold_monad. cbn [EcosystemToken_name ticks r2Ops bucket tick].
  change ("supply-snapshots/" +:+ "USDGB" +:+ "/"
          +:+ Z_toString (clock h (ticks w) - 24 * 60 * 60 * 1000) +:+ ".json")
    with ("supply-snapshots/USDGB/"
          +:+ Z_toString (clock h (ticks w) - 24 * 60 * 60 * 1000) +:+ ".json").
  destruct (r2Fault h (r2Ops w)); [reflexivity|].
  destruct (bucket w !! _); reflexivity.
Qed.

Lemma USDca_getHistoricalSnapshot_dayAgo h w :
  USDcaAgent.getHistoricalSnapshot (clock h (ticks w) - 24 * 60 * 60 * 1000) h (tick w)
  = (Returned (dayAgoSnapshot USDca h w), count_r2 (tick w)).
Proof.
  unfold USDcaAgent.getHistoricalSnapshot, dayAgoSnapshot, dayAgoKey, R2_get.
  unfold_monad. cbn [EcosystemToken_name ticks r2Ops bucket tick].
  change ("supply-snapshots/" +:+ "USDca" +:+ "/"
          +:+ Z_toString (clock h (ticks w) - 24 * 60 * 60 * 1000) +:+ ".json")
    with ("supply-snapshots/USDca/"
          +:+ Z_toString (clock h (ticks w) - 24 * 60 * 60 * 1000) +:+ ".json").
  destruct (r2Fault h (r2Ops w)); [reflexivity|].
  destruct (bucket w !! _); reflexivity.
Qed.

Lemma USDGB_calculate24hChange_outcome current h w :
  USDGBAgent.calculate24hChange current h w
  = (if js_truthy (dayAgoSnapshot USDGB h w)
     then Thrown (TypeError "Cannot mix BigInt and other types, use explicit conversions")
     else Returned 0,
     count_r2 (tick w)).
Proof.
  unfold USDGBAgent.calculate24hChange.
  unfold mbind, M_bind, bind, Date_now.
  rewrite USDGB_getHistoricalSnapshot_dayAgo.
  destruct (js_truthy (dayAgoSnapshot USDGB h w)); [|reflexivity].
  cbn [negb].
  pose proof (js_get_not_bigint_dayAgo USDGB h w "totalSupply") as N.
  destruct (js_get (dayAgoSnapshot USDGB h w) "totalSupply");
    try reflexivity. exfalso. eapply N. reflexivity.
Qed.

Lemma USDca_calculate24hChange_outcome current h w :
  USDcaAgent.calculate24hChange current h w
  = (if js_truthy (dayAgoSnapshot USDca h w)
     then Thrown (TypeError "Cannot mix BigInt and other types, use explicit conversions")
     else Returned 0,
     count_r2 (tick w)).
Proof.
  unfold USDcaAgent.calculate24hChange.
  unfold mbind, M_bind, bind, Date_now.
  rewrite USDca_getHistoricalSnapshot_dayAgo.
  destruct (js_truthy (dayAgoSnapshot USDca h w)); [|reflexivity].
  cbn [negb].
  pose proof (js_get_not_bigint_dayAgo USDca h w "totalSupply") as N.
  destruct (js_get (dayAgoSnapshot USDca h w) "totalSupply");
    try reflexivity. exfalso. eapply N. reflexivity.
Qed.

End SupplyChange.

(** X9.  [calculate24hChange] never computes a change.  For every
    current supply, clock, store content and store fault, the call of
    either token agent ends in one of two ways: it returns [0n] (no
    document under the key of 24 hours ago, a rejected read, or a
    document that is falsy), or it throws a TypeError (any other stored
    document, since nothing [JSON.parse] returns holds a bigint to
    subtract).  It never returns a non-zero change; it reads the clock
    once and the store once and writes nothing. *)
Theorem calculate24hChange_returns_zero_or_throws :
  forall current h w,
    USDGBAgent.calculate24hChange current h w
    = (if js_truthy (dayAgoSnapshot USDGB h w)
       then Thrown (TypeError "Cannot mix BigInt and other types, use explicit conversions")
       else Returned 0,
       count_r2 (tick w))
    /\ USDcaAgent.calculate24hChange current h w
       = (if js_truthy (dayAgoSnapshot USDca h w)
          then Thrown (TypeError "Cannot mix BigInt and other types, use explicit conversions")
          else Returned 0,
          count_r2 (tick w))
    /\ (forall change w',
          USDGBAgent.calculate24hChange current h w = (Returned change, w')
          \/ USDcaAgent.calculate24hChange current h w = (Returned change, w') ->
          change = 0)
    /\ (forall token doc,
          r2Fault h (r2Ops w) = None ->
          bucket w !! dayAgoKey token h w = Some doc ->
          js_truthy (dayAgoSnapshot token h w) = js_truthy (JSON_parse doc)).
Proof.
  intros current h w.
  split; [apply USDGB_calculate24hChange_outcome|].
  split; [apply USDca_calculate24hChange_outcome|].
  split.
  - intros change w' [H|H].
    + rewrite USDGB_calculate24hChange_outcome in H.
      destruct (js_truthy _); congruence.
    + rewrite USDca_calculate24hChange_outcome in H.
      destruct (js_truthy _); congruence.
  - intros token doc Hok Hdoc. unfold dayAgoSnapshot. rewrite Hok, Hdoc. reflexivity.
Qed.

Lemma calculate24hChange_returns_zero_or_throws_witness :
  USDGBAgent.calculate24hChange 5 stubHost emptyWorld
  = (Returned 0, count_r2 (tick emptyWorld))
  /\ (0 : Z) = 0.
Proof.
  split; [reflexivity|].
  apply (proj1 (proj2 (proj2 (calculate24hChange_returns_zero_or_throws
                                5 stubHost emptyWorld)))
           0 (count_r2 (tick emptyWorld))).
  left. reflexivity.
Defined.

Section StoredSnapshot.

Lemma serialize_snapshot_some (s : SupplySnapshot) :
  exists doc, serializeWithBigInt (SupplySnapshot_toJs s) = Some doc.
Proof. unfold serializeWithBigInt, SupplySnapshot_toJs. simpl. eauto. Qed.

Lemma USDGB_getSupplySnapshot_outcome agent h w :
  let s := mkSupplySnapshot (clock h (S (ticks w))) USDGB
             [mkChainSupply 8453 0 0 0%float] 0 0 in
  USDGBAgent.getSupplySnapshot h (agent, w)
  = if js_truthy (dayAgoSnapshot USDGB h w)
    then (Thrown (TypeError "Cannot mix BigInt and other types, use explicit conversions"),
          (agent, count_r2 (tick w)))
    else match r2Fault h (S (r2Ops w)) with
         | Some e => (Thrown e, (agent, count_r2 (tick (count_r2 (tick w)))))
         | None =>
             (Returned s,
              (USDGBAgent.mk (Some s),
               store (snapshotKey s)
                 (default JNull (serializeWithBigInt (SupplySnapshot_toJs s)))
                 (count_r2 (tick (count_r2 (tick w))))))
         end.
Proof.
  intros s. unfold USDGBAgent.getSupplySnapshot, USDGBAgent.getChainSupply.
  unfold mbind, mret, M_bind, M_ret, bind, ret, liftW. cbn [fst snd fold_left supply].
  rewrite USDGB_calculate24hChange_outcome.
  destruct (js_truthy (dayAgoSnapshot USDGB h w)); [reflexivity|].
  unfold Date_now, USDGBAgent.storeSnapshot, R2_put, set_this.
  cbn -[Z_toString String.append]. fold s.
  destruct (r2Fault h (S (r2Ops w))); reflexivity.
Qed.

Lemma USDca_getSupplySnapshot_outcome agent h w :
  let s := mkSupplySnapshot (clock h (S (ticks w))) USDca
             [mkChainSupply 8453 0 0 0%float] 0 0 in
  USDcaAgent.getSupplySnapshot h (agent, w)
  = if js_truthy (dayAgoSnapshot USDca h w)
    then (Thrown (TypeError "Cannot mix BigInt and other types, use explicit conversions"),
          (agent, count_r2 (tick w)))
    else match r2Fault h (S (r2Ops w)) with
         | Some e => (Thrown e, (agent, count_r2 (tick (count_r2 (tick w)))))
         | None =>
             (Returned s,
              (USDcaAgent.mk (Some s),
               store (snapshotKey s)
                 (default JNull (serializeWithBigInt (SupplySnapshot_toJs s)))
                 (count_r2 (tick (count_r2 (tick w))))))
         end.
Proof.
  intros s. unfold USDcaAgent.getSupplySnapshot, USDcaAgent.getChainSupply.
  unfold mbind, mret, M_bind, M_ret, bind, ret, liftW. cbn [fst snd fold_left supply].
  rewrite USDca_calculate24hChange_outcome.
  destruct (js_truthy (dayAgoSnapshot USDca h w)); [reflexivity|].
  unfold Date_now, USDcaAgent.storeSnapshot, R2_put, set_this.
  cbn -[Z_toString String.append]. fold s.
  destruct (r2Fault h (S (r2Ops w))); reflexivity.
Qed.

End StoredSnapshot.

(** X10.  [USDGBAgent.getSupplySnapshot], for every agent state, clock
    and store.  When it returns, the snapshot carries the second clock
    reading as timestamp and a 24-hour change of zero, the agent keeps
    it as [lastSnapshot], and the store holds its serialization under
    [supply-snapshots/USDGB/<timestamp>.json] and is otherwise unchanged.
    When it throws, the agent's [lastSnapshot] and the store are
    unchanged.  It returns whenever no truthy document sits under the key
    of 24 hours ago and the store accepts the write.  No request is
    issued in either case. *)
Theorem getSupplySnapshot_stores_what_it_returns :
  forall agent h w,
    (forall s agent' w',
        USDGBAgent.getSupplySnapshot h (agent, w) = (Returned s, (agent', w')) ->
        snap_timestamp s = clock h (S (ticks w))
        /\ snap_token s = USDGB
        /\ totalChange24h s = 0
        /\ USDGBAgent.lastSnapshot agent' = Some s
        /\ bucket w' !! snapshotKey s = serializeWithBigInt (SupplySnapshot_toJs s)
        /\ (forall key, key <> snapshotKey s -> bucket w' !! key = bucket w !! key)
        /\ requests w' = requests w)
    /\ (forall e agent' w',
          USDGBAgent.getSupplySnapshot h (agent, w) = (Thrown e, (agent', w')) ->
          agent' = agent /\ bucket w' = bucket w /\ requests w' = requests w)
    /\ (js_truthy (dayAgoSnapshot USDGB h w) = false ->
        r2Fault h (S (r2Ops w)) = None ->
        returns USDGBAgent.getSupplySnapshot h (agent, w)).
Proof.
  intros agent h w.
  pose proof (USDGB_getSupplySnapshot_outcome agent h w) as H. cbv zeta in H.
  split; [|split].
  - intros s agent' w' E. rewrite H in E.
    destruct (js_truthy (dayAgoSnapshot USDGB h w)); [discriminate|].
    destruct (r2Fault h (S (r2Ops w))); [discriminate|].
    injection E as <- <- <-.
    split; [reflexivity|]. split; [reflexivity|]. split; [reflexivity|].
    split; [reflexivity|].
    split; [cbn [bucket store]; rewrite lookup_insert_eq; reflexivity|].
    split; [|reflexivity].
    intros key Hkey. cbn [bucket store count_r2 tick].
    apply lookup_insert_ne. congruence.
  - intros e agent' w' E. rewrite H in E.
    destruct (js_truthy (dayAgoSnapshot USDGB h w)).
    + injection E as <- <- <-. auto.
    + destruct (r2Fault h (S (r2Ops w))); [|discriminate].
      injection E as <- <- <-. auto.
  - intros Hq Hok. unfold returns. rewrite H, Hq, Hok. eauto.
Qed.

Lemma getSupplySnapshot_stores_what_it_returns_witness :
  returns USDGBAgent.getSupplySnapshot stubHost (USDGBAgent.new, emptyWorld).
Proof.
  apply (proj2 (proj2 (getSupplySnapshot_stores_what_it_returns
                         USDGBAgent.new stubHost emptyWorld)));
    reflexivity.
Defined.

(** ** What success of a transport means *)

Section TransportOutcome.

Lemma sendDiscordMessage_outcome env text channelId h w :
  is_set (DISCORD_BOT_TOKEN env) = true ->
  is_set channelId = true ->
  let sentTo :=
    record_request (discordRequest (default "" (DISCORD_BOT_TOKEN env))
                      (default "" channelId) text) w in
  sendDiscordMessage env text channelId h w
  = match nextReply h w with
    | inl e =>
        (Returned (mkSendResult false (VStr (String_of_error e))),
         write_line ERROR ("[Discord] Network Error: " +:+ String_of_error e) sentTo)
    | inr resp =>
        if resp_ok resp
        then (Returned (mkSendResult true VUndefined), sentTo)
        else match resp_text resp with
             | inr body =>
                 (Returned (mkSendResult false
                              (VStr ("HTTP " +:+ Z_toString (resp_status resp) +:+ ": "
                                     +:+ body))),
                  write_line ERROR
                    ("[Discord] API Error (" +:+ Z_toString (resp_status resp)
                     +:+ "): " +:+ body) sentTo)
             | inl e =>
                 (Returned (mkSendResult false (VStr (String_of_error e))),
                  write_line ERROR ("[Discord] Network Error: " +:+ String_of_error e)
                    sentTo)
             end
    end.
Proof.
  intros Ht Hc. cbv zeta. unfold sendDiscordMessage, nextReply. rewrite Ht, Hc.
  cbn [negb]. unfold fetch, Response_text. unfold_monad.
  destruct (fetchReply h (length (requests w))) as [e|resp]; [reflexivity|].
  destruct (resp_ok resp); [reflexivity|].
  destruct (resp_text resp); reflexivity.
Qed.

Lemma sendTelegramMessage_success env text chatId h w :
  is_set (TELEGRAM_BOT_TOKEN env) = true ->
  is_set (targetChatId env chatId) = true ->
  exists r w',
    sendTelegramMessage env text chatId h w = (Returned r, w')
    /\ requests w'
       = requests w ++ [telegramRequest (default "" (TELEGRAM_BOT_TOKEN env))
                          (default "" (targetChatId env chatId)) text]
    /\ success r
       = match nextReply h w with
         | inr resp =>
             match resp_json resp with
             | inr doc => js_truthy (js_get (JSON_parse doc) "ok")
             | inl _ => false
             end
         | inl _ => false
         end
    /\ (success r = true -> error r = VUndefined /\ console w' = console w).
Proof.
  intros Ht Hc. unfold sendTelegramMessage, nextReply, targetChatId in *.
  rewrite Ht, Hc. cbn [negb].
  unfold fetch, Response_json, js_member. unfold_monad.
  destruct (fetchReply h (length (requests w))) as [e|resp].
  { eexists _, _. split; [reflexivity|]. split; [reflexivity|].
    split; [reflexivity|]. discriminate. }
  destruct (resp_json resp) as [e|doc].
  { eexists _, _. split; [reflexivity|]. split; [reflexivity|].
    split; [reflexivity|]. discriminate. }
  destruct doc; cbn [JSON_parse];
    try (eexists _, _; split; [reflexivity|]; split; [reflexivity|];
         split; [reflexivity|]; discriminate).
  destruct (js_truthy (js_get (VObj _) "ok")); cbn [negb];
    eexists _, _; (split; [reflexivity|]); (split; [reflexivity|]);
    (split; [reflexivity|]); [auto|discriminate].
Qed.

End TransportOutcome.

(** X11.  What [success] means for each transport, for every
    environment, message and network behaviour.  Both functions always
    return, and issue at most one request.  [sendDiscordMessage] reports
    success exactly when the bot token and the channel are set, the fetch
    resolves and the response has an ok status.  A failed status whose
    body can be read is reported as [HTTP <status>: <body>]; a failed
    status whose body cannot be read is reported as [String(error)] of
    the error [response.text()] rejects with, as the reading happens
    inside the [try]; a rejected fetch is reported as [String(error)].
    [sendTelegramMessage] reports success exactly when the bot token and
    a chat id are set, the fetch resolves, and [response.json()] gives a
    document whose [ok] property is truthy: the HTTP status is not looked
    at.  A successful send carries no [error] and writes nothing to the
    console. *)
Theorem transport_success_characterised :
  forall env text target h w,
    (exists r w',
        sendDiscordMessage env text target h w = (Returned r, w')
        /\ (success r = true
            <-> is_set (DISCORD_BOT_TOKEN env) = true /\ is_set target = true
                /\ exists resp, nextReply h w = inr resp /\ resp_ok resp = true)
        /\ (success r = true -> error r = VUndefined /\ console w' = console w)
        /\ (success r = false -> exists msg, error r = VStr msg)
        /\ (forall resp body,
              is_set (DISCORD_BOT_TOKEN env) = true -> is_set target = true ->
              nextReply h w = inr resp -> resp_ok resp = false ->
              resp_text resp = inr body ->
              error r = VStr ("HTTP " +:+ Z_toString (resp_status resp) +:+ ": "
                              +:+ body))
        /\ (forall resp e,
              is_set (DISCORD_BOT_TOKEN env) = true -> is_set target = true ->
              nextReply h w = inr resp -> resp_ok resp = false ->
              resp_text resp = inl e ->
              error r = VStr (String_of_error e))
        /\ (forall e,
              is_set (DISCORD_BOT_TOKEN env) = true -> is_set target = true ->
              nextReply h w = inl e -> error r = VStr (String_of_error e))
        /\ (length (requests w') <= S (length (requests w)))%nat)
    /\ (exists r w',
          sendTelegramMessage env text target h w = (Returned r, w')
          /\ (success r = true
              <-> is_set (TELEGRAM_BOT_TOKEN env) = true
                  /\ is_set (targetChatId env target) = true
                  /\ exists resp doc,
                       nextReply h w = inr resp /\ resp_json resp = inr doc
                       /\ js_truthy (js_get (JSON_parse doc) "ok") = true)
          /\ (success r = true -> error r = VUndefined /\ console w' = console w)
          /\ (length (requests w') <= S (length (requests w)))%nat).
Proof.
  intros env text target h w. split.
  - destruct (is_set (DISCORD_BOT_TOKEN env)) eqn:Ht.
    2:{ unfold sendDiscordMessage. rewrite Ht. cbn [negb]. unfold_monad.
        eexists _, _. split; [reflexivity|]. cbn [success error].
        split; [split; [discriminate|intros (? & _); discriminate]|].
        split; [discriminate|]. split; [eauto|].
        split; [discriminate|]. split; [discriminate|].
        split; [discriminate|]. lia. }
    destruct (is_set target) eqn:Hc.
    2:{ unfold sendDiscordMessage. rewrite Ht, Hc. cbn [negb]. unfold_monad.
        eexists _, _. split; [reflexivity|]. cbn [success error].
        split; [split; [discriminate|intros (_ & ? & _); discriminate]|].
        split; [discriminate|]. split; [eauto|].
        split; [discriminate|]. split; [discriminate|].
        split; [discriminate|]. lia. }
    pose proof (sendDiscordMessage_outcome env text target h w Ht Hc) as Hout.
    cbv zeta in Hout. rewrite Hout. clear Hout.
    destruct (nextReply h w) as [e|resp].
    + eexists _, _. split; [reflexivity|]. cbn [success error requests write_line
                                                  record_request].
      split; [split; [discriminate|intros (_ & _ & ? & ? & _); discriminate]|].
      split; [discriminate|]. split; [eauto|].
      split; [discriminate|]. split; [discriminate|].
      split; [intros e' _ _ [= ->]; reflexivity|].
      rewrite length_app. simpl. lia.
    + destruct (resp_ok resp) eqn:Hok.
      * eexists _, _. split; [reflexivity|].
        cbn [success error requests console write_line record_request].
        split; [split; [intros _; eauto 6|reflexivity]|].
        split; [auto|]. split; [discriminate|].
        split; [intros resp' body _ _ [= <-]; congruence|].
        split; [intros resp' e _ _ [= <-]; congruence|].
        split; [discriminate|].
        rewrite length_app. simpl. lia.
      * destruct (resp_text resp) as [e|body] eqn:Htext;
          (eexists _, _; split; [reflexivity|]);
          cbn [success error requests console write_line record_request];
          (split; [split; [discriminate
                          |intros (_ & _ & resp' & [= <-] & ?); congruence]|]);
          (split; [discriminate|]); (split; [eauto|]).
        -- split; [intros resp' body _ _ [= <-] _; congruence|].
           split; [intros resp' e' _ _ [= <-] _ E; congruence|].
           split; [discriminate|].
           rewrite length_app. simpl. lia.
        -- split; [intros resp' body' _ _ [= <-] _ E; congruence|].
           split; [intros resp' e' _ _ [= <-] _; congruence|].
           split; [discriminate|].
           rewrite length_app. simpl. lia.
  - destruct (is_set (TELEGRAM_BOT_TOKEN env)) eqn:Ht.
    2:{ unfold sendTelegramMessage. rewrite Ht. cbn [negb]. unfold_monad.
        eexists _, _. split; [reflexivity|]. cbn [success error].
        split; [split; [discriminate|intros (? & _); discriminate]|].
        split; [discriminate|]. lia. }
    destruct (is_set (targetChatId env target)) eqn:Hc.
    2:{ unfold sendTelegramMessage. unfold targetChatId in Hc.
        rewrite Ht, Hc. cbn [negb]. unfold_monad.
        eexists _, _. split; [reflexivity|].
        cbn [success error requests write_line].
        split; [split; [discriminate|intros (_ & ? & _); discriminate]|].
        split; [discriminate|]. lia. }
    destruct (sendTelegramMessage_success env text target h w Ht Hc)
      as (r & w' & H & Hreq & Hs & Hc').
    exists r, w'. split; [exact H|].
    split.
    { rewrite Hs. split.
      - intros E. split; [reflexivity|]. split; [reflexivity|].
        destruct (nextReply h w) as [e|resp]; [discriminate|].
        destruct (resp_json resp) as [e|doc] eqn:Hj; [discriminate|].
        exists resp, doc. split; [reflexivity|split; [exact Hj|exact E]].
      - intros (_ & _ & resp & doc & -> & -> & E). exact E. }
    split; [exact Hc'|].
    rewrite Hreq, length_app. simpl. lia.
Qed.

(** X11 on a reply with a failed status whose body cannot be read: the
    send reports the error of the reading. *)
Lemma transport_success_characterised_witness :
  exists r w',
    sendDiscordMessage (enabledEnv None None (Some "token") (Some "ops")) "text"
      (Some "ops") unreadableReplyHost emptyWorld = (Returned r, w')
    /\ success r = false
    /\ error r = VStr "TypeError: Body is unusable".
Proof.
  destruct (transport_success_characterised
              (enabledEnv None None (Some "token") (Some "ops")) "text"
              (Some "ops") unreadableReplyHost emptyWorld)
    as [(r & w' & H & Hs & _ & _ & _ & He & _) _].
  exists r, w'. split; [exact H|].
  split.
  - destruct (success r) eqn:E; [|reflexivity].
    destruct (proj1 Hs eq_refl) as (_ & _ & resp & [= <-] & ?). discriminate.
  - apply (He (mkResponse false 502 (inl (TypeError "Body is unusable"))
                 (inl (TypeError "Body is unusable")))
              (TypeError "Body is unusable"));
      reflexivity.
Defined.

(** ** The verified-message counter over a sequence of calls *)

Section VerifiedCounter.

Import GovernorAgent.

Lemma passesGuard_structurallyValid msg :
  passesGuard msg = true <-> structurallyValid msg.
Proof.
  rewrite <- guard_structurallyValid. unfold passesGuard.
  destruct (js_truthy (VStr (guid msg))), (js_truthy (VNum (srcEid msg))),
    (js_truthy (VNum (dstEid msg))); simpl; split; congruence.
Qed.

Lemma verifyMessage_counter msg h s :
  messagesVerified (fst (snd (verifyMessage msg h s)))
  = messagesVerified (fst s) + (if passesGuard msg then 1 else 0).
Proof.
  destruct s as [g w]. unfold verifyMessage, passesGuard.
  destruct (js_truthy (VStr (guid msg))), (js_truthy (VNum (srcEid msg))),
    (js_truthy (VNum (dstEid msg))); cbn [negb orb andb fst snd];
    try (unfold_monad; cbn [fst snd]; lia).
  unfold logMessage, R2_put. unfold_monad.
  cbn -[messageKey Z_toString]. destruct (r2Fault h (r2Ops w)); reflexivity.
Qed.

Lemma prepareEmergencyPause_counter a r h s :
  messagesVerified (fst (snd (prepareEmergencyPause a r h s)))
  = messagesVerified (fst s).
Proof.
  destruct s as [g w].
  destruct (r2Fault h (r2Ops w)) as [e|] eqn:Hput.
  - rewrite (prepareEmergencyPause_rejected _ _ _ _ _ _ Hput). reflexivity.
  - rewrite (prepareEmergencyPause_accepted _ _ _ _ _ Hput). reflexivity.
Qed.

Lemma performCall_counter h s c :
  messagesVerified (fst (performCall h s c))
  = messagesVerified (fst s) + Z.of_nat (length (verifiedIn [c])).
Proof.
  destruct c as [m|msg|a r|m]; simpl.
  - rewrite liftW_object. lia.
  - rewrite verifyMessage_counter. destruct (passesGuard msg); simpl; lia.
  - rewrite prepareEmergencyPause_counter. lia.
  - rewrite generateReport_object. lia.
Qed.

Lemma verifiedIn_cons c calls : verifiedIn (c :: calls) = verifiedIn [c] ++ verifiedIn calls.
Proof. unfold verifiedIn. simpl. rewrite app_nil_r. reflexivity. Qed.

Lemma performCalls_counter h calls :
  forall s,
    messagesVerified (fst (performCalls h s calls))
    = messagesVerified (fst s) + Z.of_nat (length (verifiedIn calls)).
Proof.
  unfold performCalls.
  induction calls as [|c calls IH]; intros s.
  - simpl. lia.
  - cbn [fold_left]. rewrite IH, performCall_counter, (verifiedIn_cons c calls).
    rewrite length_app. lia.
Qed.

End VerifiedCounter.

(** X12.  The counter [messagesVerified] after any sequence of calls of
    the public methods of one governor, on any host: it is its initial
    value plus the number of [verifyMessage] calls whose message passes
    the structural guard, whether or not the store accepted the log
    writes (the counter is incremented before the write is awaited), and
    no other method changes it.  A report generated afterwards shows that
    number as [crossChainMessagesVerified]. *)
Theorem messagesVerified_counts_guarded_messages :
  forall h calls g w,
    GovernorAgent.messagesVerified (fst (performCalls h (g, w) calls))
    = GovernorAgent.messagesVerified g + Z.of_nat (length (verifiedIn calls))
    /\ Forall structurallyValid (verifiedIn calls)
    /\ (forall marketplaceAgent,
          exists report s',
            GovernorAgent.generateReport marketplaceAgent h
              (performCalls h (g, w) calls) = (Returned report, s')
            /\ gov_crossChainMessagesVerified report
               = GovernorAgent.messagesVerified g
                 + Z.of_nat (length (verifiedIn calls))).
Proof.
  intros h calls g w.
  split; [apply (performCalls_counter h calls (g, w))|].
  split.
  { unfold verifiedIn. apply Forall_flat_map. apply Forall_forall.
    intros [m|msg|a r|m] _; try constructor.
    destruct (passesGuard msg) eqn:E; constructor; [|constructor].
    apply passesGuard_structurallyValid. exact E. }
  intros marketplaceAgent.
  pose proof (performCalls_counter h calls (g, w)) as Hc.
  destruct (performCalls h (g, w) calls) as [g' w'].
  destruct (getRiskStatus_result marketplaceAgent h w') as (rs & w'' & Hr & _).
  unfold GovernorAgent.generateReport. unfold_monad. cbn [fst snd] in *.
  rewrite Hr. eexists _, _. split; [reflexivity|]. exact Hc.
Qed.

(** X13.  [verifyMessage] has no memory of the messages it has seen:
    verifying the same structurally valid message a second time returns
    [true] again and counts it again, and the second log write replaces
    the record of the first under the same key (one record, with the
    later [verifiedAt]). *)
Theorem verifyMessage_accepts_a_replayed_message :
  forall msg g h w,
    structurallyValid msg ->
    r2Fault h (r2Ops w) = None ->
    r2Fault h (S (r2Ops w)) = None ->
    exists g1 w1 g2 w2,
      GovernorAgent.verifyMessage msg h (g, w) = (Returned true, (g1, w1))
      /\ GovernorAgent.verifyMessage msg h (g1, w1) = (Returned true, (g2, w2))
      /\ GovernorAgent.messagesVerified g2 = GovernorAgent.messagesVerified g + 2
      /\ bucket w2 = <[GovernorAgent.messageKey msg :=
                         default JNull
                           (serializeWithBigInt
                              (LayerZeroMessage_toJs msg (clock h (S (ticks w)))))]>
                       (bucket w).
Proof.
  intros msg g h w Hv H1 H2.
  eexists _, _, _, _.
  split; [apply verifyMessage_valid; assumption|].
  split; [apply verifyMessage_valid; [assumption|exact H2]|].
  split; [cbn [GovernorAgent.messagesVerified]; lia|].
  cbn [bucket store count_r2 tick ticks]. rewrite insert_insert_eq. reflexivity.
Qed.

Lemma verifyMessage_accepts_a_replayed_message_witness :
  exists g1 w1 g2 w2,
    GovernorAgent.verifyMessage sampleMessage stubHost (GovernorAgent.new, emptyWorld)
    = (Returned true, (g1, w1))
    /\ GovernorAgent.verifyMessage sampleMessage stubHost (g1, w1)
       = (Returned true, (g2, w2))
    /\ GovernorAgent.messagesVerified g2
       = GovernorAgent.messagesVerified GovernorAgent.new + 2
    /\ bucket w2 = <[GovernorAgent.messageKey sampleMessage :=
                       default JNull
                         (serializeWithBigInt
                            (LayerZeroMessage_toJs sampleMessage
                               (clock stubHost (S (ticks emptyWorld)))))]>
                     (bucket emptyWorld).
Proof.
  apply (verifyMessage_accepts_a_replayed_message sampleMessage GovernorAgent.new
           stubHost emptyWorld).
  - repeat split; discriminate.
  - reflexivity.
  - reflexivity.
Defined.

(** ** Stored documents are stable under re-reading *)

Section StableDocuments.

Lemma json_of_float_stable (f : float) :
  stringifyWithBigInt (JSON_parse (json_of_float f)) = Some (json_of_float f).
Proof.
  unfold json_of_float.
  destruct (is_finite_float f) eqn:Hf; [|reflexivity].
  destruct (is_zero f) eqn:Hz; [reflexivity|].
  cbn [JSON_parse stringifyWithBigInt]. unfold json_of_float. rewrite Hf, Hz.
  reflexivity.
Qed.

(** What [serializeWithBigInt] writes is a fixed point of reading and
    writing again. *)
Lemma stringify_stable :
  forall (v : JsValue) (d : Json),
    stringifyWithBigInt v = Some d ->
    stringifyWithBigInt (JSON_parse d) = Some d.
Proof.
  fix IH 1. intros v d. destruct v as [| |b|n|f|z|s|items|props]; simpl.
  - discriminate.
  - intros [= <-]. reflexivity.
  - intros [= <-]. reflexivity.
  - intros [= <-]. reflexivity.
  - intros [= <-]. apply json_of_float_stable.
  - intros [= <-]. reflexivity.
  - intros [= <-]. reflexivity.
  - intros [= <-]. simpl. do 2 f_equal.
    induction items as [|item items IHitems]; simpl; [reflexivity|].
    f_equal; [|exact IHitems].
    destruct (stringifyWithBigInt item) as [di|] eqn:E; simpl.
    + rewrite (IH item di E). reflexivity.
    + reflexivity.
  - intros [= <-]. simpl. do 2 f_equal.
    induction props as [|[k v] props IHprops]; simpl; [reflexivity|].
    destruct (stringifyWithBigInt v) as [dv|] eqn:E; simpl.
    + rewrite (IH v dv E). simpl. f_equal. exact IHprops.
    + exact IHprops.
Qed.

Lemma stringify_none (v : JsValue) :
  stringifyWithBigInt v = None <-> v = VUndefined.
Proof. destruct v; simpl; split; intros H; try discriminate; reflexivity. Qed.

(** Nothing [JSON.parse] returns is [undefined] or holds a bigint at its
    top or directly under a property. *)
Lemma JSON_parse_not_undefined (d : Json) : JSON_parse d <> VUndefined.
Proof. destruct d; discriminate. Qed.

End StableDocuments.

(** X14.  [serializeWithBigInt] returns [undefined] for [undefined]
    only, so every record the agents store has a body; and what it
    writes is stable: reading a written document back with [JSON.parse]
    and serializing the value again gives the same document, for every
    value, although the value read back differs from the original
    wherever it held a bigint (which comes back as a string). *)
Theorem serialized_documents_are_stable :
  (forall v, serializeWithBigInt v = None <-> v = VUndefined)
  /\ (forall v d,
        serializeWithBigInt v = Some d ->
        serializeWithBigInt (JSON_parse d) = Some d)
  /\ (forall z,
        option_map JSON_parse (serializeWithBigInt (VBigInt z)) = Some (VStr (Z_toString z))
        /\ Z_ofString (Z_toString z) = Some z).
Proof.
  split; [exact stringify_none|].
  split; [exact stringify_stable|].
  intros z. split; [reflexivity|apply Z_ofString_toString].
Qed.

Lemma serialized_documents_are_stable_witness :
  serializeWithBigInt
    (JSON_parse (JObj [("totalSupply", JStr "1000000"); ("chains", JArr [JNull])]))
  = Some (JObj [("totalSupply", JStr "1000000"); ("chains", JArr [JNull])]).
Proof.
  apply (proj1 (proj2 serialized_documents_are_stable)
           (VObj [("totalSupply", VBigInt 1000000); ("chains", VArr [VUndefined])])).
  reflexivity.
Defined.

(** ** Where a report cycle leaves the report *)

Section ReportPersisted.

Lemma bind_inv_returned {S A B} (m : M S A) (k : A -> M S B) h s b s' :
  (m ≫= k) h s = (Returned b, s') ->
  exists a s1, m h s = (Returned a, s1) /\ k a h s1 = (Returned b, s').
Proof.
  unfold mbind, M_bind, bind.
  destruct (m h s) as [[a|e] s1]; [eauto|discriminate].
Qed.

Lemma R2_put_returned key body h w u w' :
  R2_put key body h w = (Returned u, w') ->
  exists doc, body = Some doc /\ r2Fault h (r2Ops w) = None
              /\ w' = store key doc (count_r2 w).
Proof.
  unfold R2_put. destruct body as [doc|]; [|discriminate].
  destruct (r2Fault h (r2Ops w)); [discriminate|].
  intros [= _ <-]. eauto.
Qed.

Lemma liftW_returned {O A} (m : M World A) h (s : O * World) a s' :
  liftW m h s = (Returned a, s') ->
  m h (snd s) = (Returned a, snd s') /\ fst s' = fst s.
Proof.
  unfold liftW. destruct (m h (snd s)) as [o w']. intros [= -> <-]. auto.
Qed.

(** A report that [generate4HourReport] returns has been stored under
    its own key. *)
Lemma generate4HourReport_returned c manager h w report s' :
  EcosystemManager.generate4HourReport c h (manager, w) = (Returned report, s') ->
  report_period report = P4h
  /\ bucket (snd s') !! reportKey report
     = serializeWithBigInt (OperationalReport_toJs report).
Proof.
  unfold EcosystemManager.generate4HourReport. intros H.
  apply bind_inv_returned in H as (usdgb & s1 & _ & H).
  apply bind_inv_returned in H as (usdca & s2 & _ & H).
  apply bind_inv_returned in H as (m & s3 & _ & H).
  apply bind_inv_returned in H as (marketplace & s4 & _ & H).
  apply bind_inv_returned in H as (governor & s5 & _ & H).
  apply bind_inv_returned in H as (observer & s6 & _ & H).
  apply bind_inv_returned in H as (h' & s7 & Hask & H).
  apply bind_inv_returned in H as (timestamp & s8 & _ & H).
  cbv zeta in H.
  apply bind_inv_returned in H as (u & s9 & Hstore & H).
  unfold mret, M_ret, ret in H. injection H as <- <-.
  split; [reflexivity|].
  apply liftW_returned in Hstore as [Hstore _].
  unfold EcosystemManager.storeReport in Hstore.
  apply R2_put_returned in Hstore as (doc & Hdoc & _ & ->).
  rewrite Hdoc. cbn [bucket store]. apply lookup_insert_eq.
Qed.

Lemma reportKey_not_latest report : reportKey report <> "reports/latest.json".
Proof.
  unfold reportKey. destruct (report_period report); simpl; discriminate.
Qed.

Lemma withNew_returned {O A} (obj : O) (m : M (O * World) A) h w a w' :
  withNew obj m h w = (Returned a, w') ->
  exists s', m h (obj, w) = (Returned a, s') /\ w' = snd s'.
Proof.
  unfold withNew. destruct (m h (obj, w)) as [o s']. intros [= -> <-]. eauto.
Qed.

Lemma console_log_bucket text h w u w' :
  console_log text h w = (Returned u, w') -> bucket w' = bucket w.
Proof. unfold console_log, modify. intros [= _ <-]. reflexivity. Qed.

End ReportPersisted.

(** X15.  Whenever the body of the [try] block of [handleScheduled]
    completes, for every behaviour of the collaborating agents, store and
    network: a report was generated whose period is "4h", and the store
    holds the same serialized report twice, under
    [reports/4h/<timestamp>.json] and under [reports/latest.json]; the
    steps after the report was generated changed nothing else in the
    store. *)
Theorem completed_cycle_leaves_report_twice :
  forall c env manager h w w2,
    reportCycle c env manager h w = (Returned tt, w2) ->
    exists report w1,
      withNew manager (EcosystemManager.generate4HourReport c) h w
      = (Returned report, w1)
      /\ report_period report = P4h
      /\ bucket w2 !! reportKey report
         = serializeWithBigInt (OperationalReport_toJs report)
      /\ bucket w2 !! "reports/latest.json"
         = serializeWithBigInt (OperationalReport_toJs report)
      /\ (forall key, key <> "reports/latest.json" ->
                      bucket w2 !! key = bucket w1 !! key).
Proof.
  intros c env manager h w w2 H. unfold reportCycle in H.
  apply bind_inv_returned in H as (report & w1 & Hgen & H).
  exists report, w1. split; [exact Hgen|].
  apply withNew_returned in Hgen as (s' & Hgen & ->).
  destruct (generate4HourReport_returned _ _ _ _ _ _ Hgen) as [Hp Hk].
  split; [exact Hp|].
  cbv zeta in H.
  apply bind_inv_returned in H as (u1 & wa & Ha & H).
  apply bind_inv_returned in H as (u2 & wb & Hb & H).
  apply bind_inv_returned in H as (u3 & wc & Hc & H).
  apply bind_inv_returned in H as (u4 & wd & Hd & H).
  apply bind_inv_returned in H as (h' & we & He & H).
  apply bind_inv_returned in H as (u5 & wf & Hf & H).
  apply console_log_bucket in Ha, Hb.
  assert (bucket wc = bucket wb) as Bc.
  { destruct (0 <? _); [apply console_log_bucket in Hc; exact Hc|].
    unfold mret, M_ret, ret in Hc. injection Hc as _ <-. reflexivity. }
  apply R2_put_returned in Hd as (doc & Hdoc & _ & ->).
  unfold ask in He. injection He as <- <-.
  destruct (discord_step env (formatReportSummary h report) h
              (store "reports/latest.json" doc (count_r2 wc)))
    as (wf' & Hf' & S2).
  rewrite Hf' in Hf. injection Hf as _ <-.
  match type of H with
  | (if ?b then _ else _) h wf' = _ =>
      destruct (telegram_step env b
                  ("🚨 **CRITICAL ALERTS DETECTED**
" +:+ mobileFriendlySummary report) h wf') as (w2' & Ht & S3)
  end.
  rewrite Ht in H. injection H as <-.
  destruct S2 as (_ & _ & B2 & _). destruct S3 as (_ & _ & B3 & _).
  assert (bucket w2' = <["reports/latest.json" := doc]> (bucket (snd s'))) as B.
  { rewrite B3, B2. cbn [bucket store count_r2]. rewrite Bc, Hb, Ha. reflexivity. }
  rewrite B, Hdoc. split; [|split].
  - rewrite lookup_insert_ne by (apply not_eq_sym, reportKey_not_latest).
    rewrite Hk, Hdoc. reflexivity.
  - apply lookup_insert_eq.
  - intros key Hkey. apply lookup_insert_ne. congruence.
Qed.

Lemma completed_cycle_leaves_report_twice_witness :
  exists report w2,
    reportCycle quietCollaborators (enabledEnv None None None None)
      EcosystemManager.fresh stubHost emptyWorld = (Returned tt, w2)
    /\ bucket w2 !! reportKey report
       = serializeWithBigInt (OperationalReport_toJs report)
    /\ bucket w2 !! "reports/latest.json"
       = serializeWithBigInt (OperationalReport_toJs report).
Proof.
  eassert (reportCycle quietCollaborators (enabledEnv None None None None)
             EcosystemManager.fresh stubHost emptyWorld = (Returned tt, _)) as H
    by (vm_compute; reflexivity).
  destruct (completed_cycle_leaves_report_twice _ _ _ _ _ _ H)
    as (report & w1 & _ & _ & H1 & H2 & _).
  eexists report, _. split; [exact H|]. split; [exact H1|exact H2].
Defined.

Example sanitize_address :
  sanitizeContent "pay 0x52908400098527886E0F7030069857D2E4169EE7 now"
  = "pay [ADDRESS] now".
Proof. vm_compute. reflexivity. Qed.

(** ** The promoter's [sanitizeContent] *)

Section SanitizeProofs.

Import Stdlib.Strings.Ascii.

Implicit Types s t p r : list ascii.

Lemma matchesHexLiteral_inv n s :
  matchesHexLiteral n s = true ->
  exists rest,
    s = "0"%char :: "x"%char :: rest
    /\ length (firstn n rest) = n
    /\ forallb isHexDigit (firstn n rest) = true.
Proof.
  destruct s as [|c0 [|c1 rest]]; simpl; try discriminate.
  rewrite !andb_true_iff. intros [[[H0 H1] Hl] Hh].
  apply Ascii.eqb_eq in H0, H1. apply Nat.eqb_eq in Hl. subst. eauto.
Qed.

Lemma matchesHexLiteral_head n c s :
  matchesHexLiteral n (c :: s) = true -> c = "0"%char.
Proof.
  intros H. apply matchesHexLiteral_inv in H as (rest & [= -> _] & _). reflexivity.
Qed.

(** Whether a match starts at the head of [s] is decided by the first
    [n + 2] characters. *)
Lemma matchesHexLiteral_prefix n s t :
  firstn (S (S n)) s = firstn (S (S n)) t ->
  matchesHexLiteral n s = matchesHexLiteral n t.
Proof.
  destruct s as [|c0 [|c1 s]], t as [|d0 [|d1 t]]; simpl; intros H;
    try discriminate H; try reflexivity.
  injection H as -> -> H. rewrite H. reflexivity.
Qed.

(** A match contains no opening bracket. *)
Lemma matchesHexLiteral_no_bracket n s :
  matchesHexLiteral n s = true -> ~ In "["%char (firstn (S (S n)) s).
Proof.
  intros H. apply matchesHexLiteral_inv in H as (rest & -> & _ & Hh).
  simpl. intros [E|[E|E]]; try discriminate.
  rewrite forallb_forall in Hh. specialize (Hh _ E). discriminate.
Qed.

Lemma matchesHexLiteral_short n s :
  (length s < S (S n))%nat -> matchesHexLiteral n s = false.
Proof.
  intros Hl. destruct (matchesHexLiteral n s) eqn:E; [|reflexivity].
  apply matchesHexLiteral_inv in E as (rest & -> & Hn & _).
  rewrite length_firstn in Hn. simpl in Hl. lia.
Qed.

(** A match of the longer pattern starts with a match of the shorter. *)
Lemma matchesHexLiteral_shorter n m s :
  (m <= n)%nat -> matchesHexLiteral n s = true -> matchesHexLiteral m s = true.
Proof.
  intros Hle H. apply matchesHexLiteral_inv in H as (rest & -> & Hn & Hh).
  assert (length (firstn m rest) = m) as Hm by (rewrite length_firstn in *; lia).
  assert (forallb isHexDigit (firstn m rest) = true) as Hhm.
  { rewrite forallb_forall in *. intros c Hc. apply Hh.
    rewrite <- (firstn_skipn m (firstn n rest)).
    apply in_or_app. left. rewrite firstn_firstn.
    replace (Nat.min m n) with m by lia. exact Hc. }
  simpl. rewrite Hhm, Hm, Nat.eqb_refl. reflexivity.
Qed.

(** Passing over [k] characters is starting [k] characters later. *)
Lemma replaceHexLiterals_skip n r s :
  forall k, replaceHexLiterals n r k s = replaceHexLiterals n r 0 (skipn k s).
Proof.
  induction s as [|c s IH]; intros [|k]; try reflexivity.
  simpl. apply IH.
Qed.

Lemma replaceHexLiterals_match n r s :
  matchesHexLiteral n s = true ->
  replaceHexLiterals n r 0 s = r ++ replaceHexLiterals n r 0 (skipn (S (S n)) s).
Proof.
  intros H. destruct s as [|c s]; [discriminate|].
  cbn [replaceHexLiterals]. rewrite H, replaceHexLiterals_skip. reflexivity.
Qed.

Lemma replaceHexLiterals_copy n r c s :
  matchesHexLiteral n (c :: s) = false ->
  replaceHexLiterals n r 0 (c :: s) = c :: replaceHexLiterals n r 0 s.
Proof. intros H. cbn [replaceHexLiterals]. rewrite H. reflexivity. Qed.

Lemma literalFree_tail n c s : literalFree n (c :: s) -> literalFree n s.
Proof. intros H i. exact (H (S i)). Qed.

Lemma literalFree_skipn n k s : literalFree n s -> literalFree n (skipn k s).
Proof. intros H i. rewrite skipn_skipn. apply H. Qed.

Lemma literalFree_short n s : (length s < S (S n))%nat -> literalFree n s.
Proof.
  intros Hl i. apply matchesHexLiteral_short. rewrite length_skipn. lia.
Qed.

(** Without a match nothing is replaced. *)
Lemma replaceHexLiterals_id n r s :
  literalFree n s -> replaceHexLiterals n r 0 s = s.
Proof.
  induction s as [|c s IH]; intros H; [reflexivity|].
  rewrite replaceHexLiterals_copy by exact (H 0%nat).
  rewrite IH by exact (literalFree_tail _ _ _ H). reflexivity.
Qed.

Lemma rewrites_refl s : rewrites s s.
Proof. intros j. auto. Qed.

Lemma rewrites_cons c t s : rewrites t s -> rewrites (c :: t) (c :: s).
Proof.
  intros H [|j]; [auto|]. simpl. destruct (H j) as [E|E]; [left; congruence|auto].
Qed.

Lemma rewrites_app p t s : rewrites t s -> rewrites (p ++ t) (p ++ s).
Proof. induction p as [|c p IH]; intros H; [exact H|]. apply rewrites_cons, IH, H. Qed.

Lemma rewrites_bracket r t s : rewrites (("["%char :: r) ++ t) s.
Proof. intros [|j]; [auto|]. right. simpl. auto. Qed.

(** A match in the rewritten text is a match in the original. *)
Lemma rewrites_match n p t s :
  rewrites t s ->
  matchesHexLiteral n (p ++ t) = true -> matchesHexLiteral n (p ++ s) = true.
Proof.
  intros Hr H. rewrite <- H. symmetry. apply matchesHexLiteral_prefix.
  destruct (rewrites_app p t s Hr (S (S n))) as [E|E]; [exact E|].
  exfalso. exact (matchesHexLiteral_no_bracket _ _ H E).
Qed.

Lemma replaceHexLiterals_rewrites n r s :
  rewrites (replaceHexLiterals n ("["%char :: r) 0 s) s.
Proof.
  induction s as [|c s IH]; [apply rewrites_refl|].
  destruct (matchesHexLiteral n (c :: s)) eqn:E.
  - rewrite replaceHexLiterals_match by exact E. apply rewrites_bracket.
  - rewrite replaceHexLiterals_copy by exact E. apply rewrites_cons, IH.
Qed.

(** No match starts inside a replacement that holds no ["0"]. *)
Lemma no_match_in_replacement n r t i :
  ~ In "0"%char r -> (i < length r)%nat ->
  matchesHexLiteral n (skipn i (r ++ t)) = false.
Proof.
  intros H0 Hi. rewrite skipn_app. replace (i - length r)%nat with 0%nat by lia.
  destruct (skipn i r) as [|c u] eqn:E.
  { apply (f_equal (@length _)) in E. rewrite length_skipn in E. simpl in E. lia. }
  change (skipn 0 t) with t.
  destruct (matchesHexLiteral n ((c :: u) ++ t)) eqn:M; [|reflexivity].
  apply matchesHexLiteral_head in M. subst c. exfalso. apply H0.
  rewrite <- (firstn_skipn i r), E. apply in_or_app. right. simpl. auto.
Qed.

(** After the replacement no match is left. *)
Lemma replaceHexLiterals_literalFree n r s :
  ~ In "0"%char ("["%char :: r) ->
  literalFree n (replaceHexLiterals n ("["%char :: r) 0 s).
Proof.
  intros H0.
  assert (forall m s, (length s <= m)%nat ->
                      literalFree n (replaceHexLiterals n ("["%char :: r) 0 s)) as G.
  2:{ apply (G (length s)). lia. }
  clear s. induction m as [|m IH]; intros s Hl.
  { destruct s; [|simpl in Hl; lia]. intros i. destruct i; reflexivity. }
  destruct s as [|c s]; [intros i; destruct i; reflexivity|].
  simpl in Hl.
  destruct (matchesHexLiteral n (c :: s)) eqn:E.
  - rewrite replaceHexLiterals_match by exact E. intros i.
    destruct (Nat.lt_ge_cases i (length ("["%char :: r))) as [Hi|Hi].
    + apply no_match_in_replacement; assumption.
    + rewrite skipn_app, skipn_all2 by exact Hi. simpl app.
      apply IH. rewrite length_skipn. simpl. lia.
  - rewrite replaceHexLiterals_copy by exact E. intros [|i].
    + simpl skipn.
      destruct (matchesHexLiteral n (c :: replaceHexLiterals n ("["%char :: r) 0 s))
        eqn:M; [|reflexivity].
      apply (rewrites_match n [c] _ s (replaceHexLiterals_rewrites n r s)) in M.
      change ([c] ++ s) with (c :: s) in M. congruence.
    + simpl skipn. apply IH. lia.
Qed.

End SanitizeProofs.

Section RedactProofs.

Import Stdlib.Strings.Ascii.

Implicit Types s t p r m : list ascii.

Lemma redactSecrets_skip s :
  forall k, redactSecrets k s = redactSecrets 0 (skipn k s).
Proof.
  induction s as [|c s IH]; intros [|k]; try reflexivity.
  simpl. apply IH.
Qed.

Lemma alnumRun_split s : s = alnumRun s ++ skipn (length (alnumRun s)) s.
Proof.
  induction s as [|c s IH]; [reflexivity|].
  simpl. destruct (isAlnum c); [|reflexivity].
  simpl. f_equal. exact IH.
Qed.

Lemma alnumRun_length s : (length (alnumRun s) <= length s)%nat.
Proof.
  induction s as [|c s IH]; simpl; [lia|].
  destruct (isAlnum c); simpl; lia.
Qed.

Lemma alnumRun_all s : forallb isAlnum (alnumRun s) = true.
Proof.
  induction s as [|c s IH]; [reflexivity|].
  simpl. destruct (isAlnum c) eqn:E; [|reflexivity].
  simpl. rewrite E, IH. reflexivity.
Qed.

(** Behind the run the text ends or goes on with another character. *)
Lemma alnumRun_rest s : alnumRun (skipn (length (alnumRun s)) s) = [].
Proof.
  induction s as [|c s IH]; [reflexivity|].
  simpl. destruct (isAlnum c) eqn:E; simpl; [exact IH|].
  rewrite E. reflexivity.
Qed.

Lemma alnumRun_app m t :
  forallb isAlnum m = true -> alnumRun t = [] -> alnumRun (m ++ t) = m.
Proof.
  induction m as [|c m IH]; simpl; intros Hm Ht; [exact Ht|].
  apply andb_true_iff in Hm as [Hc Hm]. rewrite Hc, IH by assumption. reflexivity.
Qed.

Lemma skipn_run_shorter c s k :
  (32 <= length (alnumRun (c :: s)))%nat -> (S (length s) <= S k)%nat ->
  (length (skipn (length (alnumRun (c :: s))) (c :: s)) <= k)%nat.
Proof.
  intros Hr Hl. rewrite length_skipn.
  remember (length (alnumRun (c :: s))) as l. simpl. lia.
Qed.

Lemma redactSecrets_long s :
  (32 <= length (alnumRun s))%nat ->
  redactSecrets 0 s
  = (if looksLikeSecret (alnumRun s)
     then String.list_ascii_of_string "[REDACTED]"
     else alnumRun s)
    ++ redactSecrets 0 (skipn (length (alnumRun s)) s).
Proof.
  intros Hl. destruct s as [|c s]; [simpl in Hl; lia|].
  cbn [redactSecrets]. cbv zeta.
  apply Nat.leb_le in Hl. rewrite Hl. apply Nat.leb_le in Hl.
  rewrite redactSecrets_skip.
  destruct (length (alnumRun (c :: s))) as [|k] eqn:E; [lia|].
  simpl skipn. rewrite Nat.sub_0_r. reflexivity.
Qed.

Lemma redactSecrets_copy c s :
  (length (alnumRun (c :: s)) < 32)%nat ->
  redactSecrets 0 (c :: s) = c :: redactSecrets 0 s.
Proof.
  intros Hl. cbn [redactSecrets]. cbv zeta.
  apply Nat.leb_gt in Hl. rewrite Hl. reflexivity.
Qed.

Lemma redactSecrets_rewrites s : rewrites (redactSecrets 0 s) s.
Proof.
  assert (forall n s, (length s <= n)%nat -> rewrites (redactSecrets 0 s) s) as G.
  2:{ apply (G (length s)). lia. }
  clear s. induction n as [|n IH]; intros s Hl.
  { destruct s; [apply rewrites_refl|simpl in Hl; lia]. }
  destruct s as [|c s]; [apply rewrites_refl|]. simpl in Hl.
  destruct (Nat.lt_ge_cases (length (alnumRun (c :: s))) 32) as [Hr|Hr].
  - rewrite redactSecrets_copy by exact Hr. apply rewrites_cons, IH. lia.
  - rewrite redactSecrets_long by exact Hr.
    destruct (looksLikeSecret (alnumRun (c :: s))).
    + apply rewrites_bracket.
    + intros j.
      assert (rewrites (redactSecrets 0 (skipn (length (alnumRun (c :: s))) (c :: s)))
                (skipn (length (alnumRun (c :: s))) (c :: s))) as Hrest
        by (apply IH, skipn_run_shorter; assumption).
      pose proof (rewrites_app (alnumRun (c :: s)) _ _ Hrest j) as H.
      rewrite <- alnumRun_split in H. exact H.
Qed.

(** Redaction brings no match of a hex-literal pattern into a text that
    has none. *)
Lemma redactSecrets_literalFree n s :
  literalFree n s -> literalFree n (redactSecrets 0 s).
Proof.
  assert (forall k s, (length s <= k)%nat -> literalFree n s ->
                      literalFree n (redactSecrets 0 s)) as G.
  2:{ apply (G (length s)). lia. }
  clear s. induction k as [|k IH]; intros s Hl Hf.
  { destruct s; [exact Hf|simpl in Hl; lia]. }
  destruct s as [|c s]; [exact Hf|]. simpl in Hl.
  destruct (Nat.lt_ge_cases (length (alnumRun (c :: s))) 32) as [Hr|Hr].
  - rewrite redactSecrets_copy by exact Hr. intros [|i].
    + simpl skipn.
      destruct (matchesHexLiteral n (c :: redactSecrets 0 s)) eqn:M; [|reflexivity].
      apply (rewrites_match n [c] _ s (redactSecrets_rewrites s)) in M.
      change ([c] ++ s) with (c :: s) in M. pose proof (Hf 0%nat) as F.
      simpl skipn in F. congruence.
    + simpl skipn. apply IH; [lia|]. exact (literalFree_tail _ _ _ Hf).
  - rewrite redactSecrets_long by exact Hr.
    assert (literalFree n (redactSecrets 0 (skipn (length (alnumRun (c :: s))) (c :: s))))
      as Hrest.
    { apply IH; [|apply literalFree_skipn, Hf].
      apply skipn_run_shorter; assumption. }
    destruct (looksLikeSecret (alnumRun (c :: s))).
    + intros i.
      destruct (Nat.lt_ge_cases i (length (String.list_ascii_of_string "[REDACTED]")))
        as [Hi|Hi].
      * apply no_match_in_replacement; [|exact Hi].
        simpl. intros [E|[E|[E|[E|[E|[E|[E|[E|[E|[E|[]]]]]]]]]]]; discriminate.
      * rewrite skipn_app, skipn_all2 by exact Hi. simpl app. apply Hrest.
    + set (m := alnumRun (c :: s)) in *.
      set (rest := skipn (length m) (c :: s)) in *.
      assert (c :: s = m ++ rest) as Hs by apply alnumRun_split.
      intros i.
      destruct (Nat.lt_ge_cases i (length m)) as [Hi|Hi].
      * rewrite skipn_app. replace (i - length m)%nat with 0%nat by lia.
        change (skipn 0 (redactSecrets 0 rest)) with (redactSecrets 0 rest).
        destruct (matchesHexLiteral n (skipn i m ++ redactSecrets 0 rest)) eqn:M;
          [|reflexivity].
        apply (rewrites_match n _ _ _ (redactSecrets_rewrites rest)) in M.
        pose proof (Hf i) as F. rewrite Hs, skipn_app in F.
        replace (i - length m)%nat with 0%nat in F by lia.
        change (skipn 0 rest) with rest in F. congruence.
      * rewrite skipn_app, skipn_all2 by exact Hi. simpl app. apply Hrest.
Qed.

(** Where the run at the head of the redacted text ends. *)
Lemma alnumRun_redactSecrets s :
  alnumRun (redactSecrets 0 s)
  = if ((32 <=? length (alnumRun s))%nat && looksLikeSecret (alnumRun s))%bool
    then [] else alnumRun s.
Proof.
  assert (forall k s, (length s <= k)%nat ->
            alnumRun (redactSecrets 0 s)
            = if ((32 <=? length (alnumRun s))%nat && looksLikeSecret (alnumRun s))%bool
              then [] else alnumRun s) as G.
  2:{ apply (G (length s)). lia. }
  clear s. induction k as [|k IH]; intros s Hl.
  { destruct s; [reflexivity|simpl in Hl; lia]. }
  destruct s as [|c s]; [reflexivity|]. simpl in Hl.
  destruct (Nat.lt_ge_cases (length (alnumRun (c :: s))) 32) as [Hr|Hr].
  - rewrite redactSecrets_copy by exact Hr.
    pose proof Hr as Hr'. apply Nat.leb_gt in Hr'. rewrite Hr'. cbn [andb].
    simpl. simpl in Hr. destruct (isAlnum c); [|reflexivity].
    simpl in Hr. rewrite IH by lia.
    assert ((32 <=? length (alnumRun s))%nat = false) as -> by (apply Nat.leb_gt; lia).
    reflexivity.
  - rewrite redactSecrets_long by exact Hr.
    pose proof Hr as Hr'. apply Nat.leb_le in Hr'. rewrite Hr'. cbn [andb].
    destruct (looksLikeSecret (alnumRun (c :: s))); [reflexivity|].
    apply alnumRun_app; [apply alnumRun_all|].
    rewrite IH by (apply skipn_run_shorter; assumption).
    rewrite alnumRun_rest. destruct (_ && _)%bool; reflexivity.
Qed.

(** Redacting what has been redacted changes nothing. *)
Lemma redactSecrets_idempotent s :
  redactSecrets 0 (redactSecrets 0 s) = redactSecrets 0 s.
Proof.
  assert (forall k s, (length s <= k)%nat ->
            redactSecrets 0 (redactSecrets 0 s) = redactSecrets 0 s) as G.
  2:{ apply (G (length s)). lia. }
  clear s. induction k as [|k IH]; intros s Hl.
  { destruct s; [reflexivity|simpl in Hl; lia]. }
  destruct s as [|c s]; [reflexivity|]. simpl in Hl.
  destruct (Nat.lt_ge_cases (length (alnumRun (c :: s))) 32) as [Hr|Hr].
  - rewrite (redactSecrets_copy c s) by exact Hr.
    rewrite redactSecrets_copy.
    + rewrite IH by lia. reflexivity.
    + rewrite <- (redactSecrets_copy c s Hr), alnumRun_redactSecrets.
      destruct (_ && _)%bool; [simpl; lia|exact Hr].
  - rewrite (redactSecrets_long (c :: s)) by exact Hr.
    assert (redactSecrets 0 (redactSecrets 0
              (skipn (length (alnumRun (c :: s))) (c :: s)))
            = redactSecrets 0 (skipn (length (alnumRun (c :: s))) (c :: s))) as Hrest.
    { apply IH, skipn_run_shorter; assumption. }
    assert (alnumRun (redactSecrets 0 (skipn (length (alnumRun (c :: s))) (c :: s))) = [])
      as Hstop.
    { rewrite alnumRun_redactSecrets, alnumRun_rest. reflexivity. }
    destruct (looksLikeSecret (alnumRun (c :: s))) eqn:Hs.
    + (* the replacement is copied: its runs are short *)
      set (t := redactSecrets 0 (skipn (length (alnumRun (c :: s))) (c :: s))) in *.
      cbn [String.list_ascii_of_string app].
      repeat (rewrite redactSecrets_copy by (simpl; lia)).
      rewrite Hrest. reflexivity.
    + set (m := alnumRun (c :: s)) in *.
      set (t := redactSecrets 0 (skipn (length m) (c :: s))) in *.
      assert (alnumRun (m ++ t) = m) as Hm.
      { apply alnumRun_app; [apply alnumRun_all|exact Hstop]. }
      rewrite redactSecrets_long by (rewrite Hm; exact Hr).
      rewrite Hm, Hs, skipn_app, skipn_all, Nat.sub_diag. simpl app.
      change (skipn 0 t) with t. rewrite Hrest. reflexivity.
Qed.

Lemma redactSecrets_short s : (length s < 32)%nat -> redactSecrets 0 s = s.
Proof.
  induction s as [|c s IH]; intros Hl; [reflexivity|].
  rewrite redactSecrets_copy.
  - rewrite IH by (simpl in Hl; lia). reflexivity.
  - pose proof (alnumRun_length (c :: s)). lia.
Qed.

(** The first pattern at the head of a private key. *)
Lemma key_starts_with_address key :
  length key = 64%nat -> forallb isHexDigit key = true ->
  matchesHexLiteral 40 ("0"%char :: "x"%char :: key) = true.
Proof.
  intros Hl Hh.
  assert (forallb isHexDigit (firstn 40 key) = true) as Hf.
  { rewrite forallb_forall in *. intros c Hc. apply Hh.
    rewrite <- (firstn_skipn 40 key). apply in_or_app. auto. }
  assert (length (firstn 40 key) = 40%nat) as Hn by (rewrite length_firstn; lia).
  cbn [matchesHexLiteral]. rewrite Hf, Hn. reflexivity.
Qed.

Lemma sanitize_key key :
  length key = 64%nat -> forallb isHexDigit key = true ->
  redactSecrets 0
    (replaceHexLiterals 64 (String.list_ascii_of_string "[REDACTED]") 0
       (replaceHexLiterals 40 (String.list_ascii_of_string "[ADDRESS]") 0
          ("0"%char :: "x"%char :: key)))
  = String.list_ascii_of_string "[ADDRESS]" ++ skipn 40 key.
Proof.
  intros Hl Hh.
  rewrite (replaceHexLiterals_match 40 _ _ (key_starts_with_address key Hl Hh)).
  change (skipn 42 ("0"%char :: "x"%char :: key)) with (skipn 40 key).
  assert (length (skipn 40 key) = 24%nat) as H24 by (rewrite length_skipn; lia).
  rewrite (replaceHexLiterals_id 40 _ (skipn 40 key))
    by (apply literalFree_short; lia).
  rewrite (replaceHexLiterals_id 64)
    by (apply literalFree_short; rewrite length_app, H24; simpl; lia).
  cbn [String.list_ascii_of_string app].
  repeat (rewrite redactSecrets_copy by (simpl; lia)).
  rewrite redactSecrets_short by lia. reflexivity.
Qed.

End RedactProofs.

Section SanitizeSteps.

(** After the first [replace] no address is left. *)
Lemma address_rule_literalFree s :
  literalFree 40
    (replaceHexLiterals 40 (String.list_ascii_of_string "[ADDRESS]") 0 s).
Proof.
  apply (replaceHexLiterals_literalFree 40 (String.list_ascii_of_string "ADDRESS]")).
  simpl. intros [E|[E|[E|[E|[E|[E|[E|[E|[E|[]]]]]]]]]]; discriminate.
Qed.

(** The second [replace] returns its argument. *)
Lemma private_key_rule_never_fires_aux :
  (forall s,
      replaceHexLiterals 64 (String.list_ascii_of_string "[REDACTED]") 0
        (replaceHexLiterals 40 (String.list_ascii_of_string "[ADDRESS]") 0 s)
      = replaceHexLiterals 40 (String.list_ascii_of_string "[ADDRESS]") 0 s)
  /\ (forall content,
        sanitizeContent content
        = String.string_of_list_ascii
            (redactSecrets 0
               (replaceHexLiterals 40 (String.list_ascii_of_string "[ADDRESS]") 0
                  (String.list_ascii_of_string content)))).
Proof.
  assert (forall s,
      replaceHexLiterals 64 (String.list_ascii_of_string "[REDACTED]") 0
        (replaceHexLiterals 40 (String.list_ascii_of_string "[ADDRESS]") 0 s)
      = replaceHexLiterals 40 (String.list_ascii_of_string "[ADDRESS]") 0 s) as H.
  { intros s. apply replaceHexLiterals_id. intros i.
    destruct (matchesHexLiteral 64 _) eqn:M; [|reflexivity].
    apply (matchesHexLiteral_shorter 64 40) in M; [|lia].
    rewrite address_rule_literalFree in M. discriminate. }
  split; [exact H|].
  intros content. unfold sanitizeContent. cbv zeta. rewrite H. reflexivity.
Qed.

(** No address is left in a sanitized text. *)
Lemma sanitizeContent_literalFree content :
  literalFree 40 (String.list_ascii_of_string (sanitizeContent content)).
Proof.
  rewrite (proj2 private_key_rule_never_fires_aux content).
  rewrite String.list_ascii_of_string_of_list_ascii.
  apply redactSecrets_literalFree, address_rule_literalFree.
Qed.

End SanitizeSteps.

(** X16.  The second rule of [sanitizeContent], the one for private
    keys, never fires.  A text that begins a match of
    [/0x[a-fA-F0-9]{64}/] begins a match of [/0x[a-fA-F0-9]{40}/], and the
    first replacement leaves no match of the latter; so for every text
    the second [replace] returns its argument, and [sanitizeContent] is
    the first rule followed by the third. *)
Theorem private_key_rule_never_fires :
  (forall s,
      replaceHexLiterals 64 (String.list_ascii_of_string "[REDACTED]") 0
        (replaceHexLiterals 40 (String.list_ascii_of_string "[ADDRESS]") 0 s)
      = replaceHexLiterals 40 (String.list_ascii_of_string "[ADDRESS]") 0 s)
  /\ (forall content,
        sanitizeContent content
        = String.string_of_list_ascii
            (redactSecrets 0
               (replaceHexLiterals 40 (String.list_ascii_of_string "[ADDRESS]") 0
                  (String.list_ascii_of_string content)))).
Proof. exact private_key_rule_never_fires_aux. Qed.

(** X17.  What [sanitizeContent] does to a private key.  For every
    sequence of 64 hexadecimal digits, the text ["0x"] followed by the
    digits comes back as ["[ADDRESS]"] followed by the last 24 digits of
    the key: the address rule takes the first 40 digits, and what is left
    is too short for the other two rules. *)
Theorem private_key_keeps_its_last_24_digits :
  forall key : string,
    String.length key = 64%nat ->
    forallb isHexDigit (String.list_ascii_of_string key) = true ->
    sanitizeContent ("0x" +:+ key)
    = "[ADDRESS]"
      +:+ String.string_of_list_ascii (skipn 40 (String.list_ascii_of_string key))
    /\ length (skipn 40 (String.list_ascii_of_string key)) = 24%nat.
Proof.
  intros key Hl Hh.
  assert (length (String.list_ascii_of_string key) = 64%nat) as Hl'.
  { rewrite <- Hl. clear. induction key as [|c key IH]; simpl; congruence. }
  split; [|rewrite length_skipn; lia].
  unfold sanitizeContent. cbv zeta.
  change (String.list_ascii_of_string ("0x" +:+ key))
    with (Ascii.Ascii false false false false true true false false
            :: Ascii.Ascii false false false true true true true false
            :: String.list_ascii_of_string key).
  rewrite (sanitize_key _ Hl' Hh). reflexivity.
Qed.

Lemma private_key_keeps_its_last_24_digits_witness :
  sanitizeContent
    "0x4c0883a69102937d6231471b5dbb6204fe5129617082792ae468d01a3f362318"
  = "[ADDRESS]7082792ae468d01a3f362318".
Proof.
  apply (private_key_keeps_its_last_24_digits
           "4c0883a69102937d6231471b5dbb6204fe5129617082792ae468d01a3f362318");
    reflexivity.
Defined.

(** X18.  No wallet address survives [sanitizeContent]: for every
    content, no position of the result starts a match of
    [/0x[a-fA-F0-9]{40}/] (nor, a fortiori, of the 64-digit pattern). *)
Theorem sanitized_content_holds_no_address :
  forall content,
    ~ containsAddress (String.list_ascii_of_string (sanitizeContent content))
    /\ (forall i,
          matchesHexLiteral 64
            (skipn i (String.list_ascii_of_string (sanitizeContent content)))
          = false).
Proof.
  intros content.
  pose proof (sanitizeContent_literalFree content) as H.
  split.
  - intros [i Hi]. rewrite (H i) in Hi. discriminate.
  - intros i. destruct (matchesHexLiteral 64 _) eqn:M; [|reflexivity].
    apply (matchesHexLiteral_shorter 64 40) in M; [|lia].
    rewrite (H i) in M. discriminate.
Qed.

(** X19.  [sanitizeContent] is idempotent: sanitizing a sanitized text
    returns it unchanged, for every content.  In particular the third
    rule finds nothing left to redact in a sanitized text. *)
Theorem sanitizeContent_is_idempotent :
  forall content,
    sanitizeContent (sanitizeContent content) = sanitizeContent content
    /\ redactSecrets 0 (String.list_ascii_of_string (sanitizeContent content))
       = String.list_ascii_of_string (sanitizeContent content).
Proof.
  intros content.
  pose proof (proj2 private_key_rule_never_fires_aux) as E.
  assert (literalFree 40
            (redactSecrets 0
               (replaceHexLiterals 40 (String.list_ascii_of_string "[ADDRESS]") 0
                  (String.list_ascii_of_string content)))) as H.
  { apply redactSecrets_literalFree, address_rule_literalFree. }
  split.
  - rewrite (E (sanitizeContent content)), (E content).
    rewrite String.list_ascii_of_string_of_list_ascii.
    rewrite (replaceHexLiterals_id 40 _ _ H), redactSecrets_idempotent. reflexivity.
  - rewrite (E content), String.list_ascii_of_string_of_list_ascii.
    apply redactSecrets_idempotent.
Qed.

(** ** The promoter agent: drafts, approval and export *)

Section PromoterProofs.

Import PromoterAgent.

Lemma getDraft_outcome draftId h w :
  getDraft draftId h w = (Returned (storedDraft draftId h w), count_r2 w).
Proof.
  unfold getDraft, storedDraft, draftKey, R2_get. unfold_monad.
  destruct (r2Fault h (r2Ops w)); [reflexivity|].
  destruct (bucket w !! _); reflexivity.
Qed.

(** Nothing [JSON.parse] returns holds a bigint. *)
Lemma JSON_parse_no_bigint : forall d, containsBigInt (JSON_parse d) = false.
Proof.
  fix IH 1. intros d. destruct d as [|b|n|f|s|items|props]; simpl; try reflexivity.
  - induction items as [|item items IHitems]; simpl; [reflexivity|].
    rewrite IH, IHitems. reflexivity.
  - induction props as [|[k v] props IHprops]; simpl; [reflexivity|].
    rewrite IH, IHprops. reflexivity.
Qed.

Lemma storedDraft_no_bigint draftId h w :
  containsBigInt (storedDraft draftId h w) = false.
Proof.
  unfold storedDraft. destruct (r2Fault h (r2Ops w)); [reflexivity|].
  destruct (bucket w !! _); [apply JSON_parse_no_bigint|reflexivity].
Qed.

Lemma setProperty_no_bigint props k x :
  containsBigInt (VObj props) = false -> containsBigInt x = false ->
  containsBigInt (VObj (setProperty props k x)) = false.
Proof.
  simpl. intros Hp Hx. unfold setProperty. destruct (hasOwn props k).
  - induction props as [|[k' v] props IH]; simpl in *; [reflexivity|].
    apply orb_false_iff in Hp as [Hv Hp].
    destruct (String.eqb k' k); simpl; rewrite ?Hx, ?Hv, IH by exact Hp; reflexivity.
  - rewrite existsb_app, Hp. simpl. rewrite Hx. reflexivity.
Qed.

Lemma getp_absent (props : list (string * JsValue)) k acc :
  hasOwn props k = false -> fold_left (fun (acc : JsValue) (kv : string * JsValue) =>
               if String.eqb (fst kv) k then snd kv else acc) props acc = acc.
Proof.
  revert acc. induction props as [|[k' v] props IH]; intros acc H; [reflexivity|].
  simpl in *. apply orb_false_iff in H as [Hk Hp]. rewrite Hk. apply IH, Hp.
Qed.

Lemma getp_repl_other (props : list (string * JsValue)) k x k' acc :
  String.eqb k k' = false ->
  fold_left (fun (acc : JsValue) (kv : string * JsValue) =>
               if String.eqb (fst kv) k' then snd kv else acc)
    (map (fun kv : string * JsValue => if String.eqb (fst kv) k then (k, x) else kv) props) acc
  = fold_left (fun (acc : JsValue) (kv : string * JsValue) =>
               if String.eqb (fst kv) k' then snd kv else acc) props acc.
Proof.
  intros E. revert acc.
  induction props as [|[k1 v] props IH]; intros acc; [reflexivity|].
  simpl. destruct (String.eqb k1 k) eqn:E1; simpl.
  - apply String.eqb_eq in E1. subst k1. rewrite E. apply IH.
  - apply IH.
Qed.

Lemma getp_repl_absent (props : list (string * JsValue)) k x acc :
  hasOwn props k = false -> fold_left (fun (acc : JsValue) (kv : string * JsValue) =>
               if String.eqb (fst kv) k then snd kv else acc)
    (map (fun kv : string * JsValue => if String.eqb (fst kv) k then (k, x) else kv) props) acc = acc.
Proof.
  revert acc. induction props as [|[k1 v] props IH]; intros acc H; [reflexivity|].
  simpl in *. apply orb_false_iff in H as [Hk Hp]. rewrite Hk. simpl. rewrite Hk.
  apply IH, Hp.
Qed.

Lemma getp_repl_same (props : list (string * JsValue)) k x acc :
  hasOwn props k = true -> fold_left (fun (acc : JsValue) (kv : string * JsValue) =>
               if String.eqb (fst kv) k then snd kv else acc)
    (map (fun kv : string * JsValue => if String.eqb (fst kv) k then (k, x) else kv) props) acc = x.
Proof.
  revert acc. induction props as [|[k1 v] props IH]; intros acc H; [discriminate|].
  simpl in *. destruct (String.eqb k1 k) eqn:E1; simpl.
  - rewrite String.eqb_refl. simpl.
    destruct (hasOwn props k) eqn:Hrest; [apply IH; reflexivity|].
    apply getp_repl_absent, Hrest.
  - rewrite E1. apply IH, H.
Qed.

(** Reading a property after an assignment. *)
Lemma js_get_setProperty props k x k' :
  js_get (VObj (setProperty props k x)) k'
  = if String.eqb k k' then x else js_get (VObj props) k'.
Proof.
  unfold setProperty, js_get.
  destruct (hasOwn props k) eqn:Hown.
  - destruct (String.eqb k k') eqn:E.
    + apply String.eqb_eq in E. subst k'. apply getp_repl_same, Hown.
    + apply getp_repl_other, E.
  - rewrite fold_left_app. simpl. destruct (String.eqb k k'); reflexivity.
Qed.

End PromoterProofs.

Section PromoterOutcomes.

Import PromoterAgent.

Lemma hasStatus_object v text :
  hasStatus v text = true ->
  exists props, v = VObj props /\ js_get (VObj props) "status" = VStr text.
Proof.
  unfold hasStatus, strictEqualsString.
  destruct v as [| |b|n|f|z|s|items|props]; try (simpl; discriminate).
  destruct (js_get (VObj props) "status") as [| |b|n|f|z|s|items|props'] eqn:E;
    try discriminate.
  intros H. apply String.eqb_eq in H. subst. exists props. split; [reflexivity|].
  exact E.
Qed.

Lemma hasStatus_set props text :
  hasStatus (VObj (setProperty props "status" (VStr text))) text = true.
Proof.
  unfold hasStatus. rewrite js_get_setProperty. simpl. apply String.eqb_refl.
Qed.

Lemma storeDraft_object props id h w :
  js_get (VObj props) "id" = VStr id ->
  containsBigInt (VObj props) = false ->
  storeDraft (VObj props) h w
  = match r2Fault h (r2Ops w) with
    | Some e => (Thrown e, count_r2 w)
    | None =>
        (Returned tt,
         store (draftKey id) (default JNull (serializeWithBigInt (VObj props)))
           (count_r2 w))
    end.
Proof.
  intros Hid Hb. unfold storeDraft, interpolate, JSON_stringify.
  rewrite Hb. unfold mbind, M_bind, bind. rewrite Hid. cbn [js_ToString].
  unfold mret, M_ret, ret, R2_put, serializeWithBigInt, draftKey.
  cbn [stringifyWithBigInt default].
  destruct (r2Fault h (r2Ops w)); reflexivity.
Qed.

Lemma approveContent_refused draftId approvedBy h w :
  hasStatus (storedDraft draftId h w) "PENDING_APPROVAL" = false ->
  approveContent draftId approvedBy h w = (Returned VNull, count_r2 w).
Proof.
  intros H. unfold approveContent.
  rewrite (bind_returned _ _ _ _ _ _ (getDraft_outcome draftId h w)).
  unfold hasStatus in H. rewrite H, orb_true_r. reflexivity.
Qed.

Lemma rejectContent_refused draftId h w :
  hasStatus (storedDraft draftId h w) "PENDING_APPROVAL" = false ->
  rejectContent draftId h w = (Returned VNull, count_r2 w).
Proof.
  intros H. unfold rejectContent.
  rewrite (bind_returned _ _ _ _ _ _ (getDraft_outcome draftId h w)).
  unfold hasStatus in H. rewrite H, orb_true_r. reflexivity.
Qed.

Lemma approveContent_accepted draftId approvedBy props id h w :
  storedDraft draftId h w = VObj props ->
  js_get (VObj props) "status" = VStr "PENDING_APPROVAL" ->
  js_get (VObj props) "id" = VStr id ->
  let draft :=
    VObj (setProperty
            (setProperty (setProperty props "status" (VStr "APPROVED"))
               "approvedBy" (VStr approvedBy))
            "approvedAt" (VNum (clock h (ticks w)))) in
  approveContent draftId approvedBy h w
  = match r2Fault h (S (r2Ops w)) with
    | Some e => (Thrown e, count_r2 (tick (count_r2 w)))
    | None =>
        (Returned draft,
         store (draftKey id) (default JNull (serializeWithBigInt draft))
           (count_r2 (tick (count_r2 w))))
    end.
Proof.
  intros Hd Hs Hid draft. unfold approveContent.
  rewrite (bind_returned _ _ _ _ _ _ (getDraft_outcome draftId h w)).
  rewrite Hd, Hs. cbn [js_truthy negb strictEqualsString orb].
  rewrite String.eqb_refl. cbn [negb].
  assert (js_get draft "id" = VStr id) as Hid'.
  { unfold draft. rewrite !js_get_setProperty. simpl. exact Hid. }
  assert (containsBigInt draft = false) as Hb.
  { unfold draft. repeat apply setProperty_no_bigint; try reflexivity.
    rewrite <- Hd. apply storedDraft_no_bigint. }
  pose proof (storeDraft_object _ id h (tick (count_r2 w)) Hid' Hb) as Hstore.
  unfold js_set, Date_now. unfold mbind, mret, M_bind, M_ret, bind, ret.
  cbn [ticks count_r2 r2Ops tick] in *. unfold draft in *.
  rewrite Hstore.
  destruct (r2Fault h (S (r2Ops w))); reflexivity.
Qed.

Lemma rejectContent_accepted draftId props id h w :
  storedDraft draftId h w = VObj props ->
  js_get (VObj props) "status" = VStr "PENDING_APPROVAL" ->
  js_get (VObj props) "id" = VStr id ->
  let draft := VObj (setProperty props "status" (VStr "REJECTED")) in
  rejectContent draftId h w
  = match r2Fault h (S (r2Ops w)) with
    | Some e => (Thrown e, count_r2 (count_r2 w))
    | None =>
        (Returned draft,
         store (draftKey id) (default JNull (serializeWithBigInt draft))
           (count_r2 (count_r2 w)))
    end.
Proof.
  intros Hd Hs Hid draft. unfold rejectContent.
  rewrite (bind_returned _ _ _ _ _ _ (getDraft_outcome draftId h w)).
  rewrite Hd, Hs. cbn [js_truthy negb strictEqualsString orb].
  rewrite String.eqb_refl. cbn [negb].
  assert (js_get draft "id" = VStr id) as Hid'.
  { unfold draft. rewrite !js_get_setProperty. simpl. exact Hid. }
  assert (containsBigInt draft = false) as Hb.
  { unfold draft. repeat apply setProperty_no_bigint; try reflexivity.
    rewrite <- Hd. apply storedDraft_no_bigint. }
  pose proof (storeDraft_object _ id h (count_r2 w) Hid' Hb) as Hstore.
  unfold js_set. unfold mbind, mret, M_bind, M_ret, bind, ret.
  cbn [ticks count_r2 r2Ops tick] in *. unfold draft in *.
  rewrite Hstore.
  destruct (r2Fault h (S (r2Ops w))); reflexivity.
Qed.

End PromoterOutcomes.

(** X20.  Only a draft that awaits approval can be approved or
    rejected.  For every draft id, reviewer, clock and store:
    when what [getDraft] finds is not an object whose [status] is the
    string PENDING_APPROVAL (no document, a rejected read, any other
    status), [approveContent] and [rejectContent] return [null] and
    write nothing; when it is, and the store accepts the write,
    [approveContent] returns the draft with [status] APPROVED, the
    reviewer as [approvedBy] and the clock reading as [approvedAt], every
    other property unchanged, and stores it under [drafts/<id>.json] for
    the [id] the draft itself carries; [rejectContent] does the same with
    [status] REJECTED.  Neither issues a request. *)
Theorem approval_needs_a_pending_draft :
  forall draftId approvedBy h w,
    (hasStatus (storedDraft draftId h w) "PENDING_APPROVAL" = false ->
     PromoterAgent.approveContent draftId approvedBy h w = (Returned VNull, count_r2 w)
     /\ PromoterAgent.rejectContent draftId h w = (Returned VNull, count_r2 w))
    /\ (forall id,
          hasStatus (storedDraft draftId h w) "PENDING_APPROVAL" = true ->
          js_get (storedDraft draftId h w) "id" = VStr id ->
          r2Fault h (S (r2Ops w)) = None ->
          (exists draft w',
              PromoterAgent.approveContent draftId approvedBy h w = (Returned draft, w')
              /\ hasStatus draft "APPROVED" = true
              /\ js_get draft "approvedBy" = VStr approvedBy
              /\ js_get draft "approvedAt" = VNum (clock h (ticks w))
              /\ (forall k, k <> "status" -> k <> "approvedBy" -> k <> "approvedAt" ->
                            js_get draft k = js_get (storedDraft draftId h w) k)
              /\ bucket w' = <[draftKey id := default JNull (serializeWithBigInt draft)]>
                               (bucket w)
              /\ requests w' = requests w)
          /\ (exists draft w',
                PromoterAgent.rejectContent draftId h w = (Returned draft, w')
                /\ hasStatus draft "REJECTED" = true
                /\ (forall k, k <> "status" ->
                              js_get draft k = js_get (storedDraft draftId h w) k)
                /\ bucket w' = <[draftKey id := default JNull (serializeWithBigInt draft)]>
                                 (bucket w)
                /\ requests w' = requests w)).
Proof.
  intros draftId approvedBy h w. split.
  { intros H. split;
      [apply approveContent_refused|apply rejectContent_refused]; exact H. }
  intros id Hs Hid Hput.
  apply hasStatus_object in Hs as (props & Hd & Hs).
  rewrite Hd in Hid. split.
  - pose proof (approveContent_accepted draftId approvedBy props id h w Hd Hs Hid) as H.
    cbv zeta in H. rewrite Hput in H.
    eexists _, _. split; [exact H|].
    split; [unfold hasStatus; rewrite !js_get_setProperty; reflexivity|].
    split; [rewrite !js_get_setProperty; reflexivity|].
    split; [rewrite !js_get_setProperty; reflexivity|].
    split.
    { intros k K1 K2 K3. rewrite Hd, !js_get_setProperty.
      apply not_eq_sym in K1, K2, K3. apply String.eqb_neq in K1, K2, K3.
      rewrite K1, K2, K3. reflexivity. }
    split; reflexivity.
  - pose proof (rejectContent_accepted draftId props id h w Hd Hs Hid) as H.
    cbv zeta in H. rewrite Hput in H.
    eexists _, _. split; [exact H|].
    split; [unfold hasStatus; rewrite !js_get_setProperty; reflexivity|].
    split.
    { intros k K1. rewrite Hd, !js_get_setProperty.
      apply not_eq_sym in K1. apply String.eqb_neq in K1.
      rewrite K1. reflexivity. }
    split; reflexivity.
Qed.

Lemma approval_needs_a_pending_draft_witness :
  (exists draft w',
      PromoterAgent.approveContent "PROMO-1700000000000" "chief" stubHost
        (worldWithDraft "PENDING_APPROVAL") = (Returned draft, w')
      /\ hasStatus draft "APPROVED" = true)
  /\ PromoterAgent.approveContent "PROMO-1700000000000" "chief" stubHost
       (worldWithDraft "REJECTED")
     = (Returned VNull, count_r2 (worldWithDraft "REJECTED")).
Proof.
  split.
  - destruct (proj2 (approval_needs_a_pending_draft "PROMO-1700000000000" "chief"
                       stubHost (worldWithDraft "PENDING_APPROVAL"))
                "PROMO-1700000000000" eq_refl eq_refl eq_refl)
      as [(draft & w' & H & Hs & _) _].
    exists draft, w'. split; assumption.
  - apply (proj1 (approval_needs_a_pending_draft "PROMO-1700000000000" "chief"
                    stubHost (worldWithDraft "REJECTED"))).
    reflexivity.
Defined.

Section PromoterExport.

Import PromoterAgent.

Lemma requestExport_disallowed agent draftId destination h w :
  Array_includes (allowedExports agent) destination = false ->
  requestExport agent draftId destination h w
  = (Returned VNull,
     write_line ERROR ("Export to " +:+ destination +:+ " not allowed") w).
Proof. intros H. unfold requestExport. rewrite H. reflexivity. Qed.

Lemma requestExport_refused agent draftId destination h w :
  Array_includes (allowedExports agent) destination = true ->
  hasStatus (storedDraft draftId h w) "APPROVED" = false ->
  requestExport agent draftId destination h w = (Returned VNull, count_r2 w).
Proof.
  intros Ha H. unfold requestExport. rewrite Ha. cbn [negb].
  rewrite (bind_returned _ _ _ _ _ _ (getDraft_outcome draftId h w)).
  unfold hasStatus in H. rewrite H, orb_true_r. reflexivity.
Qed.

Lemma requestExport_accepted agent draftId destination h w :
  Array_includes (allowedExports agent) destination = true ->
  hasStatus (storedDraft draftId h w) "APPROVED" = true ->
  let request :=
    VObj [("id", VStr ("EXPORT-" +:+ Z_toString (clock h (ticks w))));
          ("destination", VStr destination);
          ("content", storedDraft draftId h w);
          ("status", VStr "PENDING");
          ("createdAt", VNum (clock h (S (ticks w))))] in
  requestExport agent draftId destination h w
  = match r2Fault h (S (r2Ops w)) with
    | Some e => (Thrown e, count_r2 (tick (tick (count_r2 w))))
    | None =>
        (Returned request,
         store ("exports/pending/" +:+ "EXPORT-"
                +:+ Z_toString (clock h (ticks w)) +:+ ".json")
           (default JNull (serializeWithBigInt request))
           (count_r2 (tick (tick (count_r2 w)))))
    end.
Proof.
  intros Ha Hs request. unfold requestExport. rewrite Ha. cbn [negb].
  rewrite (bind_returned _ _ _ _ _ _ (getDraft_outcome draftId h w)).
  assert (js_truthy (storedDraft draftId h w) = true) as Ht.
  { apply hasStatus_object in Hs as (props & -> & _). reflexivity. }
  unfold hasStatus in Hs. rewrite Hs, Ht. cbn [negb orb].
  assert (containsBigInt request = false) as Hb.
  { unfold request. cbn [containsBigInt existsb snd].
    rewrite storedDraft_no_bigint. reflexivity. }
  unfold Date_now, JSON_stringify, R2_put.
  unfold mbind, mret, M_bind, M_ret, bind, ret.
  cbn [ticks count_r2 r2Ops tick]. fold request. rewrite Hb.
  unfold serializeWithBigInt. unfold request at 1 2. cbn [stringifyWithBigInt].
  cbn [ticks count_r2 r2Ops tick].
  destruct (r2Fault h (S (r2Ops w))); reflexivity.
Qed.

End PromoterExport.

(** X21.  An export request needs an allowed destination and an approved
    draft.  For every agent, draft id, destination, clock and store:
    when the destination is not among [allowedExports], or what
    [getDraft] finds is not an object whose [status] is the string
    APPROVED, [requestExport] returns [null] and writes nothing to the
    store; when both hold and the store accepts the write, it returns a
    request with [status] PENDING that carries the draft as [content],
    stored under [exports/pending/EXPORT-<now>.json].  In no case does it
    issue a request to the network: the export itself is left to others. *)
Theorem export_needs_approval_and_an_allowed_destination :
  forall agent draftId destination h w,
    (Array_includes (PromoterAgent.allowedExports agent) destination = false
     \/ hasStatus (storedDraft draftId h w) "APPROVED" = false ->
     exists w',
       PromoterAgent.requestExport agent draftId destination h w = (Returned VNull, w')
       /\ bucket w' = bucket w /\ requests w' = requests w)
    /\ (Array_includes (PromoterAgent.allowedExports agent) destination = true ->
        hasStatus (storedDraft draftId h w) "APPROVED" = true ->
        r2Fault h (S (r2Ops w)) = None ->
        exists request w',
          PromoterAgent.requestExport agent draftId destination h w
          = (Returned request, w')
          /\ hasStatus request "PENDING" = true
          /\ js_get request "destination" = VStr destination
          /\ js_get request "content" = storedDraft draftId h w
          /\ bucket w'
             = <["exports/pending/" +:+ "EXPORT-"
                 +:+ Z_toString (clock h (ticks w)) +:+ ".json"
                 := default JNull (serializeWithBigInt request)]> (bucket w)
          /\ requests w' = requests w)
    /\ requests (snd (PromoterAgent.requestExport agent draftId destination h w))
       = requests w.
Proof.
  intros agent draftId destination h w.
  destruct (Array_includes (PromoterAgent.allowedExports agent) destination) eqn:Ha.
  2:{ rewrite (requestExport_disallowed _ _ _ _ _ Ha).
      split; [intros _; eexists; split; [reflexivity|split; reflexivity]|].
      split; [discriminate|reflexivity]. }
  destruct (hasStatus (storedDraft draftId h w) "APPROVED") eqn:Hs.
  2:{ rewrite (requestExport_refused _ _ _ _ _ Ha Hs).
      split; [intros _; eexists; split; [reflexivity|split; reflexivity]|].
      split; [discriminate|reflexivity]. }
  pose proof (requestExport_accepted _ draftId _ h w Ha Hs) as H. cbv zeta in H.
  split; [intros [?|?]; discriminate|].
  split.
  - intros _ _ Hput. rewrite Hput in H.
    eexists _, _. split; [exact H|].
    split; [reflexivity|]. split; [reflexivity|]. split; [reflexivity|].
    split; reflexivity.
  - rewrite H. destruct (r2Fault h (S (r2Ops w))); reflexivity.
Qed.

Lemma export_needs_approval_and_an_allowed_destination_witness :
  (exists w',
      PromoterAgent.requestExport (PromoterAgent.new promoterEnv)
        "PROMO-1700000000000" "twitter" stubHost (worldWithDraft "APPROVED")
      = (Returned VNull, w')
      /\ bucket w' = bucket (worldWithDraft "APPROVED")
      /\ requests w' = requests (worldWithDraft "APPROVED"))
  /\ (exists request w',
        PromoterAgent.requestExport (PromoterAgent.new promoterEnv)
          "PROMO-1700000000000" "n8n" stubHost (worldWithDraft "APPROVED")
        = (Returned request, w')
        /\ hasStatus request "PENDING" = true).
Proof.
  split.
  - apply (proj1 (export_needs_approval_and_an_allowed_destination
                    (PromoterAgent.new promoterEnv) "PROMO-1700000000000" "twitter"
                    stubHost (worldWithDraft "APPROVED"))).
    left. reflexivity.
  - destruct (proj1 (proj2 (export_needs_approval_and_an_allowed_destination
                              (PromoterAgent.new promoterEnv) "PROMO-1700000000000"
                              "n8n" stubHost (worldWithDraft "APPROVED")))
                eq_refl eq_refl eq_refl) as (request & w' & H & Hs & _).
    exists request, w'. split; assumption.
Defined.

Section PromoterSubmit.

Import PromoterAgent.

Lemma submitForApproval_missing agent draftId h w :
  js_truthy (storedDraft draftId h w) = false ->
  submitForApproval agent draftId h w = (Returned VNull, count_r2 w).
Proof.
  intros H. unfold submitForApproval.
  rewrite (bind_returned _ _ _ _ _ _ (getDraft_outcome draftId h w)).
  rewrite H. reflexivity.
Qed.

Lemma submitForApproval_object agent draftId props id h w :
  storedDraft draftId h w = VObj props ->
  js_get (VObj props) "id" = VStr id ->
  let draft := VObj (setProperty props "status" (VStr "PENDING_APPROVAL")) in
  let stored :=
    store (draftKey id) (default JNull (serializeWithBigInt draft))
      (count_r2 (count_r2 w)) in
  submitForApproval agent draftId h w
  = match r2Fault h (S (r2Ops w)) with
    | Some e => (Thrown e, count_r2 (count_r2 w))
    | None =>
        if is_set (APPROVAL_WEBHOOK (env agent))
        then match nextReply h w with
             | inl e =>
                 (Thrown e,
                  record_request
                    (approvalRequest (default "" (APPROVAL_WEBHOOK (env agent))) draft)
                    stored)
             | inr _ =>
                 (Returned draft,
                  record_request
                    (approvalRequest (default "" (APPROVAL_WEBHOOK (env agent))) draft)
                    stored)
             end
        else (Returned draft, stored)
    end.
Proof.
  intros Hd Hid draft stored. unfold submitForApproval.
  rewrite (bind_returned _ _ _ _ _ _ (getDraft_outcome draftId h w)).
  rewrite Hd. cbn [js_truthy negb].
  assert (js_get draft "id" = VStr id) as Hid'.
  { unfold draft. rewrite !js_get_setProperty. simpl. exact Hid. }
  assert (containsBigInt draft = false) as Hb.
  { unfold draft. apply setProperty_no_bigint; [|reflexivity].
    rewrite <- Hd. apply storedDraft_no_bigint. }
  assert (containsBigInt
            (VObj [("type", VStr "MARKETING_APPROVAL_REQUEST"); ("content", draft)])
          = false) as Hb'.
  { cbn [containsBigInt existsb snd]. rewrite Hb. reflexivity. }
  pose proof (storeDraft_object _ id h (count_r2 w) Hid' Hb) as Hstore.
  unfold js_set, JSON_stringify, fetch, nextReply.
  unfold mbind, mret, M_bind, M_ret, bind, ret.
  cbn [ticks count_r2 r2Ops tick] in *. unfold draft, stored in *.
  rewrite Hstore, Hb'.
  destruct (r2Fault h (S (r2Ops w))); [reflexivity|].
  destruct (is_set (APPROVAL_WEBHOOK (env agent))); [|reflexivity].
  unfold throw. cbn [requests store count_r2].
  destruct (fetchReply h (length (requests w))); reflexivity.
Qed.

Lemma createDraft_outcome type content images h w :
  let draft :=
    VObj [("id", VStr ("PROMO-" +:+ Z_toString (clock h (ticks w))));
          ("type", VStr (ContentType_name type));
          ("content", VStr (sanitizeContent content));
          ("images", match images with
                     | Some urls => VArr (map VStr urls)
                     | None => VUndefined
                     end);
          ("status", VStr "DRAFT");
          ("createdAt", VNum (clock h (S (ticks w))))] in
  createDraft type content images h w
  = match r2Fault h (r2Ops w) with
    | Some e => (Thrown e, count_r2 (tick (tick w)))
    | None =>
        (Returned draft,
         store (draftKey ("PROMO-" +:+ Z_toString (clock h (ticks w))))
           (default JNull (serializeWithBigInt draft))
           (count_r2 (tick (tick w))))
    end.
Proof.
  intros draft. unfold createDraft.
  assert (containsBigInt draft = false) as Hb.
  { unfold draft. cbn [containsBigInt existsb snd orb].
    destruct images as [urls|]; [|reflexivity].
    cbn [containsBigInt]. induction urls as [|u urls IH]; [reflexivity|exact IH]. }
  assert (js_get draft "id" = VStr ("PROMO-" +:+ Z_toString (clock h (ticks w))))
    as Hid by reflexivity.
  pose proof (storeDraft_object _ _ h (tick (tick w)) Hid Hb) as Hstore.
  unfold Date_now. unfold mbind, mret, M_bind, M_ret, bind, ret.
  cbn [ticks count_r2 r2Ops tick] in *. unfold draft in *. rewrite Hstore.
  destruct (r2Fault h (r2Ops w)); reflexivity.
Qed.

End PromoterSubmit.

(** X22.  [submitForApproval] asks nothing about the status the draft
    has.  For every stored draft that is an object carrying its [id] as
    a string (whether its status is DRAFT, REJECTED, APPROVED or
    PUBLISHED), when the store accepts the write and the webhook, if one
    is configured, answers: the call returns the draft with [status]
    PENDING_APPROVAL and every other property as it was (an earlier
    [approvedBy] and [approvedAt] included), stores it under
    [drafts/<id>.json], and issues exactly one request, to the approval
    webhook, when one is configured and none otherwise.  When nothing
    truthy is stored under the id it returns [null] and does nothing. *)
Theorem submitForApproval_resets_any_status :
  forall agent draftId h w,
    (js_truthy (storedDraft draftId h w) = false ->
     PromoterAgent.submitForApproval agent draftId h w = (Returned VNull, count_r2 w))
    /\ (forall props id,
          storedDraft draftId h w = VObj props ->
          js_get (VObj props) "id" = VStr id ->
          r2Fault h (S (r2Ops w)) = None ->
          is_set (APPROVAL_WEBHOOK (PromoterAgent.env agent)) = false
          \/ (exists resp, nextReply h w = inr resp) ->
          exists draft w',
            PromoterAgent.submitForApproval agent draftId h w = (Returned draft, w')
            /\ hasStatus draft "PENDING_APPROVAL" = true
            /\ (forall k, k <> "status" -> js_get draft k = js_get (VObj props) k)
            /\ bucket w' = <[draftKey id := default JNull (serializeWithBigInt draft)]>
                             (bucket w)
            /\ requests w'
               = requests w
                 ++ (if is_set (APPROVAL_WEBHOOK (PromoterAgent.env agent))
                     then [PromoterAgent.approvalRequest
                             (default "" (APPROVAL_WEBHOOK (PromoterAgent.env agent)))
                             draft]
                     else [])).
Proof.
  intros agent draftId h w.
  split; [apply submitForApproval_missing|].
  intros props id Hd Hid Hput Hhook.
  pose proof (submitForApproval_object agent draftId props id h w Hd Hid) as H.
  cbv zeta in H. rewrite Hput in H.
  assert (forall k, k <> "status" ->
            js_get (VObj (setProperty props "status" (VStr "PENDING_APPROVAL"))) k
            = js_get (VObj props) k) as Hk.
  { intros k K. rewrite js_get_setProperty.
    apply not_eq_sym, String.eqb_neq in K. rewrite K. reflexivity. }
  destruct (is_set (APPROVAL_WEBHOOK (PromoterAgent.env agent))) eqn:Hw.
  - destruct Hhook as [?|[resp Hresp]]; [discriminate|]. rewrite Hresp in H.
    eexists _, _. split; [exact H|].
    split; [apply hasStatus_set|]. split; [exact Hk|]. split; reflexivity.
  - eexists _, _. split; [exact H|].
    split; [apply hasStatus_set|]. split; [exact Hk|].
    split; [reflexivity|]. simpl. rewrite app_nil_r. reflexivity.
Qed.

Lemma submitForApproval_resets_any_status_witness :
  exists draft w',
    PromoterAgent.submitForApproval (PromoterAgent.new promoterEnv)
      "PROMO-1700000000000" stubHost (worldWithDraft "REJECTED") = (Returned draft, w')
    /\ hasStatus draft "PENDING_APPROVAL" = true.
Proof.
  destruct (proj2 (submitForApproval_resets_any_status
                     (PromoterAgent.new promoterEnv) "PROMO-1700000000000"
                     stubHost (worldWithDraft "REJECTED"))
              _ "PROMO-1700000000000" eq_refl eq_refl eq_refl (or_introl eq_refl))
    as (draft & w' & H & Hs & _).
  exists draft, w'. split; assumption.
Defined.

(** X23.  What [createDraft] leaves behind, for every type, content and
    image list.  When it returns, the draft has [status] DRAFT, an [id]
    made of the first clock reading, and as [content] the sanitized
    text, which holds no wallet address; the store holds the serialized
    draft under [drafts/<id>.json], so that [getDraft] of that id finds a
    DRAFT with the same content; nothing else in the store changes and no
    request is issued.  It returns exactly when the store accepts the
    write; otherwise it throws and the store is unchanged. *)
Theorem createDraft_stores_a_sanitized_DRAFT :
  forall type content images h w,
    let id := "PROMO-" +:+ Z_toString (clock h (ticks w)) in
    (r2Fault h (r2Ops w) = None ->
     exists draft w',
       PromoterAgent.createDraft type content images h w = (Returned draft, w')
       /\ hasStatus draft "DRAFT" = true
       /\ js_get draft "id" = VStr id
       /\ js_get draft "content" = VStr (sanitizeContent content)
       /\ ~ containsAddress (String.list_ascii_of_string (sanitizeContent content))
       /\ bucket w' = <[draftKey id := default JNull (serializeWithBigInt draft)]>
                        (bucket w)
       /\ (forall h', r2Fault h' (r2Ops w') = None ->
                      hasStatus (storedDraft id h' w') "DRAFT" = true
                      /\ js_get (storedDraft id h' w') "content"
                         = VStr (sanitizeContent content)
                      /\ js_get (storedDraft id h' w') "id" = VStr id)
       /\ requests w' = requests w)
    /\ (forall e,
          r2Fault h (r2Ops w) = Some e ->
          exists w',
            PromoterAgent.createDraft type content images h w = (Thrown e, w')
            /\ bucket w' = bucket w /\ requests w' = requests w).
Proof.
  intros type content images h w id.
  pose proof (createDraft_outcome type content images h w) as H. cbv zeta in H.
  split.
  - intros Hput. rewrite Hput in H.
    eexists _, _. split; [exact H|].
    split; [reflexivity|]. split; [reflexivity|]. split; [reflexivity|].
    split.
    { intros [i Hi]. rewrite (sanitizeContent_literalFree content i) in Hi.
      discriminate. }
    split; [reflexivity|].
    split; [|reflexivity].
    intros h' Hok. unfold storedDraft. rewrite Hok.
    cbn [bucket store]. rewrite lookup_insert_eq.
    destruct images as [urls|]; repeat split.
  - intros e Hput. rewrite Hput in H.
    eexists. split; [exact H|]. split; reflexivity.
Qed.

Lemma createDraft_stores_a_sanitized_DRAFT_witness :
  exists draft w',
    PromoterAgent.createDraft TWEET
      "send to 0x52908400098527886E0F7030069857D2E4169EE7" None stubHost emptyWorld
    = (Returned draft, w')
    /\ js_get draft "content" = VStr "send to [ADDRESS]".
Proof.
  destruct (proj1 (createDraft_stores_a_sanitized_DRAFT TWEET
                     "send to 0x52908400098527886E0F7030069857D2E4169EE7" None
                     stubHost emptyWorld) eq_refl)
    as (draft & w' & H & _ & _ & Hc & _).
  exists draft, w'. split; [exact H|]. rewrite Hc. vm_compute. reflexivity.
Defined.

Section PromoterLists.

Import PromoterAgent.

Lemma insertKey_In k x keys : In x (insertKey k keys) <-> k = x \/ In x keys.
Proof.
  induction keys as [|y keys IH]; simpl; [tauto|].
  destruct (String.leb k y); simpl; [tauto|]. rewrite IH. tauto.
Qed.

Lemma sortKeys_In x keys : In x (sortKeys keys) <-> In x keys.
Proof.
  induction keys as [|y keys IH]; simpl; [tauto|].
  rewrite insertKey_In, IH. split; intros [H|H]; auto.
Qed.

Lemma insertKey_length k keys : length (insertKey k keys) = S (length keys).
Proof.
  induction keys as [|y keys IH]; simpl; [reflexivity|].
  destruct (String.leb k y); simpl; [reflexivity|]. rewrite IH. reflexivity.
Qed.

Lemma sortKeys_length keys : length (sortKeys keys) = length keys.
Proof.
  induction keys as [|y keys IH]; simpl; [reflexivity|].
  rewrite insertKey_length, IH. reflexivity.
Qed.

Lemma In_firstn {A} (n : nat) (l : list A) (x : A) : In x (firstn n l) -> In x l.
Proof.
  revert l. induction n as [|n IH]; intros [|y l]; simpl; try tauto.
  intros [H|H]; [auto|right; apply IH, H].
Qed.

(** A listed key has the prefix and holds a document. *)
Lemma listedKeys_stored prefix w key :
  In key (listedKeys prefix w) ->
  String.prefix prefix key = true /\ exists doc, bucket w !! key = Some doc.
Proof.
  unfold listedKeys. intros H.
  apply In_firstn in H.
  apply sortKeys_In, filter_In in H as [H Hp]. split; [exact Hp|].
  apply in_map_iff in H as ([k doc] & <- & Hin).
  exists doc. apply elem_of_map_to_list. apply list_elem_of_In. exact Hin.
Qed.

Lemma listedKeys_length prefix w : (length (listedKeys prefix w) <= 1000)%nat.
Proof. unfold listedKeys. rewrite length_firstn. lia. Qed.

Lemma R2_list_outcome prefix h w :
  R2_list prefix h w
  = match r2Fault h (r2Ops w) with
    | Some e => (Thrown e, count_r2 w)
    | None => (Returned (listedKeys prefix w), count_r2 w)
    end.
Proof. reflexivity. Qed.

Lemma collected_weaken Q w n m r :
  (n <= m)%nat -> collected Q w n r -> collected Q w m r.
Proof.
  unfold collected. intros Hle (B & R & H). split; [exact B|]. split; [exact R|].
  destruct (fst r); [|exact I]. destruct H. split; [assumption|lia].
Qed.

(** One round of a loop that collects the documents with a wanted
    status: that of [getPendingApprovals] and of [getPendingSkillPRs]. *)
Lemma collectPending_step wanted prefix w0 key (acc : M World (list JsValue)) h w n :
  (String.prefix prefix key = true /\ exists doc, bucket w0 !! key = Some doc) ->
  collected (fun d => hasStatus d wanted = true /\ storedUnder prefix w0 d)
    w0 n (acc h w) ->
  collected (fun d => hasStatus d wanted = true /\ storedUnder prefix w0 d)
    w0 (S n)
    ((pending ← acc;
      data ← R2_get key;
      match data with
      | None => mret pending
      | Some text =>
          let draft := JSON_parse text in
          status ← js_member draft "status";
          if strictEqualsString status wanted
          then mret (pending ++ [draft])
          else mret pending
      end) h w).
Proof.
  intros [Hp [doc Hdoc]] (B & R & H).
  unfold mbind, M_bind, bind.
  destruct (acc h w) as [[pending|e] w1]; cbn [fst snd] in *.
  2:{ split; [exact B|]. split; [exact R|]. exact I. }
  destruct H as [HQ Hl].
  unfold R2_get. destruct (r2Fault h (r2Ops w1)).
  { split; [exact B|]. split; [exact R|]. exact I. }
  rewrite B, Hdoc. cbv zeta.
  unfold js_member.
  destruct (JSON_parse doc) as [| |b|m|f|z|s|items|props] eqn:E;
    try (split; [exact B|]; split; [exact R|]; exact I);
    unfold mret, M_ret, ret, throw; cbn [fst snd];
    try (split; [exact B|]; split; [exact R|]; split; [exact HQ|lia]).
  destruct (strictEqualsString (js_get (VObj props) "status") wanted)
    eqn:Es; cbn [fst snd].
  - split; [exact B|]. split; [exact R|]. split.
    + apply Forall_app. split; [exact HQ|]. constructor; [|constructor].
      split; [exact Es|]. exists key, doc. rewrite E. auto.
    + rewrite length_app. simpl. lia.
  - split; [exact B|]. split; [exact R|]. split; [exact HQ|lia].
Qed.

Lemma collectPending_collected wanted prefix w0 h keys :
  forall (acc : M World (list JsValue)) w n,
    (forall key, In key keys ->
                 String.prefix prefix key = true
                 /\ exists doc, bucket w0 !! key = Some doc) ->
    collected (fun d => hasStatus d wanted = true /\ storedUnder prefix w0 d)
      w0 n (acc h w) ->
    collected (fun d => hasStatus d wanted = true /\ storedUnder prefix w0 d)
      w0 (n + length keys)
      (foldl
         (fun (acc : M World (list JsValue)) key =>
            pending ← acc;
            data ← R2_get key;
            match data with
            | None => mret pending
            | Some text =>
                let draft := JSON_parse text in
                status ← js_member draft "status";
                if strictEqualsString status wanted
                then mret (pending ++ [draft])
                else mret pending
            end)
         acc keys h w).
Proof.
  induction keys as [|key keys IH]; intros acc w n Hk Hacc.
  - simpl. rewrite Nat.add_0_r. exact Hacc.
  - cbn [foldl length]. rewrite Nat.add_succ_r.
    apply (IH _ w (S n)); [intros k Hin; apply Hk; right; exact Hin|].
    apply collectPending_step; [apply Hk; left; reflexivity|exact Hacc].
Qed.

(** One round of the loop of [getPendingExports]. *)
Lemma collectExports_step prefix w0 key (acc : M World (list JsValue)) h w n :
  (String.prefix prefix key = true /\ exists doc, bucket w0 !! key = Some doc) ->
  collected (storedUnder prefix w0) w0 n (acc h w) ->
  collected (storedUnder prefix w0) w0 (S n)
    ((pending ← acc;
      data ← R2_get key;
      match data with
      | None => mret pending
      | Some text => mret (pending ++ [JSON_parse text])
      end) h w).
Proof.
  intros [Hp [doc Hdoc]] (B & R & H).
  unfold mbind, M_bind, bind.
  destruct (acc h w) as [[pending|e] w1]; cbn [fst snd] in *.
  2:{ split; [exact B|]. split; [exact R|]. exact I. }
  destruct H as [HQ Hl].
  unfold R2_get. destruct (r2Fault h (r2Ops w1)).
  { split; [exact B|]. split; [exact R|]. exact I. }
  rewrite B, Hdoc. unfold mret, M_ret, ret. cbn [fst snd].
  split; [exact B|]. split; [exact R|]. split.
  - apply Forall_app. split; [exact HQ|]. constructor; [|constructor].
    exists key, doc. auto.
  - rewrite length_app. simpl. lia.
Qed.

Lemma collectExports_collected prefix w0 h keys :
  forall (acc : M World (list JsValue)) w n,
    (forall key, In key keys ->
                 String.prefix prefix key = true
                 /\ exists doc, bucket w0 !! key = Some doc) ->
    collected (storedUnder prefix w0) w0 n (acc h w) ->
    collected (storedUnder prefix w0) w0 (n + length keys)
      (foldl
         (fun (acc : M World (list JsValue)) key =>
            pending ← acc;
            data ← R2_get key;
            match data with
            | None => mret pending
            | Some text => mret (pending ++ [JSON_parse text])
            end)
         acc keys h w).
Proof.
  induction keys as [|key keys IH]; intros acc w n Hk Hacc.
  - simpl. rewrite Nat.add_0_r. exact Hacc.
  - cbn [foldl length]. rewrite Nat.add_succ_r.
    apply (IH _ w (S n)); [intros k Hin; apply Hk; right; exact Hin|].
    apply collectExports_step; [apply Hk; left; reflexivity|exact Hacc].
Qed.

(** A [try] whose handler returns the empty list turns what the loop
    has reached into a returned list. *)
Lemma collected_caught Q w n (body : M World (list JsValue)) h w1 :
  collected Q w n (body h w1) ->
  exists values w',
    try_catch body (fun _ => mret []) h w1 = (Returned values, w')
    /\ Forall Q values /\ (length values <= n)%nat
    /\ bucket w' = bucket w /\ requests w' = requests w.
Proof.
  unfold collected, try_catch. destruct (body h w1) as [[values|e] w']; cbn [fst snd].
  - intros (B & R & HQ & Hl). eauto 8.
  - intros (B & R & _). exists [], w'. unfold mret, M_ret, ret.
    split; [reflexivity|]. split; [constructor|]. split; [simpl; lia|]. auto.
Qed.

(** With a store that lets every call through and no [null] among the
    listed documents, the loop collects exactly the pending drafts. *)
Lemma collectPending_exact h w0 keys :
  (forall n, r2Fault h n = None) ->
  forall (acc : M World (list JsValue)) w pending0 w1,
    acc h w = (Returned pending0, w1) ->
    bucket w1 = bucket w0 ->
    (forall key, In key keys ->
                 exists doc, bucket w0 !! key = Some doc /\ doc <> JNull) ->
    exists w',
      foldl
        (fun (acc : M World (list JsValue)) key =>
           pending ← acc;
           data ← R2_get key;
           match data with
           | None => mret pending
           | Some text =>
               let draft := JSON_parse text in
               status ← js_member draft "status";
               if strictEqualsString status "PENDING_APPROVAL"
               then mret (pending ++ [draft])
               else mret pending
           end)
        acc keys h w
      = (Returned
           (pending0 ++
            List.filter (fun d => hasStatus d "PENDING_APPROVAL")
              (map (fun key => JSON_parse (default JNull (bucket w0 !! key))) keys)),
         w')
      /\ bucket w' = bucket w0.
Proof.
  intros Hok. induction keys as [|key keys IH]; intros acc w pending0 w1 Hacc B Hk.
  - exists w1. simpl. rewrite app_nil_r. auto.
  - destruct (Hk key (or_introl eq_refl)) as (doc & Hdoc & Hnn).
    cbn [foldl map List.filter]. rewrite Hdoc. cbn [default from_option id].
    match goal with |- context [foldl _ ?acc' keys h w] =>
      destruct (IH acc' w
                  (pending0 ++
                   (if hasStatus (JSON_parse doc) "PENDING_APPROVAL"
                    then [JSON_parse doc] else []))
                  (count_r2 w1)) as (w' & Hw' & B')
    end.
    + unfold mbind, M_bind, bind. rewrite Hacc. unfold R2_get.
      rewrite Hok, B, Hdoc. cbv zeta. unfold js_member, hasStatus.
      destruct doc as [|b|n|f|s|items|props]; try congruence; cbn [JSON_parse];
        unfold mret, M_ret, ret;
        destruct (strictEqualsString _ "PENDING_APPROVAL");
        rewrite ?app_nil_r; reflexivity.
    + exact B.
    + intros k Hin. apply Hk. right. exact Hin.
    + exists w'. split; [|exact B'].
      destruct (hasStatus (JSON_parse doc) "PENDING_APPROVAL");
        [rewrite <- app_assoc in Hw'|rewrite app_nil_r in Hw']; exact Hw'.
Qed.

Lemma firstn_all_short {A} (n : nat) (l : list A) :
  (length l <= n)%nat -> firstn n l = l.
Proof.
  revert l. induction n as [|n IH]; intros [|x l] H; simpl in *;
    try reflexivity; try lia.
  rewrite IH by lia. reflexivity.
Qed.

End PromoterLists.

(** X24.  The two listings of the promoter only read and never throw.
    For every clock, store and store fault, [getPendingApprovals]
    returns a list of at most 1000 values, each the parsed document of a
    key under [drafts/] whose [status] is the string PENDING_APPROVAL,
    and [getPendingExports] a list of at most 1000 values, each the
    parsed document of a key under [exports/pending/]; neither changes
    the store or issues a request.  (A rejected read, or a stored
    [null], makes the listing return the empty list.)  Conversely, when
    the store lets every call through, at most 1000 keys lie under
    [drafts/] and none of them holds [null], every stored document under
    [drafts/] whose [status] is PENDING_APPROVAL is in the list that
    [getPendingApprovals] returns. *)
Theorem pending_listings_only_read :
  forall h w,
    (exists drafts w',
        PromoterAgent.getPendingApprovals h w = (Returned drafts, w')
        /\ Forall (fun d => hasStatus d "PENDING_APPROVAL" = true
                            /\ storedUnder "drafts/" w d) drafts
        /\ (length drafts <= 1000)%nat
        /\ bucket w' = bucket w /\ requests w' = requests w)
    /\ (exists pending w',
          PromoterAgent.getPendingExports h w = (Returned pending, w')
          /\ Forall (storedUnder "exports/pending/" w) pending
          /\ (length pending <= 1000)%nat
          /\ bucket w' = bucket w /\ requests w' = requests w)
    /\ ((forall n, r2Fault h n = None) ->
        (length (List.filter (String.prefix "drafts/")
                   (map fst (map_to_list (bucket w)))) <= 1000)%nat ->
        (forall key, String.prefix "drafts/" key = true ->
                     bucket w !! key <> Some JNull) ->
        forall key doc,
          bucket w !! key = Some doc ->
          String.prefix "drafts/" key = true ->
          hasStatus (JSON_parse doc) "PENDING_APPROVAL" = true ->
          exists drafts w',
            PromoterAgent.getPendingApprovals h w = (Returned drafts, w')
            /\ In (JSON_parse doc) drafts).
Proof.
  intros h w. split; [|split].
  - unfold PromoterAgent.getPendingApprovals.
    destruct (collected_caught
                (fun d => hasStatus d "PENDING_APPROVAL" = true
                          /\ storedUnder "drafts/" w d)
                w 1000
                (listed ← R2_list "drafts/"; PromoterAgent.collectPending listed) h w)
      as (values & w' & H & HQ & Hl & B & R); [|eauto 8].
    unfold mbind, M_bind, bind. rewrite R2_list_outcome.
    destruct (r2Fault h (r2Ops w)); [repeat split|].
    apply (collected_weaken _ _ (0 + length (listedKeys "drafts/" w)));
      [pose proof (listedKeys_length "drafts/" w); lia|].
    apply (collectPending_collected "PENDING_APPROVAL" "drafts/" w h (listedKeys "drafts/" w)
             (mret []) (count_r2 w) 0).
    + intros key Hin. apply listedKeys_stored, Hin.
    + repeat split; [constructor|simpl; lia].
  - unfold PromoterAgent.getPendingExports.
    destruct (collected_caught (storedUnder "exports/pending/" w) w 1000
                (listed ← R2_list "exports/pending/";
                 PromoterAgent.collectExports listed) h w)
      as (values & w' & H & HQ & Hl & B & R); [|eauto 8].
    unfold mbind, M_bind, bind. rewrite R2_list_outcome.
    destruct (r2Fault h (r2Ops w)); [repeat split|].
    apply (collected_weaken _ _ (0 + length (listedKeys "exports/pending/" w)));
      [pose proof (listedKeys_length "exports/pending/" w); lia|].
    apply (collectExports_collected "exports/pending/" w h
             (listedKeys "exports/pending/" w) (mret []) (count_r2 w) 0).
    + intros key Hin. apply listedKeys_stored, Hin.
    + repeat split; [constructor|simpl; lia].
  - intros Hok Hfew Hnn key doc Hdoc Hp Hs.
    unfold PromoterAgent.getPendingApprovals, try_catch.
    unfold mbind, M_bind, bind. rewrite R2_list_outcome, Hok.
    destruct (collectPending_exact h w (listedKeys "drafts/" w) Hok
                (mret []) (count_r2 w) [] (count_r2 w) eq_refl eq_refl)
      as (w' & Hw' & _).
    { intros k Hin. apply listedKeys_stored in Hin as [Hpk [d Hd]].
      exists d. split; [exact Hd|]. intros ->. exact (Hnn k Hpk Hd). }
    cbv beta iota zeta. unfold PromoterAgent.collectPending.
    cbv zeta in Hw'. rewrite Hw'.
    eexists _, _. split; [reflexivity|].
    simpl app. apply filter_In. split; [|exact Hs].
    apply in_map_iff. exists key. rewrite Hdoc. split; [reflexivity|].
    unfold listedKeys. rewrite firstn_all_short
      by (rewrite sortKeys_length; exact Hfew).
    apply sortKeys_In, filter_In. split; [|exact Hp].
    apply in_map_iff. exists (key, doc). split; [reflexivity|].
    apply list_elem_of_In, elem_of_map_to_list. exact Hdoc.
Qed.

Lemma pending_listings_only_read_witness :
  exists drafts w',
    PromoterAgent.getPendingApprovals stubHost (worldWithDraft "PENDING_APPROVAL")
    = (Returned drafts, w')
    /\ In (JSON_parse (draftDocument "PENDING_APPROVAL")) drafts.
Proof.
  apply (proj2 (proj2 (pending_listings_only_read stubHost
                         (worldWithDraft "PENDING_APPROVAL")))
           (fun _ => eq_refl))
    with (key := draftKey "PROMO-1700000000000").
  - vm_compute. lia.
  - intros key _ H.
    destruct (decide (key = draftKey "PROMO-1700000000000")) as [->|Hne].
    + vm_compute in H. discriminate.
    + unfold worldWithDraft in H. cbn [bucket] in H.
      rewrite lookup_singleton_ne in H by congruence. discriminate.
  - reflexivity.
  - reflexivity.
  - reflexivity.
Defined.

Section PromoterLifecycle.

Import PromoterAgent.

Lemma storedDraft_after_store id doc h w :
  (forall n, r2Fault h n = None) ->
  bucket w !! draftKey id = Some doc ->
  storedDraft id h w = JSON_parse doc.
Proof.
  intros Hok Hdoc. unfold storedDraft. rewrite Hok, Hdoc. reflexivity.
Qed.

(** A string property of an object survives [JSON.stringify] followed by
    [JSON.parse]. *)
Lemma string_property_survives (props : list (string * JsValue)) k s :
  forall acc acc',
    (acc = VStr s -> acc' = VStr s) ->
    fold_left (fun acc kv => if String.eqb (fst kv) k then snd kv else acc)
      props acc = VStr s ->
    fold_left (fun acc kv => if String.eqb (fst kv) k then snd kv else acc)
      (map (fun kv : string * Json => (fst kv, JSON_parse (snd kv)))
         (flat_map (fun kv : string * JsValue =>
                      match stringifyWithBigInt (snd kv) with
                      | Some j => [(fst kv, j)]
                      | None => []
                      end) props))
      acc' = VStr s.
Proof.
  induction props as [|[k0 v] props IH]; intros acc acc' Hacc H; simpl in *.
  - auto.
  - destruct (stringifyWithBigInt v) as [j|] eqn:Hv; simpl.
    + refine (IH _ _ _ H).
      destruct (String.eqb k0 k); [|exact Hacc].
      intros E. subst v. simpl in Hv. injection Hv as <-. reflexivity.
    + refine (IH _ _ _ H).
      destruct (String.eqb k0 k); [|exact Hacc].
      intros E. subst v. discriminate Hv.
Qed.

Lemma stored_object (props : list (string * JsValue)) :
  exists props',
    JSON_parse (default JNull (serializeWithBigInt (VObj props))) = VObj props'
    /\ forall k s, js_get (VObj props) k = VStr s -> js_get (VObj props') k = VStr s.
Proof.
  eexists. split; [reflexivity|].
  intros k s H. apply (string_property_survives props k s VUndefined VUndefined);
    [auto|exact H].
Qed.

End PromoterLifecycle.

(** X25.  A draft taken through createDraft, submitForApproval,
    approveContent and requestExport, with a store and a webhook that
    let every call through and an allowed destination, ends as a PENDING
    export request for that destination whose content is the approved
    draft: its text is the sanitized text, its status APPROVED, its
    approver the one given, and the draft in the store is that very
    document. *)
Theorem approved_draft_is_exported_sanitized :
  forall agent type content images approvedBy destination h w,
    (forall n, r2Fault h n = None) ->
    (forall n, exists reply, fetchReply h n = inr reply) ->
    Array_includes (PromoterAgent.allowedExports agent) destination = true ->
    let draftId := "PROMO-" +:+ Z_toString (clock h (ticks w)) in
    exists request w',
      createApproveExport agent type content images approvedBy destination h w
      = (Returned request, w')
      /\ hasStatus request "PENDING" = true
      /\ js_get request "destination" = VStr destination
      /\ js_get (js_get request "content") "content" = VStr (sanitizeContent content)
      /\ js_get (js_get request "content") "id" = VStr draftId
      /\ hasStatus (js_get request "content") "APPROVED" = true
      /\ js_get (js_get request "content") "approvedBy" = VStr approvedBy
      /\ storedDraft draftId h w' = js_get request "content".
Proof.
  intros agent type content images approvedBy destination h w Hok Hfetch
         Hallowed draftId.
  unfold createApproveExport.
  unfold mbind at 1, M_bind, bind.
  pose proof (createDraft_outcome type content images h w) as H1.
  cbv zeta in H1. rewrite Hok in H1. rewrite H1. clear H1.
  fold draftId. unfold draftIdOf.
  change (js_get (VObj (("id", VStr draftId) :: ?l)) "id") with (VStr draftId).
  cbv beta iota.
  set (text := sanitizeContent content). clearbody text draftId.
  match goal with |- context [store _ ?doc ?w0] =>
    set (doc1 := doc); set (w1 := store (draftKey draftId) doc1 w0) end.
  (* the stored draft *)
  assert (S1 : storedDraft draftId h w1 = JSON_parse doc1).
  { apply storedDraft_after_store; [exact Hok|].
    unfold w1. cbn [bucket store]. apply lookup_insert_eq. }
  destruct (stored_object
              [("id", VStr draftId); ("type", VStr (ContentType_name type));
               ("content", VStr text);
               ("images", match images with
                          | Some urls => VArr (map VStr urls)
                          | None => VUndefined
                          end);
               ("status", VStr "DRAFT");
               ("createdAt", VNum (clock h (S (ticks w))))])
    as (props1 & D1 & G1).
  fold doc1 in D1. rewrite D1 in S1. clearbody doc1. clear D1.
  pose proof (G1 "id" _ eq_refl) as I1.
  pose proof (G1 "content" _ eq_refl) as C1. clear G1.
  (* submitForApproval *)
  pose proof (submitForApproval_object agent draftId props1 draftId h w1 S1 I1) as H2.
  cbv zeta in H2. rewrite Hok in H2.
  set (draft2 := setProperty props1 "status" (VStr "PENDING_APPROVAL")) in H2.
  assert (E2 : exists w2,
             PromoterAgent.submitForApproval agent draftId h w1
             = (Returned (VObj draft2), w2)
             /\ bucket w2 !! draftKey draftId
                = Some (default JNull (serializeWithBigInt (VObj draft2)))).
  { rewrite H2.
    destruct (is_set (APPROVAL_WEBHOOK (PromoterAgent.env agent))).
    - unfold nextReply. destruct (Hfetch (length (requests w1))) as [reply ->].
      eexists. split; [reflexivity|]. cbn [bucket record_request store].
      apply lookup_insert_eq.
    - eexists. split; [reflexivity|]. cbn [bucket store]. apply lookup_insert_eq. }
  clear H2. destruct E2 as (w2 & E2 & B2).
  unfold mbind at 1, M_bind, bind. rewrite E2. cbv beta iota.
  pose proof (storedDraft_after_store draftId _ h w2 Hok B2) as S2.
  destruct (stored_object draft2) as (props2 & D2 & G2).
  rewrite D2 in S2.
  assert (I2 : js_get (VObj props2) "id" = VStr draftId).
  { apply G2. unfold draft2. rewrite js_get_setProperty. exact I1. }
  assert (C2 : js_get (VObj props2) "content" = VStr text).
  { apply G2. unfold draft2. rewrite js_get_setProperty. exact C1. }
  assert (P2 : js_get (VObj props2) "status" = VStr "PENDING_APPROVAL").
  { apply G2. unfold draft2. rewrite js_get_setProperty. reflexivity. }
  clear E2 B2 S1 D2 G2 I1 C1. clearbody w1 draft2.
  (* approveContent *)
  pose proof (approveContent_accepted draftId approvedBy props2 draftId h w2 S2 P2 I2)
    as H3.
  cbv zeta in H3. rewrite Hok in H3.
  match type of H3 with _ = (Returned (VObj ?p), _) => set (draft3 := p) in * end.
  match type of H3 with _ = (_, ?w0) => set (w3 := w0) in * end.
  unfold mbind at 1, M_bind, bind. rewrite H3. cbv beta iota.
  assert (S3 : storedDraft draftId h w3
               = JSON_parse (default JNull (serializeWithBigInt (VObj draft3)))).
  { apply storedDraft_after_store; [exact Hok|].
    unfold w3. cbn [bucket store]. apply lookup_insert_eq. }
  destruct (stored_object draft3) as (props3 & D3 & G3).
  rewrite D3 in S3.
  assert (I3 : js_get (VObj props3) "id" = VStr draftId).
  { apply G3. unfold draft3. rewrite !js_get_setProperty. exact I2. }
  assert (C3 : js_get (VObj props3) "content" = VStr text).
  { apply G3. unfold draft3. rewrite !js_get_setProperty. exact C2. }
  assert (P3 : js_get (VObj props3) "status" = VStr "APPROVED").
  { apply G3. unfold draft3. rewrite !js_get_setProperty. reflexivity. }
  assert (A3 : js_get (VObj props3) "approvedBy" = VStr approvedBy).
  { apply G3. unfold draft3. rewrite !js_get_setProperty. reflexivity. }
  clear H3 S2 D3 G3 I2 C2 P2. clearbody w3.
  (* requestExport *)
  assert (HS : hasStatus (storedDraft draftId h w3) "APPROVED" = true).
  { rewrite S3. unfold hasStatus. rewrite P3. reflexivity. }
  pose proof (requestExport_accepted agent draftId destination h w3 Hallowed HS) as H4.
  cbv zeta in H4. rewrite Hok in H4. rewrite S3 in H4.
  eexists _, _. split; [exact H4|].
  split; [reflexivity|]. split; [reflexivity|].
  change (js_get (VObj [_; _; ("content", ?d); _; _]) "content") with d.
  split; [exact C3|]. split; [exact I3|].
  split; [unfold hasStatus; rewrite P3; reflexivity|].
  split; [exact A3|].
  rewrite <- S3. unfold storedDraft. rewrite !Hok. cbn [bucket store count_r2 tick].
  rewrite lookup_insert_ne; [reflexivity|].
  unfold draftKey. simpl. discriminate.
Qed.

Lemma approved_draft_is_exported_sanitized_witness :
  exists request w',
    createApproveExport (PromoterAgent.new promoterEnv) TWEET
      "send to 0x52908400098527886E0F7030069857D2E4169EE7" None
      "chief" "discord" stubHost emptyWorld
    = (Returned request, w')
    /\ js_get (js_get request "content") "content" = VStr "send to [ADDRESS]".
Proof.
  destruct (approved_draft_is_exported_sanitized (PromoterAgent.new promoterEnv) TWEET
              "send to 0x52908400098527886E0F7030069857D2E4169EE7" None
              "chief" "discord" stubHost emptyWorld
              (fun _ => eq_refl) (fun _ => ex_intro _ _ eq_refl) eq_refl)
    as (request & w' & H & _ & _ & Hc & _).
  exists request, w'. split; [exact H|]. rewrite Hc. vm_compute. reflexivity.
Defined.

Section MarketplaceFiguresProofs.

Import MarketplaceFigures.

Variable gt : JsValue -> Z -> JsError + bool.

(** The filter only reads; it changes nothing. *)
Lemma filterRecent_world dayAgo launches h w :
  snd (filterRecent gt dayAgo launches h w) = w.
Proof.
  revert w. induction launches as [|l rest IH]; intros w; [reflexivity|].
  cbn [filterRecent]. unfold mbind, M_bind, bind.
  destruct l; cbn [js_member]; try reflexivity;
    unfold mret, M_ret, ret;
    (destruct (js_gt gt _ dayAgo) as [e|keep]; [reflexivity|]);
    specialize (IH w);
    destruct (filterRecent gt dayAgo rest h w) as [[more|e] w']; exact IH.
Qed.

(** [getCompletedLaunches24h] never throws: it reads the clock and the
    store once and leaves both otherwise as they were. *)
Lemma getCompletedLaunches24h_returns h w :
  getCompletedLaunches24h gt h w
  = (Returned (recentLaunches gt h w), count_r2 (tick w)).
Proof.
  unfold recentLaunches, getCompletedLaunches24h.
  unfold mbind at 1 3, M_bind, bind. unfold Date_now. cbv beta iota.
  unfold try_catch. unfold mbind, M_bind, bind, R2_get.
  cbn [r2Ops tick bucket].
  destruct (r2Fault h (r2Ops w)); [reflexivity|].
  destruct (bucket w !! "marketplace/completed-launches.json") as [doc|];
    [|reflexivity].
  destruct (JSON_parse doc); try reflexivity.
  pose proof (filterRecent_world (clock h (ticks w) - 24 * 60 * 60 * 1000)
                items h (count_r2 (tick w))) as Hw.
  destruct (filterRecent gt _ items h (count_r2 (tick w))) as [[more|e] w'];
    simpl in Hw; subst w'; reflexivity.
Qed.

(** A conversion to a string that throws throws a TypeError. *)
Lemma js_ToString_TypeError h :
  forall v, match js_ToString h v with
            | inl e => err_name e = "TypeError"
            | inr _ => True
            end.
Proof.
  fix IHv 1. intros [| | | | | | |items|props]; cbn [js_ToString]; auto.
  - induction items as [|item more IHm]; [exact I|].
    pose proof (IHv item) as Hi.
    destruct item; cbn [js_ToString] in *;
      try (destruct more; [exact I|];
           match goal with
           | IHm : match ?j with inl _ => _ | inr _ => _ end
             |- context [?j] => destruct j; auto
           end; fail).
    all: match type of Hi with
         | match ?j with inl _ => _ | inr _ => _ end =>
             destruct j; [exact Hi|]
         end;
         destruct more; [exact I|];
         match goal with
         | IHm : match ?j with inl _ => _ | inr _ => _ end
           |- context [?j] => destruct j; auto
         end.
  - destruct (hasOwn props "toString"); [reflexivity|exact I].
Qed.

(** Once the sum is a string it stays one, or the addition throws. *)
Lemma reduceRaised_text s launches h w :
  (exists s', reduceRaised (RaisedText s) launches h w = (Returned (RaisedText s'), w))
  \/ (exists e, reduceRaised (RaisedText s) launches h w = (Thrown e, w)
                /\ err_name e = "TypeError").
Proof.
  revert s. induction launches as [|l rest IH]; intros s.
  - left. exists s. reflexivity.
  - cbn [reduceRaised]. unfold mbind, M_bind, bind, ask.
    destruct l; cbn [js_member];
      try (right; eexists; split; reflexivity);
      unfold mret, M_ret, ret, addRaised;
      match goal with |- context [js_ToString h ?v] =>
        pose proof (js_ToString_TypeError h v) as Tv;
        destruct (js_ToString h v) as [e|text]
      end;
      try (right; exists e; split; [reflexivity|exact Tv]);
      apply IH.
Qed.

(** A sum over parsed launches, of which there is one at least, is a
    string or the addition throws: the first [0n + raised] cannot yield
    a bigint, as no parsed value is one. *)
Lemma reduceRaised_parsed d launches h w :
  (exists s, reduceRaised (RaisedBigInt 0) (JSON_parse d :: launches) h w
             = (Returned (RaisedText s), w))
  \/ (exists e, reduceRaised (RaisedBigInt 0) (JSON_parse d :: launches) h w
                = (Thrown e, w)
                /\ err_name e = "TypeError").
Proof.
  cbn [reduceRaised]. unfold mbind, M_bind, bind, ask.
  pose proof (js_get_JSON_parse_not_bigint d "raised") as Hnb.
  destruct d as [|b|n|f|s|items|props]; cbn [JSON_parse js_member] in *;
    try (right; eexists; split; reflexivity).
  unfold mret, M_ret, ret.
  match goal with |- context [addRaised h _ ?v] => set (raised := v) in * end.
  pose proof (js_ToString_TypeError h raised) as Tv.
  destruct raised eqn:R; cbn [addRaised];
    try (right; eexists; split; reflexivity);
    try (exfalso; eapply Hnb; reflexivity);
    (destruct (js_ToString h _) as [e|text];
     [right; exists e; split; [reflexivity|exact Tv]|apply reduceRaised_text]).
Qed.

(** What the filter keeps is among what it was given. *)
Lemma filterRecent_sub dayAgo launches h w :
  forall kept w',
    filterRecent gt dayAgo launches h w = (Returned kept, w') ->
    forall l, In l kept -> In l launches.
Proof.
  revert w. induction launches as [|l0 rest IH]; intros w kept w'.
  - intros [= <- _] l [].
  - cbn [filterRecent]. unfold mbind, M_bind, bind.
    destruct (js_member l0 "createdAt" h w) as [[createdAt|e] w1]; [|discriminate].
    destruct (js_gt gt createdAt dayAgo) as [e|keep]; [discriminate|].
    destruct (filterRecent gt dayAgo rest h w1) as [[more|e] w2] eqn:Hrest;
      [|discriminate].
    unfold mret, M_ret, ret. intros [= <- _] l Hin.
    specialize (IH w1 more w2 Hrest l).
    destruct keep; [destruct Hin as [<-|Hin]|]; simpl; auto.
Qed.

(** The launches [getCompletedLaunches24h] returns are parsed values. *)
Lemma recentLaunches_parsed h w :
  Forall (fun l => exists d, l = JSON_parse d) (recentLaunches gt h w).
Proof.
  unfold recentLaunches, getCompletedLaunches24h.
  unfold mbind at 1, M_bind, bind. unfold Date_now. cbv beta iota.
  unfold try_catch. unfold mbind, M_bind, bind, R2_get.
  cbn [r2Ops tick bucket].
  destruct (r2Fault h (r2Ops w)); [constructor|].
  destruct (bucket w !! "marketplace/completed-launches.json") as [doc|];
    [|constructor].
  destruct doc as [|b|n|f|s|items|props]; cbn [JSON_parse]; try constructor.
  destruct (filterRecent gt _ (map JSON_parse items) h (count_r2 (tick w)))
    as [[kept|e] w'] eqn:Hf; [|constructor].
  cbn [fst]. apply List.Forall_forall. intros l Hin.
  apply (filterRecent_sub _ _ _ _ _ _ Hf), in_map_iff in Hin as (d & <- & _).
  exists d. reflexivity.
Qed.

Lemma getTotalRaised24h_none h w :
  recentLaunches gt h w = [] ->
  getTotalRaised24h gt h w = (Returned (RaisedBigInt 0), count_r2 (tick w)).
Proof.
  intros H. unfold getTotalRaised24h. unfold mbind, M_bind, bind.
  rewrite getCompletedLaunches24h_returns, H. reflexivity.
Qed.

Lemma getTotalRaised24h_some h w :
  recentLaunches gt h w <> [] ->
  (exists s, getTotalRaised24h gt h w = (Returned (RaisedText s), count_r2 (tick w)))
  \/ (exists e, getTotalRaised24h gt h w = (Thrown e, count_r2 (tick w))
                /\ err_name e = "TypeError").
Proof.
  intros H. unfold getTotalRaised24h. unfold mbind, M_bind, bind.
  rewrite getCompletedLaunches24h_returns.
  pose proof (recentLaunches_parsed h w) as P.
  destruct (recentLaunches gt h w) as [|l rest]; [congruence|].
  inversion P as [|? ? [d ->] _]. apply reduceRaised_parsed.
Qed.

Lemma getFeesCollected24h_none h w :
  recentLaunches gt h w = [] ->
  getFeesCollected24h gt h w = (Returned 0, count_r2 (tick w)).
Proof.
  intros H. unfold getFeesCollected24h. unfold mbind, M_bind, bind.
  rewrite (getTotalRaised24h_none h w H). reflexivity.
Qed.

Lemma getFeesCollected24h_some h w :
  recentLaunches gt h w <> [] ->
  exists e, getFeesCollected24h gt h w = (Thrown e, count_r2 (tick w))
            /\ err_name e = "TypeError".
Proof.
  intros H. unfold getFeesCollected24h. unfold mbind, M_bind, bind.
  destruct (getTotalRaised24h_some h w H) as [[s ->]|[e [-> He]]].
  - exists mixed_types. split; reflexivity.
  - exists e. split; [reflexivity|exact He].
Qed.

Lemma getTotalRaised24h_cases h w :
  exists o,
    getTotalRaised24h gt h w = (o, count_r2 (tick w))
    /\ match o with
       | Returned (RaisedBigInt z) => z = 0 /\ recentLaunches gt h w = []
       | Returned (RaisedText _) => recentLaunches gt h w <> []
       | Thrown e => err_name e = "TypeError" /\ recentLaunches gt h w <> []
       end.
Proof.
  destruct (recentLaunches gt h w) as [|l rest] eqn:R.
  - eexists. split; [apply getTotalRaised24h_none, R|]. split; reflexivity.
  - destruct (getTotalRaised24h_some h w) as [[s Hs]|[e [Hs He]]];
      [rewrite R; discriminate| |]; eexists; (split; [exact Hs|]).
    + discriminate.
    + split; [exact He|discriminate].
Qed.

Lemma getFeesCollected24h_cases h w :
  exists o,
    getFeesCollected24h gt h w = (o, count_r2 (tick w))
    /\ match o with
       | Returned fee => fee = 0 /\ recentLaunches gt h w = []
       | Thrown e => err_name e = "TypeError" /\ recentLaunches gt h w <> []
       end.
Proof.
  destruct (recentLaunches gt h w) as [|l rest] eqn:R.
  - eexists. split; [apply getFeesCollected24h_none, R|]. split; reflexivity.
  - destruct (getFeesCollected24h_some h w) as (e & Hs & He);
      [rewrite R; discriminate|].
    eexists. split; [exact Hs|]. split; [exact He|discriminate].
Qed.

End MarketplaceFiguresProofs.

(** X26.  [getFeesCollected24h] never returns a fee other than zero.
    For every store, clock and comparison of the engine: when
    [getCompletedLaunches24h] finds no launch of the last 24 hours (no
    document, a rejected read, a document that is no array, nothing
    recent), [getTotalRaised24h] returns [0n] and the fee is [0n]; when
    it finds one, the sum [0n + l.raised] over parsed launches is a
    string or throws, never a bigint, and [getFeesCollected24h] throws a
    TypeError.  Each call reads the clock and the store once. *)
Theorem fee_is_zero_or_the_call_throws :
  forall gt h w,
    (MarketplaceFigures.recentLaunches gt h w = [] ->
     MarketplaceFigures.getTotalRaised24h gt h w
     = (Returned (MarketplaceFigures.RaisedBigInt 0), count_r2 (tick w))
     /\ MarketplaceFigures.getFeesCollected24h gt h w
        = (Returned 0, count_r2 (tick w)))
    /\ (MarketplaceFigures.recentLaunches gt h w <> [] ->
        (exists e,
            MarketplaceFigures.getFeesCollected24h gt h w
            = (Thrown e, count_r2 (tick w))
            /\ err_name e = "TypeError")
        /\ ((exists s,
                MarketplaceFigures.getTotalRaised24h gt h w
                = (Returned (MarketplaceFigures.RaisedText s), count_r2 (tick w)))
            \/ (exists e,
                  MarketplaceFigures.getTotalRaised24h gt h w
                  = (Thrown e, count_r2 (tick w))
                  /\ err_name e = "TypeError")))
    /\ (forall fee w',
          MarketplaceFigures.getFeesCollected24h gt h w = (Returned fee, w') ->
          fee = 0).
Proof.
  intros gt h w. split; [|split].
  - intros H. split.
    + apply getTotalRaised24h_none, H.
    + apply getFeesCollected24h_none, H.
  - intros H. split.
    + apply getFeesCollected24h_some, H.
    + apply getTotalRaised24h_some, H.
  - intros fee w' H.
    destruct (MarketplaceFigures.recentLaunches gt h w) as [|l rest] eqn:R.
    + rewrite (getFeesCollected24h_none gt h w R) in H. congruence.
    + destruct (getFeesCollected24h_some gt h w) as (e & He & _);
        [rewrite R; discriminate|].
      rewrite He in H. discriminate.
Qed.

Lemma fee_is_zero_or_the_call_throws_witness :
  exists e,
    MarketplaceFigures.getFeesCollected24h MarketplaceFigures.neverGreater
      stubHost MarketplaceFigures.worldWithLaunch
    = (Thrown e, count_r2 (tick MarketplaceFigures.worldWithLaunch))
    /\ err_name e = "TypeError".
Proof.
  apply (proj1 (proj2 (fee_is_zero_or_the_call_throws
                         MarketplaceFigures.neverGreater stubHost
                         MarketplaceFigures.worldWithLaunch))).
  vm_compute. discriminate.
Defined.

(** X27.  A marketplace report that is returned shows a fee of zero and
    no bigint total other than zero.  [generateReport] reads the
    completed launches three times, at three clock readings: for the
    count, for the total and for the fee.  When the third reading finds
    a launch the call throws a TypeError; when the second and the third
    find none it returns the number of active launches, the count of the
    first reading, a total of [0n] and a fee of [0n].  Whenever it
    returns, the third reading was empty, the fee is [0n], and the total
    is [0n] or a string.  The store and the requests are never changed. *)
Theorem marketplace_report_shows_no_fee :
  forall gt agent h w,
    let w1 := count_r2 (tick w) in
    let w2 := count_r2 (tick w1) in
    (MarketplaceFigures.recentLaunches gt h w2 <> [] ->
     exists e w',
       MarketplaceFigures.generateReport gt agent h w = (Thrown e, w')
       /\ err_name e = "TypeError")
    /\ (MarketplaceFigures.recentLaunches gt h w1 = [] ->
        MarketplaceFigures.recentLaunches gt h w2 = [] ->
        MarketplaceFigures.generateReport gt agent h w
        = (Returned
             (MarketplaceFigures.mkReport
                (length (MarketplaceAgent.activeLaunches agent))
                (length (MarketplaceFigures.recentLaunches gt h w))
                (MarketplaceFigures.RaisedBigInt 0) 0),
           count_r2 (tick w2)))
    /\ (forall report w',
          MarketplaceFigures.generateReport gt agent h w = (Returned report, w') ->
          MarketplaceFigures.report_feeCollected24h report = 0
          /\ (MarketplaceFigures.report_totalRaised24h report
              = MarketplaceFigures.RaisedBigInt 0
              \/ exists s, MarketplaceFigures.report_totalRaised24h report
                           = MarketplaceFigures.RaisedText s)
          /\ MarketplaceFigures.recentLaunches gt h w2 = [])
    /\ bucket (snd (MarketplaceFigures.generateReport gt agent h w)) = bucket w
    /\ requests (snd (MarketplaceFigures.generateReport gt agent h w)) = requests w.
Proof.
  intros gt agent h w w1 w2.
  assert (E : MarketplaceFigures.generateReport gt agent h w
              = match MarketplaceFigures.getTotalRaised24h gt h w1 with
                | (Returned total, w2') =>
                    match MarketplaceFigures.getFeesCollected24h gt h w2' with
                    | (Returned fee, w3) =>
                        (Returned
                           (MarketplaceFigures.mkReport
                              (length (MarketplaceAgent.activeLaunches agent))
                              (length (MarketplaceFigures.recentLaunches gt h w))
                              total fee), w3)
                    | (Thrown e, w3) => (Thrown e, w3)
                    end
                | (Thrown e, w2') => (Thrown e, w2')
                end).
  { unfold MarketplaceFigures.generateReport, MarketplaceFigures.getActiveLaunches.
    unfold mbind, M_bind, bind, mret, M_ret, ret.
    rewrite getCompletedLaunches24h_returns. fold w1.
    destruct (MarketplaceFigures.getTotalRaised24h gt h w1) as [[total|e] w2'];
      [|reflexivity].
    destruct (MarketplaceFigures.getFeesCollected24h gt h w2') as [[fee|e] w3];
      [|reflexivity].
    rewrite length_map. reflexivity. }
  rewrite E. clear E.
  destruct (getTotalRaised24h_cases gt h w1) as (o1 & -> & H1). fold w2.
  destruct (getFeesCollected24h_cases gt h w2) as (o2 & H2' & H2).
  destruct o1 as [total|e1].
  - rewrite H2'. destruct o2 as [fee|e2].
    + destruct H2 as [-> R2].
      split; [intros R; congruence|].
      split.
      { intros R1 _. destruct total as [z|s]; [|congruence].
        destruct H1 as [-> _]. reflexivity. }
      split; [|split; reflexivity].
      intros report w' [= <- _]. cbn.
      split; [reflexivity|]. split; [|exact R2].
      destruct total as [z|s]; [left; destruct H1 as [-> _]; reflexivity|right; eauto].
    + destruct H2 as [He R2].
      split; [intros _; eauto|].
      split; [intros _ R; congruence|].
      split; [intros report w' [=]|split; reflexivity].
  - destruct H1 as [He R1].
    split; [intros _; eauto|].
    split; [intros R; congruence|].
    split; [intros report w' [=]|split; reflexivity].
Qed.

Lemma marketplace_report_shows_no_fee_witness :
  exists e w',
    MarketplaceFigures.generateReport MarketplaceFigures.neverGreater
      MarketplaceAgent.new stubHost MarketplaceFigures.worldWithLaunch
    = (Thrown e, w')
    /\ err_name e = "TypeError".
Proof.
  apply (proj1 (marketplace_report_shows_no_fee
                  MarketplaceFigures.neverGreater MarketplaceAgent.new stubHost
                  MarketplaceFigures.worldWithLaunch)).
  vm_compute. discriminate.
Defined.

(** ** The observer agent *)

Section LastN.

Context {A : Type}.

Lemma lastn_short (n : nat) (l : list A) :
  (length l <= n)%nat -> lastn n l = l.
Proof.
  intros H. unfold lastn. replace (length l - n)%nat with 0%nat by lia. reflexivity.
Qed.

Lemma lastn_length (n : nat) (l : list A) :
  length (lastn n l) = Nat.min n (length l).
Proof. unfold lastn. rewrite length_skipn. lia. Qed.

(** The last [n] of a list that was cut to its last [n] before more was
    appended. *)
Lemma lastn_app_lastn (n : nat) (l more : list A) :
  lastn n (lastn n l ++ more) = lastn n (l ++ more).
Proof.
  destruct (Nat.le_gt_cases (length l) n) as [H|H].
  - rewrite (lastn_short n l H). reflexivity.
  - unfold lastn at 1 3. rewrite !length_app, lastn_length.
    replace (Nat.min n (length l)) with n by lia.
    unfold lastn. rewrite !skipn_app, length_skipn.
    replace (length l + length more - n - length l)%nat
      with (length more - n)%nat by lia.
    replace (n + length more - n - (length l - (length l - n)))%nat
      with (length more - n)%nat by lia.
    f_equal. rewrite skipn_skipn. f_equal. lia.
Qed.

(** Pushing an item and shifting when the list has grown past [n]
    keeps the last [n]. *)
Lemma push_shift_lastn (n : nat) (l : list A) (x : A) :
  (length l <= n)%nat ->
  (if (n <? length (l ++ [x]))%nat then tail (l ++ [x]) else l ++ [x])
  = lastn n (l ++ [x]).
Proof.
  intros H. unfold lastn. rewrite length_app. simpl.
  destruct (Nat.ltb_spec n (length l + 1)) as [Hlt|Hge].
  - replace (length l + 1 - n)%nat with 1%nat by lia.
    destruct (l ++ [x]); reflexivity.
  - replace (length l + 1 - n)%nat with 0%nat by lia. reflexivity.
Qed.

Lemma lastn_lastn (n m : nat) (l : list A) :
  (n <= m)%nat -> lastn n (lastn m l) = lastn n l.
Proof.
  intros H. unfold lastn. rewrite length_skipn, skipn_skipn. f_equal. lia.
Qed.

End LastN.

Section ObserverProofs.

Import ObserverAgent.

Variable createSkillPR : MoltbookSkill -> M (t * World) unit.

(** No skill is ever fetched, so [harvestSkills] creates no proposal
    and counts nothing. *)
Lemma harvestSkills_outcome h o w :
  harvestSkills createSkillPR h (o, w) = (Returned [], (o, w)).
Proof.
  destruct o as [sh sa mi rl].
  unfold harvestSkills, relevantProtocols, fetchSkillsForProtocol, set_this, try_catch.
  unfold mbind, M_bind, bind, mret, M_ret, ret. cbn.
  rewrite Z.add_0_r. reflexivity.
Qed.

Lemma checkSecurityExploits_outcome h o w :
  checkSecurityExploits h (o, w)
  = (Returned [],
     (mk (skillsHarvested o) [] (marketIntelligence o) (rateLimiter o), w)).
Proof. reflexivity. Qed.

Lemma addIntelligence_outcome item h o w :
  addIntelligence item h (o, w)
  = (Returned tt,
     (mk (skillsHarvested o) (securityAlerts o)
         (if (100 <? length (marketIntelligence o ++ [item]))%nat
          then tail (marketIntelligence o ++ [item])
          else marketIntelligence o ++ [item])
         (rateLimiter o), w)).
Proof.
  unfold addIntelligence, set_this, this.
  unfold mbind, M_bind, bind, mret, M_ret, ret. cbn [fst snd marketIntelligence
    skillsHarvested securityAlerts rateLimiter].
  destruct (100 <? length (marketIntelligence o ++ [item]))%nat; reflexivity.
Qed.

(** [getPendingSkillPRs] only reads and never throws. *)
Lemma getPendingSkillPRs_outcome h w :
  exists prs w',
    getPendingSkillPRs h w = (Returned prs, w')
    /\ Forall (fun pr => hasStatus pr "PENDING_REVIEW" = true
                         /\ storedUnder "skill-prs/" w pr) prs
    /\ (length prs <= 1000)%nat
    /\ bucket w' = bucket w /\ requests w' = requests w.
Proof.
  unfold getPendingSkillPRs.
  apply (collected_caught
           (fun pr => hasStatus pr "PENDING_REVIEW" = true
                      /\ storedUnder "skill-prs/" w pr)
           w 1000 (listed ← R2_list "skill-prs/"; collectSkillPRs listed) h w).
  unfold mbind, M_bind, bind. rewrite R2_list_outcome.
  destruct (r2Fault h (r2Ops w)); [repeat split|].
  apply (collected_weaken _ _ (0 + length (listedKeys "skill-prs/" w)));
    [pose proof (listedKeys_length "skill-prs/" w); lia|].
  apply (collectPending_collected "PENDING_REVIEW" "skill-prs/" w h
           (listedKeys "skill-prs/" w) (mret []) (count_r2 w) 0).
  - intros key Hin. apply listedKeys_stored, Hin.
  - repeat split; [constructor|simpl; lia].
Qed.

(** The loop of [checkAlerts] reads the clock and nothing else. *)
Lemma checkAlerts_loop h o exploits :
  forall (acc : M (t * World) (list Alert)) s,
    fst (snd (acc h s)) = o ->
    let r :=
      foldl
        (fun (acc : M (t * World) (list Alert)) exploit =>
           alerts ← acc;
           match exploit_severity exploit with
           | CRITICAL | HIGH =>
               now_ts ← liftW Date_now;
               mret (alerts ++ [exploitAlert now_ts exploit])
           | _ => mret alerts
           end)
        acc exploits h s in
    fst (snd r) = o
    /\ bucket (snd (snd r)) = bucket (snd (snd (acc h s)))
    /\ requests (snd (snd r)) = requests (snd (snd (acc h s))).
Proof.
  induction exploits as [|exploit rest IH]; intros acc s Ho; cbn zeta.
  - simpl. auto.
  - cbn [foldl].
    match goal with |- context [foldl _ ?acc' rest h s] =>
      specialize (IH acc' s) end.
    cbn zeta in IH.
    assert (Hstep :
      let r' := (alerts ← acc;
                 match exploit_severity exploit with
                 | CRITICAL | HIGH =>
                     now_ts ← liftW Date_now;
                     mret (alerts ++ [exploitAlert now_ts exploit])
                 | _ => mret alerts
                 end) h s in
      fst (snd r') = o
      /\ bucket (snd (snd r')) = bucket (snd (snd (acc h s)))
      /\ requests (snd (snd r')) = requests (snd (snd (acc h s)))).
    { cbn zeta. unfold mbind, M_bind, bind.
      destruct (acc h s) as [[alerts|e] [o1 w1]]; cbn [fst snd] in *.
      - destruct (exploit_severity exploit); cbn; auto.
      - auto. }
    cbn zeta in Hstep. destruct Hstep as (S1 & S2 & S3).
    destruct (IH S1) as (I1 & I2 & I3).
    split; [exact I1|]. split; congruence.
Qed.

Lemma checkAlerts_reads h o w :
  let r := checkAlerts h (o, w) in
  fst (snd r) = o
  /\ bucket (snd (snd r)) = bucket w
  /\ requests (snd (snd r)) = requests w
  /\ (securityAlerts o = [] -> r = (Returned [], (o, w))).
Proof.
  cbn zeta.
  assert (H0 : fst (snd ((mret [] : M (t * World) (list Alert)) h (o, w))) = o)
    by reflexivity.
  destruct (checkAlerts_loop h o (securityAlerts o) (mret []) (o, w) H0)
    as (H1 & H2 & H3).
  split; [exact H1|]. split; [exact H2|]. split; [exact H3|].
  intros E. unfold checkAlerts. unfold mbind at 1, M_bind, bind, this.
  cbn [fst snd]. rewrite E. reflexivity.
Qed.

Lemma generateReport_outcome h o w :
  exists prs w',
    liftW getPendingSkillPRs h
      (mk (skillsHarvested o) [] (marketIntelligence o) (rateLimiter o), w)
    = (Returned prs,
       (mk (skillsHarvested o) [] (marketIntelligence o) (rateLimiter o), w'))
    /\ generateReport createSkillPR h (o, w)
       = (Returned
            (mkObserverAgentReport
               (skillsHarvested o) (skillsHarvested o) 0 0
               (Z.of_nat (length (marketIntelligence o)))
               (VArr (map VStr (lastn 10 (marketIntelligence o))))
               (Z.of_nat (length prs))),
          (mk (skillsHarvested o) [] (marketIntelligence o) (rateLimiter o), w'))
    /\ (length prs <= 1000)%nat
    /\ bucket w' = bucket w /\ requests w' = requests w.
Proof.
  destruct (getPendingSkillPRs_outcome h w) as (prs & w' & H & _ & Hl & B & R).
  exists prs, w'. unfold generateReport.
  unfold mbind, M_bind, bind. rewrite harvestSkills_outcome.
  rewrite checkSecurityExploits_outcome.
  unfold liftW. cbn [fst snd]. rewrite H.
  repeat split; assumption.
Qed.

(** What one call leaves behind. *)
Lemma performCall_step h o w c :
  (length (marketIntelligence o) <= 100)%nat ->
  let s' := performCall createSkillPR h (o, w) c in
  skillsHarvested (fst s') = skillsHarvested o
  /\ (securityAlerts (fst s') = securityAlerts o \/ securityAlerts (fst s') = [])
  /\ marketIntelligence (fst s')
     = lastn 100 (marketIntelligence o ++ itemsAdded [c])
  /\ rateLimiter (fst s') = rateLimiter o
  /\ bucket (snd s') = bucket w /\ requests (snd s') = requests w.
Proof.
  intros Hlen. cbn zeta.
  destruct c as [| | |item| |]; cbn [performCall itemsAdded flat_map app];
    rewrite ?app_nil_r.
  - rewrite harvestSkills_outcome. cbn [fst snd].
    rewrite lastn_short by exact Hlen. auto 7.
  - rewrite checkSecurityExploits_outcome.
    cbn [fst snd skillsHarvested securityAlerts marketIntelligence rateLimiter].
    rewrite lastn_short by exact Hlen. auto 7.
  - destruct (getPendingSkillPRs_outcome h w) as (prs & w' & H & _ & _ & B & R).
    unfold liftW. cbn [fst snd]. rewrite H. cbn [fst snd].
    rewrite lastn_short by exact Hlen. auto 7.
  - rewrite addIntelligence_outcome.
    cbn [fst snd skillsHarvested securityAlerts marketIntelligence rateLimiter].
    rewrite push_shift_lastn by exact Hlen. auto 7.
  - destruct (checkAlerts_reads h o w) as (H1 & H2 & H3 & _).
    rewrite H1. rewrite lastn_short by exact Hlen. auto 7.
  - destruct (generateReport_outcome h o w) as (prs & w' & _ & H & _ & B & R).
    rewrite H.
    cbn [fst snd skillsHarvested securityAlerts marketIntelligence rateLimiter].
    rewrite lastn_short by exact Hlen. auto 7.
Qed.

Lemma performCalls_invariant h calls :
  forall o w,
    (length (marketIntelligence o) <= 100)%nat ->
    let s' := performCalls createSkillPR h (o, w) calls in
    skillsHarvested (fst s') = skillsHarvested o
    /\ (securityAlerts (fst s') = securityAlerts o \/ securityAlerts (fst s') = [])
    /\ marketIntelligence (fst s')
       = lastn 100 (marketIntelligence o ++ itemsAdded calls)
    /\ rateLimiter (fst s') = rateLimiter o
    /\ bucket (snd s') = bucket w /\ requests (snd s') = requests w.
Proof.
  induction calls as [|c calls IH]; intros o w Hlen; cbn zeta.
  - simpl. rewrite app_nil_r, lastn_short by exact Hlen. auto 7.
  - unfold performCalls. cbn [fold_left].
    pose proof (performCall_step h o w c Hlen) as Hc. cbn zeta in Hc.
    destruct (performCall createSkillPR h (o, w) c) as [o1 w1]; cbn [fst snd] in Hc.
    destruct Hc as (C1 & C2 & C3 & C4 & C5 & C6).
    assert (Hlen1 : (length (marketIntelligence o1) <= 100)%nat).
    { rewrite C3, lastn_length. lia. }
    specialize (IH o1 w1 Hlen1). cbn zeta in IH. unfold performCalls in IH.
    destruct IH as (I1 & I2 & I3 & I4 & I5 & I6).
    split; [congruence|]. split.
    { destruct I2 as [I2|I2]; [|right; exact I2].
      destruct C2 as [C2|C2]; [left|right]; congruence. }
    split.
    { assert (Hi : itemsAdded (c :: calls) = itemsAdded [c] ++ itemsAdded calls)
        by (unfold itemsAdded; simpl; rewrite app_nil_r; reflexivity).
      rewrite I3, C3, Hi, lastn_app_lastn, app_assoc. reflexivity. }
    split; [congruence|]. split; congruence.
Qed.

End ObserverProofs.

(** X28.  The market intelligence of an observer is the last 100 items
    it was given.  For every sequence of calls of its public methods on
    an instance that holds 100 items at most, whatever [createSkillPR]
    does: the list afterwards is the last 100 of the items held before
    followed by the items added, in order, so it never holds more than
    100; and a report generated then shows the last 10 of them and
    counts the items held. *)
Theorem intelligence_is_the_last_100_items :
  forall createSkillPR h calls o w,
    (length (ObserverAgent.marketIntelligence o) <= 100)%nat ->
    let items := ObserverAgent.marketIntelligence o ++ ObserverAgent.itemsAdded calls in
    let s' := ObserverAgent.performCalls createSkillPR h (o, w) calls in
    ObserverAgent.marketIntelligence (fst s') = lastn 100 items
    /\ (length (ObserverAgent.marketIntelligence (fst s')) <= 100)%nat
    /\ exists report s'',
         ObserverAgent.generateReport createSkillPR h s' = (Returned report, s'')
         /\ marketIntelligence report = VArr (map VStr (lastn 10 items))
         /\ marketIntelUpdated report = Z.of_nat (Nat.min 100 (length items)).
Proof.
  intros createSkillPR h calls o w Hlen items s'.
  destruct (performCalls_invariant createSkillPR h calls o w Hlen)
    as (_ & _ & Hmi & _).
  fold s' in Hmi. fold items in Hmi.
  split; [exact Hmi|]. split; [rewrite Hmi, lastn_length; lia|].
  destruct s' as [o' w'] eqn:Es. cbn [fst] in *.
  destruct (generateReport_outcome createSkillPR h o' w')
    as (prs & w'' & _ & H & _).
  eexists _, _. split; [exact H|].
  cbn [marketIntelligence marketIntelUpdated].
  rewrite Hmi, lastn_lastn, lastn_length by lia. split; reflexivity.
Qed.

Lemma intelligence_is_the_last_100_items_witness :
  ObserverAgent.marketIntelligence
    (fst (ObserverAgent.performCalls ObserverAgent.noSkillPR stubHost
            (ObserverAgent.mk 0 [] (repeat "old" 100)
               (ObserverAgent.mkRateLimiter 0 60000 30), emptyWorld)
            [ObserverAgent.CallAddIntelligence "new"]))
  = repeat "old" 99 ++ ["new"].
Proof.
  rewrite (proj1 (intelligence_is_the_last_100_items ObserverAgent.noSkillPR stubHost
                    [ObserverAgent.CallAddIntelligence "new"]
                    (ObserverAgent.mk 0 [] (repeat "old" 100)
                       (ObserverAgent.mkRateLimiter 0 60000 30))
                    emptyWorld
                    ltac:(vm_compute; lia))).
  vm_compute. reflexivity.
Defined.

(** X29.  The observer report always returns, and what it shows of
    skills and exploits is fixed.  For every instance, clock, store and
    store fault, and whatever [createSkillPR] does (it is never run, as
    no skill is ever fetched): [generateReport] returns; the skill
    counts are the count the instance held, unchanged; the exploit
    counts are zero and the instance holds no security alert afterwards;
    the pending proposals counted are 1000 at most; the market
    intelligence shown is the last 10 items held; and neither the store
    nor the requests change. *)
Theorem observer_report_always_returns :
  forall createSkillPR h o w,
    exists report o' w',
      ObserverAgent.generateReport createSkillPR h (o, w) = (Returned report, (o', w'))
      /\ (forall other,
            ObserverAgent.generateReport other h (o, w) = (Returned report, (o', w')))
      /\ skillsReviewed report = ObserverAgent.skillsHarvested o
      /\ skillsHarvested report = ObserverAgent.skillsHarvested o
      /\ exploitsDetected report = 0
      /\ securityAlerts report = 0
      /\ marketIntelUpdated report
         = Z.of_nat (length (ObserverAgent.marketIntelligence o))
      /\ marketIntelligence report
         = VArr (map VStr (lastn 10 (ObserverAgent.marketIntelligence o)))
      /\ 0 <= pendingPRs report <= 1000
      /\ o' = ObserverAgent.mk (ObserverAgent.skillsHarvested o) []
                (ObserverAgent.marketIntelligence o) (ObserverAgent.rateLimiter o)
      /\ bucket w' = bucket w /\ requests w' = requests w.
Proof.
  intros createSkillPR h o w.
  destruct (generateReport_outcome createSkillPR h o w)
    as (prs & w' & Hp & H & Hl & B & R).
  eexists _, _, _. split; [exact H|].
  split.
  { intros other.
    destruct (generateReport_outcome other h o w) as (prs' & w'' & Hp' & H' & _).
    rewrite Hp in Hp'. injection Hp' as <- <-. exact H'. }
  cbn [skillsReviewed skillsHarvested exploitsDetected securityAlerts
       marketIntelUpdated marketIntelligence pendingPRs].
  repeat split; try assumption; lia.
Qed.

(** X30.  An observer raises no alert and writes nothing.  For every
    sequence of calls of the public methods on a new instance, whatever
    [createSkillPR] does: the instance has harvested no skill and holds
    no security alert, so [checkAlerts] returns the empty list and
    leaves everything as it is; the store and the requests are as they
    were before the instance was made. *)
Theorem observer_raises_no_alert :
  forall createSkillPR h w calls,
    exists o0 w0,
      ObserverAgent.new h w = (Returned o0, w0)
      /\ let s' := ObserverAgent.performCalls createSkillPR h (o0, w0) calls in
         ObserverAgent.skillsHarvested (fst s') = 0
         /\ ObserverAgent.securityAlerts (fst s') = []
         /\ ObserverAgent.checkAlerts h s' = (Returned [], s')
         /\ bucket (snd s') = bucket w
         /\ requests (snd s') = requests w.
Proof.
  intros createSkillPR h w calls.
  eexists _, _. split; [reflexivity|]. cbn zeta.
  match goal with |- context [ObserverAgent.performCalls _ _ (?o0, ?w0) _] =>
    destruct (performCalls_invariant createSkillPR h calls o0 w0)
      as (H1 & H2 & _ & _ & B & R); [simpl; lia|];
    destruct (ObserverAgent.performCalls createSkillPR h (o0, w0) calls)
      as [o' w'] eqn:Es
  end.
  cbn [fst snd ObserverAgent.skillsHarvested ObserverAgent.securityAlerts] in *.
  assert (Hsa : ObserverAgent.securityAlerts o' = []) by (destruct H2; assumption).
  split; [exact H1|]. split; [exact Hsa|].
  split; [apply (checkAlerts_reads h o' w'), Hsa|].
  split; [exact B|exact R].
Qed.
